(** * Visitor-to-lead enrichment pipeline (main.py): model and properties

    The Python module is embedded shallowly.  Text is [string], one
    character per code point, for code points below 256; the string
    helpers below follow the Python builtins on such text.  Integers
    are [Z], and a JSON number is an integer.  The bodies of ipinfo,
    Apollo and Hunter are records of [Field]s: a key is absent, holds
    null, or holds a value of the type the service documents.  The
    answer of the scoring engine is any [Json] value.  The webhook body
    is a [gmap string string].  The SQLite tables are lists of rows with
    an AUTOINCREMENT counter; a row holds the values bound to its
    INSERT.  The external services are functions of the request,
    collected in a [World].  One pipeline run is one computation; runs
    do not interleave. *)

From Stdlib Require Import ZArith Ascii String List Lia Bool DecimalString DecimalPos
  DecimalZ.
From stdpp Require Import base option list strings gmap.

Local Open Scope Z_scope.
Local Open Scope string_scope.

(** ** Python string builtins used by the module *)

Module PyStr.

(** [bool(s)]: a string is truthy when it is not empty. *)
Definition truthy (s : string) : bool :=
  match s with EmptyString => false | String _ _ => true end.

(** [a or b] on strings. *)
Definition or_else (a b : string) : string := if truthy a then a else b.

(** The upper-case letters below 256: A-Z, and the Latin-1 capitals
    (192-222 without the multiplication sign 215). *)
Definition is_upper_code (n : nat) : bool :=
  (((65 <=? n)%nat && (n <=? 90)%nat)
   || ((192 <=? n)%nat && (n <=? 214)%nat)
   || ((216 <=? n)%nat && (n <=? 222)%nat))%bool.

(** [str.lower] on one character: each of these capitals has its small
    letter 32 places further. *)
Definition lower_char (c : ascii) : ascii :=
  let n := nat_of_ascii c in
  if is_upper_code n then ascii_of_nat (n + 32) else c.

Fixpoint lower (s : string) : string :=
  match s with
  | EmptyString => EmptyString
  | String c s' => String (lower_char c) (lower s')
  end.

(** [s.replace(old, "")] for a non-empty [old]: scan from the left, drop
    every non-overlapping occurrence.  [skip] counts the characters of
    an occurrence still to be dropped. *)
Fixpoint remove_from (old : string) (skip : nat) (s : string) : string :=
  match s with
  | EmptyString => EmptyString
  | String c s' =>
      match skip with
      | S k => remove_from old k s'
      | O => if String.prefix old s
             then remove_from old (Nat.pred (String.length old)) s'
             else String c (remove_from old O s')
      end
  end.

Definition remove (old s : string) : string :=
  if truthy old then remove_from old O s else s.

(** [s[:n]]. *)
Fixpoint take (n : nat) (s : string) : string :=
  match n, s with
  | S k, String c s' => String c (take k s')
  | _, _ => EmptyString
  end.

(** [c in s] for a one-character needle. *)
Fixpoint has_char (c : ascii) (s : string) : bool :=
  match s with
  | EmptyString => false
  | String d s' => if Ascii.eqb c d then true else has_char c s'
  end.

(** [s.split(c)[0]]: the text before the first [c] (all of [s] when
    there is none). *)
Fixpoint before_first (c : ascii) (s : string) : string :=
  match s with
  | EmptyString => EmptyString
  | String d s' => if Ascii.eqb c d then EmptyString else String d (before_first c s')
  end.

(** [s.split(c, 1)[1]] when present: the text after the first [c]. *)
Fixpoint after_first (c : ascii) (s : string) : option string :=
  match s with
  | EmptyString => None
  | String d s' => if Ascii.eqb c d then Some s' else after_first c s'
  end.

(** [s.split(c)[-1]]: the text after the last [c] (all of [s] when
    there is none). *)
Fixpoint after_last (c : ascii) (s : string) : string :=
  match s with
  | EmptyString => EmptyString
  | String d s' =>
      if Ascii.eqb c d
      then after_last c s'
      else if has_char c s' then after_last c s' else s
  end.

(** [str.isspace] on one character: tab to carriage return, the four
    separators 28-31, the space, NEL (133) and the no-break space
    (160). *)
Definition is_space (c : ascii) : bool :=
  let n := nat_of_ascii c in
  (((9 <=? n)%nat && (n <=? 13)%nat) || ((28 <=? n)%nat && (n <=? 32)%nat)
   || (n =? 133)%nat || (n =? 160)%nat)%bool.

Fixpoint lstrip (s : string) : string :=
  match s with
  | EmptyString => EmptyString
  | String c s' => if is_space c then lstrip s' else s
  end.

Fixpoint rstrip (s : string) : string :=
  match s with
  | EmptyString => EmptyString
  | String c s' =>
      match rstrip s' with
      | EmptyString => if is_space c then EmptyString else String c EmptyString
      | r => String c r
      end
  end.

(** [s.strip()]. *)
Definition strip (s : string) : string := rstrip (lstrip s).

(** [str(n)] for an integer. *)
Definition of_Z (n : Z) : string := NilZero.string_of_int (Z.to_int n).

(** [str(v)] for a value that is a string or [None]. *)
Definition of_value (v : option string) : string :=
  match v with Some s => s | None => "None" end.

(** Every character of [s] satisfies [p]. *)
Fixpoint all_chars (p : ascii -> bool) (s : string) : bool :=
  match s with
  | EmptyString => true
  | String c s' => p c && all_chars p s'
  end.

End PyStr.

(** ** JSON values, as [json.loads] gives them

    [JNull] is Python's [None], [JBool] a [bool], [JInt] an [int],
    [JStr] a [str], [JArr] a [list], [JObj] a [dict] (its members in
    order). *)

#[warnings="-register-all"]
Inductive Json : Type :=
| JNull
| JBool (b : bool)
| JInt (n : Z)
| JStr (s : string)
| JArr (items : list Json)
| JObj (members : list (string * Json)).

(** [type(v).__name__]. *)
Definition type_name (v : Json) : string :=
  match v with
  | JNull => "NoneType"
  | JBool _ => "bool"
  | JInt _ => "int"
  | JStr _ => "str"
  | JArr _ => "list"
  | JObj _ => "dict"
  end.

(** [d.get(k)] on the members of an object; of two members with one
    key, [json.loads] keeps the later. *)
Definition member (k : string) (members : list (string * Json)) : option Json :=
  snd <$> List.find (fun kv => String.eqb (fst kv) k) (List.rev members).

(** [v == s] for a string [s]. *)
Definition is_str (s : string) (v : Json) : bool :=
  match v with JStr x => String.eqb x s | _ => false end.

(** A key of a JSON object with a documented type: absent, null, or a
    value. *)
Inductive Field (A : Type) : Type :=
| Absent
| Null
| Val (a : A).
Arguments Absent {A}.
Arguments Null {A}.
Arguments Val {A} a.

(** [d.get(k)]: the value, [None] for a null and for an absent key. *)
Definition field_get {A : Type} (f : Field A) : option A :=
  match f with Val a => Some a | Null | Absent => None end.

(** [d.get(k, default)]: the default stands in for an absent key only;
    a null comes out as [None]. *)
Definition field_get_or {A : Type} (f : Field A) (dflt : A) : option A :=
  match f with Val a => Some a | Null => None | Absent => Some dflt end.

(** The entry [k: v] of a dict literal. *)
Definition field_of {A : Type} (v : option A) : Field A :=
  match v with Some a => Val a | None => Null end.

(** [d.get(k, default)] for a dict whose values are never [None]:
    [None] stands for the absent key. *)
Definition get_or {A : Type} (o : option A) (dflt : A) : A :=
  match o with Some v => v | None => dflt end.

(** Truthiness of a value that is a string or [None]. *)
Definition opt_truthy (o : option string) : bool :=
  match o with Some s => PyStr.truthy s | None => false end.

(** ** Exceptions

    A computation outside the database and the network either gives
    its value or raises. *)

Inductive Checked (A : Type) : Type :=
| Done (a : A)
| Throws (exn : string).
Arguments Done {A} a.
Arguments Throws {A} exn.

(** The double quote, for the messages that hold one. *)
Definition double_quote : string := String (ascii_of_nat 34) EmptyString.

(** [v.get(..)] on a value that is not a dict. *)
Definition no_attribute_get (v : Json) : string :=
  "AttributeError: '" +:+ type_name v +:+ "' object has no attribute 'get'".

(** [v[:200]] on a value that cannot be sliced. *)
Definition not_subscriptable (v : Json) : string :=
  "TypeError: '" +:+ type_name v +:+ "' object is not subscriptable".

(** [v + 15] on a value that is not a number. *)
Definition cannot_add (v : Json) : string :=
  match v with
  | JStr _ | JArr _ =>
      "TypeError: can only concatenate " +:+ type_name v +:+ " (not " +:+ double_quote
        +:+ "int" +:+ double_quote +:+ ") to " +:+ type_name v
  | _ => "TypeError: unsupported operand type(s) for +: '" +:+ type_name v +:+ "' and 'int'"
  end.

(** ** Configuration: [get_settings] *)

Module Icp.
Record t := {
  industries : list string;
  min_employees : Z;
  max_employees : Z;
  countries : list string;
  target_titles : list string
}.
End Icp.

Definition icp_config : Icp.t := {|
  Icp.industries := ["SaaS"; "Technology"; "E-commerce"; "Software"; "Marketing"; "Digital Agency"];
  Icp.min_employees := 10;
  Icp.max_employees := 5000;
  Icp.countries := ["United States"; "United Kingdom"; "Canada"; "India"; "Australia"; "Germany"];
  Icp.target_titles := ["CEO"; "CTO"; "VP"; "Director"; "Head of"; "Manager"; "Founder"]
|}.

(** The credentials are read from the process environment; an unset
    variable reads as the empty string. *)
Module Settings.
Record t := {
  apollo_api_key : string;
  hunter_api_key : string;
  openai_api_key : string;
  ipinfo_token : string;
  slack_webhook_url : string
}.
End Settings.

(** ** Payloads *)

(** One entry of [pages_viewed]: the members of a JSON object. *)
Definition Page : Type := list (string * Json).

(** [VisitorData], the body of the tracking webhook. *)
Module Visitor.
Record t := {
  project_id : string;
  session_id : string;
  ip_address : option string;
  current_url : string;
  referrer : option string;
  pages_viewed : list Page;
  visit_duration : Z;
  user_agent : option string;
  screen_size : option string;
  timestamp : string;
  event : option string
}.
End Visitor.

(** The company dict.  The shell built by the pipelines has five keys,
    the one returned by [enrich_company_apollo] has eleven; a value is
    [None] where ipinfo or Apollo sent a null. *)
Module Company.
Record t := {
  name : Field string;
  domain : Field string;
  industry : Field string;
  employee_count : Field Z;
  country : Field string;
  city : Field string;
  description : Field string;
  funding_stage : Field string;
  total_funding : Field Z;
  annual_revenue : Field Z;
  linkedin_url : Field string
}.

Definition shell (n d : string) (ctry : option string) : t := {|
  name := Val n; domain := Val d; industry := Val "Unknown";
  employee_count := Val 0; country := field_of ctry;
  city := Absent; description := Absent; funding_stage := Absent;
  total_funding := Absent; annual_revenue := Absent; linkedin_url := Absent
|}.
End Company.

(** A contact dict as built by [find_contacts_hunter]: seven keys; the
    name is a string, the other values are [None] where Hunter sent a
    null. *)
Module Contact.
Record t := {
  name : string;
  email : option string;
  title : option string;
  department : option string;
  seniority : option string;
  linkedin_url : option string;
  confidence : option Z
}.
End Contact.

(** The person dict: four keys on the webhook pathway, [{}] on the
    tracking pathway. *)
Module Person.
Record t := {
  name : option string;
  email : option string;
  title : option string;
  linkedin : option string
}.

Definition empty : t :=
  {| name := None; email := None; title := None; linkedin := None |}.
End Person.

(** The scoring dict: the members the module reads of the JSON object
    the scoring service answered with, or one of the two default
    records.  [None] is an absent key. *)
Module Scoring.
Record t := {
  icp_score : option Json;
  tier : option Json;
  match_reasons : option Json;
  intent_signals : option Json;
  recommended_action : option Json;
  urgency : option Json;
  research_summary : option Json;
  talking_points : option Json;
  email_draft : option Json
}.

Definition of_members (members : list (string * Json)) : t := {|
  icp_score := member "icp_score" members;
  tier := member "tier" members;
  match_reasons := member "match_reasons" members;
  intent_signals := member "intent_signals" members;
  recommended_action := member "recommended_action" members;
  urgency := member "urgency" members;
  research_summary := member "research_summary" members;
  talking_points := member "talking_points" members;
  email_draft := member "email_draft" members
|}.

Definition set_icp_score (v : Json) (s : t) : t := {|
  icp_score := Some v; tier := tier s; match_reasons := match_reasons s;
  intent_signals := intent_signals s; recommended_action := recommended_action s;
  urgency := urgency s; research_summary := research_summary s;
  talking_points := talking_points s; email_draft := email_draft s
|}.

Definition set_tier (v : Json) (s : t) : t := {|
  icp_score := icp_score s; tier := Some v; match_reasons := match_reasons s;
  intent_signals := intent_signals s; recommended_action := recommended_action s;
  urgency := urgency s; research_summary := research_summary s;
  talking_points := talking_points s; email_draft := email_draft s
|}.
End Scoring.

(** ** The external services *)

(** What an HTTP call gives back: a response (status code, body text and
    the decoded JSON, [None] when reading the body raises inside the
    caller's [try]), or an exception raised by the client (timeout,
    transport error). *)
Inductive Http (A : Type) : Type :=
| Response (status_code : Z) (text : string) (json : option A)
| Failure (exn : string).
Arguments Response {A} status_code text json.
Arguments Failure {A} exn.

(** Body of ipinfo.io. *)
Module IpinfoBody.
Record t := {
  org : Field string;
  city : Field string;
  region : Field string;
  country : Field string
}.
End IpinfoBody.

(** The ["organization"] object of the Apollo body. *)
Module ApolloOrg.
Record t := {
  name : Field string;
  primary_domain : Field string;
  industry : Field string;
  estimated_num_employees : Field Z;
  country : Field string;
  city : Field string;
  short_description : Field string;
  latest_funding_stage : Field string;
  total_funding : Field Z;
  annual_revenue : Field Z;
  linkedin_url : Field string
}.
End ApolloOrg.

(** One element of [data.emails] in the Hunter body. *)
Module HunterEmail.
Record t := {
  first_name : Field string;
  last_name : Field string;
  value : Field string;
  position : Field string;
  department : Field string;
  seniority : Field string;
  linkedin : Field string;
  confidence : Field Z
}.
End HunterEmail.

(** The values the scoring prompt interpolates; a [None] is written
    "None" by the f-string. *)
Module Prompt.
Record t := {
  icp : Icp.t;
  company_name : option string;
  company_industry : option string;
  company_employees : option Z;
  company_country : option string;
  company_description : string;
  person_name : string;
  person_title : string;
  person_email : string;
  pages : list Json;
  duration : Z;
  referrer : option string;
  contacts_found : nat
}.
End Prompt.

(** The values the Slack message interpolates: header (company name),
    score line (score, industry, and the person block: name, title,
    email) and summary. *)
Module SlackMessage.
Record t := {
  company_name : option string;
  score : Json;
  industry : option string;
  person_info : option (string * string * string);
  summary : Json
}.
End SlackMessage.

(** The world outside the process: each service answers a request.
    The JSON of [apollo] is [None] inside when the body has no (or an
    empty or null) ["organization"]; the JSON of [openai] is the first
    choice's content with code fences removed and parsed, absent when
    any of that raises. *)
Module World.
Record t := {
  ipinfo : string -> Http IpinfoBody.t;
  apollo : string -> string -> Http (option ApolloOrg.t);
  hunter : string -> string -> Http (list HunterEmail.t);
  openai : string -> Prompt.t -> Http Json;
  slack : string -> SlackMessage.t -> Http unit
}.
End World.

(** ** The SQLite database: [init_db]

    A row holds the columns the module writes; [created_at] (filled by
    SQLite with the current time) is left out.  A nullable column is an
    [option].  A column that receives a member of the scoring dict holds
    a [Cell]: the value as [sqlite3] binds it.  (SQLite then applies the
    column's affinity: an integer bound to a TEXT column is kept as its
    decimal text, a text that reads as a number bound to an INTEGER
    column as that number.  The module compares such a column only with
    the tier names, which no converted integer equals.)  A column that
    receives [json.dumps(v)] holds [v].  Each table declares
    [id INTEGER PRIMARY KEY AUTOINCREMENT]: the table keeps the largest
    id handed out so far, and an insert takes the next one. *)

Inductive Cell : Type :=
| CNull
| CInt (n : Z)
| CText (s : string).

(** [WHERE column = 'text']. *)
Definition cell_is (s : string) (c : Cell) : bool :=
  match c with CText x => String.eqb x s | _ => false end.

Module VisitorRow.
Record t := {
  id : Z;
  session_id : string;
  ip_address : string;
  pages_viewed : list Page;
  visit_duration : Z;
  referrer : option string;
  user_agent : option string
}.
End VisitorRow.

Module CompanyRow.
Record t := {
  id : Z;
  domain : option string;          (* TEXT UNIQUE *)
  name : option string;
  industry : option string;
  employee_count : option Z;       (* DEFAULT 0 *)
  country : option string;
  city : option string;
  description : option string;
  funding_stage : option string;
  total_funding : option Z;        (* DEFAULT 0 *)
  annual_revenue : option Z;       (* DEFAULT 0 *)
  linkedin_url : option string;
  enriched_data : Company.t        (* json.dumps(company) *)
}.
End CompanyRow.

Module ContactRow.
Record t := {
  id : Z;
  company_id : option Z;
  name : option string;
  email : option string;
  title : option string;
  seniority : option string;
  department : option string;
  linkedin_url : option string;
  confidence : option Z
}.
End ContactRow.

Module LeadRow.
Record t := {
  id : Z;
  lead_id : string;                (* TEXT UNIQUE *)
  company_id : option Z;
  session_id : string;
  ip_address : string;
  identified_company : option string;
  pages_viewed : list Page;
  visit_duration : Z;
  referrer : option string;
  icp_score : Cell;
  tier : Cell;
  match_reasons : Json;
  intent_signals : Json;
  research_summary : Cell;
  talking_points : Json;
  email_draft : Json;
  recommended_action : Cell;
  urgency : Cell;
  status : string;                 (* DEFAULT 'new' *)
  source : string;
  person_name : string;
  person_email : string;
  person_title : string;
  person_linkedin : string
}.
End LeadRow.

(** Every table has the [id] column. *)
Class HasId (R : Type) : Type := row_id : R -> Z.

#[export] Instance visitor_row_id : HasId VisitorRow.t := VisitorRow.id.
#[export] Instance company_row_id : HasId CompanyRow.t := CompanyRow.id.
#[export] Instance contact_row_id : HasId ContactRow.t := ContactRow.id.
#[export] Instance lead_row_id : HasId LeadRow.t := LeadRow.id.

Module Table.
(** [seq] is the table's entry in [sqlite_sequence]: the largest id
    an insert has been given. *)
Record t (R : Type) := { rows : list R; seq : Z }.
Arguments rows {R} _.
Arguments seq {R} _.

Definition empty {R : Type} : t R := {| rows := []; seq := 0 |}.

Definition max_id {R : Type} `{HasId R} (rs : list R) : Z :=
  List.fold_right (fun r m => Z.max (row_id r) m) 0 rs.

(** AUTOINCREMENT: one more than the largest id the table holds or has
    ever handed out. *)
Definition next_id {R : Type} `{HasId R} (tb : t R) : Z :=
  Z.max (seq tb) (max_id (rows tb)) + 1.

(** Append the row built for the fresh id. *)
Definition append {R : Type} `{HasId R} (mk : Z -> R) (tb : t R) : t R :=
  {| rows := rows tb ++ [mk (next_id tb)]; seq := next_id tb |}.

(** Delete the rows satisfying [p]. *)
Definition delete {R : Type} (p : R -> bool) (tb : t R) : t R :=
  {| rows := List.filter (fun r => negb (p r)) (rows tb); seq := seq tb |}.
End Table.

Module DB.
Record t := {
  visitors : Table.t VisitorRow.t;
  companies : Table.t CompanyRow.t;
  contacts : Table.t ContactRow.t;
  leads : Table.t LeadRow.t
}.

Definition empty : t := {|
  visitors := Table.empty; companies := Table.empty;
  contacts := Table.empty; leads := Table.empty
|}.

Definition with_visitors (v : Table.t VisitorRow.t) (d : t) : t :=
  {| visitors := v; companies := companies d; contacts := contacts d; leads := leads d |}.
Definition with_companies (c : Table.t CompanyRow.t) (d : t) : t :=
  {| visitors := visitors d; companies := c; contacts := contacts d; leads := leads d |}.
Definition with_contacts (c : Table.t ContactRow.t) (d : t) : t :=
  {| visitors := visitors d; companies := companies d; contacts := c; leads := leads d |}.
Definition with_leads (l : Table.t LeadRow.t) (d : t) : t :=
  {| visitors := visitors d; companies := companies d; contacts := contacts d; leads := l |}.
End DB.

(** The schema's DEFAULT expressions, used for a column an INSERT does
    not list. *)
Definition default_annual_revenue : option Z := Some 0.
Definition default_status : string := "new".

(** *** Binding parameters

    [sqlite3] binds [None], [bool], [int] and [str]; an [int] outside
    64 bits and a [list] or [dict] make [execute] raise, before the
    statement runs. *)

Definition int64 (n : Z) : bool := Z.leb (- 2 ^ 63) n && Z.ltb n (2 ^ 63).

Definition overflow_error : string :=
  "OverflowError: Python int too large to convert to SQLite INTEGER".

Definition integrity_error : string :=
  "IntegrityError: UNIQUE constraint failed: leads.lead_id".

Definition binding_error (position : Z) (v : Json) : string :=
  "ProgrammingError: Error binding parameter " +:+ PyStr.of_Z position +:+ ": type '"
    +:+ type_name v +:+ "' is not supported".

(** A parameter that is an [int] or [None]. *)
Definition bind_int (v : option Z) : Checked (option Z) :=
  match v with
  | Some n => if int64 n then Done v else Throws overflow_error
  | None => Done None
  end.

(** The cell a scalar is bound as: [None] as NULL, a [bool] as 0 or 1. *)
Definition as_cell (v : Json) : option Cell :=
  match v with
  | JNull => Some CNull
  | JBool b => Some (CInt (if b then 1 else 0))
  | JInt n => Some (CInt n)
  | JStr s => Some (CText s)
  | JArr _ | JObj _ => None
  end.

(** A parameter that is any JSON value, at the given position of the
    statement. *)
Definition bind_json (position : Z) (v : Json) : Checked Cell :=
  match v with
  | JNull => Done CNull
  | JBool b => Done (CInt (if b then 1 else 0))
  | JInt n => if int64 n then Done (CInt n) else Throws overflow_error
  | JStr s => Done (CText s)
  | JArr _ | JObj _ => Throws (binding_error position v)
  end.

(** ** Effects

    A computation reads and writes the database, may raise, and leaves a
    trace of what it did to the outside: the HTTP calls with their
    replies, and the commits. *)

Inductive Event : Type :=
| IpinfoCall (url : string) (reply : Http IpinfoBody.t)
| ApolloCall (api_key domain : string) (reply : Http (option ApolloOrg.t))
| HunterCall (api_key domain : string) (reply : Http (list HunterEmail.t))
| OpenAICall (api_key : string) (prompt : Prompt.t) (reply : Http Json)
| SlackCall (webhook_url : string) (message : SlackMessage.t) (reply : Http unit)
| VisitorCommitted (row : VisitorRow.t)
| LeadCommitted (row : LeadRow.t).

Inductive Outcome (A : Type) : Type :=
| Returned (a : A)
| Raised (exn : string).
Arguments Returned {A} a.
Arguments Raised {A} exn.

Module Run.
Record t (A : Type) := { outcome : Outcome A; db : DB.t; trace : list Event }.
Arguments outcome {A} _.
Arguments db {A} _.
Arguments trace {A} _.
End Run.

Definition M (A : Type) : Type := DB.t -> Run.t A.

Definition ret {A : Type} (a : A) : M A :=
  fun d => {| Run.outcome := Returned a; Run.db := d; Run.trace := [] |}.

Definition raise {A : Type} (exn : string) : M A :=
  fun d => {| Run.outcome := Raised exn; Run.db := d; Run.trace := [] |}.

Definition bind {A B : Type} (m : M A) (k : A -> M B) : M B :=
  fun d =>
    let r := m d in
    match Run.outcome r with
    | Returned a =>
        let r' := k a (Run.db r) in
        {| Run.outcome := Run.outcome r'; Run.db := Run.db r';
           Run.trace := Run.trace r ++ Run.trace r' |}
    | Raised exn =>
        {| Run.outcome := Raised exn; Run.db := Run.db r; Run.trace := Run.trace r |}
    end.

Declare Scope py_scope.
Delimit Scope py_scope with py.
Notation "x <- m ;; k" := (bind m (fun x => k))
  (at level 100, m at next level, right associativity) : py_scope.
Notation "m ;;; k" := (bind m (fun _ => k))
  (at level 100, right associativity) : py_scope.
Local Open Scope py_scope.

(** The value of a checked computation, or its exception. *)
Definition lift {A : Type} (c : Checked A) : M A :=
  match c with
  | Done a => ret a
  | Throws exn => raise exn
  end.

Definition emit (e : Event) : M unit :=
  fun d => {| Run.outcome := Returned tt; Run.db := d; Run.trace := [e] |}.

Definition get_db : M DB.t :=
  fun d => {| Run.outcome := Returned d; Run.db := d; Run.trace := [] |}.

Definition put_db (d' : DB.t) : M unit :=
  fun _ => {| Run.outcome := Returned tt; Run.db := d'; Run.trace := [] |}.

(** [conn = sqlite3.connect(..) ... conn.commit()]: the statements of
    [body] take effect together at the commit; when one of them raises,
    the commit is not reached and the database is as before. *)
Definition transaction {A : Type} (body : M A) : M A :=
  fun d =>
    let r := body d in
    match Run.outcome r with
    | Returned a => r
    | Raised exn => {| Run.outcome := Raised exn; Run.db := d; Run.trace := Run.trace r |}
    end.

(** [for x in xs: body(x)]. *)
Fixpoint for_each {A : Type} (xs : list A) (body : A -> M unit) : M unit :=
  match xs with
  | [] => ret tt
  | x :: xs' => body x ;;; for_each xs' body
  end.

(** One HTTP request: ask the world, record the call. *)
Definition http {A : Type} (reply : Http A) (ev : Http A -> Event) : M (Http A) :=
  emit (ev reply) ;;; ret reply.
(** ** Resolvers *)

(** The [{"success": ..}] envelope. *)
Inductive Result (A : Type) : Type :=
| Success (data : A)
| Fail (error : string).
Arguments Success {A} data.
Arguments Fail {A} error.

Definition is_success {A : Type} (r : Result A) : bool :=
  match r with Success _ => true | Fail _ => false end.

Definition in_list (s : string) (l : list string) : bool :=
  List.existsb (String.eqb s) l.

(** The ["data"] of a successful IP lookup; [None] is a null of the
    ipinfo body passed on. *)
Module IpData.
Record t := {
  ip : string;
  company_name : string;
  domain : string;
  city : option string;
  region : option string;
  country : option string;
  org : option string
}.
End IpData.

(** [parts = org.split(" ", 1); parts[1] if len(parts) > 1 else org],
    under [if org]. *)
Definition company_name_of_org (org : string) : string :=
  if PyStr.truthy org
  then match PyStr.after_first " " org with
       | Some rest => rest
       | None => org
       end
  else "".

Definition legal_suffixes : list string :=
  ["inc"; "llc"; "ltd"; "corp"; "corporation"; "pvt"; "private"; "limited"].

Definition clean_name (company_name : string) : string :=
  let clean :=
    PyStr.remove "." (PyStr.remove "," (PyStr.remove " " (PyStr.lower company_name))) in
  List.fold_left (fun acc suffix => PyStr.remove suffix acc) legal_suffixes clean.

(** The "try to guess domain" block. *)
Definition guess_domain (company_name : string) : string :=
  if PyStr.truthy company_name
  then let clean := clean_name company_name in
       if (2 <? String.length clean)%nat then PyStr.take 20 clean +:+ ".com" else ""
  else "".

Definition ipinfo_url (ip_address token : string) : string :=
  let url := "https://ipinfo.io/" +:+ ip_address in
  if PyStr.truthy token then url +:+ "?token=" +:+ token else url.

Definition lookup_company_from_ip (w : World.t) (ip_address token : string)
  : M (Result IpData.t) :=
  if negb (PyStr.truthy ip_address) || in_list ip_address ["127.0.0.1"; "localhost"; "::1"; ""]
  then ret (Fail "Local/missing IP")
  else
    response <- http (World.ipinfo w (ipinfo_url ip_address token))
                     (IpinfoCall (ipinfo_url ip_address token)) ;;
    match response with
    | Response status_code text json =>
        if Z.eqb status_code 200
        then match json with
             | Some data =>
                 let org := field_get_or (IpinfoBody.org data) "" in
                 let company_name :=
                   match org with
                   | Some o => company_name_of_org o
                   | None => ""
                   end in
                 ret (Success {|
                   IpData.ip := ip_address;
                   IpData.company_name := company_name;
                   IpData.domain := guess_domain company_name;
                   IpData.city := field_get_or (IpinfoBody.city data) "";
                   IpData.region := field_get_or (IpinfoBody.region data) "";
                   IpData.country := field_get_or (IpinfoBody.country data) "";
                   IpData.org := org |})
             | None => ret (Fail "JSONDecodeError")
             end
        else ret (Fail ("Status " +:+ PyStr.of_Z status_code))
    | Failure exn => ret (Fail exn)
    end.

(** The ["data"] of a successful enrichment: eleven keys, each the
    value Apollo sent ([None] for a null) or the default for a key Apollo
    left out. *)
Definition company_of_org (org : ApolloOrg.t) (domain : string) : Company.t := {|
  Company.name := field_of (field_get_or (ApolloOrg.name org) "");
  Company.domain := field_of (field_get_or (ApolloOrg.primary_domain org) domain);
  Company.industry := field_of (field_get_or (ApolloOrg.industry org) "Unknown");
  Company.employee_count := field_of (field_get_or (ApolloOrg.estimated_num_employees org) 0);
  Company.country := field_of (field_get_or (ApolloOrg.country org) "");
  Company.city := field_of (field_get_or (ApolloOrg.city org) "");
  Company.description := field_of (field_get_or (ApolloOrg.short_description org) "");
  Company.funding_stage := field_of (field_get_or (ApolloOrg.latest_funding_stage org) "");
  Company.total_funding := field_of (field_get_or (ApolloOrg.total_funding org) 0);
  Company.annual_revenue := field_of (field_get_or (ApolloOrg.annual_revenue org) 0);
  Company.linkedin_url := field_of (field_get_or (ApolloOrg.linkedin_url org) "")
|}.

Definition enrich_company_apollo (w : World.t) (domain api_key : string)
  : M (Result Company.t) :=
  if negb (PyStr.truthy api_key) || negb (PyStr.truthy domain)
  then ret (Fail "Missing API key or domain")
  else
    response <- http (World.apollo w api_key domain) (ApolloCall api_key domain) ;;
    match response with
    | Response status_code text json =>
        if Z.eqb status_code 200
        then match json with
             | Some (Some org) => ret (Success (company_of_org org domain))
             | Some None => ret (Fail "No data found")
             | None => ret (Fail "JSONDecodeError")
             end
        else ret (Fail text)
    | Failure exn => ret (Fail exn)
    end.

(** The f-string writes a null name part as "None". *)
Definition contact_of_email (e : HunterEmail.t) : Contact.t := {|
  Contact.name :=
    PyStr.strip (PyStr.of_value (field_get_or (HunterEmail.first_name e) "") +:+ " "
                   +:+ PyStr.of_value (field_get_or (HunterEmail.last_name e) ""));
  Contact.email := field_get_or (HunterEmail.value e) "";
  Contact.title := field_get_or (HunterEmail.position e) "";
  Contact.department := field_get_or (HunterEmail.department e) "";
  Contact.seniority := field_get_or (HunterEmail.seniority e) "";
  Contact.linkedin_url := field_get_or (HunterEmail.linkedin e) "";
  Contact.confidence := field_get_or (HunterEmail.confidence e) 0
|}.

(** A failure carries [contacts: []]; the callers read the list only on
    success. *)
Definition find_contacts_hunter (w : World.t) (domain api_key : string)
  : M (Result (list Contact.t)) :=
  if negb (PyStr.truthy api_key) || negb (PyStr.truthy domain)
  then ret (Fail "")
  else
    response <- http (World.hunter w api_key domain) (HunterCall api_key domain) ;;
    match response with
    | Response status_code text json =>
        if Z.eqb status_code 200
        then match json with
             | Some emails => ret (Success (List.map contact_of_email (List.firstn 5 emails)))
             | None => ret (Fail "JSONDecodeError")
             end
        else ret (Fail "")
    | Failure exn => ret (Fail exn)
    end.

(** The [visit_data] dict; its three keys are always present. *)
Module VisitData.
Record t := {
  pages_viewed : list Json;
  visit_duration : Z;
  referrer : option string
}.
End VisitData.

(** [company.get('description', '')[:200]]: a null description cannot
    be sliced. *)
Definition description_slice (company : Company.t) : Checked string :=
  match field_get_or (Company.description company) "" with
  | Some s => Done (PyStr.take 200 s)
  | None => Throws (not_subscriptable JNull)
  end.

(** [p.get('url', p) if isinstance(p, dict) else p]. *)
Definition page_entry (p : Json) : Json :=
  match p with
  | JObj members => get_or (member "url" members) p
  | _ => p
  end.

(** The f-string of the prompt: its values, or the exception of the
    one expression in it that can raise. *)
Definition build_prompt (company : Company.t) (contacts : list Contact.t)
    (visit_data : VisitData.t) (person_data : Person.t) (icp : Icp.t) : Checked Prompt.t :=
  match description_slice company with
  | Throws exn => Throws exn
  | Done description =>
      Done {|
        Prompt.icp := icp;
        Prompt.company_name := field_get_or (Company.name company) "Unknown";
        Prompt.company_industry := field_get_or (Company.industry company) "Unknown";
        Prompt.company_employees := field_get_or (Company.employee_count company) 0;
        Prompt.company_country := field_get_or (Company.country company) "Unknown";
        Prompt.company_description := description;
        Prompt.person_name := get_or (Person.name person_data) "Unknown";
        Prompt.person_title := get_or (Person.title person_data) "Unknown";
        Prompt.person_email := get_or (Person.email person_data) "Unknown";
        Prompt.pages := List.map page_entry (VisitData.pages_viewed visit_data);
        Prompt.duration := VisitData.visit_duration visit_data;
        Prompt.referrer := VisitData.referrer visit_data;
        Prompt.contacts_found := List.length contacts
      |}
  end.

(** The prompt is built before the [try]: what building it raises
    leaves the function.  Inside the [try], every exception becomes a
    failure, and a 200 whose content parses is a success whatever JSON
    value it parses to. *)
Definition score_lead_openai (w : World.t) (company : Company.t) (contacts : list Contact.t)
    (visit_data : VisitData.t) (person_data : Person.t) (api_key : string) (icp : Icp.t)
  : M (Result Json) :=
  if negb (PyStr.truthy api_key)
  then ret (Fail "No OpenAI key")
  else
    prompt <- lift (build_prompt company contacts visit_data person_data icp) ;;
    response <- http (World.openai w api_key prompt) (OpenAICall api_key prompt) ;;
    match response with
    | Response status_code text json =>
        if Z.eqb status_code 200
        then match json with
             | Some data => ret (Success data)
             | None => ret (Fail "JSONDecodeError")
             end
        else ret (Fail text)
    | Failure exn => ret (Fail exn)
    end.

(** ** Persistence *)

(** The UNIQUE constraints of each table (with the primary key). *)
Definition company_conflict (new old : CompanyRow.t) : bool :=
  Z.eqb (CompanyRow.id new) (CompanyRow.id old)
  || match CompanyRow.domain new, CompanyRow.domain old with
     | Some a, Some b => String.eqb a b
     | _, _ => false
     end.

Definition contact_conflict (new old : ContactRow.t) : bool :=
  Z.eqb (ContactRow.id new) (ContactRow.id old).

Definition lead_conflict (new old : LeadRow.t) : bool :=
  Z.eqb (LeadRow.id new) (LeadRow.id old)
  || String.eqb (LeadRow.lead_id new) (LeadRow.lead_id old).

(** [cursor.execute] binds the integer parameters of a statement before
    it runs it. *)
Definition bind_ints (params : list (option Z)) : M unit :=
  for_each params (fun v => lift (bind_int v) ;;; ret tt).

(** [INSERT INTO visitors (session_id, ip_address, pages_viewed,
    visit_duration, referrer, user_agent)]. *)
Definition visitor_row (visitor : Visitor.t) (ip : string) (id : Z) : VisitorRow.t := {|
  VisitorRow.id := id;
  VisitorRow.session_id := Visitor.session_id visitor;
  VisitorRow.ip_address := ip;
  VisitorRow.pages_viewed := Visitor.pages_viewed visitor;
  VisitorRow.visit_duration := Visitor.visit_duration visitor;
  VisitorRow.referrer := Visitor.referrer visitor;
  VisitorRow.user_agent := Visitor.user_agent visitor
|}.

Definition save_visitor (visitor : Visitor.t) (ip : string) : M unit :=
  transaction (
    bind_ints [Some (Visitor.visit_duration visitor)] ;;;
    d <- get_db ;;
    let row := visitor_row visitor ip (Table.next_id (DB.visitors d)) in
    put_db (DB.with_visitors (Table.append (visitor_row visitor ip) (DB.visitors d)) d) ;;;
    emit (VisitorCommitted row)).

(** The row of [INSERT OR REPLACE INTO companies (domain, name, industry,
    employee_count, country, city, description, funding_stage,
    total_funding, linkedin_url, enriched_data)]; [annual_revenue] is not
    in the column list and takes the schema default. *)
Definition company_row (company : Company.t) (id : Z) : CompanyRow.t := {|
  CompanyRow.id := id;
  CompanyRow.domain := field_get (Company.domain company);
  CompanyRow.name := field_get (Company.name company);
  CompanyRow.industry := field_get (Company.industry company);
  CompanyRow.employee_count := field_get_or (Company.employee_count company) 0;
  CompanyRow.country := field_get (Company.country company);
  CompanyRow.city := field_get (Company.city company);
  CompanyRow.description := field_get (Company.description company);
  CompanyRow.funding_stage := field_get (Company.funding_stage company);
  CompanyRow.total_funding := field_get_or (Company.total_funding company) 0;
  CompanyRow.annual_revenue := default_annual_revenue;
  CompanyRow.linkedin_url := field_get (Company.linkedin_url company);
  CompanyRow.enriched_data := company
|}.

(** The integer parameters of the company statement. *)
Definition company_ints (company : Company.t) : list (option Z) :=
  [field_get_or (Company.employee_count company) 0;
   field_get_or (Company.total_funding company) 0].

(** INSERT OR REPLACE: the rows in conflict with the new one are deleted,
    then the new row is inserted.  Returns [cursor.lastrowid]. *)
Definition insert_or_replace_company (company : Company.t) : M Z :=
  bind_ints (company_ints company) ;;;
  d <- get_db ;;
  let tb := DB.companies d in
  let new := company_row company (Table.next_id tb) in
  let kept := List.filter (fun r => negb (company_conflict new r)) (Table.rows tb) in
  put_db (DB.with_companies {| Table.rows := kept ++ [new]; Table.seq := Table.next_id tb |} d) ;;;
  ret (CompanyRow.id new).

(** [SELECT id FROM companies WHERE domain=?], [fetchone()]. *)
Definition select_company_id (domain : string) : M (option Z) :=
  d <- get_db ;;
  ret (CompanyRow.id <$>
         List.find (fun r => match CompanyRow.domain r with
                             | Some x => String.eqb x domain
                             | None => false
                             end)
                   (Table.rows (DB.companies d))).

Definition contact_row (company_id : option Z) (c : Contact.t) (id : Z) : ContactRow.t := {|
  ContactRow.id := id;
  ContactRow.company_id := company_id;
  ContactRow.name := Some (Contact.name c);
  ContactRow.email := Contact.email c;
  ContactRow.title := Contact.title c;
  ContactRow.seniority := Contact.seniority c;
  ContactRow.department := Contact.department c;
  ContactRow.linkedin_url := Contact.linkedin_url c;
  ContactRow.confidence := Contact.confidence c
|}.

(** INSERT OR IGNORE: the row is dropped when it conflicts with a stored
    one, inserted otherwise. *)
Definition insert_or_ignore_contact (company_id : option Z) (c : Contact.t) : M unit :=
  bind_ints [Contact.confidence c] ;;;
  d <- get_db ;;
  let tb := DB.contacts d in
  let new := contact_row company_id c (Table.next_id tb) in
  if List.existsb (contact_conflict new) (Table.rows tb)
  then ret tt
  else put_db (DB.with_contacts (Table.append (contact_row company_id c) tb) d).

(** Plain INSERT: a conflict raises [sqlite3.IntegrityError]. *)
Definition insert_lead (mk : Z -> LeadRow.t) : M LeadRow.t :=
  d <- get_db ;;
  let tb := DB.leads d in
  let new := mk (Table.next_id tb) in
  if List.existsb (lead_conflict new) (Table.rows tb)
  then raise integrity_error
  else put_db (DB.with_leads (Table.append mk tb) d) ;;; ret new.

(** The parameters of the lead statement that can fail to bind, as
    bound: [visit_duration] (7th), [icp_score] (9th), [tier] (10th),
    [research_summary] (13th), [recommended_action] (16th), [urgency]
    (17th).  The first that fails raises. *)
Module LeadCells.
Record t := {
  icp_score : Cell;
  tier : Cell;
  research_summary : Cell;
  recommended_action : Cell;
  urgency : Cell
}.
End LeadCells.

Definition lead_cells (visit_duration : Z) (icp_score tier research_summary
    recommended_action urgency : Json) : Checked LeadCells.t :=
  match bind_int (Some visit_duration) with
  | Throws exn => Throws exn
  | Done _ =>
  match bind_json 9 icp_score with
  | Throws exn => Throws exn
  | Done c9 =>
  match bind_json 10 tier with
  | Throws exn => Throws exn
  | Done c10 =>
  match bind_json 13 research_summary with
  | Throws exn => Throws exn
  | Done c13 =>
  match bind_json 16 recommended_action with
  | Throws exn => Throws exn
  | Done c16 =>
  match bind_json 17 urgency with
  | Throws exn => Throws exn
  | Done c17 =>
      Done {| LeadCells.icp_score := c9; LeadCells.tier := c10;
              LeadCells.research_summary := c13; LeadCells.recommended_action := c16;
              LeadCells.urgency := c17 |}
  end end end end end end.

(** The parameters of [save_lead]'s lead statement. *)
Definition tracking_lead_cells (visitor : Visitor.t) (scoring : Scoring.t)
  : Checked LeadCells.t :=
  lead_cells (Visitor.visit_duration visitor)
    (get_or (Scoring.icp_score scoring) (JInt 0))
    (get_or (Scoring.tier scoring) (JStr "cold"))
    (get_or (Scoring.research_summary scoring) (JStr ""))
    (get_or (Scoring.recommended_action scoring) (JStr ""))
    (get_or (Scoring.urgency scoring) (JStr "low")).

Definition tracking_lead_row (lead_id : string) (company_id : option Z) (visitor : Visitor.t)
    (scoring : Scoring.t) (cells : LeadCells.t) (ip identified source : string)
    (person : Person.t) (id : Z) : LeadRow.t := {|
  LeadRow.id := id;
  LeadRow.lead_id := lead_id;
  LeadRow.company_id := company_id;
  LeadRow.session_id := Visitor.session_id visitor;
  LeadRow.ip_address := ip;
  LeadRow.identified_company := Some identified;
  LeadRow.pages_viewed := Visitor.pages_viewed visitor;
  LeadRow.visit_duration := Visitor.visit_duration visitor;
  LeadRow.referrer := Visitor.referrer visitor;
  LeadRow.icp_score := LeadCells.icp_score cells;
  LeadRow.tier := LeadCells.tier cells;
  LeadRow.match_reasons := get_or (Scoring.match_reasons scoring) (JArr []);
  LeadRow.intent_signals := get_or (Scoring.intent_signals scoring) (JArr []);
  LeadRow.research_summary := LeadCells.research_summary cells;
  LeadRow.talking_points := get_or (Scoring.talking_points scoring) (JArr []);
  LeadRow.email_draft := get_or (Scoring.email_draft scoring) (JObj []);
  LeadRow.recommended_action := LeadCells.recommended_action cells;
  LeadRow.urgency := LeadCells.urgency cells;
  LeadRow.status := default_status;
  LeadRow.source := source;
  LeadRow.person_name := get_or (Person.name person) "";
  LeadRow.person_email := get_or (Person.email person) "";
  LeadRow.person_title := get_or (Person.title person) "";
  LeadRow.person_linkedin := get_or (Person.linkedin person) ""
|}.

Definition save_lead (lead_id : string) (company : Company.t) (contacts : list Contact.t)
    (visitor : Visitor.t) (scoring : Scoring.t) (ip identified source : string)
    (person : Person.t) : M unit :=
  transaction (
    company_id <-
      (if opt_truthy (field_get (Company.domain company))
       then
         lastrowid <- insert_or_replace_company company ;;
         company_id <-
           (if Z.eqb lastrowid 0
            then
              row <- select_company_id (get_or (field_get (Company.domain company)) "") ;;
              match row with
              | Some i => ret i
              | None => raise (not_subscriptable JNull)
              end
            else ret lastrowid) ;;
         for_each contacts (insert_or_ignore_contact (Some company_id)) ;;;
         ret (Some company_id)
       else ret None) ;;
    cells <- lift (tracking_lead_cells visitor scoring) ;;
    row <- insert_lead
             (tracking_lead_row lead_id company_id visitor scoring cells ip identified source
                person) ;;
    emit (LeadCommitted row)).

(** The parameters of [save_rb2b_lead]'s lead statement. *)
Definition rb2b_lead_cells (scoring : Scoring.t) : Checked LeadCells.t :=
  lead_cells 0
    (get_or (Scoring.icp_score scoring) (JInt 0))
    (get_or (Scoring.tier scoring) (JStr "warm"))
    (get_or (Scoring.research_summary scoring) (JStr ""))
    (get_or (Scoring.recommended_action scoring) (JStr "send_email"))
    (get_or (Scoring.urgency scoring) (JStr "medium")).

Definition rb2b_lead_row (lead_id : string) (company_id : option Z) (company : Company.t)
    (scoring : Scoring.t) (cells : LeadCells.t) (person : Person.t) (id : Z) : LeadRow.t := {|
  LeadRow.id := id;
  LeadRow.lead_id := lead_id;
  LeadRow.company_id := company_id;
  LeadRow.session_id := "";
  LeadRow.ip_address := "";
  LeadRow.identified_company := field_get_or (Company.name company) "";
  LeadRow.pages_viewed := [];
  LeadRow.visit_duration := 0;
  LeadRow.referrer := Some "";
  LeadRow.icp_score := LeadCells.icp_score cells;
  LeadRow.tier := LeadCells.tier cells;
  LeadRow.match_reasons := get_or (Scoring.match_reasons scoring) (JArr []);
  LeadRow.intent_signals := get_or (Scoring.intent_signals scoring) (JArr []);
  LeadRow.research_summary := LeadCells.research_summary cells;
  LeadRow.talking_points := get_or (Scoring.talking_points scoring) (JArr []);
  LeadRow.email_draft := get_or (Scoring.email_draft scoring) (JObj []);
  LeadRow.recommended_action := LeadCells.recommended_action cells;
  LeadRow.urgency := LeadCells.urgency cells;
  LeadRow.status := default_status;
  LeadRow.source := "rb2b";
  LeadRow.person_name := get_or (Person.name person) "";
  LeadRow.person_email := get_or (Person.email person) "";
  LeadRow.person_title := get_or (Person.title person) "";
  LeadRow.person_linkedin := get_or (Person.linkedin person) ""
|}.

Definition save_rb2b_lead (lead_id : string) (company : Company.t) (contacts : list Contact.t)
    (scoring : Scoring.t) (person : Person.t) (raw_data : gmap string string) : M unit :=
  transaction (
    company_id <-
      (if opt_truthy (field_get (Company.domain company))
       then
         insert_or_replace_company company ;;;
         company_id <- select_company_id (get_or (field_get (Company.domain company)) "") ;;
         for_each contacts (insert_or_ignore_contact company_id) ;;;
         ret company_id
       else ret None) ;;
    cells <- lift (rb2b_lead_cells scoring) ;;
    row <- insert_lead (rb2b_lead_row lead_id company_id company scoring cells person) ;;
    emit (LeadCommitted row)).

(** ** The notifier *)

Definition slack_message (company : Company.t) (scoring : Scoring.t) (person : Person.t)
  : SlackMessage.t := {|
  SlackMessage.company_name := field_get_or (Company.name company) "Unknown";
  SlackMessage.score := get_or (Scoring.icp_score scoring) (JInt 0);
  SlackMessage.industry := field_get_or (Company.industry company) "Unknown";
  SlackMessage.person_info :=
    if opt_truthy (Person.name person)
    then Some (get_or (Person.name person) "",
               get_or (Person.title person) "N/A",
               get_or (Person.email person) "N/A")
    else None;
  SlackMessage.summary := get_or (Scoring.research_summary scoring) (JStr "")
|}.

(** One POST; [try: ... except: pass] drops whatever it raises, and the
    response is not looked at. *)
Definition send_slack_alert (w : World.t) (company : Company.t) (scoring : Scoring.t)
    (ip : string) (person : Person.t) (webhook_url : string) : M unit :=
  let message := slack_message company scoring person in
  response <- http (World.slack w webhook_url message) (SlackCall webhook_url message) ;;
  match response with
  | Response _ _ _ => ret tt
  | Failure _ => ret tt
  end.

(** ** The anonymous tracking pathway: [process_visitor] *)

(** [visitor.ip_address or client_ip or ""]. *)
Definition effective_ip (visitor : Visitor.t) (client_ip : string) : string :=
  match Visitor.ip_address visitor with
  | Some a => if PyStr.truthy a then a else PyStr.or_else client_ip ""
  | None => PyStr.or_else client_ip ""
  end.

(** [not ip or ip in ["127.0.0.1", "::1", "localhost"]]. *)
Definition is_local_ip (ip : string) : bool :=
  negb (PyStr.truthy ip) || in_list ip ["127.0.0.1"; "::1"; "localhost"].

(** [now] is [int(datetime.now().timestamp())]. *)
Definition tracking_lead_id (now : Z) (visitor : Visitor.t) : string :=
  "lead_" +:+ PyStr.of_Z now +:+ "_" +:+ PyStr.take 8 (Visitor.session_id visitor).

Definition tracking_default_scoring (identified ip : string) : Scoring.t := {|
  Scoring.icp_score := Some (JInt 30);
  Scoring.tier := Some (JStr "cold");
  Scoring.match_reasons := Some (JArr []);
  Scoring.intent_signals := Some (JArr []);
  Scoring.recommended_action := Some (JStr "skip");
  Scoring.urgency := Some (JStr "low");
  Scoring.research_summary := Some (JStr ("Visitor from " +:+ PyStr.or_else identified ip));
  Scoring.talking_points := Some (JArr []);
  Scoring.email_draft := Some (JObj [])
|}.

(** [scoring = result["data"]], then the first [scoring.get(..)]: the
    answer of the engine is used as a dict. *)
Definition as_scoring (data : Json) : M Scoring.t :=
  match data with
  | JObj members => ret (Scoring.of_members members)
  | _ => raise (no_attribute_get data)
  end.

(** [scoring.get("tier") == "hot"]. *)
Definition tier_is_hot (scoring : Scoring.t) : bool :=
  match Scoring.tier scoring with
  | Some t => is_str "hot" t
  | None => false
  end.

Definition process_visitor (w : World.t) (settings : Settings.t) (now : Z)
    (visitor : Visitor.t) (client_ip : string) : M unit :=
  let ip := effective_ip visitor client_ip in
  save_visitor visitor ip ;;;
  if is_local_ip ip
  then ret tt
  else
    let lead_id := tracking_lead_id now visitor in
    ip_result <- lookup_company_from_ip w ip (Settings.ipinfo_token settings) ;;
    let identified :=
      match ip_result with Success data => IpData.company_name data | Fail _ => "" end in
    let domain :=
      match ip_result with Success data => IpData.domain data | Fail _ => "" end in
    let country :=
      match ip_result with Success data => IpData.country data | Fail _ => Some "" end in
    let shell := Company.shell (PyStr.or_else identified "Unknown") domain country in
    company <-
      (if PyStr.truthy domain && PyStr.truthy (Settings.apollo_api_key settings)
       then
         result <- enrich_company_apollo w domain (Settings.apollo_api_key settings) ;;
         match result with
         | Success data => ret data
         | Fail _ => ret shell
         end
       else ret shell) ;;
    contacts <-
      (if PyStr.truthy domain && PyStr.truthy (Settings.hunter_api_key settings)
       then
         result <- find_contacts_hunter w domain (Settings.hunter_api_key settings) ;;
         match result with
         | Success cs => ret cs
         | Fail _ => ret []
         end
       else ret []) ;;
    let default := tracking_default_scoring identified ip in
    scoring <-
      (if PyStr.truthy (Settings.openai_api_key settings) && PyStr.truthy identified
       then
         let visit_data := {|
           VisitData.pages_viewed := List.map JObj (Visitor.pages_viewed visitor);
           VisitData.visit_duration := Visitor.visit_duration visitor;
           VisitData.referrer := Visitor.referrer visitor |} in
         result <- score_lead_openai w company contacts visit_data Person.empty
                     (Settings.openai_api_key settings) icp_config ;;
         match result with
         | Success data => as_scoring data
         | Fail _ => ret default
         end
       else ret default) ;;
    save_lead lead_id company contacts visitor scoring ip identified "tracking" Person.empty ;;;
    (if PyStr.truthy (Settings.slack_webhook_url settings) && tier_is_hot scoring
     then send_slack_alert w company scoring ip Person.empty (Settings.slack_webhook_url settings)
     else ret tt).

(** ** The identified-person pathway: [process_rb2b_lead] *)

(** [rb2b_data.get(k1, "") or rb2b_data.get(k2, "")]. *)
Definition field (rb2b_data : gmap string string) (k1 k2 : string) : string :=
  PyStr.or_else (get_or (rb2b_data !! k1) "") (get_or (rb2b_data !! k2) "").

(** [email.split("@")[-1] if "@" in email else ""]. *)
Definition email_domain (email : string) : string :=
  if PyStr.has_char "@" email then PyStr.after_last "@" email else "".

Definition rb2b_lead_id (now : Z) (email : string) : string :=
  "rb2b_" +:+ PyStr.of_Z now +:+ "_" +:+ PyStr.take 8 (PyStr.before_first "@" email).

Definition rb2b_default_scoring (full_name first_name title company_name : string)
    (company : Company.t) : Scoring.t := {|
  Scoring.icp_score := Some (JInt 60);
  Scoring.tier := Some (JStr "warm");
  Scoring.match_reasons := Some (JArr [JStr "Person identified via RB2B"]);
  Scoring.intent_signals := Some (JArr [JStr "Visited website"]);
  Scoring.recommended_action := Some (JStr "send_email");
  Scoring.urgency := Some (JStr "medium");
  Scoring.research_summary :=
    Some (JStr (full_name +:+ " from "
                  +:+ PyStr.of_value (field_get_or (Company.name company) company_name)
                  +:+ " visited the website."));
  Scoring.talking_points :=
    Some (JArr [JStr "Visited your website"; JStr ("Works as " +:+ title)]);
  Scoring.email_draft :=
    Some (JObj [("subject", JStr "Following up on your visit");
                ("body", JStr ("Hi " +:+ first_name
                                 +:+ ", I noticed you visited our website..."))])
|}.

(** [v + 15]: defined on an [int] and on a [bool] (which counts as 0 or
    1). *)
Definition plus_15 (v : Json) : Checked Z :=
  match v with
  | JInt n => Done (n + 15)
  | JBool b => Done ((if b then 1 else 0) + 15)
  | _ => Throws (cannot_add v)
  end.

(** The bonus for an identified person, applied to the engine's record:
    [scoring["icp_score"] = min(100, scoring.get("icp_score", 50) + 15)],
    then the two tier rules. *)
Definition apply_bonus (data : Scoring.t) : Checked Scoring.t :=
  match plus_15 (get_or (Scoring.icp_score data) (JInt 50)) with
  | Throws exn => Throws exn
  | Done sum =>
      let bonused := Z.min 100 sum in
      let scoring := Scoring.set_icp_score (JInt bonused) data in
      Done (if Z.leb 70 bonused then Scoring.set_tier (JStr "hot") scoring
            else if Z.leb 50 bonused then Scoring.set_tier (JStr "warm") scoring
            else scoring)
  end.

Module Rb2bResult.
Record t := {
  lead_id : string;
  person : Person.t;
  company : Company.t;
  scoring : Scoring.t
}.
End Rb2bResult.

Definition process_rb2b_lead (w : World.t) (settings : Settings.t) (now : Z)
    (rb2b_data : gmap string string) : M (option Rb2bResult.t) :=
  let email := field rb2b_data "Email" "email" in
  let first_name := field rb2b_data "First Name" "first_name" in
  let last_name := field rb2b_data "Last Name" "last_name" in
  let full_name := PyStr.strip (first_name +:+ " " +:+ last_name) in
  let title := field rb2b_data "Title" "title" in
  let linkedin := field rb2b_data "LinkedIn URL" "linkedin_url" in
  let company_name := field rb2b_data "Company" "company" in
  if negb (PyStr.truthy email)
  then ret None
  else
    let domain := email_domain email in
    let lead_id := rb2b_lead_id now email in
    let shell := Company.shell (PyStr.or_else company_name domain) domain (Some "") in
    company <-
      (if PyStr.truthy domain && PyStr.truthy (Settings.apollo_api_key settings)
       then
         result <- enrich_company_apollo w domain (Settings.apollo_api_key settings) ;;
         match result with
         | Success data => ret data
         | Fail _ => ret shell
         end
       else ret shell) ;;
    contacts <-
      (if PyStr.truthy domain && PyStr.truthy (Settings.hunter_api_key settings)
       then
         result <- find_contacts_hunter w domain (Settings.hunter_api_key settings) ;;
         match result with
         | Success cs => ret cs
         | Fail _ => ret []
         end
       else ret []) ;;
    let person_data := {|
      Person.name := Some full_name;
      Person.email := Some email;
      Person.title := Some title;
      Person.linkedin := Some linkedin |} in
    let default := rb2b_default_scoring full_name first_name title company_name company in
    scoring <-
      (if PyStr.truthy (Settings.openai_api_key settings)
       then
         let visit_data := {|
           VisitData.pages_viewed := [];
           VisitData.visit_duration := 0;
           VisitData.referrer := Some "" |} in
         result <- score_lead_openai w company contacts visit_data person_data
                     (Settings.openai_api_key settings) icp_config ;;
         match result with
         | Success data =>
             scoring <- as_scoring data ;;
             lift (apply_bonus scoring)
         | Fail _ => ret default
         end
       else ret default) ;;
    save_rb2b_lead lead_id company contacts scoring person_data rb2b_data ;;;
    (if PyStr.truthy (Settings.slack_webhook_url settings) && tier_is_hot scoring
     then send_slack_alert w company scoring "" person_data (Settings.slack_webhook_url settings)
     else ret tt) ;;;
    ret (Some {|
      Rb2bResult.lead_id := lead_id;
      Rb2bResult.person := person_data;
      Rb2bResult.company := company;
      Rb2bResult.scoring := scoring |}).
(** * Vocabulary of the statements

    Runs and traces, the database after a save, the stages of the two
    pipelines, and the sample inputs the instances are computed on. *)

(** ** Runs *)

Definition mk_run {A : Type} (o : Outcome A) (d : DB.t) (tr : list Event) : Run.t A :=
  {| Run.outcome := o; Run.db := d; Run.trace := tr |}.

(** [after tr r]: the run [r], preceded by the events [tr]. *)
Definition after {A : Type} (tr : list Event) (r : Run.t A) : Run.t A :=
  mk_run (Run.outcome r) (Run.db r) (tr ++ Run.trace r).

(** ** What a lookup gives and which calls it makes

    The lookups do not read the database: their outcome and their calls
    are those of a run on the empty database. *)

Definition outcome_of {A : Type} (m : M A) : Outcome A := Run.outcome (m DB.empty).

Definition value {A : Type} (m : M A) (dflt : A) : A :=
  match outcome_of m with
  | Returned a => a
  | Raised _ => dflt
  end.

Definition calls {A : Type} (m : M A) : list Event := Run.trace (m DB.empty).

(** A computation that leaves the database alone and does the same
    whatever the database holds. *)
Definition stateless {A : Type} (m : M A) : Prop :=
  forall d, m d = mk_run (outcome_of m) d (calls m).

(** ** The database after a save *)

(** The contacts table after the loop of INSERT OR IGNORE. *)
Fixpoint contacts_after (cid : option Z) (cs : list Contact.t) (tb : Table.t ContactRow.t)
  : Table.t ContactRow.t :=
  match cs with
  | [] => tb
  | c :: cs' => contacts_after cid cs' (Table.append (contact_row cid c) tb)
  end.

(** The companies table after INSERT OR REPLACE. *)
Definition companies_after (company : Company.t) (tb : Table.t CompanyRow.t)
  : Table.t CompanyRow.t :=
  let new := company_row company (Table.next_id tb) in
  {| Table.rows := List.filter (fun r => negb (company_conflict new r)) (Table.rows tb) ++ [new];
     Table.seq := Table.next_id tb |}.

(** The company and contact writes of a save, with the company id the
    lead row receives. *)
Definition company_saved (company : Company.t) (contacts : list Contact.t) (d : DB.t)
  : DB.t * option Z :=
  if opt_truthy (field_get (Company.domain company))
  then
    let cid := Table.next_id (DB.companies d) in
    (DB.with_contacts (contacts_after (Some cid) contacts (DB.contacts d))
       (DB.with_companies (companies_after company (DB.companies d)) d),
     Some cid)
  else (d, None).

(** An integer parameter that binds: [None], or an [int] of 64 bits. *)
Definition int_binds (v : option Z) : bool :=
  match v with
  | Some n => int64 n
  | None => true
  end.

(** The integers of the company and contact statements of a save all
    bind; the statements are only run for a company with a domain. *)
Definition company_binds (company : Company.t) (contacts : list Contact.t) : bool :=
  if opt_truthy (field_get (Company.domain company))
  then List.forallb int_binds (company_ints company)
       && List.forallb (fun c => int_binds (Contact.confidence c)) contacts
  else true.

(** The contacts of a loop of INSERT OR IGNORE up to the first whose
    confidence does not bind. *)
Fixpoint binding_prefix (cs : list Contact.t) : list Contact.t :=
  match cs with
  | [] => []
  | c :: cs' => if int_binds (Contact.confidence c) then c :: binding_prefix cs' else []
  end.

Definition lead_id_taken (lead_id : string) (d : DB.t) : bool :=
  List.existsb (fun r => String.eqb lead_id (LeadRow.lead_id r)) (Table.rows (DB.leads d)).

Definition checked_map {A B : Type} (f : A -> B) (c : Checked A) : Checked B :=
  match c with
  | Done a => Done (f a)
  | Throws exn => Throws exn
  end.

(** The run after the lookups [tr]: the save, then the alert.  [mk] is
    the lead row the parameters of the lead statement give, or the
    exception of the one that does not bind. *)
Definition finished {A : Type} (lead_id : string) (company : Company.t)
    (contacts : list Contact.t) (mk : Checked (option Z -> Z -> LeadRow.t))
    (alerts : list Event) (result : A) (tr : list Event) (d : DB.t) : Run.t A :=
  let d1 := fst (company_saved company contacts d) in
  let cid := snd (company_saved company contacts d) in
  if company_binds company contacts
  then match mk with
       | Done row =>
           if lead_id_taken lead_id d
           then mk_run (Raised integrity_error) d tr
           else mk_run (Returned result)
                  (DB.with_leads (Table.append (row cid) (DB.leads d1)) d1)
                  (tr ++ LeadCommitted (row cid (Table.next_id (DB.leads d))) :: alerts)
       | Throws exn => mk_run (Raised exn) d tr
       end
  else mk_run (Raised overflow_error) d tr.

(** The outcome of a save alone. *)
Definition saved (lead_id : string) (company : Company.t) (contacts : list Contact.t)
    (mk : Checked (option Z -> Z -> LeadRow.t)) (d : DB.t) : Run.t unit :=
  finished lead_id company contacts mk [] tt [] d.

(** The run of a pipeline whose scoring block gave [scored]: when the
    block raised, the run stops there. *)
Definition concluded {A : Type} (scored : Outcome Scoring.t) (rest : Scoring.t -> Run.t A)
    (tr : list Event) (d : DB.t) : Run.t A :=
  match scored with
  | Returned scoring => rest scoring
  | Raised exn => mk_run (Raised exn) d tr
  end.

(** ** Traces *)

Inductive Service : Type := Ipinfo | Apollo | Hunter | OpenAI | Slack | Sqlite.

Definition service (e : Event) : Service :=
  match e with
  | IpinfoCall _ _ => Ipinfo
  | ApolloCall _ _ _ => Apollo
  | HunterCall _ _ _ => Hunter
  | OpenAICall _ _ _ => OpenAI
  | SlackCall _ _ _ => Slack
  | VisitorCommitted _ => Sqlite
  | LeadCommitted _ => Sqlite
  end.

Definition is_slack_call (e : Event) : bool :=
  match e with SlackCall _ _ _ => true | _ => false end.

(** The number of alert calls in a trace. *)
Definition alert_calls (tr : list Event) : nat := List.length (List.filter is_slack_call tr).

(** What the scoring engine answered with, if it did: the first call
    answered 200 with a content that parses. *)
Fixpoint engine_answer (tr : list Event) : option Json :=
  match tr with
  | [] => None
  | OpenAICall _ _ (Response status_code _ (Some data)) :: tr' =>
      if Z.eqb status_code 200 then Some data else engine_answer tr'
  | _ :: tr' => engine_answer tr'
  end.

(** The lead row a run committed, if it did. *)
Fixpoint committed_lead (tr : list Event) : option LeadRow.t :=
  match tr with
  | [] => None
  | LeadCommitted row :: _ => Some row
  | _ :: tr' => committed_lead tr'
  end.

(** The alert calls a trace should hold: one when the run committed a
    lead whose tier is "hot" and a webhook is configured. *)
Definition expected_alerts (settings : Settings.t) (tr : list Event) : nat :=
  match committed_lead tr with
  | Some row =>
      if PyStr.truthy (Settings.slack_webhook_url settings)
         && cell_is "hot" (LeadRow.tier row)
      then 1%nat else 0%nat
  | None => 0%nat
  end.

(** ** The blocks of the pipelines *)

(** The enrichment block shared by the two pipelines. *)
Definition company_stage (w : World.t) (settings : Settings.t) (domain : string)
    (shell : Company.t) : M Company.t :=
  if PyStr.truthy domain && PyStr.truthy (Settings.apollo_api_key settings)
  then
    result <- enrich_company_apollo w domain (Settings.apollo_api_key settings) ;;
    match result with
    | Success data => ret data
    | Fail _ => ret shell
    end
  else ret shell.

Definition contacts_stage (w : World.t) (settings : Settings.t) (domain : string)
  : M (list Contact.t) :=
  if PyStr.truthy domain && PyStr.truthy (Settings.hunter_api_key settings)
  then
    result <- find_contacts_hunter w domain (Settings.hunter_api_key settings) ;;
    match result with
    | Success cs => ret cs
    | Fail _ => ret []
    end
  else ret [].

Definition alert_stage (w : World.t) (settings : Settings.t) (company : Company.t)
    (scoring : Scoring.t) (ip : string) (person : Person.t) : M unit :=
  if PyStr.truthy (Settings.slack_webhook_url settings) && tier_is_hot scoring
  then send_slack_alert w company scoring ip person (Settings.slack_webhook_url settings)
  else ret tt.

(** The alert block: one POST when a webhook is configured and the tier
    is "hot", none otherwise; whatever the POST does, the block returns. *)
Definition alert_trace (w : World.t) (settings : Settings.t) (company : Company.t)
    (scoring : Scoring.t) (person : Person.t) : list Event :=
  if PyStr.truthy (Settings.slack_webhook_url settings) && tier_is_hot scoring
  then [SlackCall (Settings.slack_webhook_url settings) (slack_message company scoring person)
          (World.slack w (Settings.slack_webhook_url settings)
             (slack_message company scoring person))]
  else [].

Definition rb2b_visit_data : VisitData.t := {|
  VisitData.pages_viewed := [];
  VisitData.visit_duration := 0;
  VisitData.referrer := Some "" |}.

Definition rb2b_scoring_stage (w : World.t) (settings : Settings.t) (company : Company.t)
    (contacts : list Contact.t) (person_data : Person.t) (default : Scoring.t) : M Scoring.t :=
  if PyStr.truthy (Settings.openai_api_key settings)
  then
    result <- score_lead_openai w company contacts rb2b_visit_data person_data
                (Settings.openai_api_key settings) icp_config ;;
    match result with
    | Success data =>
        scoring <- as_scoring data ;;
        lift (apply_bonus scoring)
    | Fail _ => ret default
    end
  else ret default.

Definition tracking_visit_data (visitor : Visitor.t) : VisitData.t := {|
  VisitData.pages_viewed := List.map JObj (Visitor.pages_viewed visitor);
  VisitData.visit_duration := Visitor.visit_duration visitor;
  VisitData.referrer := Visitor.referrer visitor |}.

Definition tracking_scoring_stage (w : World.t) (settings : Settings.t) (identified : string)
    (company : Company.t) (contacts : list Contact.t) (visitor : Visitor.t)
    (default : Scoring.t) : M Scoring.t :=
  if PyStr.truthy (Settings.openai_api_key settings) && PyStr.truthy identified
  then
    result <- score_lead_openai w company contacts (tracking_visit_data visitor) Person.empty
                (Settings.openai_api_key settings) icp_config ;;
    match result with
    | Success data => as_scoring data
    | Fail _ => ret default
    end
  else ret default.

Definition rb2b_email (rb2b_data : gmap string string) : string :=
  field rb2b_data "Email" "email".

Definition rb2b_person (rb2b_data : gmap string string) : Person.t := {|
  Person.name :=
    Some (PyStr.strip (field rb2b_data "First Name" "first_name" +:+ " "
                         +:+ field rb2b_data "Last Name" "last_name"));
  Person.email := Some (rb2b_email rb2b_data);
  Person.title := Some (field rb2b_data "Title" "title");
  Person.linkedin := Some (field rb2b_data "LinkedIn URL" "linkedin_url")
|}.

Definition rb2b_default (rb2b_data : gmap string string) (company : Company.t) : Scoring.t :=
  rb2b_default_scoring
    (PyStr.strip (field rb2b_data "First Name" "first_name" +:+ " "
                    +:+ field rb2b_data "Last Name" "last_name"))
    (field rb2b_data "First Name" "first_name")
    (field rb2b_data "Title" "title")
    (field rb2b_data "Company" "company")
    company.

(** The lead row of a save, once its parameters are bound. *)
Definition tracking_row (lead_id : string) (visitor : Visitor.t) (scoring : Scoring.t)
    (ip identified source : string) (person : Person.t)
  : Checked (option Z -> Z -> LeadRow.t) :=
  checked_map
    (fun cells cid =>
       tracking_lead_row lead_id cid visitor scoring cells ip identified source person)
    (tracking_lead_cells visitor scoring).

Definition rb2b_row (lead_id : string) (company : Company.t) (scoring : Scoring.t)
    (person : Person.t) : Checked (option Z -> Z -> LeadRow.t) :=
  checked_map (fun cells cid => rb2b_lead_row lead_id cid company scoring cells person)
    (rb2b_lead_cells scoring).

(** The database once the raw visit is stored. *)
Definition visit_stored (visitor : Visitor.t) (ip : string) (d : DB.t) : DB.t :=
  DB.with_visitors (Table.append (visitor_row visitor ip) (DB.visitors d)) d.

Definition visit_row (visitor : Visitor.t) (ip : string) (d : DB.t) : VisitorRow.t :=
  visitor_row visitor ip (Table.next_id (DB.visitors d)).

(** ** What the scoring block makes of the engine's answer *)

(** The tracking pathway takes the answer as its scoring dict. *)
Definition tracking_use (data : Json) : Outcome Scoring.t := outcome_of (as_scoring data).

(** The webhook pathway adds the bonus to it. *)
Definition rb2b_use (data : Json) : Outcome Scoring.t :=
  outcome_of (scoring <- as_scoring data ;; lift (apply_bonus scoring)).

(** The scoring dict of a run: the default when the engine gave no
    usable answer, what the pathway makes of the answer otherwise. *)
Definition scored_by (use : Json -> Outcome Scoring.t) (default : Scoring.t)
    (answer : Outcome (option Json)) : Outcome Scoring.t :=
  match answer with
  | Returned (Some data) => use data
  | Returned None => Returned default
  | Raised exn => Raised exn
  end.

(** ** The score the bonus is added to *)


(** A value [sqlite3] binds. *)
Definition scalar (v : Json) : bool :=
  match v with
  | JInt n => int64 n
  | JArr _ | JObj _ => false
  | _ => true
  end.

(** [company.get('description', '')[:200]] does not raise. *)
Definition prompt_builds (company : Company.t) : bool :=
  match description_slice company with
  | Done _ => true
  | Throws _ => false
  end.

(** ** The domain guess as the specification words it

    "Strip the leading numeric autonomous-system token from the vendor
    org string, lower-case, remove spaces/commas/periods and common
    legal suffixes, truncate to 20 characters, append .com". *)






(** ** Characters of a guessed domain *)



(** ** Save calls *)

(** A call of one of the two save functions. *)
Inductive SaveCall : Type :=
| TrackingSave (lead_id : string) (company : Company.t) (contacts : list Contact.t)
    (visitor : Visitor.t) (scoring : Scoring.t) (ip identified source : string)
    (person : Person.t)
| Rb2bSave (lead_id : string) (company : Company.t) (contacts : list Contact.t)
    (scoring : Scoring.t) (person : Person.t) (raw_data : gmap string string).

Definition run_save (s : SaveCall) : M unit :=
  match s with
  | TrackingSave lead_id company contacts visitor scoring ip identified source person =>
      save_lead lead_id company contacts visitor scoring ip identified source person
  | Rb2bSave lead_id company contacts scoring person raw_data =>
      save_rb2b_lead lead_id company contacts scoring person raw_data
  end.

Definition save_company (s : SaveCall) : Company.t :=
  match s with
  | TrackingSave _ company _ _ _ _ _ _ _ => company
  | Rb2bSave _ company _ _ _ _ => company
  end.

Definition save_contacts (s : SaveCall) : list Contact.t :=
  match s with
  | TrackingSave _ _ contacts _ _ _ _ _ _ => contacts
  | Rb2bSave _ _ contacts _ _ _ => contacts
  end.

Definition save_lead_id (s : SaveCall) : string :=
  match s with
  | TrackingSave lead_id _ _ _ _ _ _ _ _ => lead_id
  | Rb2bSave lead_id _ _ _ _ _ => lead_id
  end.

Definition save_row (s : SaveCall) : Checked (option Z -> Z -> LeadRow.t) :=
  match s with
  | TrackingSave lead_id company contacts visitor scoring ip identified source person =>
      tracking_row lead_id visitor scoring ip identified source person
  | Rb2bSave lead_id company contacts scoring person raw_data =>
      rb2b_row lead_id company scoring person
  end.

(** [WHERE domain = ?]. *)
Definition has_domain (dom : string) (r : CompanyRow.t) : bool :=
  match CompanyRow.domain r with
  | Some x => String.eqb x dom
  | None => false
  end.

(** The primary key: no two rows of the table share an id. *)
Definition primary_key {R : Type} `{HasId R} (tb : Table.t R) : Prop :=
  List.NoDup (List.map row_id (Table.rows tb)).

(** ** Sample inputs *)

(** The body [test_rb2b] posts. *)
Definition sample_data : gmap string string :=
  list_to_map [("First Name", "John"); ("Last Name", "Smith");
               ("Email", "john.smith@shopify.com"); ("Title", "VP of Marketing");
               ("Company", "Shopify");
               ("LinkedIn URL", "https://www.linkedin.com/in/johnsmith/")].

Definition nameless_data : gmap string string :=
  list_to_map [("First Name", "John"); ("Email", "")].

Definition sample_visitor (ip : string) : Visitor.t := {|
  Visitor.project_id := "swan";
  Visitor.session_id := "sess_4f2a91c07b";
  Visitor.ip_address := Some ip;
  Visitor.current_url := "https://example.com/pricing";
  Visitor.referrer := Some "";
  Visitor.pages_viewed := [[("url", JStr "/")]; [("url", JStr "/pricing")]];
  Visitor.visit_duration := 95;
  Visitor.user_agent := Some "Mozilla/5.0";
  Visitor.screen_size := Some "1440x900";
  Visitor.timestamp := "2024-01-15T10:00:00Z";
  Visitor.event := Some "pageview"
|}.

(** The same visit with another duration. *)
Definition visitor_lasting (visit_duration : Z) (ip : string) : Visitor.t := {|
  Visitor.project_id := "swan";
  Visitor.session_id := "sess_4f2a91c07b";
  Visitor.ip_address := Some ip;
  Visitor.current_url := "https://example.com/pricing";
  Visitor.referrer := Some "";
  Visitor.pages_viewed := [[("url", JStr "/")]; [("url", JStr "/pricing")]];
  Visitor.visit_duration := visit_duration;
  Visitor.user_agent := Some "Mozilla/5.0";
  Visitor.screen_size := Some "1440x900";
  Visitor.timestamp := "2024-01-15T10:00:00Z";
  Visitor.event := Some "pageview"
|}.

Definition all_keys : Settings.t := {|
  Settings.apollo_api_key := "apollo-key";
  Settings.hunter_api_key := "hunter-key";
  Settings.openai_api_key := "openai-key";
  Settings.ipinfo_token := "";
  Settings.slack_webhook_url := "https://hooks.slack.com/services/T0/B0/XYZ"
|}.

Definition no_keys : Settings.t := {|
  Settings.apollo_api_key := "";
  Settings.hunter_api_key := "";
  Settings.openai_api_key := "";
  Settings.ipinfo_token := "";
  Settings.slack_webhook_url := ""
|}.

(** Only the scoring engine is configured. *)
Definition engine_only : Settings.t := {|
  Settings.apollo_api_key := "";
  Settings.hunter_api_key := "";
  Settings.openai_api_key := "openai-key";
  Settings.ipinfo_token := "";
  Settings.slack_webhook_url := ""
|}.

Definition shopify_org (revenue : Z) : ApolloOrg.t := {|
  ApolloOrg.name := Val "Shopify";
  ApolloOrg.primary_domain := Val "shopify.com";
  ApolloOrg.industry := Val "E-commerce";
  ApolloOrg.estimated_num_employees := Val 4500;
  ApolloOrg.country := Val "Canada";
  ApolloOrg.city := Val "Ottawa";
  ApolloOrg.short_description := Val "Commerce platform";
  ApolloOrg.latest_funding_stage := Val "IPO";
  ApolloOrg.total_funding := Val 122000000;
  ApolloOrg.annual_revenue := Val revenue;
  ApolloOrg.linkedin_url := Val "https://www.linkedin.com/company/shopify"
|}.


Definition jane : HunterEmail.t := {|
  HunterEmail.first_name := Val "Jane";
  HunterEmail.last_name := Val "Doe";
  HunterEmail.value := Val "jane.doe@shopify.com";
  HunterEmail.position := Val "Head of Growth";
  HunterEmail.department := Val "marketing";
  HunterEmail.seniority := Val "executive";
  HunterEmail.linkedin := Absent;
  HunterEmail.confidence := Val 94
|}.

(** A generic address: Hunter knows no name for it. *)
Definition info_address : HunterEmail.t := {|
  HunterEmail.first_name := Null;
  HunterEmail.last_name := Null;
  HunterEmail.value := Val "info@shopify.com";
  HunterEmail.position := Null;
  HunterEmail.department := Null;
  HunterEmail.seniority := Null;
  HunterEmail.linkedin := Null;
  HunterEmail.confidence := Val 80
|}.

(** An answer of the scoring engine with the given score and tier. *)
Definition engine_members (score tier : Json) : list (string * Json) :=
  [("icp_score", score);
   ("tier", tier);
   ("match_reasons", JArr [JStr "ICP industry match"]);
   ("intent_signals", JArr [JStr "Visited /pricing"]);
   ("recommended_action", JStr "book_demo");
   ("urgency", JStr "high");
   ("research_summary", JStr "E-commerce company in the ICP.");
   ("talking_points", JArr [JStr "Pricing page visit"]);
   ("email_draft", JObj [("subject", JStr "Hello"); ("body", JStr "Hi there")])].

Definition engine_record (score : Z) (tier : string) : Scoring.t :=
  Scoring.of_members (engine_members (JInt score) (JStr tier)).

Definition shopify_ipinfo : IpinfoBody.t := {|
  IpinfoBody.org := Val "14061 Shopify Inc"; IpinfoBody.city := Val "Ottawa";
  IpinfoBody.region := Val "Ontario"; IpinfoBody.country := Val "CA" |}.

(** Every service answers; the engine answers with [answer], the Slack
    webhook is unreachable. *)
Definition answering_world (org : ApolloOrg.t) (emails : list HunterEmail.t) (answer : Json)
  : World.t := {|
  World.ipinfo := fun _ => Response 200 "" (Some shopify_ipinfo);
  World.apollo := fun _ _ => Response 200 "" (Some (Some org));
  World.hunter := fun _ _ => Response 200 "" (Some emails);
  World.openai := fun _ _ => Response 200 "" (Some answer);
  World.slack := fun _ _ => Failure "ConnectError"
|}.

(** The engine returns [score] and [tier]. *)
Definition sample_world (revenue score : Z) (tier : string) : World.t :=
  answering_world (shopify_org revenue) [jane] (JObj (engine_members (JInt score) (JStr tier))).

(** No service can be reached. *)
Definition offline_world : World.t := {|
  World.ipinfo := fun _ => Failure "ConnectTimeout";
  World.apollo := fun _ _ => Failure "ConnectTimeout";
  World.hunter := fun _ _ => Failure "ConnectTimeout";
  World.openai := fun _ _ => Failure "ConnectTimeout";
  World.slack := fun _ _ => Failure "ConnectTimeout"
|}.


Definition jane_contact : Contact.t := contact_of_email jane.

Definition shopify_save (lead_id : string) (revenue : Z) (contacts : list Contact.t)
  : SaveCall :=
  Rb2bSave lead_id (company_of_org (shopify_org revenue) "shopify.com") contacts
    (engine_record 75 "hot") (rb2b_person sample_data) sample_data.

(** The database after a first save for shopify.com, and after a second
    one with another payload. *)
Definition first_saved : DB.t :=
  Run.db (run_save (shopify_save "rb2b_1700000000_john.smi" 100 [jane_contact]) DB.empty).

Definition second_saved : DB.t :=
  Run.db (run_save (shopify_save "rb2b_1700000100_john.smi" 200 []) first_saved).

(** Who a contact row is: company, name, email. *)
Definition contact_identity (c : ContactRow.t) : option Z * option string * option string :=
  (ContactRow.company_id c, ContactRow.name c, ContactRow.email c).

(** * The API endpoints

    The endpoints that hand an event to a pipeline, and those that read
    or delete what the pipelines stored.  [get_leads] and [get_visitors]
    sort by [created_at], which the rows here do not hold, and are left
    out. *)

(** ** The tracking webhook: [receive_visitor] *)

(** The "get real IP" block.  [headers] is the request's header map,
    keyed by the lower-cased header name; [client_host] is
    [request.client.host], absent when [request.client] is. *)
Definition request_client_ip (headers : gmap string string) (client_host : option string)
  : string :=
  let client_ip :=
    PyStr.strip (PyStr.before_first "," (get_or (headers !! "x-forwarded-for") "")) in
  let client_ip :=
    if PyStr.truthy client_ip then client_ip else get_or (headers !! "x-real-ip") "" in
  if PyStr.truthy client_ip then client_ip else get_or client_host "".

(** The acknowledgement: [{"status": .., "ip": ..}] or
    [{"status": .., "message": ..}]. *)
Module Ack.
Record t := {
  status : string;
  ip : option string;
  message : option string
}.
End Ack.

(** The endpoint answers at once and leaves the pipeline to run as a
    background task, after the response: the acknowledgement and the
    task it queued. *)
Definition receive_visitor (w : World.t) (settings : Settings.t) (now : Z)
    (headers : gmap string string) (client_host : option string) (visitor : Visitor.t)
  : Ack.t * M unit :=
  let client_ip := request_client_ip headers client_host in
  ({| Ack.status := "received"; Ack.ip := Some client_ip; Ack.message := None |},
   process_visitor w settings now visitor client_ip).

(** ** The identification webhook: [rb2b_webhook]

    [body] is [await request.json()]: [inl] the decoded object, [inr]
    the text of the exception when the body does not decode. *)
Definition rb2b_webhook (w : World.t) (settings : Settings.t) (now : Z)
    (body : gmap string string + string) : Ack.t * option (M (option Rb2bResult.t)) :=
  match body with
  | inl rb2b_data =>
      ({| Ack.status := "received"; Ack.ip := None;
          Ack.message := Some "Processing RB2B lead" |},
       Some (process_rb2b_lead w settings now rb2b_data))
  | inr exn =>
      ({| Ack.status := "error"; Ack.ip := None; Ack.message := Some exn |}, None)
  end.

(** ** [test_rb2b] *)

(** The pipeline runs on [sample_data] within the request; the answer
    is [{"status": "success", "result": result}]. *)
Definition test_rb2b (w : World.t) (settings : Settings.t) (now : Z)
  : M (string * option Rb2bResult.t) :=
  result <- process_rb2b_lead w settings now sample_data ;;
  ret ("success", result).

(** ** [test_visitor] *)

(** The cased characters below 256: the letters, the two ordinal
    indicators and the micro sign. *)
Definition is_cased (c : ascii) : bool :=
  let n := nat_of_ascii c in
  (((65 <=? n)%nat && (n <=? 90)%nat) || ((97 <=? n)%nat && (n <=? 122)%nat)
   || (n =? 170)%nat || (n =? 181)%nat || (n =? 186)%nat
   || ((192 <=? n)%nat && (n <=? 214)%nat) || ((216 <=? n)%nat && (n <=? 246)%nat)
   || ((248 <=? n)%nat && (n <=? 255)%nat))%bool.

(** The title case of one character: the capital of a small letter, "Ss"
    for the sharp s.  (The capitals of the micro sign and of the y with
    diaeresis lie above 255; the two are kept as they are.) *)
Definition title_char (c : ascii) : string :=
  let n := nat_of_ascii c in
  if (((97 <=? n)%nat && (n <=? 122)%nat) || ((224 <=? n)%nat && (n <=? 246)%nat)
      || ((248 <=? n)%nat && (n <=? 254)%nat))%bool
  then String (ascii_of_nat (n - 32)) EmptyString
  else if (n =? 223)%nat then "Ss"
  else String c EmptyString.

(** [str.title]: a character that follows a cased one is lower-cased,
    any other is title-cased. *)
Fixpoint title_from (previous_is_cased : bool) (s : string) : string :=
  match s with
  | EmptyString => EmptyString
  | String c s' =>
      (if previous_is_cased then String (PyStr.lower_char c) EmptyString else title_char c)
      +:+ title_from (is_cased c) s'
  end.

Definition title (s : string) : string := title_from false s.

(** The answer of [test_visitor]; its scoring is the default dict or
    whatever the engine answered with. *)
Module TestResult.
Record t := {
  lead_id : string;
  company : Company.t;
  contacts : list Contact.t;
  scoring : Json
}.
End TestResult.

(** The shell of [test_visitor] has four keys (no country). *)
Definition test_shell (domain : string) : Company.t := {|
  Company.name := Val (title (PyStr.before_first "." domain));
  Company.domain := Val domain;
  Company.industry := Val "Unknown";
  Company.employee_count := Val 0;
  Company.country := Absent;
  Company.city := Absent; Company.description := Absent; Company.funding_stage := Absent;
  Company.total_funding := Absent; Company.annual_revenue := Absent;
  Company.linkedin_url := Absent
|}.

Definition test_default_scoring : Json :=
  JObj [("icp_score", JInt 50); ("tier", JStr "warm"); ("match_reasons", JArr []);
        ("intent_signals", JArr []); ("research_summary", JStr "Test lead");
        ("talking_points", JArr []); ("email_draft", JObj [])].

Definition test_visit_data : VisitData.t := {|
  VisitData.pages_viewed := [JStr "/"; JStr "/pricing"];
  VisitData.visit_duration := 120;
  VisitData.referrer := Some ""
|}.

Definition test_visitor (w : World.t) (settings : Settings.t) (now : Z) (domain : string)
  : M TestResult.t :=
  let lead_id := "test_" +:+ PyStr.of_Z now in
  let shell := test_shell domain in
  company <-
    (if PyStr.truthy (Settings.apollo_api_key settings)
     then
       result <- enrich_company_apollo w domain (Settings.apollo_api_key settings) ;;
       match result with
       | Success data => ret data
       | Fail _ => ret shell
       end
     else ret shell) ;;
  contacts <-
    (if PyStr.truthy (Settings.hunter_api_key settings)
     then
       result <- find_contacts_hunter w domain (Settings.hunter_api_key settings) ;;
       match result with
       | Success cs => ret cs
       | Fail _ => ret []
       end
     else ret []) ;;
  scoring <-
    (if PyStr.truthy (Settings.openai_api_key settings)
     then
       result <- score_lead_openai w company contacts test_visit_data Person.empty
                   (Settings.openai_api_key settings) icp_config ;;
       match result with
       | Success data => ret data
       | Fail _ => ret test_default_scoring
       end
     else ret test_default_scoring) ;;
  ret {| TestResult.lead_id := lead_id; TestResult.company := company;
         TestResult.contacts := contacts; TestResult.scoring := scoring |}.

(** ** [get_lead] *)

(** The columns of the joined company; all NULL when the LEFT JOIN finds
    no company row. *)
Module CompanyView.
Record t := {
  company_name : option string;
  domain : option string;
  industry : option string;
  employee_count : option Z;
  country : option string;
  city : option string;
  description : option string;
  funding_stage : option string;
  total_funding : option Z;
  linkedin_url : option string
}.

Definition null : t := {|
  company_name := None; domain := None; industry := None; employee_count := None;
  country := None; city := None; description := None; funding_stage := None;
  total_funding := None; linkedin_url := None
|}.

Definition of_row (c : CompanyRow.t) : t := {|
  company_name := CompanyRow.name c;
  domain := CompanyRow.domain c;
  industry := CompanyRow.industry c;
  employee_count := CompanyRow.employee_count c;
  country := CompanyRow.country c;
  city := CompanyRow.city c;
  description := CompanyRow.description c;
  funding_stage := CompanyRow.funding_stage c;
  total_funding := CompanyRow.total_funding c;
  linkedin_url := CompanyRow.linkedin_url c
|}.
End CompanyView.

Module LeadDetail.
Record t := {
  lead : LeadRow.t;
  company : CompanyView.t;
  contacts : list ContactRow.t
}.
End LeadDetail.

(** [leads l LEFT JOIN companies c ON l.company_id = c.id]: a NULL
    [company_id] matches no row. *)
Definition joined_company (l : LeadRow.t) (d : DB.t) : CompanyView.t :=
  match LeadRow.company_id l with
  | Some cid =>
      match List.find (fun c => Z.eqb (CompanyRow.id c) cid) (Table.rows (DB.companies d)) with
      | Some c => CompanyView.of_row c
      | None => CompanyView.null
      end
  | None => CompanyView.null
  end.

(** [SELECT * FROM contacts WHERE company_id = ?]. *)
Definition contacts_of_company (company_id : option Z) (d : DB.t) : list ContactRow.t :=
  match company_id with
  | Some cid =>
      List.filter (fun c => match ContactRow.company_id c with
                            | Some x => Z.eqb x cid
                            | None => false
                            end)
                  (Table.rows (DB.contacts d))
  | None => []
  end.

Definition get_lead (lead_id : string) : M LeadDetail.t :=
  d <- get_db ;;
  match List.find (fun l => String.eqb (LeadRow.lead_id l) lead_id) (Table.rows (DB.leads d)) with
  | None => raise "404: Lead not found"
  | Some l =>
      ret {| LeadDetail.lead := l;
             LeadDetail.company := joined_company l d;
             LeadDetail.contacts := contacts_of_company (LeadRow.company_id l) d |}
  end.

(** ** [delete_lead] *)

Definition delete_lead (lead_id : string) : M string :=
  transaction (
    d <- get_db ;;
    put_db (DB.with_leads
              (Table.delete (fun l => String.eqb (LeadRow.lead_id l) lead_id) (DB.leads d)) d) ;;;
    ret "deleted").

(** ** [get_stats]: the counts

    [avg_score] is a float rounded to one decimal and is left out. *)

Definition count_where {R : Type} (p : R -> bool) (tb : Table.t R) : nat :=
  List.length (List.filter p (Table.rows tb)).

Module Stats.
Record t := {
  total_leads : nat;
  hot_leads : nat;
  warm_leads : nat;
  cold_leads : nat;
  total_visits : nat;
  rb2b_leads : nat
}.
End Stats.

Definition get_stats : M Stats.t :=
  d <- get_db ;;
  ret {|
    Stats.total_leads := count_where (fun _ => true) (DB.leads d);
    Stats.hot_leads := count_where (fun l => cell_is "hot" (LeadRow.tier l)) (DB.leads d);
    Stats.warm_leads := count_where (fun l => cell_is "warm" (LeadRow.tier l)) (DB.leads d);
    Stats.cold_leads := count_where (fun l => cell_is "cold" (LeadRow.tier l)) (DB.leads d);
    Stats.total_visits := count_where (fun _ => true) (DB.visitors d);
    Stats.rb2b_leads := count_where (fun l => String.eqb (LeadRow.source l) "rb2b") (DB.leads d)
  |}.

(** * Vocabulary of the further statements *)

(** ** The calls of the lookups *)

(** The lookup of [lookup_company_from_ip] is skipped for these. *)
Definition ip_skipped (ip : string) : bool :=
  negb (PyStr.truthy ip) || in_list ip ["127.0.0.1"; "localhost"; "::1"; ""].

Definition ipinfo_calls (w : World.t) (ip token : string) : list Event :=
  if ip_skipped ip then []
  else [IpinfoCall (ipinfo_url ip token) (World.ipinfo w (ipinfo_url ip token))].

Definition apollo_calls (w : World.t) (domain api_key : string) : list Event :=
  if negb (PyStr.truthy api_key) || negb (PyStr.truthy domain) then []
  else [ApolloCall api_key domain (World.apollo w api_key domain)].

Definition hunter_calls (w : World.t) (domain api_key : string) : list Event :=
  if negb (PyStr.truthy api_key) || negb (PyStr.truthy domain) then []
  else [HunterCall api_key domain (World.hunter w api_key domain)].

(** The engine is called once the prompt is built. *)
Definition openai_calls (w : World.t) (api_key : string) (prompt : Checked Prompt.t)
  : list Event :=
  if negb (PyStr.truthy api_key) then []
  else match prompt with
       | Done p => [OpenAICall api_key p (World.openai w api_key p)]
       | Throws _ => []
       end.

(** A reply that carries a usable body. *)
Definition usable {A : Type} (reply : Http A) : option A :=
  match reply with
  | Response status_code _ (Some body) => if Z.eqb status_code 200 then Some body else None
  | _ => None
  end.

(** What [score_lead_openai] gives for a prompt: nothing asked without a
    key, the exception of the prompt, or the envelope of the reply. *)
Definition engine_outcome (w : World.t) (api_key : string) (prompt : Checked Prompt.t)
  : Outcome (option Json) :=
  if negb (PyStr.truthy api_key) then Returned None
  else match prompt with
       | Done p => Returned (usable (World.openai w api_key p))
       | Throws exn => Raised exn
       end.

Definition same_service (a b : Service) : bool :=
  match a, b with
  | Ipinfo, Ipinfo | Apollo, Apollo | Hunter, Hunter | OpenAI, OpenAI
  | Slack, Slack | Sqlite, Sqlite => true
  | _, _ => false
  end.

(** The number of events of a service in a trace. *)
Definition calls_to (sv : Service) (tr : list Event) : nat :=
  List.length (List.filter (fun e => same_service (service e) sv) tr).

(** [subsequence xs ys]: [xs] is [ys] with some elements left out. *)
Fixpoint subsequence (xs ys : list Service) : bool :=
  match xs, ys with
  | [], _ => true
  | _ :: _, [] => false
  | x :: xs', y :: ys' =>
      if same_service x y then subsequence xs' ys' else subsequence xs ys'
  end.

(** ** The values of a webhook run *)

Section Rb2bRun.
Variables (w : World.t) (settings : Settings.t) (rb2b_data : gmap string string).

Definition rb2b_domain : string := email_domain (rb2b_email rb2b_data).

Definition rb2b_shell : Company.t :=
  Company.shell (PyStr.or_else (field rb2b_data "Company" "company") rb2b_domain)
    rb2b_domain (Some "").

Definition rb2b_company : Company.t :=
  value (company_stage w settings rb2b_domain rb2b_shell) rb2b_shell.

Definition rb2b_contacts : list Contact.t :=
  value (contacts_stage w settings rb2b_domain) [].

Definition rb2b_prompt : Checked Prompt.t :=
  build_prompt rb2b_company rb2b_contacts rb2b_visit_data (rb2b_person rb2b_data) icp_config.

(** What the scoring block gives: the scoring dict the run goes on
    with, or the exception that ends the run. *)
Definition rb2b_scored : Outcome Scoring.t :=
  outcome_of (rb2b_scoring_stage w settings rb2b_company rb2b_contacts
                (rb2b_person rb2b_data) (rb2b_default rb2b_data rb2b_company)).

(** The calls of a webhook run before it saves. *)
Definition rb2b_lookups : list Event :=
  (apollo_calls w rb2b_domain (Settings.apollo_api_key settings)
   ++ hunter_calls w rb2b_domain (Settings.hunter_api_key settings)
   ++ openai_calls w (Settings.openai_api_key settings) rb2b_prompt)%list.

End Rb2bRun.

(** ** The values of a tracking run *)

Section TrackingRun.
Variables (w : World.t) (settings : Settings.t) (visitor : Visitor.t) (client_ip : string).

Definition tracking_ip : string := effective_ip visitor client_ip.

Definition tracking_ip_result : Result IpData.t :=
  value (lookup_company_from_ip w tracking_ip (Settings.ipinfo_token settings)) (Fail "").

Definition tracking_identified : string :=
  match tracking_ip_result with Success data => IpData.company_name data | Fail _ => "" end.

Definition tracking_domain : string :=
  match tracking_ip_result with Success data => IpData.domain data | Fail _ => "" end.

Definition tracking_country : option string :=
  match tracking_ip_result with Success data => IpData.country data | Fail _ => Some "" end.

Definition tracking_shell : Company.t :=
  Company.shell (PyStr.or_else tracking_identified "Unknown") tracking_domain tracking_country.

Definition tracking_company : Company.t :=
  value (company_stage w settings tracking_domain tracking_shell) tracking_shell.

Definition tracking_contacts : list Contact.t :=
  value (contacts_stage w settings tracking_domain) [].

Definition tracking_prompt : Checked Prompt.t :=
  build_prompt tracking_company tracking_contacts (tracking_visit_data visitor) Person.empty
    icp_config.

Definition tracking_default : Scoring.t :=
  tracking_default_scoring tracking_identified tracking_ip.

Definition tracking_scored : Outcome Scoring.t :=
  outcome_of (tracking_scoring_stage w settings tracking_identified tracking_company
                tracking_contacts visitor tracking_default).

(** The calls of a tracking run between the visitor write and the save;
    the engine is asked only when an organisation was identified. *)
Definition tracking_lookups : list Event :=
  (ipinfo_calls w tracking_ip (Settings.ipinfo_token settings)
   ++ apollo_calls w tracking_domain (Settings.apollo_api_key settings)
   ++ hunter_calls w tracking_domain (Settings.hunter_api_key settings)
   ++ (if PyStr.truthy tracking_identified
       then openai_calls w (Settings.openai_api_key settings) tracking_prompt
       else []))%list.

End TrackingRun.

(** ** Where a call goes

    [addressed settings ip domain e]: the call [e] carries the
    credential configured for its own service, and its target is the
    given IP or domain. *)
Definition addressed (settings : Settings.t) (ip domain : string) (e : Event) : bool :=
  match e with
  | IpinfoCall url _ => String.eqb url (ipinfo_url ip (Settings.ipinfo_token settings))
  | ApolloCall api_key dom _ =>
      String.eqb api_key (Settings.apollo_api_key settings)
      && PyStr.truthy api_key && String.eqb dom domain && PyStr.truthy dom
  | HunterCall api_key dom _ =>
      String.eqb api_key (Settings.hunter_api_key settings)
      && PyStr.truthy api_key && String.eqb dom domain && PyStr.truthy dom
  | OpenAICall api_key _ _ =>
      String.eqb api_key (Settings.openai_api_key settings) && PyStr.truthy api_key
  | SlackCall webhook_url _ _ =>
      String.eqb webhook_url (Settings.slack_webhook_url settings) && PyStr.truthy webhook_url
  | VisitorCommitted _ => true
  | LeadCommitted _ => true
  end.

(** The prompts sent to the scoring engine in a trace. *)
Fixpoint prompts (tr : list Event) : list Prompt.t :=
  match tr with
  | [] => []
  | OpenAICall _ prompt _ :: tr' => prompt :: prompts tr'
  | _ :: tr' => prompts tr'
  end.

Definition has_body {A : Type} (reply : Http A) : bool :=
  match usable reply with Some _ => true | None => false end.

Definition has_organization (reply : Http (option ApolloOrg.t)) : bool :=
  match usable reply with Some (Some _) => true | _ => false end.

(** ** Characters of a lead identifier *)

Definition not_underscore (c : ascii) : bool := negb (Ascii.eqb c "_").

(** ** The constraints of the schema *)

(** No element occurs twice. *)
Fixpoint distinct {A : Type} (eq : A -> A -> bool) (l : list A) : bool :=
  match l with
  | [] => true
  | x :: l' => negb (List.existsb (eq x) l') && distinct eq l'
  end.

(** [id INTEGER PRIMARY KEY AUTOINCREMENT]: the ids are positive and
    pairwise distinct, and none is above the table's sequence. *)
Definition autoincrement {R : Type} `{HasId R} (tb : Table.t R) : bool :=
  Z.leb 0 (Table.seq tb)
  && distinct Z.eqb (List.map row_id (Table.rows tb))
  && List.forallb (fun r => Z.ltb 0 (row_id r) && Z.leb (row_id r) (Table.seq tb))
       (Table.rows tb).

(** The domains of the company rows; a NULL domain is no value. *)
Definition domains (rows : list CompanyRow.t) : list string :=
  List.flat_map (fun r => match CompanyRow.domain r with
                          | Some x => [x]
                          | None => []
                          end) rows.

(** The four primary keys, [companies.domain TEXT UNIQUE] and
    [leads.lead_id TEXT UNIQUE]. *)
Definition constraints_hold (d : DB.t) : bool :=
  autoincrement (DB.visitors d) && autoincrement (DB.companies d)
  && autoincrement (DB.contacts d) && autoincrement (DB.leads d)
  && distinct String.eqb (domains (Table.rows (DB.companies d)))
  && distinct String.eqb (List.map LeadRow.lead_id (Table.rows (DB.leads d))).

(** A company id that the companies table has handed out (or NULL). *)
Definition issued (tb : Table.t CompanyRow.t) (company_id : option Z) : bool :=
  match company_id with
  | Some i => Z.ltb 0 i && Z.leb i (Table.seq tb)
  | None => true
  end.

(** The [company_id] of every contact and lead was handed out by the
    companies table.  (The schema declares the foreign keys; SQLite does
    not enforce them unless asked to.) *)
Definition references_issued (d : DB.t) : bool :=
  List.forallb (fun c => issued (DB.companies d) (ContactRow.company_id c))
    (Table.rows (DB.contacts d))
  && List.forallb (fun l => issued (DB.companies d) (LeadRow.company_id l))
       (Table.rows (DB.leads d)).

(** ** The first non-empty candidate *)

(** [a or b or ... or ""]. *)
Fixpoint first_truthy (candidates : list string) : string :=
  match candidates with
  | [] => ""
  | s :: rest => if PyStr.truthy s then s else first_truthy rest
  end.

(** The first hop of [X-Forwarded-For], stripped. *)
Definition forwarded_for (headers : gmap string string) : string :=
  PyStr.strip (PyStr.before_first "," (get_or (headers !! "x-forwarded-for") "")).

Definition not_comma (c : ascii) : bool := negb (Ascii.eqb c ",").

(** ** The values of a [test_visitor] call *)

Section TestRun.
Variables (w : World.t) (settings : Settings.t) (domain : string).

Definition test_company : Company.t :=
  match value (enrich_company_apollo w domain (Settings.apollo_api_key settings)) (Fail "") with
  | Success data => data
  | Fail _ => test_shell domain
  end.

Definition test_contacts : list Contact.t :=
  match value (find_contacts_hunter w domain (Settings.hunter_api_key settings)) (Fail "") with
  | Success cs => cs
  | Fail _ => []
  end.

Definition test_prompt : Checked Prompt.t :=
  build_prompt test_company test_contacts test_visit_data Person.empty icp_config.

(** The scoring of the answer, when the call returns. *)
Definition test_scoring : Json :=
  match engine_outcome w (Settings.openai_api_key settings) test_prompt with
  | Returned (Some data) => data
  | _ => test_default_scoring
  end.

Definition test_lookups : list Event :=
  (apollo_calls w domain (Settings.apollo_api_key settings)
   ++ hunter_calls w domain (Settings.hunter_api_key settings)
   ++ openai_calls w (Settings.openai_api_key settings) test_prompt)%list.

End TestRun.

(** ** Case analysis on the conditions of a trace *)

Ltac split_ifs :=
  repeat match goal with
         | |- context [if ?c then _ else _] => destruct c
         | |- context [match ?c with Done _ => _ | Throws _ => _ end] => destruct c
         end.

(** ** Further sample inputs *)

(** A request that came through two proxies. *)
Definition sample_headers : gmap string string :=
  list_to_map [("x-forwarded-for", " 203.0.113.7 , 10.0.0.1"); ("x-real-ip", "10.0.0.1")].

(** A webhook event whose email has no domain. *)
Definition domainless_data : gmap string string :=
  list_to_map [("First Name", "John"); ("Email", "john"); ("Company", "Acme")].

(** ** Organisation names outside ASCII *)




(** * Properties *)

(** ** The string builtins on examples *)

Example lower_mixed : PyStr.lower "Shopify Inc" = "shopify inc".
Proof. reflexivity. Qed.

Example remove_inc : PyStr.remove "inc" "shopifyinc" = "shopify".
Proof. reflexivity. Qed.

Example remove_overlap : PyStr.remove "aa" "aaa" = "a".
Proof. reflexivity. Qed.

Example after_last_at : PyStr.after_last "@" "a@b@shopify.com" = "shopify.com".
Proof. reflexivity. Qed.

Example strip_both : PyStr.strip "  John Smith " = "John Smith".
Proof. reflexivity. Qed.

Example of_Z_1700 : PyStr.of_Z 1700000000 = "1700000000".
Proof. reflexivity. Qed.

Example title_notion : title "notion" = "Notion" /\ title "my-site" = "My-Site".
Proof. split; reflexivity. Qed.

(** ** The effect monad *)

Lemma bind_run {A B : Type} (m : M A) (k : A -> M B) (d d1 : DB.t) (a : A) (tr : list Event) :
  m d = mk_run (Returned a) d1 tr -> bind m k d = after tr (k a d1).
Proof. intros E. unfold bind. rewrite E. reflexivity. Qed.

Lemma bind_raise {A B : Type} (m : M A) (k : A -> M B) (d d1 : DB.t) (exn : string)
    (tr : list Event) :
  m d = mk_run (Raised exn) d1 tr -> bind m k d = mk_run (Raised exn) d1 tr.
Proof. intros E. unfold bind. rewrite E. reflexivity. Qed.

Lemma after_mk {A : Type} (tr tr' : list Event) (o : Outcome A) (d : DB.t) :
  after tr (mk_run o d tr') = mk_run o d (tr ++ tr').
Proof. reflexivity. Qed.

Lemma after_nil {A : Type} (r : Run.t A) : after [] r = r.
Proof. destruct r. reflexivity. Qed.

Lemma ret_run {A : Type} (a : A) (d : DB.t) : ret a d = mk_run (Returned a) d [].
Proof. reflexivity. Qed.

Lemma raise_run {A : Type} (exn : string) (d : DB.t) :
  @raise A exn d = mk_run (Raised exn) d [].
Proof. reflexivity. Qed.

Lemma emit_run (e : Event) (d : DB.t) : emit e d = mk_run (Returned tt) d [e].
Proof. reflexivity. Qed.

Lemma http_run {A : Type} (reply : Http A) (ev : Http A -> Event) (d : DB.t) :
  http reply ev d = mk_run (Returned reply) d [ev reply].
Proof. reflexivity. Qed.

Lemma lift_run {A : Type} (c : Checked A) (d : DB.t) :
  lift c d = match c with
             | Done a => mk_run (Returned a) d []
             | Throws exn => mk_run (Raised exn) d []
             end.
Proof. destruct c; reflexivity. Qed.

Lemma transaction_commit {A : Type} (body : M A) (d d1 : DB.t) (a : A) (tr : list Event) :
  body d = mk_run (Returned a) d1 tr -> transaction body d = mk_run (Returned a) d1 tr.
Proof. intros E. unfold transaction. rewrite E. reflexivity. Qed.

Lemma transaction_rollback {A : Type} (body : M A) (d d1 : DB.t) (exn : string)
    (tr : list Event) :
  body d = mk_run (Raised exn) d1 tr -> transaction body d = mk_run (Raised exn) d tr.
Proof. intros E. unfold transaction. rewrite E. reflexivity. Qed.

(** *** Computations that do not touch the database *)

Lemma stateless_ret {A : Type} (a : A) : stateless (ret a).
Proof. intros d. reflexivity. Qed.

Lemma stateless_raise {A : Type} (exn : string) : stateless (@raise A exn).
Proof. intros d. reflexivity. Qed.

Lemma stateless_lift {A : Type} (c : Checked A) : stateless (lift c).
Proof. intros d. destruct c; reflexivity. Qed.

Lemma stateless_http {A : Type} (reply : Http A) (ev : Http A -> Event) :
  stateless (http reply ev).
Proof. intros d. reflexivity. Qed.

Lemma stateless_bind {A B : Type} (m : M A) (k : A -> M B) :
  stateless m -> (forall a, stateless (k a)) -> stateless (bind m k).
Proof.
  intros Hm Hk d. unfold outcome_of, calls, bind.
  rewrite (Hm d), (Hm DB.empty). cbn [mk_run Run.outcome Run.db Run.trace].
  destruct (outcome_of m) as [a|exn]; [|reflexivity].
  rewrite (Hk a d), (Hk a DB.empty). reflexivity.
Qed.

Lemma outcome_of_bind {A B : Type} (m : M A) (k : A -> M B) :
  stateless m ->
  outcome_of (bind m k)
  = match outcome_of m with
    | Returned a => outcome_of (k a)
    | Raised exn => Raised exn
    end.
Proof.
  intros Hm. unfold outcome_of at 1. unfold bind. rewrite (Hm DB.empty).
  cbn [mk_run Run.outcome Run.db]. destruct (outcome_of m); reflexivity.
Qed.

Lemma calls_bind {A B : Type} (m : M A) (k : A -> M B) :
  stateless m ->
  calls (bind m k)
  = (calls m ++ match outcome_of m with
                | Returned a => calls (k a)
                | Raised _ => []
                end)%list.
Proof.
  intros Hm. unfold calls at 1. unfold bind. rewrite (Hm DB.empty).
  cbn [mk_run Run.outcome Run.db Run.trace].
  destruct (outcome_of m); [reflexivity|]. rewrite app_nil_r. reflexivity.
Qed.

Lemma stateless_run {A : Type} (m : M A) (d : DB.t) :
  stateless m -> m d = mk_run (outcome_of m) d (calls m).
Proof. intros Hm. apply Hm. Qed.

(** ** AUTOINCREMENT ids *)

Section Ids.
Context {R : Type} `{HasId R}.

Lemma max_id_bound (rs : list R) (r : R) : In r rs -> row_id r <= Table.max_id rs.
Proof.
  induction rs as [|x rs IH]; simpl; [tauto|].
  intros [->|Hin]; [lia|]. specialize (IH Hin). lia.
Qed.

Lemma next_id_fresh (tb : Table.t R) (r : R) :
  In r (Table.rows tb) -> row_id r < Table.next_id tb.
Proof. intros Hin. apply max_id_bound in Hin. unfold Table.next_id. lia. Qed.

Lemma max_id_nonneg (rs : list R) : 0 <= Table.max_id rs.
Proof. induction rs; simpl; lia. Qed.

Lemma next_id_positive (tb : Table.t R) : 0 < Table.next_id tb.
Proof. unfold Table.next_id. pose proof (max_id_nonneg (Table.rows tb)). lia. Qed.
End Ids.

Lemma existsb_false {A : Type} (p : A -> bool) (l : list A) :
  (forall x, In x l -> p x = false) -> List.existsb p l = false.
Proof.
  induction l as [|x l IH]; simpl; intros Hp; [reflexivity|].
  rewrite Hp by auto. apply IH. auto.
Qed.

(** ** Binding the integers of a statement *)

Lemma bind_int_run (v : option Z) (d : DB.t) :
  (lift (bind_int v) ;;; ret tt)%py d
  = if int_binds v then mk_run (Returned tt) d [] else mk_run (Raised overflow_error) d [].
Proof.
  destruct v as [n|]; [|reflexivity]. unfold bind, lift, bind_int, int_binds.
  destruct (int64 n); reflexivity.
Qed.

Lemma bind_ints_run (params : list (option Z)) (d : DB.t) :
  bind_ints params d
  = if List.forallb int_binds params
    then mk_run (Returned tt) d []
    else mk_run (Raised overflow_error) d [].
Proof.
  unfold bind_ints. induction params as [|v params IH]; [reflexivity|].
  cbn [for_each List.forallb].
  destruct (int_binds v) eqn:Hv.
  - erewrite bind_run by (rewrite bind_int_run, Hv; reflexivity).
    rewrite IH. destruct (List.forallb int_binds params); reflexivity.
  - erewrite bind_raise by (rewrite bind_int_run, Hv; reflexivity). reflexivity.
Qed.

(** ** What the two save functions do to the database *)

Lemma contact_never_conflicts (tb : Table.t ContactRow.t) (cid : option Z) (c : Contact.t) :
  List.existsb (contact_conflict (contact_row cid c (Table.next_id tb))) (Table.rows tb) = false.
Proof.
  apply existsb_false. intros r Hin. unfold contact_conflict.
  cbn [contact_row ContactRow.id].
  apply (next_id_fresh tb) in Hin. change (row_id r) with (ContactRow.id r) in Hin.
  apply Z.eqb_neq. lia.
Qed.

Lemma with_contacts_id (d : DB.t) : DB.with_contacts (DB.contacts d) d = d.
Proof. destruct d; reflexivity. Qed.

Lemma insert_contact_run (cid : option Z) (c : Contact.t) (d : DB.t) :
  insert_or_ignore_contact cid c d
  = if int_binds (Contact.confidence c)
    then mk_run (Returned tt)
           (DB.with_contacts (Table.append (contact_row cid c) (DB.contacts d)) d) []
    else mk_run (Raised overflow_error) d [].
Proof.
  unfold insert_or_ignore_contact.
  destruct (int_binds (Contact.confidence c)) eqn:Hc.
  - erewrite bind_run
      by (rewrite bind_ints_run; cbn [List.forallb]; rewrite Hc; reflexivity).
    unfold bind, get_db; cbn. rewrite contact_never_conflicts. reflexivity.
  - erewrite bind_raise
      by (rewrite bind_ints_run; cbn [List.forallb]; rewrite Hc; reflexivity).
    reflexivity.
Qed.

(** The loop over the contacts inserts one row per contact, up to the
    first whose confidence does not bind. *)
Lemma save_contacts_run (cid : option Z) (cs : list Contact.t) (d : DB.t) :
  for_each cs (insert_or_ignore_contact cid) d =
  mk_run (if List.forallb (fun c => int_binds (Contact.confidence c)) cs
          then Returned tt else Raised overflow_error)
         (DB.with_contacts (contacts_after cid (binding_prefix cs) (DB.contacts d)) d) [].
Proof.
  revert d. induction cs as [|c cs IH]; intros d; cbn [for_each List.forallb binding_prefix].
  - cbn [contacts_after]. rewrite with_contacts_id. reflexivity.
  - destruct (int_binds (Contact.confidence c)) eqn:Hc; cbn [andb contacts_after].
    + erewrite bind_run by (rewrite insert_contact_run, Hc; reflexivity).
      rewrite IH, after_mk. destruct d; reflexivity.
    + erewrite bind_raise by (rewrite insert_contact_run, Hc; reflexivity).
      rewrite with_contacts_id. reflexivity.
Qed.

Lemma binding_prefix_all (cs : list Contact.t) :
  List.forallb (fun c => int_binds (Contact.confidence c)) cs = true -> binding_prefix cs = cs.
Proof.
  induction cs as [|c cs IH]; [reflexivity|]. cbn [List.forallb binding_prefix].
  intros Hall. apply andb_true_iff in Hall. destruct Hall as [-> Hall].
  rewrite (IH Hall). reflexivity.
Qed.

Lemma lead_conflict_taken (mk : Z -> LeadRow.t) (lead_id : string) (d : DB.t) :
  (forall i, LeadRow.id (mk i) = i) ->
  (forall i, LeadRow.lead_id (mk i) = lead_id) ->
  List.existsb (lead_conflict (mk (Table.next_id (DB.leads d)))) (Table.rows (DB.leads d))
  = lead_id_taken lead_id d.
Proof.
  intros Hid Hmk. unfold lead_id_taken.
  pose proof (next_id_fresh (DB.leads d)) as Hfresh.
  induction (Table.rows (DB.leads d)) as [|r rs IH]; simpl; [reflexivity|].
  rewrite IH by (intros x Hx; apply Hfresh; right; exact Hx).
  f_equal. unfold lead_conflict. rewrite Hmk, Hid.
  specialize (Hfresh r (or_introl eq_refl)). change (row_id r) with (LeadRow.id r) in Hfresh.
  replace (Z.eqb (Table.next_id (DB.leads d)) (LeadRow.id r)) with false; [reflexivity|].
  symmetry. apply Z.eqb_neq. lia.
Qed.

Lemma insert_lead_run (mk : Z -> LeadRow.t) (lead_id : string) (d : DB.t) :
  (forall i, LeadRow.id (mk i) = i) ->
  (forall i, LeadRow.lead_id (mk i) = lead_id) ->
  insert_lead mk d =
  if lead_id_taken lead_id d
  then mk_run (Raised integrity_error) d []
  else mk_run (Returned (mk (Table.next_id (DB.leads d))))
              (DB.with_leads (Table.append mk (DB.leads d)) d) [].
Proof.
  intros Hid Hmk. unfold insert_lead, bind, get_db; simpl.
  rewrite (lead_conflict_taken mk lead_id d Hid Hmk).
  destruct (lead_id_taken lead_id d); reflexivity.
Qed.

Lemma insert_company_run (company : Company.t) (d : DB.t) :
  insert_or_replace_company company d =
  if List.forallb int_binds (company_ints company)
  then mk_run (Returned (Table.next_id (DB.companies d)))
         (DB.with_companies (companies_after company (DB.companies d)) d) []
  else mk_run (Raised overflow_error) d [].
Proof.
  unfold insert_or_replace_company.
  destruct (List.forallb int_binds (company_ints company)) eqn:Hc.
  - erewrite bind_run by (rewrite bind_ints_run, Hc; reflexivity). reflexivity.
  - erewrite bind_raise by (rewrite bind_ints_run, Hc; reflexivity). reflexivity.
Qed.

(** After the upsert the only row of the domain is the new one. *)
Lemma select_after_upsert (company : Company.t) (dom : string) (tb : Table.t CompanyRow.t) :
  field_get (Company.domain company) = Some dom ->
  List.find (fun r => match CompanyRow.domain r with
                      | Some x => String.eqb x dom
                      | None => false
                      end)
            (Table.rows (companies_after company tb))
  = Some (company_row company (Table.next_id tb)).
Proof.
  intros Hdom. unfold companies_after; simpl.
  induction (Table.rows tb) as [|r rs IH]; simpl.
  - rewrite Hdom, String.eqb_refl. reflexivity.
  - unfold company_conflict at 1; simpl. rewrite Hdom.
    destruct (CompanyRow.domain r) as [x|] eqn:Hx.
    + destruct (String.eqb dom x) eqn:Hdx.
      * rewrite orb_true_r. simpl. exact IH.
      * destruct (Z.eqb (Table.next_id tb) (CompanyRow.id r)); simpl; [exact IH|].
        rewrite Hx, String.eqb_sym, Hdx. exact IH.
    + rewrite orb_false_r.
      destruct (Z.eqb (Table.next_id tb) (CompanyRow.id r)); simpl; [exact IH|].
      rewrite Hx. exact IH.
Qed.

Lemma select_company_run (company : Company.t) (dom : string) (d : DB.t) :
  field_get (Company.domain company) = Some dom ->
  select_company_id dom (DB.with_companies (companies_after company (DB.companies d)) d) =
  mk_run (Returned (Some (Table.next_id (DB.companies d))))
         (DB.with_companies (companies_after company (DB.companies d)) d) [].
Proof.
  intros Hdom. unfold select_company_id.
  erewrite bind_run by reflexivity. cbn [DB.companies DB.with_companies].
  rewrite (select_after_upsert company dom _ Hdom). reflexivity.
Qed.

Lemma opt_truthy_some (o : option string) :
  opt_truthy o = true -> exists s, o = Some s /\ PyStr.truthy s = true.
Proof. destruct o as [s|]; simpl; [eauto|discriminate]. Qed.

(** The company block of [save_lead]: its writes when every integer
    binds, an [OverflowError] otherwise. *)
Lemma save_lead_company_run (company : Company.t) (contacts : list Contact.t) (d : DB.t) :
  exists d1,
    (if opt_truthy (field_get (Company.domain company))
     then
       lastrowid <- insert_or_replace_company company ;;
       company_id <-
         (if Z.eqb lastrowid 0
          then
            row <- select_company_id (get_or (field_get (Company.domain company)) "") ;;
            match row with
            | Some i => ret i
            | None => raise (not_subscriptable JNull)
            end
          else ret lastrowid) ;;
       for_each contacts (insert_or_ignore_contact (Some company_id)) ;;;
       ret (Some company_id)
     else ret None)%py d
    = if company_binds company contacts
      then mk_run (Returned (snd (company_saved company contacts d)))
             (fst (company_saved company contacts d)) []
      else mk_run (Raised overflow_error) d1 [].
Proof.
  unfold company_saved, company_binds.
  destruct (opt_truthy (field_get (Company.domain company))); [|exists d; reflexivity].
  destruct (List.forallb int_binds (company_ints company)) eqn:Hc; cbn [andb].
  - erewrite bind_run by (rewrite insert_company_run, Hc; reflexivity).
    pose proof (next_id_positive (DB.companies d)) as Hpos.
    destruct (Z.eqb (Table.next_id (DB.companies d)) 0) eqn:Hz; [apply Z.eqb_eq in Hz; lia|].
    erewrite bind_run by apply ret_run.
    destruct (List.forallb (fun c => int_binds (Contact.confidence c)) contacts) eqn:Hcs.
    + erewrite bind_run by (rewrite save_contacts_run, Hcs; reflexivity).
      rewrite (binding_prefix_all contacts Hcs). exists d. reflexivity.
    + erewrite bind_raise by (rewrite save_contacts_run, Hcs; reflexivity).
      eexists. reflexivity.
  - erewrite bind_raise by (rewrite insert_company_run, Hc; reflexivity).
    exists d. reflexivity.
Qed.

(** The company block of [save_rb2b_lead]. *)
Lemma save_rb2b_company_run (company : Company.t) (contacts : list Contact.t) (d : DB.t) :
  exists d1,
    (if opt_truthy (field_get (Company.domain company))
     then
       insert_or_replace_company company ;;;
       company_id <- select_company_id (get_or (field_get (Company.domain company)) "") ;;
       for_each contacts (insert_or_ignore_contact company_id) ;;;
       ret company_id
     else ret None)%py d
    = if company_binds company contacts
      then mk_run (Returned (snd (company_saved company contacts d)))
             (fst (company_saved company contacts d)) []
      else mk_run (Raised overflow_error) d1 [].
Proof.
  unfold company_saved, company_binds.
  destruct (opt_truthy (field_get (Company.domain company))) eqn:Hdom;
    [|exists d; reflexivity].
  destruct (opt_truthy_some _ Hdom) as (dom & Hd & _).
  destruct (List.forallb int_binds (company_ints company)) eqn:Hc; cbn [andb].
  - erewrite bind_run by (rewrite insert_company_run, Hc; reflexivity).
    rewrite Hd. cbn [get_or].
    erewrite bind_run by (apply select_company_run; exact Hd).
    destruct (List.forallb (fun c => int_binds (Contact.confidence c)) contacts) eqn:Hcs.
    + erewrite bind_run by (rewrite save_contacts_run, Hcs; reflexivity).
      rewrite (binding_prefix_all contacts Hcs). exists d. reflexivity.
    + erewrite bind_raise by (rewrite save_contacts_run, Hcs; reflexivity).
      eexists. reflexivity.
  - erewrite bind_raise by (rewrite insert_company_run, Hc; reflexivity).
    exists d. reflexivity.
Qed.

Lemma lead_insert_run (mk : Z -> LeadRow.t) (lead_id : string) (d : DB.t) :
  (forall i, LeadRow.id (mk i) = i) ->
  (forall i, LeadRow.lead_id (mk i) = lead_id) ->
  (row <- insert_lead mk ;; emit (LeadCommitted row))%py d =
  if lead_id_taken lead_id d
  then mk_run (Raised integrity_error) d []
  else mk_run (Returned tt) (DB.with_leads (Table.append mk (DB.leads d)) d)
              [LeadCommitted (mk (Table.next_id (DB.leads d)))].
Proof.
  intros Hid Hmk. unfold bind. rewrite (insert_lead_run mk lead_id d Hid Hmk).
  destruct (lead_id_taken lead_id d); reflexivity.
Qed.

Lemma company_saved_leads (company : Company.t) (contacts : list Contact.t) (d : DB.t) :
  DB.leads (fst (company_saved company contacts d)) = DB.leads d.
Proof.
  unfold company_saved. destruct (opt_truthy (field_get (Company.domain company))); reflexivity.
Qed.

(** The rest of a save, once the company block is through. *)
Lemma save_tail_run (lead_id : string) (cells : Checked LeadCells.t)
    (row : LeadCells.t -> option Z -> Z -> LeadRow.t) (company : Company.t)
    (contacts : list Contact.t) (block : M (option Z)) (d : DB.t) :
  (forall c cid i, LeadRow.id (row c cid i) = i) ->
  (forall c cid i, LeadRow.lead_id (row c cid i) = lead_id) ->
  (exists d1,
     block d = if company_binds company contacts
               then mk_run (Returned (snd (company_saved company contacts d)))
                      (fst (company_saved company contacts d)) []
               else mk_run (Raised overflow_error) d1 []) ->
  transaction (
    company_id <- block ;;
    cells <- lift cells ;;
    r <- insert_lead (row cells company_id) ;;
    emit (LeadCommitted r))%py d
  = saved lead_id company contacts (checked_map (fun c cid => row c cid) cells) d.
Proof.
  intros Hid Hlead (d1 & Hblock). unfold saved, finished.
  pose proof (company_saved_leads company contacts d) as Hl.
  destruct (company_binds company contacts).
  - destruct cells as [c|exn]; cbn [checked_map].
    + destruct (lead_id_taken lead_id d) eqn:Htaken.
      * eapply transaction_rollback.
        erewrite bind_run by exact Hblock.
        erewrite bind_run by (rewrite lift_run; reflexivity).
        rewrite (lead_insert_run _ lead_id) by (intros i; first [apply Hid|apply Hlead]).
        unfold lead_id_taken in *. rewrite Hl, Htaken. reflexivity.
      * eapply transaction_commit.
        erewrite bind_run by exact Hblock.
        erewrite bind_run by (rewrite lift_run; reflexivity).
        rewrite (lead_insert_run _ lead_id) by (intros i; first [apply Hid|apply Hlead]).
        unfold lead_id_taken in *. rewrite Hl, Htaken. reflexivity.
    + eapply transaction_rollback.
      erewrite bind_run by exact Hblock.
      erewrite bind_raise by (rewrite lift_run; reflexivity). reflexivity.
  - eapply transaction_rollback. erewrite bind_raise by exact Hblock. reflexivity.
Qed.

Lemma save_lead_run lead_id company contacts visitor scoring ip identified source person d :
  save_lead lead_id company contacts visitor scoring ip identified source person d =
  saved lead_id company contacts
    (tracking_row lead_id visitor scoring ip identified source person) d.
Proof.
  unfold save_lead, tracking_row.
  apply (save_tail_run lead_id (tracking_lead_cells visitor scoring)
           (fun c cid => tracking_lead_row lead_id cid visitor scoring c ip identified source
                           person));
    try reflexivity.
  apply save_lead_company_run.
Qed.

Lemma save_rb2b_lead_run lead_id company contacts scoring person raw_data d :
  save_rb2b_lead lead_id company contacts scoring person raw_data d =
  saved lead_id company contacts (rb2b_row lead_id company scoring person) d.
Proof.
  unfold save_rb2b_lead, rb2b_row.
  apply (save_tail_run lead_id (rb2b_lead_cells scoring)
           (fun c cid => rb2b_lead_row lead_id cid company scoring c person));
    try reflexivity.
  apply save_rb2b_company_run.
Qed.
(** ** The lookups *)

Lemma lookup_company_from_ip_stateless w ip token :
  stateless (lookup_company_from_ip w ip token).
Proof.
  unfold lookup_company_from_ip.
  destruct (negb (PyStr.truthy ip) || in_list ip ["127.0.0.1"; "localhost"; "::1"; ""]);
    [apply stateless_ret|].
  apply stateless_bind; [apply stateless_http|].
  intros [code text [body|]|exn]; try destruct (Z.eqb code 200); apply stateless_ret.
Qed.

Lemma enrich_company_apollo_stateless w domain api_key :
  stateless (enrich_company_apollo w domain api_key).
Proof.
  unfold enrich_company_apollo.
  destruct (negb (PyStr.truthy api_key) || negb (PyStr.truthy domain)); [apply stateless_ret|].
  apply stateless_bind; [apply stateless_http|].
  intros [code text [[org|]|]|exn]; try destruct (Z.eqb code 200); apply stateless_ret.
Qed.

Lemma find_contacts_hunter_stateless w domain api_key :
  stateless (find_contacts_hunter w domain api_key).
Proof.
  unfold find_contacts_hunter.
  destruct (negb (PyStr.truthy api_key) || negb (PyStr.truthy domain)); [apply stateless_ret|].
  apply stateless_bind; [apply stateless_http|].
  intros [code text [emails|]|exn]; try destruct (Z.eqb code 200); apply stateless_ret.
Qed.

Lemma score_lead_openai_stateless w company contacts visit_data person_data api_key icp :
  stateless (score_lead_openai w company contacts visit_data person_data api_key icp).
Proof.
  unfold score_lead_openai.
  destruct (negb (PyStr.truthy api_key)); [apply stateless_ret|].
  apply stateless_bind; [apply stateless_lift|]. intros prompt.
  apply stateless_bind; [apply stateless_http|].
  intros [code text [data|]|exn]; try destruct (Z.eqb code 200); apply stateless_ret.
Qed.

(** The results, read off the replies. *)

Lemma lookup_company_from_ip_outcome w ip token :
  outcome_of (lookup_company_from_ip w ip token) =
  Returned
    (if ip_skipped ip then Fail "Local/missing IP"
     else match World.ipinfo w (ipinfo_url ip token) with
          | Response status_code text json =>
              if Z.eqb status_code 200
              then match json with
                   | Some data =>
                       Success {|
                         IpData.ip := ip;
                         IpData.company_name :=
                           match field_get_or (IpinfoBody.org data) "" with
                           | Some o => company_name_of_org o
                           | None => ""
                           end;
                         IpData.domain :=
                           guess_domain
                             match field_get_or (IpinfoBody.org data) "" with
                             | Some o => company_name_of_org o
                             | None => ""
                             end;
                         IpData.city := field_get_or (IpinfoBody.city data) "";
                         IpData.region := field_get_or (IpinfoBody.region data) "";
                         IpData.country := field_get_or (IpinfoBody.country data) "";
                         IpData.org := field_get_or (IpinfoBody.org data) "" |}
                   | None => Fail "JSONDecodeError"
                   end
              else Fail ("Status " +:+ PyStr.of_Z status_code)
          | Failure exn => Fail exn
          end).
Proof.
  unfold outcome_of, ip_skipped, lookup_company_from_ip.
  destruct (negb (PyStr.truthy ip) || in_list ip ["127.0.0.1"; "localhost"; "::1"; ""]);
    [reflexivity|].
  erewrite bind_run by apply http_run.
  destruct (World.ipinfo w (ipinfo_url ip token)) as [code text [body|]|exn];
    try destruct (Z.eqb code 200); reflexivity.
Qed.

Lemma lookup_company_from_ip_calls w ip token :
  calls (lookup_company_from_ip w ip token) = ipinfo_calls w ip token.
Proof.
  unfold calls, ipinfo_calls, ip_skipped, lookup_company_from_ip.
  destruct (negb (PyStr.truthy ip) || in_list ip ["127.0.0.1"; "localhost"; "::1"; ""]);
    [reflexivity|].
  erewrite bind_run by apply http_run.
  destruct (World.ipinfo w (ipinfo_url ip token)) as [code text [body|]|exn];
    try destruct (Z.eqb code 200); reflexivity.
Qed.

Lemma enrich_company_apollo_outcome w domain api_key :
  outcome_of (enrich_company_apollo w domain api_key) =
  Returned
    (if negb (PyStr.truthy api_key) || negb (PyStr.truthy domain)
     then Fail "Missing API key or domain"
     else match World.apollo w api_key domain with
          | Response status_code text json =>
              if Z.eqb status_code 200
              then match json with
                   | Some (Some org) => Success (company_of_org org domain)
                   | Some None => Fail "No data found"
                   | None => Fail "JSONDecodeError"
                   end
              else Fail text
          | Failure exn => Fail exn
          end).
Proof.
  unfold outcome_of, enrich_company_apollo.
  destruct (negb (PyStr.truthy api_key) || negb (PyStr.truthy domain)); [reflexivity|].
  erewrite bind_run by apply http_run.
  destruct (World.apollo w api_key domain) as [code text [[org|]|]|exn];
    try destruct (Z.eqb code 200); reflexivity.
Qed.

Lemma enrich_company_apollo_calls w domain api_key :
  calls (enrich_company_apollo w domain api_key) = apollo_calls w domain api_key.
Proof.
  unfold calls, apollo_calls, enrich_company_apollo.
  destruct (negb (PyStr.truthy api_key) || negb (PyStr.truthy domain)); [reflexivity|].
  erewrite bind_run by apply http_run.
  destruct (World.apollo w api_key domain) as [code text [[org|]|]|exn];
    try destruct (Z.eqb code 200); reflexivity.
Qed.

Lemma find_contacts_hunter_outcome w domain api_key :
  outcome_of (find_contacts_hunter w domain api_key) =
  Returned
    (if negb (PyStr.truthy api_key) || negb (PyStr.truthy domain)
     then Fail ""
     else match World.hunter w api_key domain with
          | Response status_code text json =>
              if Z.eqb status_code 200
              then match json with
                   | Some emails => Success (List.map contact_of_email (List.firstn 5 emails))
                   | None => Fail "JSONDecodeError"
                   end
              else Fail ""
          | Failure exn => Fail exn
          end).
Proof.
  unfold outcome_of, find_contacts_hunter.
  destruct (negb (PyStr.truthy api_key) || negb (PyStr.truthy domain)); [reflexivity|].
  erewrite bind_run by apply http_run.
  destruct (World.hunter w api_key domain) as [code text [emails|]|exn];
    try destruct (Z.eqb code 200); reflexivity.
Qed.

Lemma find_contacts_hunter_calls w domain api_key :
  calls (find_contacts_hunter w domain api_key) = hunter_calls w domain api_key.
Proof.
  unfold calls, hunter_calls, find_contacts_hunter.
  destruct (negb (PyStr.truthy api_key) || negb (PyStr.truthy domain)); [reflexivity|].
  erewrite bind_run by apply http_run.
  destruct (World.hunter w api_key domain) as [code text [emails|]|exn];
    try destruct (Z.eqb code 200); reflexivity.
Qed.

(** [score_lead_openai]: no call without a key; with a key, the
    exception of the prompt and no call, or one call and its envelope. *)
Lemma score_lead_openai_outcome w company contacts visit_data person_data api_key icp :
  outcome_of (score_lead_openai w company contacts visit_data person_data api_key icp) =
  if negb (PyStr.truthy api_key) then Returned (Fail "No OpenAI key")
  else match build_prompt company contacts visit_data person_data icp with
       | Throws exn => Raised exn
       | Done prompt =>
           Returned
             match World.openai w api_key prompt with
             | Response status_code text json =>
                 if Z.eqb status_code 200
                 then match json with
                      | Some data => Success data
                      | None => Fail "JSONDecodeError"
                      end
                 else Fail text
             | Failure exn => Fail exn
             end
       end.
Proof.
  unfold outcome_of, score_lead_openai.
  destruct (negb (PyStr.truthy api_key)); [reflexivity|].
  destruct (build_prompt company contacts visit_data person_data icp) as [prompt|exn];
    [|reflexivity].
  erewrite bind_run by (rewrite lift_run; reflexivity).
  erewrite bind_run by apply http_run.
  destruct (World.openai w api_key prompt) as [code text [data|]|exn];
    try destruct (Z.eqb code 200); reflexivity.
Qed.

Lemma score_lead_openai_calls w company contacts visit_data person_data api_key icp :
  calls (score_lead_openai w company contacts visit_data person_data api_key icp)
  = openai_calls w api_key (build_prompt company contacts visit_data person_data icp).
Proof.
  unfold calls, openai_calls, score_lead_openai.
  destruct (negb (PyStr.truthy api_key)); [reflexivity|].
  destruct (build_prompt company contacts visit_data person_data icp) as [prompt|exn];
    [|reflexivity].
  erewrite bind_run by (rewrite lift_run; reflexivity).
  erewrite bind_run by apply http_run.
  destruct (World.openai w api_key prompt) as [code text [data|]|exn];
    try destruct (Z.eqb code 200); reflexivity.
Qed.

Lemma score_lead_openai_answer w company contacts visit_data person_data api_key icp :
  engine_outcome w api_key (build_prompt company contacts visit_data person_data icp)
  = match outcome_of (score_lead_openai w company contacts visit_data person_data api_key
                        icp) with
    | Returned (Success data) => Returned (Some data)
    | Returned (Fail _) => Returned None
    | Raised exn => Raised exn
    end.
Proof.
  rewrite score_lead_openai_outcome. unfold engine_outcome, usable.
  destruct (negb (PyStr.truthy api_key)); [reflexivity|].
  destruct (build_prompt company contacts visit_data person_data icp) as [prompt|exn];
    [|reflexivity].
  destruct (World.openai w api_key prompt) as [code text [data|]|exn];
    try destruct (Z.eqb code 200); reflexivity.
Qed.

(** The three resolvers never raise. *)

Lemma returned_value {A : Type} (m : M A) (a dflt : A) :
  outcome_of m = Returned a -> outcome_of m = Returned (value m dflt).
Proof. intros Ha. unfold value. rewrite Ha. reflexivity. Qed.

Lemma lookup_company_from_ip_explicit w ip token d :
  lookup_company_from_ip w ip token d =
  mk_run (Returned (value (lookup_company_from_ip w ip token) (Fail ""))) d
         (ipinfo_calls w ip token).
Proof.
  rewrite (lookup_company_from_ip_stateless w ip token d), lookup_company_from_ip_calls.
  erewrite returned_value by apply lookup_company_from_ip_outcome. reflexivity.
Qed.

Lemma enrich_company_apollo_explicit w domain api_key d :
  enrich_company_apollo w domain api_key d =
  mk_run (Returned (value (enrich_company_apollo w domain api_key) (Fail ""))) d
         (apollo_calls w domain api_key).
Proof.
  rewrite (enrich_company_apollo_stateless w domain api_key d), enrich_company_apollo_calls.
  erewrite returned_value by apply enrich_company_apollo_outcome. reflexivity.
Qed.

Lemma find_contacts_hunter_explicit w domain api_key d :
  find_contacts_hunter w domain api_key d =
  mk_run (Returned (value (find_contacts_hunter w domain api_key) (Fail ""))) d
         (hunter_calls w domain api_key).
Proof.
  rewrite (find_contacts_hunter_stateless w domain api_key d), find_contacts_hunter_calls.
  erewrite returned_value by apply find_contacts_hunter_outcome. reflexivity.
Qed.

Lemma value_returned {A : Type} (m : M A) (a dflt : A) :
  outcome_of m = Returned a -> value m dflt = a.
Proof. intros Ha. unfold value. rewrite Ha. reflexivity. Qed.

Lemma lookup_company_from_ip_value w ip token :
  value (lookup_company_from_ip w ip token) (Fail "") =
  if ip_skipped ip then Fail "Local/missing IP"
  else match World.ipinfo w (ipinfo_url ip token) with
       | Response status_code text json =>
           if Z.eqb status_code 200
           then match json with
                | Some data =>
                    Success {|
                      IpData.ip := ip;
                      IpData.company_name :=
                        match field_get_or (IpinfoBody.org data) "" with
                        | Some o => company_name_of_org o
                        | None => ""
                        end;
                      IpData.domain :=
                        guess_domain
                          match field_get_or (IpinfoBody.org data) "" with
                          | Some o => company_name_of_org o
                          | None => ""
                          end;
                      IpData.city := field_get_or (IpinfoBody.city data) "";
                      IpData.region := field_get_or (IpinfoBody.region data) "";
                      IpData.country := field_get_or (IpinfoBody.country data) "";
                      IpData.org := field_get_or (IpinfoBody.org data) "" |}
                | None => Fail "JSONDecodeError"
                end
           else Fail ("Status " +:+ PyStr.of_Z status_code)
       | Failure exn => Fail exn
       end.
Proof. apply value_returned. apply lookup_company_from_ip_outcome. Qed.

Lemma enrich_company_apollo_value w domain api_key :
  value (enrich_company_apollo w domain api_key) (Fail "") =
  if negb (PyStr.truthy api_key) || negb (PyStr.truthy domain)
  then Fail "Missing API key or domain"
  else match World.apollo w api_key domain with
       | Response status_code text json =>
           if Z.eqb status_code 200
           then match json with
                | Some (Some org) => Success (company_of_org org domain)
                | Some None => Fail "No data found"
                | None => Fail "JSONDecodeError"
                end
           else Fail text
       | Failure exn => Fail exn
       end.
Proof. apply value_returned. apply enrich_company_apollo_outcome. Qed.

Lemma find_contacts_hunter_value w domain api_key :
  value (find_contacts_hunter w domain api_key) (Fail "") =
  if negb (PyStr.truthy api_key) || negb (PyStr.truthy domain)
  then Fail ""
  else match World.hunter w api_key domain with
       | Response status_code text json =>
           if Z.eqb status_code 200
           then match json with
                | Some emails => Success (List.map contact_of_email (List.firstn 5 emails))
                | None => Fail "JSONDecodeError"
                end
           else Fail ""
       | Failure exn => Fail exn
       end.
Proof. apply value_returned. apply find_contacts_hunter_outcome. Qed.

(** ** The blocks of the pipelines *)

Lemma company_stage_explicit w settings domain shell d :
  company_stage w settings domain shell d =
  mk_run (Returned (value (company_stage w settings domain shell) shell)) d
         (apollo_calls w domain (Settings.apollo_api_key settings)).
Proof.
  assert (Hrun : forall d0,
            company_stage w settings domain shell d0
            = mk_run (Returned
                        match value (enrich_company_apollo w domain
                                       (Settings.apollo_api_key settings)) (Fail "") with
                        | Success data => data
                        | Fail _ => shell
                        end) d0
                (apollo_calls w domain (Settings.apollo_api_key settings))).
  { intros d0. unfold company_stage.
    destruct (PyStr.truthy domain) eqn:Hd,
      (PyStr.truthy (Settings.apollo_api_key settings)) eqn:Hkey; cbn [andb].
    - erewrite bind_run by apply enrich_company_apollo_explicit.
      destruct (value _ _); rewrite ret_run, after_mk, app_nil_r; reflexivity.
    - rewrite enrich_company_apollo_value. unfold apollo_calls. rewrite Hkey. reflexivity.
    - rewrite enrich_company_apollo_value. unfold apollo_calls. rewrite Hd, Hkey.
      reflexivity.
    - rewrite enrich_company_apollo_value. unfold apollo_calls. rewrite Hkey. reflexivity. }
  rewrite Hrun. unfold value, outcome_of. rewrite (Hrun DB.empty). reflexivity.
Qed.

Lemma company_stage_value w settings domain shell :
  value (company_stage w settings domain shell) shell =
  match value (enrich_company_apollo w domain (Settings.apollo_api_key settings)) (Fail "") with
  | Success data => data
  | Fail _ => shell
  end.
Proof.
  unfold value at 1, outcome_of. unfold company_stage.
  destruct (PyStr.truthy domain) eqn:Hd,
    (PyStr.truthy (Settings.apollo_api_key settings)) eqn:Hkey; cbn [andb].
  - erewrite bind_run by apply enrich_company_apollo_explicit.
    destruct (value _ _); reflexivity.
  - rewrite enrich_company_apollo_value, Hkey. reflexivity.
  - rewrite enrich_company_apollo_value, Hd, Hkey. reflexivity.
  - rewrite enrich_company_apollo_value, Hkey. reflexivity.
Qed.

Lemma contacts_stage_explicit w settings domain d :
  contacts_stage w settings domain d =
  mk_run (Returned (value (contacts_stage w settings domain) [])) d
         (hunter_calls w domain (Settings.hunter_api_key settings)).
Proof.
  assert (Hrun : forall d0,
            contacts_stage w settings domain d0
            = mk_run (Returned
                        match value (find_contacts_hunter w domain
                                       (Settings.hunter_api_key settings)) (Fail "") with
                        | Success cs => cs
                        | Fail _ => []
                        end) d0
                (hunter_calls w domain (Settings.hunter_api_key settings))).
  { intros d0. unfold contacts_stage.
    destruct (PyStr.truthy domain) eqn:Hd,
      (PyStr.truthy (Settings.hunter_api_key settings)) eqn:Hkey; cbn [andb].
    - erewrite bind_run by apply find_contacts_hunter_explicit.
      destruct (value _ _); rewrite ret_run, after_mk, app_nil_r; reflexivity.
    - rewrite find_contacts_hunter_value. unfold hunter_calls. rewrite Hkey. reflexivity.
    - rewrite find_contacts_hunter_value. unfold hunter_calls. rewrite Hd, Hkey.
      reflexivity.
    - rewrite find_contacts_hunter_value. unfold hunter_calls. rewrite Hkey. reflexivity. }
  rewrite Hrun. unfold value, outcome_of. rewrite (Hrun DB.empty). reflexivity.
Qed.

Lemma contacts_stage_value w settings domain :
  value (contacts_stage w settings domain) [] =
  match value (find_contacts_hunter w domain (Settings.hunter_api_key settings)) (Fail "") with
  | Success cs => cs
  | Fail _ => []
  end.
Proof.
  unfold value at 1, outcome_of. unfold contacts_stage.
  destruct (PyStr.truthy domain) eqn:Hd,
    (PyStr.truthy (Settings.hunter_api_key settings)) eqn:Hkey; cbn [andb].
  - erewrite bind_run by apply find_contacts_hunter_explicit.
    destruct (value _ _); reflexivity.
  - rewrite find_contacts_hunter_value, Hkey. reflexivity.
  - rewrite find_contacts_hunter_value, Hd, Hkey. reflexivity.
  - rewrite find_contacts_hunter_value, Hkey. reflexivity.
Qed.

Lemma contacts_stage_bounded w settings domain :
  (List.length (value (contacts_stage w settings domain) []) <= 5)%nat.
Proof.
  rewrite contacts_stage_value, find_contacts_hunter_value.
  destruct (negb _ || negb _); [simpl; lia|].
  destruct (World.hunter w _ domain) as [code text [emails|]|exn];
    try destruct (Z.eqb code 200); try (simpl; lia).
  rewrite List.length_map, List.length_firstn. lia.
Qed.

Lemma alert_stage_run w settings company scoring ip person d :
  alert_stage w settings company scoring ip person d =
  mk_run (Returned tt) d (alert_trace w settings company scoring person).
Proof.
  unfold alert_stage, alert_trace.
  destruct (PyStr.truthy (Settings.slack_webhook_url settings) && tier_is_hot scoring);
    [|reflexivity].
  unfold send_slack_alert. erewrite bind_run by apply http_run.
  destruct (World.slack w _ _); reflexivity.
Qed.

(** *** The scoring blocks *)

Lemma as_scoring_stateless (data : Json) : stateless (as_scoring data).
Proof. destruct data; first [apply stateless_ret|apply stateless_raise]. Qed.

Lemma rb2b_scoring_stage_stateless w settings company contacts person_data default :
  stateless (rb2b_scoring_stage w settings company contacts person_data default).
Proof.
  unfold rb2b_scoring_stage.
  destruct (PyStr.truthy (Settings.openai_api_key settings)); [|apply stateless_ret].
  apply stateless_bind; [apply score_lead_openai_stateless|].
  intros [data|err]; [|apply stateless_ret].
  apply stateless_bind; [apply as_scoring_stateless|]. intros s. apply stateless_lift.
Qed.

Lemma use_calls_rb2b (data : Json) :
  calls (scoring <- as_scoring data ;; lift (apply_bonus scoring)) = [].
Proof.
  unfold calls. destruct data; try reflexivity.
  unfold bind. cbn. destruct (apply_bonus (Scoring.of_members members)); reflexivity.
Qed.

Lemma use_calls_tracking (data : Json) : calls (as_scoring data) = [].
Proof. destruct data; reflexivity. Qed.

Lemma rb2b_scoring_stage_calls w settings company contacts person_data default :
  calls (rb2b_scoring_stage w settings company contacts person_data default)
  = openai_calls w (Settings.openai_api_key settings)
      (build_prompt company contacts rb2b_visit_data person_data icp_config).
Proof.
  unfold rb2b_scoring_stage.
  destruct (PyStr.truthy (Settings.openai_api_key settings)) eqn:Hkey.
  - rewrite calls_bind by apply score_lead_openai_stateless.
    rewrite score_lead_openai_calls.
    destruct (outcome_of _) as [[data|err]|exn]; rewrite ?use_calls_rb2b, ?app_nil_r;
      reflexivity.
  - unfold openai_calls. rewrite Hkey. reflexivity.
Qed.

Lemma rb2b_scoring_stage_outcome w settings company contacts person_data default :
  outcome_of (rb2b_scoring_stage w settings company contacts person_data default)
  = scored_by rb2b_use default
      (engine_outcome w (Settings.openai_api_key settings)
         (build_prompt company contacts rb2b_visit_data person_data icp_config)).
Proof.
  rewrite score_lead_openai_answer. unfold rb2b_scoring_stage.
  destruct (PyStr.truthy (Settings.openai_api_key settings)) eqn:Hkey.
  - rewrite outcome_of_bind by apply score_lead_openai_stateless.
    destruct (outcome_of _) as [[data|err]|exn]; reflexivity.
  - rewrite score_lead_openai_outcome, Hkey. reflexivity.
Qed.

Lemma tracking_scoring_stage_stateless w settings identified company contacts visitor default :
  stateless (tracking_scoring_stage w settings identified company contacts visitor default).
Proof.
  unfold tracking_scoring_stage.
  destruct (PyStr.truthy (Settings.openai_api_key settings) && PyStr.truthy identified);
    [|apply stateless_ret].
  apply stateless_bind; [apply score_lead_openai_stateless|].
  intros [data|err]; [apply as_scoring_stateless|apply stateless_ret].
Qed.

Lemma tracking_scoring_stage_calls w settings identified company contacts visitor default :
  calls (tracking_scoring_stage w settings identified company contacts visitor default)
  = if PyStr.truthy identified
    then openai_calls w (Settings.openai_api_key settings)
           (build_prompt company contacts (tracking_visit_data visitor) Person.empty
              icp_config)
    else [].
Proof.
  unfold tracking_scoring_stage.
  destruct (PyStr.truthy (Settings.openai_api_key settings)) eqn:Hkey,
    (PyStr.truthy identified); cbn [andb]; try reflexivity.
  - rewrite calls_bind by apply score_lead_openai_stateless.
    rewrite score_lead_openai_calls.
    destruct (outcome_of _) as [[data|err]|exn]; rewrite ?use_calls_tracking, ?app_nil_r;
      reflexivity.
  - unfold openai_calls. rewrite Hkey. reflexivity.
Qed.

Lemma tracking_scoring_stage_outcome w settings identified company contacts visitor default :
  outcome_of (tracking_scoring_stage w settings identified company contacts visitor default)
  = if PyStr.truthy identified
    then scored_by tracking_use default
           (engine_outcome w (Settings.openai_api_key settings)
              (build_prompt company contacts (tracking_visit_data visitor) Person.empty
                 icp_config))
    else Returned default.
Proof.
  rewrite score_lead_openai_answer. unfold tracking_scoring_stage.
  destruct (PyStr.truthy (Settings.openai_api_key settings)) eqn:Hkey,
    (PyStr.truthy identified); cbn [andb]; try reflexivity.
  - rewrite outcome_of_bind by apply score_lead_openai_stateless.
    destruct (outcome_of _) as [[data|err]|exn]; reflexivity.
  - rewrite score_lead_openai_outcome, Hkey. reflexivity.
Qed.

(** ** The pipelines, explicitly *)

Lemma after_finished {A : Type} lead_id company contacts mk alerts (result : A) tr tr' d :
  after tr (finished lead_id company contacts mk alerts result tr' d) =
  finished lead_id company contacts mk alerts result (tr ++ tr') d.
Proof.
  unfold finished. destruct (company_binds company contacts); [|reflexivity].
  destruct mk as [row|exn]; [|reflexivity].
  destruct (lead_id_taken lead_id d); rewrite after_mk; [reflexivity|].
  rewrite <- app_assoc. reflexivity.
Qed.

Lemma save_then_alert {A : Type} (save alert : M unit) lead_id company contacts mk alerts
    (result : A) d :
  save d = saved lead_id company contacts mk d ->
  (forall d', alert d' = mk_run (Returned tt) d' alerts) ->
  bind save (fun _ => bind alert (fun _ => ret result)) d =
  finished lead_id company contacts mk alerts result [] d.
Proof.
  intros Hsave Halert. unfold finished. unfold saved, finished in Hsave.
  destruct (company_binds company contacts);
    [|erewrite bind_raise by exact Hsave; reflexivity].
  destruct mk as [row|exn]; [|erewrite bind_raise by exact Hsave; reflexivity].
  destruct (lead_id_taken lead_id d).
  - erewrite bind_raise by exact Hsave. reflexivity.
  - erewrite bind_run by exact Hsave.
    erewrite bind_run by apply Halert.
    rewrite ret_run, !after_mk, app_nil_r. reflexivity.
Qed.

Lemma save_then_alert_unit (save alert : M unit) lead_id company contacts mk alerts d :
  save d = saved lead_id company contacts mk d ->
  (forall d', alert d' = mk_run (Returned tt) d' alerts) ->
  bind save (fun _ => alert) d = finished lead_id company contacts mk alerts tt [] d.
Proof.
  intros Hsave Halert. unfold finished. unfold saved, finished in Hsave.
  destruct (company_binds company contacts);
    [|erewrite bind_raise by exact Hsave; reflexivity].
  destruct mk as [row|exn]; [|erewrite bind_raise by exact Hsave; reflexivity].
  destruct (lead_id_taken lead_id d).
  - erewrite bind_raise by exact Hsave. reflexivity.
  - erewrite bind_run by exact Hsave.
    rewrite Halert, !after_mk. reflexivity.
Qed.

Lemma after_concluded {A : Type} (scored : Outcome Scoring.t) (rest : Scoring.t -> Run.t A)
    (tr tr' : list Event) (d : DB.t) :
  after tr (concluded scored rest tr' d)
  = concluded scored (fun scoring => after tr (rest scoring)) (tr ++ tr') d.
Proof. destruct scored; reflexivity. Qed.

(** A scoring block, then what follows it. *)
Lemma bind_scored {A : Type} (stage : M Scoring.t) (k : Scoring.t -> M A) (d : DB.t) :
  stateless stage ->
  bind stage k d
  = concluded (outcome_of stage) (fun scoring => after (calls stage) (k scoring d))
      (calls stage) d.
Proof.
  intros Hs. unfold bind. rewrite (Hs d). cbn [mk_run Run.outcome Run.db Run.trace].
  destruct (outcome_of stage); reflexivity.
Qed.

Lemma concluded_ext {A : Type} (scored : Outcome Scoring.t) (f g : Scoring.t -> Run.t A)
    (tr : list Event) (d : DB.t) :
  (forall scoring, scored = Returned scoring -> f scoring = g scoring) ->
  concluded scored f tr d = concluded scored g tr d.
Proof. intros Hfg. destruct scored as [s|exn]; [apply Hfg|]; reflexivity. Qed.

Lemma process_rb2b_lead_explicit w settings now rb2b_data d :
  PyStr.truthy (rb2b_email rb2b_data) = true ->
  process_rb2b_lead w settings now rb2b_data d =
  concluded (rb2b_scored w settings rb2b_data)
    (fun scoring =>
       finished (rb2b_lead_id now (rb2b_email rb2b_data))
         (rb2b_company w settings rb2b_data) (rb2b_contacts w settings rb2b_data)
         (rb2b_row (rb2b_lead_id now (rb2b_email rb2b_data))
            (rb2b_company w settings rb2b_data) scoring (rb2b_person rb2b_data))
         (alert_trace w settings (rb2b_company w settings rb2b_data) scoring
            (rb2b_person rb2b_data))
         (Some {| Rb2bResult.lead_id := rb2b_lead_id now (rb2b_email rb2b_data);
                  Rb2bResult.person := rb2b_person rb2b_data;
                  Rb2bResult.company := rb2b_company w settings rb2b_data;
                  Rb2bResult.scoring := scoring |})
         (rb2b_lookups w settings rb2b_data) d)
    (rb2b_lookups w settings rb2b_data) d.
Proof.
  intros Hemail. unfold process_rb2b_lead.
  change (field rb2b_data "Email" "email") with (rb2b_email rb2b_data).
  rewrite Hemail. cbn [negb].
  change (bind ?m ?k d)
    with (bind (company_stage w settings (rb2b_domain rb2b_data) (rb2b_shell rb2b_data)) k d).
  erewrite bind_run by apply company_stage_explicit.
  fold (rb2b_company w settings rb2b_data).
  change (bind ?m ?k d) with (bind (contacts_stage w settings (rb2b_domain rb2b_data)) k d).
  erewrite bind_run by apply contacts_stage_explicit.
  fold (rb2b_contacts w settings rb2b_data).
  change (bind ?m ?k d)
    with (bind (rb2b_scoring_stage w settings (rb2b_company w settings rb2b_data)
                  (rb2b_contacts w settings rb2b_data) (rb2b_person rb2b_data)
                  (rb2b_default rb2b_data (rb2b_company w settings rb2b_data))) k d).
  rewrite bind_scored by apply rb2b_scoring_stage_stateless.
  rewrite rb2b_scoring_stage_calls. fold (rb2b_prompt w settings rb2b_data).
  fold (rb2b_scored w settings rb2b_data).
  rewrite !after_concluded. unfold rb2b_lookups.
  apply concluded_ext. intros scoring _.
  erewrite save_then_alert;
    [|apply save_rb2b_lead_run
     |intros d'; apply (alert_stage_run w settings _ _ "" (rb2b_person rb2b_data))].
  rewrite !after_finished, !app_nil_r. reflexivity.
Qed.

Lemma process_rb2b_lead_no_email w settings now rb2b_data d :
  PyStr.truthy (rb2b_email rb2b_data) = false ->
  process_rb2b_lead w settings now rb2b_data d = mk_run (Returned None) d [].
Proof.
  intros Hemail. unfold process_rb2b_lead.
  change (field rb2b_data "Email" "email") with (rb2b_email rb2b_data).
  rewrite Hemail. reflexivity.
Qed.

(** *** The tracking pathway *)

Lemma save_visitor_run (visitor : Visitor.t) (ip : string) (d : DB.t) :
  save_visitor visitor ip d =
  if int64 (Visitor.visit_duration visitor)
  then mk_run (Returned tt) (visit_stored visitor ip d)
         [VisitorCommitted (visit_row visitor ip d)]
  else mk_run (Raised overflow_error) d [].
Proof.
  unfold save_visitor.
  destruct (int64 (Visitor.visit_duration visitor)) eqn:Hd.
  - apply transaction_commit.
    erewrite bind_run
      by (rewrite bind_ints_run; cbn [List.forallb int_binds]; rewrite Hd; reflexivity).
    reflexivity.
  - eapply transaction_rollback.
    erewrite bind_raise
      by (rewrite bind_ints_run; cbn [List.forallb int_binds]; rewrite Hd; reflexivity).
    reflexivity.
Qed.

(** A visit whose duration is no 64-bit integer is not stored, and the
    run ends there. *)
Lemma process_visitor_overflow w settings now visitor client_ip d :
  int64 (Visitor.visit_duration visitor) = false ->
  process_visitor w settings now visitor client_ip d = mk_run (Raised overflow_error) d [].
Proof.
  intros Hd. unfold process_visitor. cbv zeta.
  erewrite bind_raise by (rewrite save_visitor_run, Hd; reflexivity). reflexivity.
Qed.

Lemma process_visitor_local w settings now visitor client_ip d :
  int64 (Visitor.visit_duration visitor) = true ->
  is_local_ip (effective_ip visitor client_ip) = true ->
  process_visitor w settings now visitor client_ip d =
  mk_run (Returned tt) (visit_stored visitor (effective_ip visitor client_ip) d)
         [VisitorCommitted (visit_row visitor (effective_ip visitor client_ip) d)].
Proof.
  intros Hd Hlocal. unfold process_visitor. cbv zeta.
  erewrite bind_run by (rewrite save_visitor_run, Hd; reflexivity).
  rewrite Hlocal. reflexivity.
Qed.

Lemma process_visitor_explicit w settings now visitor client_ip d :
  int64 (Visitor.visit_duration visitor) = true ->
  is_local_ip (effective_ip visitor client_ip) = false ->
  process_visitor w settings now visitor client_ip d =
  after [VisitorCommitted (visit_row visitor (effective_ip visitor client_ip) d)]
    (concluded (tracking_scored w settings visitor client_ip)
       (fun scoring =>
          finished (tracking_lead_id now visitor)
            (tracking_company w settings visitor client_ip)
            (tracking_contacts w settings visitor client_ip)
            (tracking_row (tracking_lead_id now visitor) visitor scoring
               (effective_ip visitor client_ip)
               (tracking_identified w settings visitor client_ip) "tracking" Person.empty)
            (alert_trace w settings (tracking_company w settings visitor client_ip) scoring
               Person.empty)
            tt (tracking_lookups w settings visitor client_ip)
            (visit_stored visitor (effective_ip visitor client_ip) d))
       (tracking_lookups w settings visitor client_ip)
       (visit_stored visitor (effective_ip visitor client_ip) d)).
Proof.
  intros Hd Hlocal. unfold process_visitor. cbv zeta.
  erewrite bind_run by (rewrite save_visitor_run, Hd; reflexivity).
  rewrite Hlocal. f_equal.
  set (d0 := visit_stored visitor (effective_ip visitor client_ip) d).
  erewrite bind_run by apply lookup_company_from_ip_explicit.
  fold (tracking_ip visitor client_ip).
  fold (tracking_ip_result w settings visitor client_ip).
  fold (tracking_identified w settings visitor client_ip).
  fold (tracking_domain w settings visitor client_ip).
  fold (tracking_country w settings visitor client_ip).
  fold (tracking_shell w settings visitor client_ip).
  change (bind ?m ?k d0)
    with (bind (company_stage w settings (tracking_domain w settings visitor client_ip)
                  (tracking_shell w settings visitor client_ip)) k d0).
  erewrite bind_run by apply company_stage_explicit.
  fold (tracking_company w settings visitor client_ip).
  change (bind ?m ?k d0)
    with (bind (contacts_stage w settings (tracking_domain w settings visitor client_ip)) k d0).
  erewrite bind_run by apply contacts_stage_explicit.
  fold (tracking_contacts w settings visitor client_ip).
  change (bind ?m ?k d0)
    with (bind (tracking_scoring_stage w settings
                  (tracking_identified w settings visitor client_ip)
                  (tracking_company w settings visitor client_ip)
                  (tracking_contacts w settings visitor client_ip) visitor
                  (tracking_default w settings visitor client_ip)) k d0).
  rewrite bind_scored by apply tracking_scoring_stage_stateless.
  rewrite tracking_scoring_stage_calls. fold (tracking_prompt w settings visitor client_ip).
  fold (tracking_scored w settings visitor client_ip).
  rewrite !after_concluded. unfold tracking_lookups.
  apply concluded_ext. intros scoring _.
  erewrite save_then_alert_unit;
    [|apply save_lead_run
     |intros d'; apply (alert_stage_run w settings _ _ (tracking_ip visitor client_ip)
                          Person.empty)].
  rewrite !after_finished, !app_nil_r. reflexivity.
Qed.

(** What the scoring blocks of the two runs give. *)

Lemma rb2b_scored_value w settings rb2b_data :
  rb2b_scored w settings rb2b_data
  = scored_by rb2b_use (rb2b_default rb2b_data (rb2b_company w settings rb2b_data))
      (engine_outcome w (Settings.openai_api_key settings) (rb2b_prompt w settings rb2b_data)).
Proof. apply rb2b_scoring_stage_outcome. Qed.

Lemma tracking_scored_value w settings visitor client_ip :
  tracking_scored w settings visitor client_ip
  = if PyStr.truthy (tracking_identified w settings visitor client_ip)
    then scored_by tracking_use (tracking_default w settings visitor client_ip)
           (engine_outcome w (Settings.openai_api_key settings)
              (tracking_prompt w settings visitor client_ip))
    else Returned (tracking_default w settings visitor client_ip).
Proof. apply tracking_scoring_stage_outcome. Qed.
(** ** Reading a trace *)

Lemma alert_calls_app (tr tr' : list Event) :
  alert_calls (tr ++ tr') = (alert_calls tr + alert_calls tr')%nat.
Proof. unfold alert_calls. rewrite List.filter_app, List.length_app. reflexivity. Qed.

Lemma alert_calls_alert w settings company scoring person :
  alert_calls (alert_trace w settings company scoring person) =
  if PyStr.truthy (Settings.slack_webhook_url settings) && tier_is_hot scoring
  then 1%nat else 0%nat.
Proof.
  unfold alert_trace.
  destruct (PyStr.truthy (Settings.slack_webhook_url settings) && tier_is_hot scoring);
    reflexivity.
Qed.

Lemma committed_lead_app (tr tr' : list Event) :
  committed_lead (tr ++ tr') =
  match committed_lead tr with Some row => Some row | None => committed_lead tr' end.
Proof.
  induction tr as [|e tr IH]; [reflexivity|].
  destruct e; cbn [app committed_lead]; try exact IH. reflexivity.
Qed.

Lemma engine_answer_app (tr tr' : list Event) :
  engine_answer (tr ++ tr') =
  match engine_answer tr with Some data => Some data | None => engine_answer tr' end.
Proof.
  induction tr as [|e tr IH]; [reflexivity|].
  destruct e as [| | |k p [code t [data|]|]| | |]; cbn [app engine_answer]; try exact IH.
  destruct (Z.eqb code 200); [reflexivity|exact IH].
Qed.


Lemma committed_lead_alert w settings company scoring person :
  committed_lead (alert_trace w settings company scoring person) = None.
Proof.
  unfold alert_trace.
  destruct (PyStr.truthy (Settings.slack_webhook_url settings) && tier_is_hot scoring);
    reflexivity.
Qed.

(** The lookups alert nobody and commit nothing. *)

Lemma lookups_quiet_rb2b w settings rb2b_data :
  alert_calls (rb2b_lookups w settings rb2b_data) = 0%nat.
Proof.
  unfold rb2b_lookups, apollo_calls, hunter_calls, openai_calls. split_ifs; reflexivity.
Qed.

Lemma lookups_commit_nothing_rb2b w settings rb2b_data :
  committed_lead (rb2b_lookups w settings rb2b_data) = None.
Proof.
  unfold rb2b_lookups, apollo_calls, hunter_calls, openai_calls. split_ifs; reflexivity.
Qed.

Lemma lookups_quiet_tracking w settings visitor client_ip :
  alert_calls (tracking_lookups w settings visitor client_ip) = 0%nat.
Proof.
  unfold tracking_lookups, ipinfo_calls, apollo_calls, hunter_calls, openai_calls.
  split_ifs; reflexivity.
Qed.

Lemma lookups_commit_nothing_tracking w settings visitor client_ip :
  committed_lead (tracking_lookups w settings visitor client_ip) = None.
Proof.
  unfold tracking_lookups, ipinfo_calls, apollo_calls, hunter_calls, openai_calls.
  split_ifs; reflexivity.
Qed.

(** The answer of the engine, read off the calls. *)

Lemma engine_answer_openai w api_key prompt :
  engine_answer (openai_calls w api_key prompt)
  = match engine_outcome w api_key prompt with
    | Returned answer => answer
    | Raised _ => None
    end.
Proof.
  unfold openai_calls, engine_outcome, usable.
  destruct (negb (PyStr.truthy api_key)); [reflexivity|].
  destruct prompt as [p|exn]; [|reflexivity]. cbn [engine_answer].
  destruct (World.openai w api_key p) as [code text [data|]|exn]; reflexivity.
Qed.



(** ** Reading a run from the save on *)

Lemma company_saved_visitors (company : Company.t) (contacts : list Contact.t) (d : DB.t) :
  DB.visitors (fst (company_saved company contacts d)) = DB.visitors d.
Proof.
  unfold company_saved. destruct (opt_truthy (field_get (Company.domain company)));
    reflexivity.
Qed.

Section Finished.
Context {A : Type}.
Variables (lead_id : string) (company : Company.t) (contacts : list Contact.t).
Variables (mk : Checked (option Z -> Z -> LeadRow.t)) (alerts : list Event).
Variables (result : A) (tr : list Event) (d : DB.t).

Let run : Run.t A := finished lead_id company contacts mk alerts result tr d.

(** The save either goes through, or raises and leaves the database as
    it was. *)
Lemma finished_cases :
  (exists row,
      mk = Done row /\ company_binds company contacts = true
      /\ lead_id_taken lead_id d = false
      /\ run = mk_run (Returned result)
                 (DB.with_leads
                    (Table.append (row (snd (company_saved company contacts d)))
                       (DB.leads (fst (company_saved company contacts d))))
                    (fst (company_saved company contacts d)))
                 (tr ++ LeadCommitted (row (snd (company_saved company contacts d))
                                         (Table.next_id (DB.leads d))) :: alerts))
  \/ (exists exn,
        run = mk_run (Raised exn) d tr
        /\ (company_binds company contacts = false /\ exn = overflow_error
            \/ company_binds company contacts = true /\ mk = Throws exn
            \/ company_binds company contacts = true /\ (exists row, mk = Done row)
               /\ lead_id_taken lead_id d = true /\ exn = integrity_error)).
Proof.
  unfold run, finished.
  destruct (company_binds company contacts); [|right; eexists; split; [reflexivity|auto]].
  destruct mk as [row|exn]; [|right; eexists; split; [reflexivity|auto]].
  destruct (lead_id_taken lead_id d).
  - right. eexists. split; [reflexivity|]. right. right. eauto.
  - left. exists row. auto.
Qed.

Lemma finished_visitors : DB.visitors (Run.db run) = DB.visitors d.
Proof.
  destruct finished_cases as [(row & _ & _ & _ & ->)|(exn & -> & _)]; [|reflexivity].
  cbn [Run.db mk_run DB.visitors DB.with_leads]. apply company_saved_visitors.
Qed.


(** The lead the run committed is the last row of the leads table. *)
Lemma finished_committed :
  committed_lead tr = None ->
  match committed_lead (Run.trace run) with
  | Some r =>
      exists row,
        mk = Done row /\ company_binds company contacts = true
        /\ lead_id_taken lead_id d = false
        /\ r = row (snd (company_saved company contacts d)) (Table.next_id (DB.leads d))
        /\ Run.outcome run = Returned result
        /\ Table.rows (DB.leads (Run.db run)) = (Table.rows (DB.leads d) ++ [r])%list
        /\ Run.trace run = (tr ++ LeadCommitted r :: alerts)%list
  | None =>
      exists exn,
        run = mk_run (Raised exn) d tr
        /\ (company_binds company contacts = false /\ exn = overflow_error
            \/ company_binds company contacts = true /\ mk = Throws exn
            \/ company_binds company contacts = true /\ (exists row, mk = Done row)
               /\ lead_id_taken lead_id d = true /\ exn = integrity_error)
  end.
Proof.
  intros Htr.
  destruct finished_cases as [(row & Hmk & Hbinds & Hfree & Hrun)|(exn & Hrun & Hwhy)];
    rewrite Hrun; cbn [Run.trace Run.outcome Run.db mk_run].
  - rewrite committed_lead_app, Htr. cbn [committed_lead].
    exists row. repeat split; try assumption.
    cbn [DB.leads DB.with_leads Table.append Table.rows].
    rewrite company_saved_leads. reflexivity.
  - rewrite Htr. exists exn. split; [reflexivity|exact Hwhy].
Qed.
End Finished.

(** A run of the webhook pathway on an event with an email: the scoring
    block raised and the run stopped there, or the run went on to the
    save. *)
Lemma process_rb2b_lead_cases w settings now rb2b_data d :
  PyStr.truthy (rb2b_email rb2b_data) = true ->
  (exists exn,
      rb2b_scored w settings rb2b_data = Raised exn
      /\ process_rb2b_lead w settings now rb2b_data d
         = mk_run (Raised exn) d (rb2b_lookups w settings rb2b_data))
  \/ (exists scoring,
        rb2b_scored w settings rb2b_data = Returned scoring
        /\ process_rb2b_lead w settings now rb2b_data d
           = finished (rb2b_lead_id now (rb2b_email rb2b_data))
               (rb2b_company w settings rb2b_data) (rb2b_contacts w settings rb2b_data)
               (rb2b_row (rb2b_lead_id now (rb2b_email rb2b_data))
                  (rb2b_company w settings rb2b_data) scoring (rb2b_person rb2b_data))
               (alert_trace w settings (rb2b_company w settings rb2b_data) scoring
                  (rb2b_person rb2b_data))
               (Some {| Rb2bResult.lead_id := rb2b_lead_id now (rb2b_email rb2b_data);
                        Rb2bResult.person := rb2b_person rb2b_data;
                        Rb2bResult.company := rb2b_company w settings rb2b_data;
                        Rb2bResult.scoring := scoring |})
               (rb2b_lookups w settings rb2b_data) d).
Proof.
  intros Hemail. rewrite (process_rb2b_lead_explicit w settings now rb2b_data d Hemail).
  destruct (rb2b_scored w settings rb2b_data) as [scoring|exn]; [right|left]; eauto.
Qed.

(** A tracking run past its guard. *)
Lemma process_visitor_cases w settings now visitor client_ip d :
  int64 (Visitor.visit_duration visitor) = true ->
  is_local_ip (effective_ip visitor client_ip) = false ->
  (exists exn,
      tracking_scored w settings visitor client_ip = Raised exn
      /\ process_visitor w settings now visitor client_ip d
         = mk_run (Raised exn) (visit_stored visitor (effective_ip visitor client_ip) d)
             (VisitorCommitted (visit_row visitor (effective_ip visitor client_ip) d)
                :: tracking_lookups w settings visitor client_ip))
  \/ (exists scoring,
        tracking_scored w settings visitor client_ip = Returned scoring
        /\ process_visitor w settings now visitor client_ip d
           = after [VisitorCommitted (visit_row visitor (effective_ip visitor client_ip) d)]
               (finished (tracking_lead_id now visitor)
                  (tracking_company w settings visitor client_ip)
                  (tracking_contacts w settings visitor client_ip)
                  (tracking_row (tracking_lead_id now visitor) visitor scoring
                     (effective_ip visitor client_ip)
                     (tracking_identified w settings visitor client_ip) "tracking"
                     Person.empty)
                  (alert_trace w settings (tracking_company w settings visitor client_ip)
                     scoring Person.empty)
                  tt (tracking_lookups w settings visitor client_ip)
                  (visit_stored visitor (effective_ip visitor client_ip) d))).
Proof.
  intros Hd Hlocal.
  rewrite (process_visitor_explicit w settings now visitor client_ip d Hd Hlocal).
  destruct (tracking_scored w settings visitor client_ip) as [scoring|exn]; [right|left];
    eauto.
Qed.

(** ** The identification bonus *)



Lemma tracking_use_value (data : Json) :
  tracking_use data =
  match data with
  | JObj members => Returned (Scoring.of_members members)
  | _ => Raised (no_attribute_get data)
  end.
Proof. destruct data; reflexivity. Qed.

(** The cells of a lead statement that binds. *)
Lemma bind_json_cell (position : Z) (v : Json) (c : Cell) :
  bind_json position v = Done c -> as_cell v = Some c /\ scalar v = true.
Proof.
  destruct v; cbn; try (intros [= <-]; split; reflexivity); try discriminate.
  destruct (int64 n); [intros [= <-]; split; reflexivity|discriminate].
Qed.


Lemma lead_cells_done visit_duration icp_score tier research_summary recommended_action
    urgency cells :
  lead_cells visit_duration icp_score tier research_summary recommended_action urgency
  = Done cells ->
  int64 visit_duration = true
  /\ bind_json 9 icp_score = Done (LeadCells.icp_score cells)
  /\ bind_json 10 tier = Done (LeadCells.tier cells)
  /\ bind_json 13 research_summary = Done (LeadCells.research_summary cells)
  /\ bind_json 16 recommended_action = Done (LeadCells.recommended_action cells)
  /\ bind_json 17 urgency = Done (LeadCells.urgency cells).
Proof.
  unfold lead_cells, bind_int.
  destruct (int64 visit_duration); [|discriminate].
  destruct (bind_json 9 icp_score); [|discriminate].
  destruct (bind_json 10 tier); [|discriminate].
  destruct (bind_json 13 research_summary); [|discriminate].
  destruct (bind_json 16 recommended_action); [|discriminate].
  destruct (bind_json 17 urgency); [|discriminate].
  intros [= <-]. repeat split.
Qed.






(** The lead row of the webhook pathway, when its statement binds. *)
Lemma rb2b_row_done lead_id company scoring person row :
  rb2b_row lead_id company scoring person = Done row ->
  exists cells,
    rb2b_lead_cells scoring = Done cells
    /\ row = fun cid => rb2b_lead_row lead_id cid company scoring cells person.
Proof.
  unfold rb2b_row. destruct (rb2b_lead_cells scoring) as [cells|exn]; [|discriminate].
  intros [= <-]. exists cells. split; reflexivity.
Qed.

Lemma tracking_row_done lead_id visitor scoring ip identified source person row :
  tracking_row lead_id visitor scoring ip identified source person = Done row ->
  exists cells,
    tracking_lead_cells visitor scoring = Done cells
    /\ row = fun cid =>
               tracking_lead_row lead_id cid visitor scoring cells ip identified source person.
Proof.
  unfold tracking_row. destruct (tracking_lead_cells visitor scoring) as [cells|exn];
    [|discriminate].
  intros [= <-]. exists cells. split; reflexivity.
Qed.




(** ** The guards of the two pathways *)

Lemma field_missing (rb2b_data : gmap string string) (k1 k2 : string) :
  (rb2b_data !! k1 = None \/ rb2b_data !! k1 = Some "") ->
  (rb2b_data !! k2 = None \/ rb2b_data !! k2 = Some "") ->
  field rb2b_data k1 k2 = "".
Proof. unfold field. intros [-> | ->] [-> | ->]; reflexivity. Qed.

(** C2.  A webhook event whose email is absent or empty under both of
    its keys ends the run at once: it returns [None], the database is
    unchanged (no lead, company or contact row), and nothing was called
    (no lookup, no notification). *)
Theorem rb2b_requires_email w settings now (rb2b_data : gmap string string) d :
  (rb2b_data !! "Email" = None \/ rb2b_data !! "Email" = Some "") ->
  (rb2b_data !! "email" = None \/ rb2b_data !! "email" = Some "") ->
  Run.outcome (process_rb2b_lead w settings now rb2b_data d) = Returned None
  /\ Run.db (process_rb2b_lead w settings now rb2b_data d) = d
  /\ Run.trace (process_rb2b_lead w settings now rb2b_data d) = []
  /\ alert_calls (Run.trace (process_rb2b_lead w settings now rb2b_data d)) = 0%nat.
Proof.
  intros H1 H2. unfold process_rb2b_lead.
  rewrite (field_missing rb2b_data "Email" "email" H1 H2). cbn [PyStr.truthy negb].
  repeat split.
Qed.

Lemma is_local_ip_spec (ip : string) :
  ip = "" \/ ip = "127.0.0.1" \/ ip = "::1" \/ ip = "localhost" <-> is_local_ip ip = true.
Proof.
  unfold is_local_ip, in_list. cbn [List.existsb]. split.
  - intros [-> | [-> | [-> | ->]]]; reflexivity.
  - intros H. destruct ip as [|c s]; [left; reflexivity|]. right.
    cbn [PyStr.truthy negb orb] in H.
    repeat (apply orb_prop in H; destruct H as [H|H]);
      try (apply String.eqb_eq in H; rewrite H; tauto). discriminate.
Qed.

Lemma effective_ip_value (visitor : Visitor.t) (client_ip : string) :
  effective_ip visitor client_ip
  = match Visitor.ip_address visitor with
    | Some a => if PyStr.truthy a then a else client_ip
    | None => client_ip
    end.
Proof.
  unfold effective_ip, PyStr.or_else.
  destruct (Visitor.ip_address visitor) as [a|]; [destruct (PyStr.truthy a)|];
    destruct client_ip; reflexivity.
Qed.

(** C3.  A tracking event whose duration is a 64-bit integer is stored
    in the visitors table first: the commit of the raw record (session,
    effective IP, pages, duration, referrer, user agent, under a fresh
    id) is the first thing the run does, before any lookup, and the row
    stays whatever happens next.  The effective IP is the one of the
    body when it has one, the one of the request otherwise.  With an
    effective IP that is empty, "127.0.0.1", "::1" or "localhost" the
    run ends after that write: it calls nothing and creates no lead
    (nor company, nor contact).  An event whose duration is no 64-bit
    integer is not stored: the run raises OverflowError and leaves the
    database as it was. *)
Theorem visitor_stored_first w settings now visitor client_ip d :
  effective_ip visitor client_ip
  = match Visitor.ip_address visitor with
    | Some a => if PyStr.truthy a then a else client_ip
    | None => client_ip
    end
  /\ (forall row,
        row = {| VisitorRow.id := Table.next_id (DB.visitors d);
                 VisitorRow.session_id := Visitor.session_id visitor;
                 VisitorRow.ip_address := effective_ip visitor client_ip;
                 VisitorRow.pages_viewed := Visitor.pages_viewed visitor;
                 VisitorRow.visit_duration := Visitor.visit_duration visitor;
                 VisitorRow.referrer := Visitor.referrer visitor;
                 VisitorRow.user_agent := Visitor.user_agent visitor |} ->
        int64 (Visitor.visit_duration visitor) = true ->
        (exists rest,
            Run.trace (process_visitor w settings now visitor client_ip d)
            = VisitorCommitted row :: rest)
        /\ Table.rows (DB.visitors (Run.db (process_visitor w settings now visitor client_ip d)))
           = (Table.rows (DB.visitors d) ++ [row])%list
        /\ (effective_ip visitor client_ip = "" \/ effective_ip visitor client_ip = "127.0.0.1"
            \/ effective_ip visitor client_ip = "::1"
            \/ effective_ip visitor client_ip = "localhost" ->
            Run.outcome (process_visitor w settings now visitor client_ip d) = Returned tt
            /\ Run.trace (process_visitor w settings now visitor client_ip d)
               = [VisitorCommitted row]
            /\ DB.leads (Run.db (process_visitor w settings now visitor client_ip d))
               = DB.leads d
            /\ DB.companies (Run.db (process_visitor w settings now visitor client_ip d))
               = DB.companies d
            /\ DB.contacts (Run.db (process_visitor w settings now visitor client_ip d))
               = DB.contacts d))
  /\ (int64 (Visitor.visit_duration visitor) = false ->
      Run.outcome (process_visitor w settings now visitor client_ip d)
      = Raised overflow_error
      /\ Run.db (process_visitor w settings now visitor client_ip d) = d
      /\ Run.trace (process_visitor w settings now visitor client_ip d) = []).
Proof.
  split; [apply effective_ip_value|]. split.
  - intros row -> Hd.
    destruct (is_local_ip (effective_ip visitor client_ip)) eqn:Hlocal.
    + rewrite (process_visitor_local w settings now visitor client_ip d Hd Hlocal).
      split; [exists []; reflexivity|]. repeat split.
    + assert (Hnot : ~ (effective_ip visitor client_ip = ""
                        \/ effective_ip visitor client_ip = "127.0.0.1"
                        \/ effective_ip visitor client_ip = "::1"
                        \/ effective_ip visitor client_ip = "localhost")).
      { intros Hip. apply is_local_ip_spec in Hip. congruence. }
      destruct (process_visitor_cases w settings now visitor client_ip d Hd Hlocal)
        as [(exn & _ & ->)|(scoring & _ & ->)].
      * split; [eexists; reflexivity|]. split; [reflexivity|]. intros Hip. tauto.
      * split; [eexists; reflexivity|]. split; [|intros Hip; tauto].
        cbn [after mk_run Run.db]. rewrite finished_visitors. reflexivity.
  - intros Hd. rewrite (process_visitor_overflow w settings now visitor client_ip d Hd).
    repeat split.
Qed.

(** ** The default scoring records *)



Lemma build_prompt_fails company contacts visit_data person_data icp :
  prompt_builds company = false ->
  build_prompt company contacts visit_data person_data icp = Throws (not_subscriptable JNull).
Proof.
  unfold build_prompt, prompt_builds, description_slice.
  destruct (field_get_or (Company.description company) ""); [discriminate|reflexivity].
Qed.

Lemma build_prompt_done company contacts visit_data person_data icp :
  prompt_builds company = true ->
  exists prompt, build_prompt company contacts visit_data person_data icp = Done prompt.
Proof.
  unfold build_prompt, prompt_builds, description_slice.
  destruct (field_get_or (Company.description company) ""); [eauto|discriminate].
Qed.

(** The cells of the two default records. *)
Lemma tracking_default_cells visitor identified ip cells :
  tracking_lead_cells visitor (tracking_default_scoring identified ip) = Done cells ->
  cells = {| LeadCells.icp_score := CInt 30;
             LeadCells.tier := CText "cold";
             LeadCells.research_summary :=
               CText ("Visitor from " +:+ PyStr.or_else identified ip);
             LeadCells.recommended_action := CText "skip";
             LeadCells.urgency := CText "low" |}.
Proof.
  unfold tracking_lead_cells, lead_cells, bind_int.
  destruct (int64 (Visitor.visit_duration visitor)); [|discriminate].
  cbn. intros [= <-]. reflexivity.
Qed.

Lemma tracking_default_binds visitor identified ip :
  int64 (Visitor.visit_duration visitor) = true ->
  exists cells, tracking_lead_cells visitor (tracking_default_scoring identified ip) = Done cells.
Proof.
  intros Hd. unfold tracking_lead_cells, lead_cells, bind_int. rewrite Hd. cbn. eauto.
Qed.

Lemma rb2b_default_cells full_name first_name title company_name company :
  rb2b_lead_cells (rb2b_default_scoring full_name first_name title company_name company)
  = Done {| LeadCells.icp_score := CInt 60;
            LeadCells.tier := CText "warm";
            LeadCells.research_summary :=
              CText (full_name +:+ " from "
                       +:+ PyStr.of_value (field_get_or (Company.name company) company_name)
                       +:+ " visited the website.");
            LeadCells.recommended_action := CText "send_email";
            LeadCells.urgency := CText "medium" |}.
Proof. reflexivity. Qed.



Lemma lead_id_taken_visit lead_id visitor ip d :
  lead_id_taken lead_id (visit_stored visitor ip d) = lead_id_taken lead_id d.
Proof. reflexivity. Qed.



(** ** The notifier *)

Lemma bound_tier_is_hot (position : Z) (tier : option Json) (dflt : string) (c : Cell) :
  String.eqb dflt "hot" = false ->
  bind_json position (get_or tier (JStr dflt)) = Done c ->
  cell_is "hot" c = match tier with Some t => is_str "hot" t | None => false end.
Proof.
  intros Hd. destruct tier as [[| |n| | |]|]; cbn; try discriminate;
    try (intros [= <-]; reflexivity).
  - destruct (int64 n); [intros [= <-]; reflexivity|discriminate].
  - intros [= <-]. exact Hd.
Qed.

Lemma rb2b_row_tier lead_id company scoring person row cid i :
  rb2b_row lead_id company scoring person = Done row ->
  cell_is "hot" (LeadRow.tier (row cid i)) = tier_is_hot scoring.
Proof.
  intros Hmk. apply rb2b_row_done in Hmk. destruct Hmk as (cells & Hcells & ->).
  apply lead_cells_done in Hcells. destruct Hcells as (_ & _ & Htier & _).
  cbn [rb2b_lead_row LeadRow.tier]. unfold tier_is_hot.
  apply (bound_tier_is_hot 10 _ "warm"); [reflexivity|exact Htier].
Qed.

Lemma tracking_row_tier lead_id visitor scoring ip identified source person row cid i :
  tracking_row lead_id visitor scoring ip identified source person = Done row ->
  cell_is "hot" (LeadRow.tier (row cid i)) = tier_is_hot scoring.
Proof.
  intros Hmk. apply tracking_row_done in Hmk. destruct Hmk as (cells & Hcells & ->).
  apply lead_cells_done in Hcells. destruct Hcells as (_ & _ & Htier & _).
  cbn [tracking_lead_row LeadRow.tier]. unfold tier_is_hot.
  apply (bound_tier_is_hot 10 _ "cold"); [reflexivity|exact Htier].
Qed.

Lemma no_alert_call (tr : list Event) url msg reply :
  alert_calls tr = 0%nat -> ~ In (SlackCall url msg reply) tr.
Proof.
  unfold alert_calls. induction tr as [|e tr IH]; [intros _ []|].
  intros Hz [->|Hin]; [discriminate|].
  apply IH; [|exact Hin]. simpl in Hz. destruct (is_slack_call e); [discriminate|exact Hz].
Qed.

Section Alerts.
Context {A : Type}.
Variables (w : World.t) (settings : Settings.t).
Variables (lead_id : string) (company : Company.t) (contacts : list Contact.t).
Variables (mk : Checked (option Z -> Z -> LeadRow.t)) (scoring : Scoring.t) (person : Person.t).
Variables (result : A) (tr : list Event) (d : DB.t).
Hypothesis lookups_quiet : alert_calls tr = 0%nat.
Hypothesis lookups_commit_nothing : committed_lead tr = None.
Hypothesis tier_stored :
  forall row cid i, mk = Done row -> cell_is "hot" (LeadRow.tier (row cid i)) = tier_is_hot scoring.

Let run : Run.t A :=
  finished lead_id company contacts mk (alert_trace w settings company scoring person)
    result tr d.

Lemma finished_alert_rule : alert_calls (Run.trace run) = expected_alerts settings (Run.trace run).
Proof.
  unfold expected_alerts.
  pose proof (finished_committed lead_id company contacts mk
                (alert_trace w settings company scoring person) result tr d
                lookups_commit_nothing) as Hcommitted.
  fold run in Hcommitted.
  destruct (committed_lead (Run.trace run)) as [r|].
  - destruct Hcommitted as (row & Hmk & _ & _ & -> & _ & _ & ->).
    change (LeadCommitted ?r :: ?l) with ([LeadCommitted r] ++ l)%list.
    rewrite !alert_calls_app, lookups_quiet, alert_calls_alert.
    rewrite (tier_stored row _ _ Hmk). reflexivity.
  - destruct Hcommitted as (exn & -> & _). exact lookups_quiet.
Qed.

Lemma finished_stored :
  match committed_lead (Run.trace run) with
  | Some row => In row (Table.rows (DB.leads (Run.db run)))
  | None => DB.leads (Run.db run) = DB.leads d
  end.
Proof.
  pose proof (finished_committed lead_id company contacts mk
                (alert_trace w settings company scoring person) result tr d
                lookups_commit_nothing) as Hcommitted.
  fold run in Hcommitted.
  destruct (committed_lead (Run.trace run)) as [r|].
  - destruct Hcommitted as (row & _ & _ & _ & _ & _ & -> & _).
    apply in_or_app. right. left. reflexivity.
  - destruct Hcommitted as (exn & -> & _). reflexivity.
Qed.

Lemma finished_none_iff :
  committed_lead (Run.trace run) = None <-> exists exn, Run.outcome run = Raised exn.
Proof.
  pose proof (finished_committed lead_id company contacts mk
                (alert_trace w settings company scoring person) result tr d
                lookups_commit_nothing) as Hcommitted.
  fold run in Hcommitted.
  destruct (committed_lead (Run.trace run)) as [r|].
  - destruct Hcommitted as (row & _ & _ & _ & _ & -> & _).
    split; [discriminate|intros [exn Hexn]; discriminate].
  - destruct Hcommitted as (exn & -> & _). split; [eauto|reflexivity].
Qed.

Lemma finished_alert_failure url msg exn :
  In (SlackCall url msg (Failure exn)) (Run.trace run) -> Run.outcome run = Returned result.
Proof.
  destruct (finished_cases lead_id company contacts mk
              (alert_trace w settings company scoring person) result tr d)
    as [(row & _ & _ & _ & Hrun)|(e & Hrun & _)]; fold run in Hrun; rewrite Hrun;
    [reflexivity|].
  intros Hin. exfalso. revert Hin. apply no_alert_call. exact lookups_quiet.
Qed.
End Alerts.

(** C8.  A run makes exactly one alert call when it stored a lead whose
    tier is "hot" and a webhook is configured, and none when the tier is
    anything else, when no webhook is configured, or when the run stored
    no lead.  A run stores no lead exactly when it stops at its guard
    (local IP, missing email) or raises.  An alert call that raises does
    not fail the run: the run still returns. *)
Theorem alert_exactly_when_hot w settings now d :
  (forall visitor client_ip,
     alert_calls (Run.trace (process_visitor w settings now visitor client_ip d))
     = expected_alerts settings
         (Run.trace (process_visitor w settings now visitor client_ip d))
     /\ match committed_lead
               (Run.trace (process_visitor w settings now visitor client_ip d)) with
        | Some row =>
            In row (Table.rows (DB.leads
                      (Run.db (process_visitor w settings now visitor client_ip d))))
        | None =>
            DB.leads (Run.db (process_visitor w settings now visitor client_ip d))
            = DB.leads d
        end
     /\ (committed_lead (Run.trace (process_visitor w settings now visitor client_ip d))
         = None
         <-> is_local_ip (effective_ip visitor client_ip) = true
             \/ exists exn,
                  Run.outcome (process_visitor w settings now visitor client_ip d)
                  = Raised exn)
     /\ (forall url msg exn,
           In (SlackCall url msg (Failure exn))
              (Run.trace (process_visitor w settings now visitor client_ip d)) ->
           Run.outcome (process_visitor w settings now visitor client_ip d) = Returned tt))
  /\ (forall rb2b_data,
        alert_calls (Run.trace (process_rb2b_lead w settings now rb2b_data d))
        = expected_alerts settings (Run.trace (process_rb2b_lead w settings now rb2b_data d))
        /\ match committed_lead (Run.trace (process_rb2b_lead w settings now rb2b_data d)) with
           | Some row =>
               In row (Table.rows (DB.leads
                         (Run.db (process_rb2b_lead w settings now rb2b_data d))))
           | None =>
               DB.leads (Run.db (process_rb2b_lead w settings now rb2b_data d)) = DB.leads d
           end
        /\ (committed_lead (Run.trace (process_rb2b_lead w settings now rb2b_data d)) = None
            <-> PyStr.truthy (rb2b_email rb2b_data) = false
                \/ exists exn,
                     Run.outcome (process_rb2b_lead w settings now rb2b_data d) = Raised exn)
        /\ (forall url msg exn,
              In (SlackCall url msg (Failure exn))
                 (Run.trace (process_rb2b_lead w settings now rb2b_data d)) ->
              exists res,
                Run.outcome (process_rb2b_lead w settings now rb2b_data d)
                = Returned (Some res))).
Proof.
  split.
  - intros visitor client_ip.
    destruct (int64 (Visitor.visit_duration visitor)) eqn:Hd.
    2:{ rewrite (process_visitor_overflow w settings now visitor client_ip d Hd).
        split; [reflexivity|]. split; [reflexivity|]. split; [split; eauto|].
        intros url msg exn []. }
    destruct (is_local_ip (effective_ip visitor client_ip)) eqn:Hlocal.
    { rewrite (process_visitor_local w settings now visitor client_ip d Hd Hlocal).
      split; [reflexivity|]. split; [reflexivity|]. split; [split; auto|].
      intros url msg exn [Hin|[]]. discriminate. }
    pose proof (lookups_quiet_tracking w settings visitor client_ip) as Hquiet.
    pose proof (lookups_commit_nothing_tracking w settings visitor client_ip) as Hnc.
    destruct (process_visitor_cases w settings now visitor client_ip d Hd Hlocal)
      as [(exn & _ & ->)|(scoring & _ & ->)].
    + cbn [Run.trace Run.outcome Run.db mk_run committed_lead].
      unfold expected_alerts. cbn [committed_lead]. rewrite Hnc.
      split; [exact Hquiet|]. split; [reflexivity|]. split; [split; eauto|].
      intros url msg e [Hin|Hin]; [discriminate|].
      exfalso. revert Hin. apply no_alert_call. exact Hquiet.
    + cbn [after mk_run Run.db Run.trace Run.outcome app committed_lead].
      unfold expected_alerts. cbn [committed_lead]. fold (expected_alerts settings).
      change (alert_calls (VisitorCommitted ?x :: ?l)) with (alert_calls l).
      assert (Htier : forall row cid i,
                 tracking_row (tracking_lead_id now visitor) visitor scoring
                   (effective_ip visitor client_ip)
                   (tracking_identified w settings visitor client_ip) "tracking" Person.empty
                 = Done row ->
                 cell_is "hot" (LeadRow.tier (row cid i)) = tier_is_hot scoring).
      { intros row cid i. apply tracking_row_tier. }
      split; [|split; [|split]].
      * apply finished_alert_rule; assumption.
      * change (DB.leads d)
          with (DB.leads (visit_stored visitor (effective_ip visitor client_ip) d)).
        apply (finished_stored w settings); assumption.
      * rewrite (finished_none_iff w settings) by assumption.
        split; [auto|]. intros [H|H]; [discriminate|exact H].
      * intros url msg exn [Hin|Hin]; [discriminate|].
        eapply finished_alert_failure; eassumption.
  - intros rb2b_data.
    destruct (PyStr.truthy (rb2b_email rb2b_data)) eqn:Hemail.
    2:{ rewrite (process_rb2b_lead_no_email w settings now rb2b_data d Hemail).
        split; [reflexivity|]. split; [reflexivity|]. split; [split; auto|].
        intros url msg exn []. }
    pose proof (lookups_quiet_rb2b w settings rb2b_data) as Hquiet.
    pose proof (lookups_commit_nothing_rb2b w settings rb2b_data) as Hnc.
    destruct (process_rb2b_lead_cases w settings now rb2b_data d Hemail)
      as [(exn & _ & ->)|(scoring & _ & ->)].
    + cbn [Run.trace Run.outcome Run.db mk_run].
      unfold expected_alerts. rewrite Hnc.
      split; [exact Hquiet|]. split; [reflexivity|]. split; [split; eauto|].
      intros url msg e Hin. exfalso. revert Hin. apply no_alert_call. exact Hquiet.
    + assert (Htier : forall row cid i,
                 rb2b_row (rb2b_lead_id now (rb2b_email rb2b_data))
                   (rb2b_company w settings rb2b_data) scoring (rb2b_person rb2b_data)
                 = Done row ->
                 cell_is "hot" (LeadRow.tier (row cid i)) = tier_is_hot scoring).
      { intros row cid i. apply rb2b_row_tier. }
      split; [|split; [|split]].
      * apply finished_alert_rule; assumption.
      * apply (finished_stored w settings); assumption.
      * rewrite (finished_none_iff w settings) by assumption.
        split; [auto|]. intros [H|H]; [discriminate|exact H].
      * intros url msg exn Hin. eexists. eapply finished_alert_failure; eassumption.
Qed.

(** ** The domain guess *)

Section Chars.
Variable p : ascii -> bool.




End Chars.






Lemma take_length (n : nat) (s : string) :
  String.length (PyStr.take n s) = Nat.min n (String.length s).
Proof.
  revert n. induction s as [|c s IH]; intros [|n]; try reflexivity.
  cbn [PyStr.take String.length]. rewrite IH. reflexivity.
Qed.




(** ** The company upsert *)

Lemma run_save_saved (s : SaveCall) (d : DB.t) :
  run_save s d = saved (save_lead_id s) (save_company s) (save_contacts s) (save_row s) d.
Proof. destruct s; [apply save_lead_run|apply save_rb2b_lead_run]. Qed.

(** A save that returned did all its writes. *)
Lemma run_save_returned (s : SaveCall) (d : DB.t) :
  Run.outcome (run_save s d) = Returned tt ->
  exists row,
    save_row s = Done row
    /\ company_binds (save_company s) (save_contacts s) = true
    /\ lead_id_taken (save_lead_id s) d = false
    /\ Run.db (run_save s d) =
       DB.with_leads
         (Table.append (row (snd (company_saved (save_company s) (save_contacts s) d)))
            (DB.leads (fst (company_saved (save_company s) (save_contacts s) d))))
         (fst (company_saved (save_company s) (save_contacts s) d)).
Proof.
  rewrite run_save_saved. unfold saved.
  destruct (finished_cases (save_lead_id s) (save_company s) (save_contacts s) (save_row s)
              [] tt [] d) as [(row & Hmk & Hbinds & Hfree & ->)|(exn & -> & _)];
    [|discriminate].
  intros _. exists row. auto.
Qed.

(** The company id on the lead row of a save. *)
Lemma save_row_company_id (s : SaveCall) row cid i :
  save_row s = Done row -> LeadRow.company_id (row cid i) = cid.
Proof.
  destruct s; cbn [save_row]; intros Hmk.
  - apply tracking_row_done in Hmk. destruct Hmk as (cells & _ & ->). reflexivity.
  - apply rb2b_row_done in Hmk. destruct Hmk as (cells & _ & ->). reflexivity.
Qed.

Lemma company_saved_companies (company : Company.t) (contacts : list Contact.t) (dom : string)
    (d : DB.t) :
  field_get (Company.domain company) = Some dom -> PyStr.truthy dom = true ->
  DB.companies (fst (company_saved company contacts d))
  = companies_after company (DB.companies d)
  /\ snd (company_saved company contacts d) = Some (Table.next_id (DB.companies d)).
Proof.
  intros Hdom Htruthy. unfold company_saved, opt_truthy. rewrite Hdom, Htruthy.
  split; reflexivity.
Qed.

Lemma conflict_iff_domain (company : Company.t) (dom : string) (tb : Table.t CompanyRow.t)
    (r : CompanyRow.t) :
  field_get (Company.domain company) = Some dom -> In r (Table.rows tb) ->
  company_conflict (company_row company (Table.next_id tb)) r = has_domain dom r.
Proof.
  intros Hdom Hin. unfold company_conflict, has_domain.
  cbn [company_row CompanyRow.id CompanyRow.domain]. rewrite Hdom.
  apply (next_id_fresh tb) in Hin. change (row_id r) with (CompanyRow.id r) in Hin.
  replace (Z.eqb (Table.next_id tb) (CompanyRow.id r)) with false
    by (symmetry; apply Z.eqb_neq; lia).
  cbn [orb]. destruct (CompanyRow.domain r); [apply String.eqb_sym|reflexivity].
Qed.

Lemma companies_after_rows (company : Company.t) (dom : string) (tb : Table.t CompanyRow.t) :
  field_get (Company.domain company) = Some dom ->
  Table.rows (companies_after company tb)
  = (List.filter (fun r => negb (has_domain dom r)) (Table.rows tb)
       ++ [company_row company (Table.next_id tb)])%list.
Proof.
  intros Hdom. unfold companies_after. cbn [Table.rows]. f_equal.
  apply List.filter_ext_in. intros r Hin.
  rewrite (conflict_iff_domain company dom tb r Hdom Hin). reflexivity.
Qed.

Lemma filter_filter_neg {A : Type} (p : A -> bool) (l : list A) :
  List.filter p (List.filter (fun x => negb (p x)) l) = [].
Proof.
  induction l as [|x l IH]; [reflexivity|]. cbn [List.filter].
  destruct (p x) eqn:Hp; cbn [negb List.filter]; [exact IH|]. rewrite Hp. exact IH.
Qed.

(** After an upsert the domain has exactly one row, built from the
    payload of that upsert alone. *)
Lemma upsert_single_row (company : Company.t) (dom : string) (tb : Table.t CompanyRow.t) :
  field_get (Company.domain company) = Some dom ->
  List.filter (has_domain dom) (Table.rows (companies_after company tb))
  = [company_row company (Table.next_id tb)].
Proof.
  intros Hdom. rewrite (companies_after_rows company dom tb Hdom).
  rewrite List.filter_app, filter_filter_neg. cbn [List.filter app].
  unfold has_domain at 1. cbn [company_row CompanyRow.domain]. rewrite Hdom, String.eqb_refl.
  reflexivity.
Qed.

(** C7.  The company write is an upsert keyed by domain, last write wins:
    after two saves for the same non-empty domain the companies table has
    exactly one row of that domain, and it is the row built from the
    second payload alone (every listed column and the blob), whatever
    the first payload was. *)
Theorem company_upsert_last_write_wins (first second : SaveCall) (dom : string) (d : DB.t) :
  field_get (Company.domain (save_company first)) = Some dom ->
  field_get (Company.domain (save_company second)) = Some dom ->
  PyStr.truthy dom = true ->
  Run.outcome (run_save first d) = Returned tt ->
  Run.outcome (run_save second (Run.db (run_save first d))) = Returned tt ->
  exists row,
    List.filter (has_domain dom)
      (Table.rows (DB.companies (Run.db (run_save second (Run.db (run_save first d))))))
    = [row]
    /\ row = company_row (save_company second) (CompanyRow.id row)
    /\ CompanyRow.name row = field_get (Company.name (save_company second))
    /\ CompanyRow.industry row = field_get (Company.industry (save_company second))
    /\ CompanyRow.country row = field_get (Company.country (save_company second))
    /\ CompanyRow.city row = field_get (Company.city (save_company second))
    /\ CompanyRow.description row = field_get (Company.description (save_company second))
    /\ CompanyRow.funding_stage row = field_get (Company.funding_stage (save_company second))
    /\ CompanyRow.linkedin_url row = field_get (Company.linkedin_url (save_company second))
    /\ CompanyRow.employee_count row
       = field_get_or (Company.employee_count (save_company second)) 0
    /\ CompanyRow.total_funding row
       = field_get_or (Company.total_funding (save_company second)) 0
    /\ CompanyRow.enriched_data row = save_company second.
Proof.
  intros _ Hsecond Htruthy _ Hret.
  set (d1 := Run.db (run_save first d)) in *.
  destruct (run_save_returned second d1 Hret) as (rowf & _ & _ & _ & ->).
  cbn [DB.companies DB.with_leads].
  destruct (company_saved_companies (save_company second) (save_contacts second) dom d1
              Hsecond Htruthy) as [-> _].
  rewrite (upsert_single_row _ dom _ Hsecond).
  eexists. split; [reflexivity|]. repeat split.
Qed.

Lemma contacts_after_keeps (cid : option Z) (cs : list Contact.t) (tb : Table.t ContactRow.t)
    (c : ContactRow.t) :
  In c (Table.rows tb) -> In c (Table.rows (contacts_after cid cs tb)).
Proof.
  revert tb. induction cs as [|x cs IH]; intros tb Hin; [exact Hin|].
  cbn [contacts_after]. apply IH. unfold Table.append. cbn [Table.rows].
  apply in_or_app. left. exact Hin.
Qed.

Lemma company_saved_keeps_contacts (company : Company.t) (contacts : list Contact.t)
    (d : DB.t) (c : ContactRow.t) :
  In c (Table.rows (DB.contacts d)) ->
  In c (Table.rows (DB.contacts (fst (company_saved company contacts d)))).
Proof.
  intros Hin. unfold company_saved.
  destruct (opt_truthy (field_get (Company.domain company))); [|exact Hin].
  cbn [fst DB.contacts DB.with_contacts]. apply contacts_after_keeps. exact Hin.
Qed.

Lemma primary_key_injective {R : Type} `{HasId R} (rs : list R) (a b : R) :
  List.NoDup (List.map row_id rs) -> In a rs -> In b rs -> row_id a = row_id b -> a = b.
Proof.
  induction rs as [|x rs IH]; [intros _ []|].
  cbn [List.map]. intros Hnd Ha Hb Heq.
  apply List.NoDup_cons_iff in Hnd. destruct Hnd as [Hnot Hnd].
  destruct Ha as [->|Ha], Hb as [->|Hb]; [reflexivity| | |apply IH; assumption].
  - exfalso. apply Hnot. rewrite Heq. apply List.in_map. exact Hb.
  - exfalso. apply Hnot. rewrite <- Heq. apply List.in_map. exact Ha.
Qed.

Lemma filter_keeps_key {R : Type} `{HasId R} (p : R -> bool) (rs : list R) :
  List.NoDup (List.map row_id rs) -> List.NoDup (List.map row_id (List.filter p rs)).
Proof.
  induction rs as [|x rs IH]; [intros _; constructor|].
  cbn [List.map List.filter]. intros Hnd.
  apply List.NoDup_cons_iff in Hnd. destruct Hnd as [Hnot Hnd].
  destruct (p x); [|apply IH; exact Hnd].
  cbn [List.map]. constructor; [|apply IH; exact Hnd].
  intros Hin. apply Hnot. apply List.in_map_iff in Hin. destruct Hin as (y & Hy & Hin).
  apply List.filter_In in Hin. destruct Hin as [Hin _].
  rewrite <- Hy. apply List.in_map. exact Hin.
Qed.

(** The rows a save leaves in the companies table, for a domain that had
    the row [old]: none of them has the id of [old]. *)
Lemma upsert_drops_old_id (company : Company.t) (dom : string) (tb : Table.t CompanyRow.t)
    (old r : CompanyRow.t) :
  primary_key tb ->
  In old (Table.rows tb) -> CompanyRow.domain old = Some dom ->
  field_get (Company.domain company) = Some dom ->
  In r (Table.rows (companies_after company tb)) ->
  CompanyRow.id r <> CompanyRow.id old.
Proof.
  intros Hpk Hold Holddom Hdom Hin.
  rewrite (companies_after_rows company dom tb Hdom) in Hin.
  apply in_app_or in Hin. destruct Hin as [Hin|[<-|[]]].
  - apply List.filter_In in Hin. destruct Hin as [Hin Hkeep].
    intros Heq.
    assert (r = old) as -> by (apply (primary_key_injective (Table.rows tb)); assumption).
    unfold has_domain in Hkeep. rewrite Holddom, String.eqb_refl in Hkeep. discriminate.
  - cbn [company_row CompanyRow.id].
    apply (next_id_fresh tb) in Hold. change (row_id old) with (CompanyRow.id old) in Hold.
    lia.
Qed.

(** The primary key survives an upsert. *)
Lemma upsert_keeps_primary_key (company : Company.t) (tb : Table.t CompanyRow.t) :
  primary_key tb -> primary_key (companies_after company tb).
Proof.
  unfold primary_key, companies_after. cbn [Table.rows].
  intros Hpk. rewrite List.map_app. apply List.NoDup_app.
  - apply filter_keeps_key. exact Hpk.
  - repeat constructor. intros [].
  - intros i Hin [<-|[]].
    apply List.in_map_iff in Hin. destruct Hin as (y & Hy & Hin).
    apply List.filter_In in Hin. destruct Hin as [Hin _].
    apply (next_id_fresh tb) in Hin. revert Hy Hin.
    change (row_id ?x) with (CompanyRow.id x). cbn [company_row CompanyRow.id]. lia.
Qed.

(** C10.  A save for a domain that already has a company row [old]
    replaces that row by a new one with a larger, fresh id: afterwards no
    company row has the id of [old].  The leads and contacts stored
    before are all kept as they were, so each of them that pointed to
    [old] now holds a company id that no company row has; only the lead
    of this save points to the new row. *)
Theorem company_upsert_orphans (s : SaveCall) (dom : string) (old : CompanyRow.t) (d : DB.t) :
  primary_key (DB.companies d) ->
  In old (Table.rows (DB.companies d)) ->
  CompanyRow.domain old = Some dom ->
  field_get (Company.domain (save_company s)) = Some dom ->
  PyStr.truthy dom = true ->
  Run.outcome (run_save s d) = Returned tt ->
  CompanyRow.id old < Table.next_id (DB.companies d)
  /\ List.filter (has_domain dom) (Table.rows (DB.companies (Run.db (run_save s d))))
     = [company_row (save_company s) (Table.next_id (DB.companies d))]
  /\ (forall r, In r (Table.rows (DB.companies (Run.db (run_save s d)))) ->
                CompanyRow.id r <> CompanyRow.id old)
  /\ (forall l, In l (Table.rows (DB.leads d)) ->
        In l (Table.rows (DB.leads (Run.db (run_save s d))))
        /\ (LeadRow.company_id l = Some (CompanyRow.id old) ->
            forall r, In r (Table.rows (DB.companies (Run.db (run_save s d)))) ->
                      LeadRow.company_id l <> Some (CompanyRow.id r)))
  /\ (forall c, In c (Table.rows (DB.contacts d)) ->
        In c (Table.rows (DB.contacts (Run.db (run_save s d))))
        /\ (ContactRow.company_id c = Some (CompanyRow.id old) ->
            forall r, In r (Table.rows (DB.companies (Run.db (run_save s d)))) ->
                      ContactRow.company_id c <> Some (CompanyRow.id r)))
  /\ (exists row,
        Table.rows (DB.leads (Run.db (run_save s d))) = (Table.rows (DB.leads d) ++ [row])%list
        /\ LeadRow.company_id row = Some (Table.next_id (DB.companies d))).
Proof.
  intros Hpk Hold Holddom Hdom Htruthy Hret.
  destruct (run_save_returned s d Hret) as (rowf & Hmk & _ & _ & ->).
  cbn [DB.companies DB.contacts DB.leads DB.with_leads Table.append Table.rows].
  destruct (company_saved_companies (save_company s) (save_contacts s) dom d Hdom Htruthy)
    as [Hcompanies Hcid].
  rewrite Hcompanies, Hcid, company_saved_leads.
  assert (Hgone : forall r, In r (Table.rows (companies_after (save_company s) (DB.companies d)))
                            -> CompanyRow.id r <> CompanyRow.id old).
  { intros r. apply (upsert_drops_old_id _ dom); assumption. }
  split; [|split; [|split; [|split; [|split]]]].
  - apply (next_id_fresh (DB.companies d)) in Hold. exact Hold.
  - apply upsert_single_row. exact Hdom.
  - exact Hgone.
  - intros l Hl. split; [apply in_or_app; left; exact Hl|].
    intros Hlink r Hr. rewrite Hlink. intros [= Heq]. apply (Hgone r Hr). symmetry. exact Heq.
  - intros c Hc. split; [apply company_saved_keeps_contacts; exact Hc|].
    intros Hlink r Hr. rewrite Hlink. intros [= Heq]. apply (Hgone r Hr). symmetry. exact Heq.
  - eexists. split; [reflexivity|]. apply (save_row_company_id s). exact Hmk.
Qed.

(** ** Where the writes depart from the schema *)

Lemma contacts_after_length (cid : option Z) (cs : list Contact.t) (tb : Table.t ContactRow.t) :
  List.length (Table.rows (contacts_after cid cs tb))
  = (List.length (Table.rows tb) + List.length cs)%nat.
Proof.
  revert tb. induction cs as [|c cs IH]; intros tb; cbn [contacts_after List.length]; [lia|].
  rewrite IH. unfold Table.append. cbn [Table.rows]. rewrite List.length_app. simpl. lia.
Qed.

(** C6 (what the code does).  INSERT OR IGNORE never ignores: the
    contacts table has no UNIQUE constraint, so the loop over the
    contacts adds one row per contact, whatever is stored (up to a
    contact whose confidence is no 64-bit integer, where the loop
    raises).  One save with the same contact twice stores two rows with
    the same company, name and email; two webhook runs for the same
    person store the contact found by Hunter twice. *)
Theorem contact_insert_never_ignores :
  (forall cid cs d,
     List.length (Table.rows (DB.contacts
                    (Run.db (for_each cs (insert_or_ignore_contact cid) d))))
     = (List.length (Table.rows (DB.contacts d)) + List.length (binding_prefix cs))%nat)
  /\ (forall cid cs d,
        List.forallb (fun c => int_binds (Contact.confidence c)) cs = true ->
        List.length (Table.rows (DB.contacts
                       (Run.db (for_each cs (insert_or_ignore_contact cid) d))))
        = (List.length (Table.rows (DB.contacts d)) + List.length cs)%nat)
  /\ List.map contact_identity
       (Table.rows (DB.contacts
          (Run.db (run_save (shopify_save "rb2b_1700000000_john.smi" 0
                               [jane_contact; jane_contact]) DB.empty))))
     = [(Some 1, Some "Jane Doe", Some "jane.doe@shopify.com");
        (Some 1, Some "Jane Doe", Some "jane.doe@shopify.com")]
  /\ List.map contact_identity
       (Table.rows (DB.contacts
          (Run.db (process_rb2b_lead (sample_world 0 60 "warm") all_keys 1700000100 sample_data
             (Run.db (process_rb2b_lead (sample_world 0 60 "warm") all_keys 1700000000
                        sample_data DB.empty))))))
     = [(Some 1, Some "Jane Doe", Some "jane.doe@shopify.com");
        (Some 2, Some "Jane Doe", Some "jane.doe@shopify.com")].
Proof.
  assert (Hloop : forall cid cs d,
            List.length (Table.rows (DB.contacts
                           (Run.db (for_each cs (insert_or_ignore_contact cid) d))))
            = (List.length (Table.rows (DB.contacts d))
               + List.length (binding_prefix cs))%nat).
  { intros cid cs d. rewrite save_contacts_run.
    cbn [Run.db mk_run DB.contacts DB.with_contacts]. apply contacts_after_length. }
  split; [exact Hloop|]. split; [|split; vm_compute; reflexivity].
  intros cid cs d Hall. rewrite Hloop, (binding_prefix_all cs Hall). reflexivity.
Qed.

(** C9 (what the code does).  The company row does not store the annual
    revenue: the INSERT leaves the column out, so it holds the schema
    default 0, while the value returned by the enrichment is only inside
    the blob.  Here Apollo returns 5600000000 for shopify.com. *)
Theorem annual_revenue_not_stored :
  List.map (fun r => (CompanyRow.domain r, CompanyRow.annual_revenue r,
                      Company.annual_revenue (CompanyRow.enriched_data r)))
    (Table.rows (DB.companies
       (Run.db (process_rb2b_lead (sample_world 5600000000 60 "warm") all_keys 1700000000
                  sample_data DB.empty))))
  = [(Some "shopify.com", Some 0, Val 5600000000)]
  /\ List.map (fun r => (CompanyRow.domain r, CompanyRow.annual_revenue r,
                         Company.annual_revenue (CompanyRow.enriched_data r)))
       (Table.rows (DB.companies
          (Run.db (process_visitor (sample_world 5600000000 60 "warm") all_keys 1700000000
                     (sample_visitor "23.227.38.33") "" DB.empty))))
     = [(Some "shopify.com", Some 0, Val 5600000000)]
  /\ (forall company id, CompanyRow.annual_revenue (company_row company id) = Some 0).
Proof. split; [|split]; [vm_compute; reflexivity..|reflexivity]. Qed.

(** ** Instances *)



Lemma rb2b_requires_email_witness :
  Run.db (process_rb2b_lead (sample_world 0 60 "hot") all_keys 1700000000 nameless_data
            DB.empty) = DB.empty
  /\ Run.trace (process_rb2b_lead (sample_world 0 60 "hot") all_keys 1700000000 nameless_data
                  DB.empty) = [].
Proof.
  destruct (rb2b_requires_email (sample_world 0 60 "hot") all_keys 1700000000 nameless_data
              DB.empty) as (_ & Hdb & Htrace & _).
  - right. vm_compute. reflexivity.
  - left. vm_compute. reflexivity.
  - split; assumption.
Defined.

Lemma visitor_stored_first_witness :
  Run.trace (process_visitor (sample_world 0 90 "hot") all_keys 1700000000
               (sample_visitor "127.0.0.1") "203.0.113.7" DB.empty)
  = [VisitorCommitted
       {| VisitorRow.id := 1;
          VisitorRow.session_id := "sess_4f2a91c07b";
          VisitorRow.ip_address := "127.0.0.1";
          VisitorRow.pages_viewed := [[("url", JStr "/")]; [("url", JStr "/pricing")]];
          VisitorRow.visit_duration := 95;
          VisitorRow.referrer := Some "";
          VisitorRow.user_agent := Some "Mozilla/5.0" |}]
  /\ DB.leads (Run.db (process_visitor (sample_world 0 90 "hot") all_keys 1700000000
                         (sample_visitor "127.0.0.1") "203.0.113.7" DB.empty))
     = Table.empty.
Proof.
  destruct (visitor_stored_first (sample_world 0 90 "hot") all_keys 1700000000
              (sample_visitor "127.0.0.1") "203.0.113.7" DB.empty)
    as (_ & Hstored & _).
  destruct (Hstored _ eq_refl) as (_ & _ & Hlocal); [vm_compute; reflexivity|].
  destruct Hlocal as (_ & Htrace & Hleads & _).
  - right. left. vm_compute. reflexivity.
  - split; [exact Htrace|exact Hleads].
Defined.

(** A tracking event whose duration is 2^63: nothing is stored, not
    even the raw visit. *)
Lemma oversized_duration_not_stored :
  Run.outcome (process_visitor (sample_world 0 90 "hot") all_keys 1700000000
                 (visitor_lasting (2 ^ 63) "23.227.38.33") "" DB.empty)
  = Raised "OverflowError: Python int too large to convert to SQLite INTEGER"
  /\ Run.db (process_visitor (sample_world 0 90 "hot") all_keys 1700000000
               (visitor_lasting (2 ^ 63) "23.227.38.33") "" DB.empty)
     = DB.empty
  /\ Table.rows (DB.visitors
                   (Run.db (process_visitor (sample_world 0 90 "hot") all_keys 1700000000
                              (visitor_lasting (2 ^ 63) "127.0.0.1") "" DB.empty)))
     = [].
Proof. repeat split; vm_compute; reflexivity. Qed.





Lemma company_upsert_last_write_wins_witness :
  exists row,
    List.filter (has_domain "shopify.com") (Table.rows (DB.companies second_saved)) = [row]
    /\ CompanyRow.id row = 2
    /\ Company.annual_revenue (CompanyRow.enriched_data row) = Val 200.
Proof.
  destruct (company_upsert_last_write_wins
              (shopify_save "rb2b_1700000000_john.smi" 100 [jane_contact])
              (shopify_save "rb2b_1700000100_john.smi" 200 []) "shopify.com" DB.empty)
    as (row & Hrows & _); try (vm_compute; reflexivity).
  exists row. split; [exact Hrows|].
  vm_compute in Hrows. injection Hrows as <-. split; reflexivity.
Defined.

Lemma alert_exactly_when_hot_witness :
  alert_calls (Run.trace (process_rb2b_lead (sample_world 0 60 "warm") all_keys 1700000000
                            sample_data DB.empty)) = 1%nat
  /\ (exists res,
        Run.outcome (process_rb2b_lead (sample_world 0 60 "warm") all_keys 1700000000
                       sample_data DB.empty) = Returned (Some res))
  /\ alert_calls (Run.trace (process_visitor (sample_world 0 40 "warm") all_keys 1700000000
                               (sample_visitor "23.227.38.33") "" DB.empty)) = 0%nat.
Proof.
  pose proof (proj2 (alert_exactly_when_hot (sample_world 0 60 "warm") all_keys 1700000000
                       DB.empty) sample_data) as (Hcount & _ & _ & Hswallowed).
  pose proof (proj1 (alert_exactly_when_hot (sample_world 0 40 "warm") all_keys 1700000000
                       DB.empty) (sample_visitor "23.227.38.33") "") as (Hcount' & _ & _ & _).
  split; [rewrite Hcount; vm_compute; reflexivity|].
  split; [|rewrite Hcount'; vm_compute; reflexivity].
  eapply Hswallowed. vm_compute. do 4 right. left. reflexivity.
Defined.

Lemma company_upsert_orphans_witness :
  List.map LeadRow.company_id (Table.rows (DB.leads second_saved)) = [Some 1; Some 2]
  /\ List.map ContactRow.company_id (Table.rows (DB.contacts second_saved)) = [Some 1]
  /\ List.map CompanyRow.id (Table.rows (DB.companies second_saved)) = [2]
  /\ (forall r, In r (Table.rows (DB.companies second_saved)) -> CompanyRow.id r <> 1).
Proof.
  destruct (company_upsert_orphans (shopify_save "rb2b_1700000100_john.smi" 200 [])
              "shopify.com"
              (company_row (company_of_org (shopify_org 100) "shopify.com") 1) first_saved)
    as (_ & _ & Hgone & _).
  - vm_compute. repeat constructor. intros [].
  - vm_compute. left. reflexivity.
  - reflexivity.
  - reflexivity.
  - reflexivity.
  - vm_compute. reflexivity.
  - repeat split; try (vm_compute; reflexivity). exact Hgone.
Defined.

(** * Further properties *)

(** ** The envelope of the resolvers *)

(** X1.  The three lookups of ipinfo, Apollo and Hunter never raise and
    never touch the database.  Each makes no call when its identifier
    or credential is missing (a local or empty IP; an empty key or
    domain) and exactly one call otherwise, and reports success exactly
    when that call was answered 200 with a body that decodes (for
    Apollo: with a non-empty organization); the data of a success is
    built from that body, a null of the body staying a null (a contact
    whose names are null is called "None None").  The scoring call does
    not touch the database either.  Without a key it makes no call and
    reports a failure; with a key it first builds the prompt, which
    raises TypeError on a company whose description is null, before any
    call; otherwise it makes exactly one call and reports success
    exactly when the call was answered 200 with a content that parses,
    whatever JSON value that is. *)
Theorem resolvers_envelope (w : World.t) (d : DB.t) :
  (forall ip token,
     exists res tr,
       lookup_company_from_ip w ip token d = mk_run (Returned res) d tr
       /\ List.length tr = (if ip_skipped ip then 0 else 1)%nat
       /\ is_success res
          = negb (ip_skipped ip) && has_body (World.ipinfo w (ipinfo_url ip token))
       /\ (forall body,
             ip_skipped ip = false ->
             usable (World.ipinfo w (ipinfo_url ip token)) = Some body ->
             exists data,
               res = Success data
               /\ IpData.ip data = ip
               /\ IpData.org data = field_get_or (IpinfoBody.org body) ""
               /\ IpData.city data = field_get_or (IpinfoBody.city body) ""
               /\ IpData.region data = field_get_or (IpinfoBody.region body) ""
               /\ IpData.country data = field_get_or (IpinfoBody.country body) ""))
  /\ (forall domain api_key,
        exists res tr,
          enrich_company_apollo w domain api_key d = mk_run (Returned res) d tr
          /\ List.length tr
             = (if PyStr.truthy api_key && PyStr.truthy domain then 1 else 0)%nat
          /\ is_success res
             = PyStr.truthy api_key && PyStr.truthy domain
               && has_organization (World.apollo w api_key domain)
          /\ (forall org,
                PyStr.truthy api_key && PyStr.truthy domain = true ->
                usable (World.apollo w api_key domain) = Some (Some org) ->
                res = Success (company_of_org org domain)))
  /\ (forall domain api_key,
        exists res tr,
          find_contacts_hunter w domain api_key d = mk_run (Returned res) d tr
          /\ List.length tr
             = (if PyStr.truthy api_key && PyStr.truthy domain then 1 else 0)%nat
          /\ is_success res
             = PyStr.truthy api_key && PyStr.truthy domain
               && has_body (World.hunter w api_key domain)
          /\ (forall emails,
                PyStr.truthy api_key && PyStr.truthy domain = true ->
                usable (World.hunter w api_key domain) = Some emails ->
                res = Success (List.map contact_of_email (List.firstn 5 emails))))
  /\ Contact.name (contact_of_email info_address) = "None None"
  /\ Contact.name (contact_of_email jane) = "Jane Doe"
  /\ (forall company contacts visit_data person_data api_key icp,
        (PyStr.truthy api_key = false ->
         score_lead_openai w company contacts visit_data person_data api_key icp d
         = mk_run (Returned (Fail "No OpenAI key")) d [])
        /\ (PyStr.truthy api_key = true ->
            field_get_or (Company.description company) "" = None ->
            score_lead_openai w company contacts visit_data person_data api_key icp d
            = mk_run (Raised "TypeError: 'NoneType' object is not subscriptable") d [])
        /\ (forall description,
              PyStr.truthy api_key = true ->
              field_get_or (Company.description company) "" = Some description ->
              exists prompt res,
                build_prompt company contacts visit_data person_data icp = Done prompt
                /\ Prompt.company_description prompt = PyStr.take 200 description
                /\ score_lead_openai w company contacts visit_data person_data api_key icp d
                   = mk_run (Returned res) d
                       [OpenAICall api_key prompt (World.openai w api_key prompt)]
                /\ is_success res = has_body (World.openai w api_key prompt)
                /\ (forall data,
                      usable (World.openai w api_key prompt) = Some data ->
                      res = Success data))).
Proof.
  split; [|split; [|split; [|split; [|split]]]].
  - intros ip token. eexists _, _. split; [apply lookup_company_from_ip_explicit|].
    rewrite lookup_company_from_ip_value. unfold ipinfo_calls, has_body, usable.
    destruct (ip_skipped ip); [repeat split; discriminate|].
    destruct (World.ipinfo w _) as [code text [body|]|exn];
      try destruct (Z.eqb code 200); repeat split; try discriminate.
    intros b _ [= <-]. eexists. repeat split.
  - intros domain api_key. eexists _, _. split; [apply enrich_company_apollo_explicit|].
    rewrite enrich_company_apollo_value. unfold apollo_calls, has_organization, usable.
    destruct (PyStr.truthy api_key), (PyStr.truthy domain); cbn [negb orb andb];
      try (repeat split; discriminate).
    destruct (World.apollo w _ _) as [code text [[org|]|]|exn];
      try destruct (Z.eqb code 200); repeat split; try discriminate.
    intros o _ [= <-]. reflexivity.
  - intros domain api_key. eexists _, _. split; [apply find_contacts_hunter_explicit|].
    rewrite find_contacts_hunter_value. unfold hunter_calls, has_body, usable.
    destruct (PyStr.truthy api_key), (PyStr.truthy domain); cbn [negb orb andb];
      try (repeat split; discriminate).
    destruct (World.hunter w _ _) as [code text [emails|]|exn];
      try destruct (Z.eqb code 200); repeat split; try discriminate.
    intros e _ [= <-]. reflexivity.
  - reflexivity.
  - reflexivity.
  - intros company contacts visit_data person_data api_key icp.
    pose proof (score_lead_openai_stateless w company contacts visit_data person_data api_key
                  icp d) as Hrun.
    rewrite score_lead_openai_outcome, score_lead_openai_calls in Hrun.
    unfold openai_calls in Hrun. rewrite Hrun.
    split; [intros ->; reflexivity|]. split.
    + intros -> Hnull. cbn [negb]. unfold build_prompt, description_slice. rewrite Hnull.
      reflexivity.
    + intros description -> Hdescription. cbn [negb].
      unfold build_prompt, description_slice. rewrite Hdescription.
      eexists _, _. split; [reflexivity|]. split; [reflexivity|]. split; [reflexivity|].
      unfold has_body, usable.
      destruct (World.openai w _ _) as [code text [data|]|exn];
        try destruct (Z.eqb code 200); repeat split; try discriminate.
      intros x [= <-]. reflexivity.
Qed.

(** ** The calls of a run *)

(** The trace of a run past its guard: the lookups, then nothing more
    when the run raised, or the commit of the lead and the alert. *)
Lemma rb2b_trace w settings now rb2b_data d :
  PyStr.truthy (rb2b_email rb2b_data) = true ->
  exists tail,
    Run.trace (process_rb2b_lead w settings now rb2b_data d)
    = (rb2b_lookups w settings rb2b_data ++ tail)%list
    /\ (tail = []
        \/ exists row scoring,
             tail = LeadCommitted row
                      :: alert_trace w settings (rb2b_company w settings rb2b_data) scoring
                           (rb2b_person rb2b_data)).
Proof.
  intros Hemail.
  destruct (process_rb2b_lead_cases w settings now rb2b_data d Hemail)
    as [(exn & _ & ->)|(scoring & _ & ->)].
  - exists []. rewrite app_nil_r. split; [reflexivity|left; reflexivity].
  - match goal with
    | |- context [finished ?l ?c ?cs ?mk ?al ?res ?tr ?db] =>
        destruct (finished_cases l c cs mk al res tr db)
          as [(row & _ & _ & _ & ->)|(exn & -> & _)]
    end.
    + eexists. split; [reflexivity|]. right. eauto.
    + exists []. rewrite app_nil_r. split; [reflexivity|left; reflexivity].
Qed.

Lemma tracking_trace w settings now visitor client_ip d :
  int64 (Visitor.visit_duration visitor) = true ->
  is_local_ip (effective_ip visitor client_ip) = false ->
  exists tail,
    Run.trace (process_visitor w settings now visitor client_ip d)
    = (VisitorCommitted (visit_row visitor (effective_ip visitor client_ip) d)
         :: tracking_lookups w settings visitor client_ip ++ tail)%list
    /\ (tail = []
        \/ exists row scoring,
             tail = LeadCommitted row
                      :: alert_trace w settings (tracking_company w settings visitor client_ip)
                           scoring Person.empty).
Proof.
  intros Hd Hlocal.
  destruct (process_visitor_cases w settings now visitor client_ip d Hd Hlocal)
    as [(exn & _ & ->)|(scoring & _ & ->)].
  - exists []. rewrite app_nil_r. split; [reflexivity|left; reflexivity].
  - match goal with
    | |- context [finished ?l ?c ?cs ?mk ?al ?res ?tr ?db] =>
        destruct (finished_cases l c cs mk al res tr db)
          as [(row & _ & _ & _ & ->)|(exn & -> & _)]
    end.
    + eexists. split; [reflexivity|]. right. eauto.
    + exists []. rewrite app_nil_r. split; [reflexivity|left; reflexivity].
Qed.

(** X2.  No retries, fixed order: a tracking run writes the visit, then
    calls ipinfo, Apollo, Hunter and the scoring engine at most once
    each and in this order, then writes the lead, then alerts at most
    once; a webhook run does the same without the first two steps. *)
Theorem calls_in_order (w : World.t) (settings : Settings.t) (now : Z) (d : DB.t) :
  (forall visitor client_ip,
     subsequence (List.map service (Run.trace (process_visitor w settings now visitor client_ip d)))
       [Sqlite; Ipinfo; Apollo; Hunter; OpenAI; Sqlite; Slack] = true)
  /\ (forall rb2b_data,
        subsequence (List.map service (Run.trace (process_rb2b_lead w settings now rb2b_data d)))
          [Apollo; Hunter; OpenAI; Sqlite; Slack] = true).
Proof.
  split.
  - intros visitor client_ip.
    destruct (int64 (Visitor.visit_duration visitor)) eqn:Hd;
      [|rewrite (process_visitor_overflow w settings now visitor client_ip d Hd);
        reflexivity].
    destruct (is_local_ip (effective_ip visitor client_ip)) eqn:Hlocal.
    + rewrite (process_visitor_local w settings now visitor client_ip d Hd Hlocal).
      reflexivity.
    + destruct (tracking_trace w settings now visitor client_ip d Hd Hlocal)
        as (tail & -> & [->|(row & scoring & ->)]);
        unfold tracking_lookups, ipinfo_calls, apollo_calls, hunter_calls, openai_calls,
          alert_trace;
        split_ifs; reflexivity.
  - intros rb2b_data.
    destruct (PyStr.truthy (rb2b_email rb2b_data)) eqn:Hemail.
    + destruct (rb2b_trace w settings now rb2b_data d Hemail)
        as (tail & -> & [->|(row & scoring & ->)]);
        unfold rb2b_lookups, apollo_calls, hunter_calls, openai_calls, alert_trace;
        split_ifs; reflexivity.
    + rewrite (process_rb2b_lead_no_email w settings now rb2b_data d Hemail). reflexivity.
Qed.

Section Addressed.
Variables (w : World.t) (settings : Settings.t) (ip domain : string).

Let ok (e : Event) : Prop := addressed settings ip domain e = true.

Lemma ipinfo_calls_addressed :
  Forall ok (ipinfo_calls w ip (Settings.ipinfo_token settings)).
Proof.
  unfold ipinfo_calls. destruct (ip_skipped ip); repeat constructor.
  unfold ok. cbn [addressed]. apply String.eqb_refl.
Qed.

Lemma apollo_calls_addressed :
  Forall ok (apollo_calls w domain (Settings.apollo_api_key settings)).
Proof.
  unfold apollo_calls.
  destruct (PyStr.truthy (Settings.apollo_api_key settings)) eqn:Hk,
    (PyStr.truthy domain) eqn:Hd; cbn [negb orb]; repeat constructor.
  unfold ok. cbn [addressed]. rewrite !String.eqb_refl, Hk, Hd. reflexivity.
Qed.

Lemma hunter_calls_addressed :
  Forall ok (hunter_calls w domain (Settings.hunter_api_key settings)).
Proof.
  unfold hunter_calls.
  destruct (PyStr.truthy (Settings.hunter_api_key settings)) eqn:Hk,
    (PyStr.truthy domain) eqn:Hd; cbn [negb orb]; repeat constructor.
  unfold ok. cbn [addressed]. rewrite !String.eqb_refl, Hk, Hd. reflexivity.
Qed.

Lemma openai_calls_addressed prompt :
  Forall ok (openai_calls w (Settings.openai_api_key settings) prompt).
Proof.
  unfold openai_calls.
  destruct (PyStr.truthy (Settings.openai_api_key settings)) eqn:Hk;
    cbn [negb]; [|constructor].
  destruct prompt as [p|exn]; repeat constructor.
  unfold ok. cbn [addressed]. rewrite String.eqb_refl, Hk. reflexivity.
Qed.

Lemma alert_trace_addressed company scoring person :
  Forall ok (alert_trace w settings company scoring person).
Proof.
  unfold alert_trace.
  destruct (PyStr.truthy (Settings.slack_webhook_url settings)) eqn:Hk,
    (tier_is_hot scoring); cbn [andb]; repeat constructor.
  unfold ok. cbn [addressed]. rewrite String.eqb_refl, Hk. reflexivity.
Qed.
End Addressed.

(** X3.  Every call of a run carries the credential configured for its
    own service, and only a non-empty one: the ipinfo URL is built from
    the effective IP and the ipinfo token, Apollo and Hunter receive
    their own key and the same non-empty domain (the guessed one on the
    tracking pathway, the host part of the email on the webhook
    pathway), the engine its own key, and the alert goes to the
    configured webhook. *)
Theorem calls_addressed (w : World.t) (settings : Settings.t) (now : Z) (d : DB.t) :
  (forall visitor client_ip,
     Forall (fun e => addressed settings (effective_ip visitor client_ip)
                        (tracking_domain w settings visitor client_ip) e = true)
            (Run.trace (process_visitor w settings now visitor client_ip d)))
  /\ (forall rb2b_data,
        Forall (fun e => addressed settings "" (email_domain (rb2b_email rb2b_data)) e = true)
               (Run.trace (process_rb2b_lead w settings now rb2b_data d))).
Proof.
  split.
  - intros visitor client_ip.
    destruct (int64 (Visitor.visit_duration visitor)) eqn:Hd;
      [|rewrite (process_visitor_overflow w settings now visitor client_ip d Hd);
        constructor].
    destruct (is_local_ip (effective_ip visitor client_ip)) eqn:Hlocal.
    + rewrite (process_visitor_local w settings now visitor client_ip d Hd Hlocal).
      repeat constructor.
    + destruct (tracking_trace w settings now visitor client_ip d Hd Hlocal)
        as (tail & -> & Htail).
      constructor; [reflexivity|]. unfold tracking_lookups.
      repeat (apply Forall_app; split).
      * apply ipinfo_calls_addressed.
      * apply apollo_calls_addressed.
      * apply hunter_calls_addressed.
      * destruct (PyStr.truthy _); [apply openai_calls_addressed|constructor].
      * destruct Htail as [->|(row & scoring & ->)]; constructor; [reflexivity|].
        apply alert_trace_addressed.
  - intros rb2b_data.
    destruct (PyStr.truthy (rb2b_email rb2b_data)) eqn:Hemail.
    + destruct (rb2b_trace w settings now rb2b_data d Hemail) as (tail & -> & Htail).
      unfold rb2b_lookups. repeat (apply Forall_app; split).
      * apply apollo_calls_addressed.
      * apply hunter_calls_addressed.
      * apply openai_calls_addressed.
      * destruct Htail as [->|(row & scoring & ->)]; constructor; [reflexivity|].
        apply alert_trace_addressed.
    + rewrite (process_rb2b_lead_no_email w settings now rb2b_data d Hemail). constructor.
Qed.

Lemma prompts_app (tr tr' : list Event) : prompts (tr ++ tr') = (prompts tr ++ prompts tr')%list.
Proof.
  induction tr as [|e tr IH]; [reflexivity|].
  destruct e; cbn [app prompts]; rewrite ?IH; reflexivity.
Qed.


Lemma prompts_apollo w domain api_key : prompts (apollo_calls w domain api_key) = [].
Proof. unfold apollo_calls. destruct (negb _ || negb _); reflexivity. Qed.

Lemma prompts_hunter w domain api_key : prompts (hunter_calls w domain api_key) = [].
Proof. unfold hunter_calls. destruct (negb _ || negb _); reflexivity. Qed.

Lemma prompts_openai w api_key prompt :
  prompts (openai_calls w api_key prompt)
  = match prompt with
    | Done p => if PyStr.truthy api_key then [p] else []
    | Throws _ => []
    end.
Proof. unfold openai_calls. destruct (PyStr.truthy api_key), prompt; reflexivity. Qed.

Lemma prompts_alert w settings company scoring person :
  prompts (alert_trace w settings company scoring person) = [].
Proof. unfold alert_trace. destruct (_ && _); reflexivity. Qed.


Lemma take_length_le (n : nat) (s : string) : (String.length (PyStr.take n s) <= n)%nat.
Proof. rewrite take_length. lia. Qed.

(** The fields of a prompt that was built. *)
Lemma build_prompt_fields company contacts visit_data person_data icp prompt :
  build_prompt company contacts visit_data person_data icp = Done prompt ->
  Prompt.person_name prompt = get_or (Person.name person_data) "Unknown"
  /\ Prompt.person_title prompt = get_or (Person.title person_data) "Unknown"
  /\ Prompt.person_email prompt = get_or (Person.email person_data) "Unknown"
  /\ Prompt.pages prompt = List.map page_entry (VisitData.pages_viewed visit_data)
  /\ Prompt.duration prompt = VisitData.visit_duration visit_data
  /\ Prompt.referrer prompt = VisitData.referrer visit_data
  /\ Prompt.icp prompt = icp
  /\ (String.length (Prompt.company_description prompt) <= 200)%nat
  /\ Prompt.contacts_found prompt = List.length contacts.
Proof.
  unfold build_prompt, description_slice.
  destruct (field_get_or (Company.description company) "") as [s|]; [|discriminate].
  pose proof (take_length_le 200 s) as Hlen.
  set (description := PyStr.take 200 s) in *. clearbody description.
  intros [= <-]. do 7 (split; [reflexivity|]). split; [exact Hlen|reflexivity].
Qed.


(** ** What a save links *)

Lemma contacts_after_rows (cid : option Z) (cs : list Contact.t) (tb : Table.t ContactRow.t) :
  exists added,
    Table.rows (contacts_after cid cs tb) = (Table.rows tb ++ added)%list
    /\ List.length added = List.length cs
    /\ Forall (fun c => ContactRow.company_id c = cid) added
    /\ List.map ContactRow.email added = List.map Contact.email cs.
Proof.
  revert tb. induction cs as [|c cs IH]; intros tb.
  - exists []. rewrite app_nil_r. repeat split. constructor.
  - cbn [contacts_after]. destruct (IH (Table.append (contact_row cid c) tb))
      as (added & Hrows & Hlen & Hcid & Hemail).
    exists (contact_row cid c (Table.next_id tb) :: added).
    rewrite Hrows. unfold Table.append. cbn [Table.rows]. rewrite <- app_assoc.
    split; [reflexivity|]. split; [simpl; lia|]. split.
    + constructor; [reflexivity|exact Hcid].
    + cbn [List.map contact_row ContactRow.email]. rewrite Hemail. reflexivity.
Qed.

(** The database part of a save that went through. *)
Lemma company_saved_links (company : Company.t) (contacts : list Contact.t) (d : DB.t) :
  match snd (company_saved company contacts d) with
  | Some cid =>
      exists c, In c (Table.rows (DB.companies (fst (company_saved company contacts d))))
                /\ CompanyRow.id c = cid
                /\ CompanyRow.domain c = field_get (Company.domain company)
                /\ opt_truthy (CompanyRow.domain c) = true
  | None =>
      opt_truthy (field_get (Company.domain company)) = false
      /\ fst (company_saved company contacts d) = d
  end
  /\ exists added,
       Table.rows (DB.contacts (fst (company_saved company contacts d)))
       = (Table.rows (DB.contacts d) ++ added)%list
       /\ (List.length added <= List.length contacts)%nat
       /\ Forall (fun c => ContactRow.company_id c = snd (company_saved company contacts d))
                 added.
Proof.
  unfold company_saved.
  destruct (opt_truthy (field_get (Company.domain company))) eqn:Hdom; cbn [fst snd].
  - split.
    + exists (company_row company (Table.next_id (DB.companies d))).
      cbn [DB.companies DB.with_contacts DB.with_companies companies_after Table.rows].
      split; [apply in_or_app; right; left; reflexivity|].
      split; [reflexivity|]. split; [reflexivity|exact Hdom].
    + cbn [DB.contacts DB.with_contacts].
      destruct (contacts_after_rows (Some (Table.next_id (DB.companies d))) contacts
                  (DB.contacts d)) as (added & Hrows & Hlen & Hcid & _).
      exists added. split; [exact Hrows|]. split; [lia|exact Hcid].
  - split; [split; reflexivity|]. exists []. rewrite app_nil_r. repeat split.
    + simpl. lia.
    + constructor.
Qed.

(** The row builders of the two pathways set the id, the lead id and
    the company id they are given. *)
Lemma tracking_row_ids lead_id visitor scoring ip identified source person row :
  tracking_row lead_id visitor scoring ip identified source person = Done row ->
  forall cid i,
    LeadRow.id (row cid i) = i /\ LeadRow.lead_id (row cid i) = lead_id
    /\ LeadRow.company_id (row cid i) = cid.
Proof.
  intros Hmk. apply tracking_row_done in Hmk. destruct Hmk as (cells & _ & ->).
  intros cid i. repeat split.
Qed.

Lemma rb2b_row_ids lead_id company scoring person row :
  rb2b_row lead_id company scoring person = Done row ->
  forall cid i,
    LeadRow.id (row cid i) = i /\ LeadRow.lead_id (row cid i) = lead_id
    /\ LeadRow.company_id (row cid i) = cid.
Proof.
  intros Hmk. apply rb2b_row_done in Hmk. destruct Hmk as (cells & _ & ->).
  intros cid i. repeat split.
Qed.

Section Linked.
Context {A : Type}.
Variables (lead_id : string) (company : Company.t) (contacts : list Contact.t).
Variables (mk : Checked (option Z -> Z -> LeadRow.t)) (alerts : list Event).
Variables (result : A) (tr : list Event) (d : DB.t).
Hypothesis lookups_commit_nothing : committed_lead tr = None.
Hypothesis row_ids :
  forall row, mk = Done row ->
  forall cid i,
    LeadRow.id (row cid i) = i /\ LeadRow.lead_id (row cid i) = lead_id
    /\ LeadRow.company_id (row cid i) = cid.
Hypothesis few_contacts : (List.length contacts <= 5)%nat.

Lemma finished_linked (row : LeadRow.t) :
  committed_lead
    (Run.trace (finished lead_id company contacts mk alerts result tr d)) = Some row ->
  match LeadRow.company_id row with
  | Some cid =>
      exists c,
        In c (Table.rows (DB.companies
                (Run.db (finished lead_id company contacts mk alerts result tr d))))
        /\ CompanyRow.id c = cid
        /\ CompanyRow.domain c = field_get (Company.domain company)
        /\ opt_truthy (CompanyRow.domain c) = true
  | None =>
      opt_truthy (field_get (Company.domain company)) = false
      /\ DB.companies (Run.db (finished lead_id company contacts mk alerts result tr d))
         = DB.companies d
  end
  /\ exists added,
       Table.rows (DB.contacts
                     (Run.db (finished lead_id company contacts mk alerts result tr d)))
       = (Table.rows (DB.contacts d) ++ added)%list
       /\ (List.length added <= 5)%nat
       /\ Forall (fun c => ContactRow.company_id c = LeadRow.company_id row) added.
Proof.
  destruct (finished_cases lead_id company contacts mk alerts result tr d)
    as [(rowf & Hmk & _ & _ & ->)|(exn & -> & _)].
  - cbn [mk_run Run.trace Run.db DB.companies DB.contacts DB.with_leads].
    rewrite committed_lead_app, lookups_commit_nothing. cbn [committed_lead].
    intros [= <-]. rewrite (proj2 (proj2 (row_ids rowf Hmk _ _))).
    destruct (company_saved_links company contacts d) as [Hcompany (added & Hrows & Hlen & Hcid)].
    split.
    + destruct (snd (company_saved company contacts d)); [exact Hcompany|].
      destruct Hcompany as [Hdom ->]. split; [exact Hdom|reflexivity].
    + exists added. split; [exact Hrows|]. split; [lia|exact Hcid].
  - cbn [mk_run Run.trace]. rewrite lookups_commit_nothing. discriminate.
Qed.
End Linked.

(** X5.  The lead a run stores is linked consistently.  Its company id
    is either NULL, and then the company had no domain and the run wrote
    no company row, or the id of a company row that is in the table when
    the run ends, with the company's non-empty domain.  The run keeps
    every contact row it found, adds at most 5, and each added row
    carries the company id of the lead. *)
Theorem stored_lead_linked (w : World.t) (settings : Settings.t) (now : Z) (d : DB.t) :
  (forall visitor client_ip row,
     committed_lead (Run.trace (process_visitor w settings now visitor client_ip d)) = Some row ->
     match LeadRow.company_id row with
     | Some cid =>
         exists c,
           In c (Table.rows (DB.companies
                   (Run.db (process_visitor w settings now visitor client_ip d))))
           /\ CompanyRow.id c = cid
           /\ opt_truthy (CompanyRow.domain c) = true
     | None =>
         DB.companies (Run.db (process_visitor w settings now visitor client_ip d))
         = DB.companies d
     end
     /\ exists added,
          Table.rows (DB.contacts (Run.db (process_visitor w settings now visitor client_ip d)))
          = (Table.rows (DB.contacts d) ++ added)%list
          /\ (List.length added <= 5)%nat
          /\ Forall (fun c => ContactRow.company_id c = LeadRow.company_id row) added)
  /\ (forall rb2b_data row,
        committed_lead (Run.trace (process_rb2b_lead w settings now rb2b_data d)) = Some row ->
        match LeadRow.company_id row with
        | Some cid =>
            exists c,
              In c (Table.rows (DB.companies
                      (Run.db (process_rb2b_lead w settings now rb2b_data d))))
              /\ CompanyRow.id c = cid
              /\ opt_truthy (CompanyRow.domain c) = true
        | None =>
            DB.companies (Run.db (process_rb2b_lead w settings now rb2b_data d))
            = DB.companies d
        end
        /\ exists added,
             Table.rows (DB.contacts (Run.db (process_rb2b_lead w settings now rb2b_data d)))
             = (Table.rows (DB.contacts d) ++ added)%list
             /\ (List.length added <= 5)%nat
             /\ Forall (fun c => ContactRow.company_id c = LeadRow.company_id row) added).
Proof.
  split.
  - intros visitor client_ip row.
    destruct (int64 (Visitor.visit_duration visitor)) eqn:Hd;
      [|rewrite (process_visitor_overflow w settings now visitor client_ip d Hd);
        discriminate].
    destruct (is_local_ip (effective_ip visitor client_ip)) eqn:Hlocal.
    + rewrite (process_visitor_local w settings now visitor client_ip d Hd Hlocal).
      discriminate.
    + pose proof (lookups_commit_nothing_tracking w settings visitor client_ip) as Hnc.
      destruct (process_visitor_cases w settings now visitor client_ip d Hd Hlocal)
        as [(exn & _ & ->)|(scoring & _ & ->)].
      { cbn [Run.trace mk_run committed_lead]. rewrite Hnc. discriminate. }
      cbn [after mk_run Run.trace Run.db app committed_lead].
      intros Hrow.
      eapply finished_linked in Hrow;
        [|exact Hnc|intros rowf; apply tracking_row_ids|apply contacts_stage_bounded].
      destruct Hrow as [Hcompany Hcontacts].
      split; [|exact Hcontacts].
      destruct (LeadRow.company_id row).
      * destruct Hcompany as (c & Hin & Hid & _ & Hdom). exists c. auto.
      * destruct Hcompany as [_ Hsame]. exact Hsame.
  - intros rb2b_data row.
    destruct (PyStr.truthy (rb2b_email rb2b_data)) eqn:Hemail.
    + pose proof (lookups_commit_nothing_rb2b w settings rb2b_data) as Hnc.
      destruct (process_rb2b_lead_cases w settings now rb2b_data d Hemail)
        as [(exn & _ & ->)|(scoring & _ & ->)].
      { cbn [Run.trace mk_run]. rewrite Hnc. discriminate. }
      intros Hrow.
      eapply finished_linked in Hrow;
        [|exact Hnc|intros rowf; apply rb2b_row_ids|apply contacts_stage_bounded].
      destruct Hrow as [Hcompany Hcontacts].
      split; [|exact Hcontacts].
      destruct (LeadRow.company_id row).
      * destruct Hcompany as (c & Hin & Hid & _ & Hdom). exists c. auto.
      * destruct Hcompany as [_ Hsame]. exact Hsame.
    + rewrite (process_rb2b_lead_no_email w settings now rb2b_data d Hemail). discriminate.
Qed.

(** ** A run that fails *)

(** A run of either pathway that raises, past the first write of the
    tracking pathway, has made its lookups and written nothing more. *)
Lemma process_rb2b_lead_raised w settings now rb2b_data d exn :
  Run.outcome (process_rb2b_lead w settings now rb2b_data d) = Raised exn ->
  process_rb2b_lead w settings now rb2b_data d
  = mk_run (Raised exn) d (rb2b_lookups w settings rb2b_data).
Proof.
  destruct (PyStr.truthy (rb2b_email rb2b_data)) eqn:Hemail;
    [|rewrite (process_rb2b_lead_no_email w settings now rb2b_data d Hemail); discriminate].
  destruct (process_rb2b_lead_cases w settings now rb2b_data d Hemail)
    as [(e & _ & ->)|(scoring & _ & ->)].
  - intros [= ->]. reflexivity.
  - match goal with
    | |- context [finished ?l ?c ?cs ?mk ?al ?res ?tr ?db] =>
        destruct (finished_cases l c cs mk al res tr db)
          as [(row & _ & _ & _ & ->)|(e & -> & _)]
    end; [discriminate|].
    intros [= ->]. reflexivity.
Qed.

Lemma process_visitor_raised w settings now visitor client_ip d exn :
  int64 (Visitor.visit_duration visitor) = true ->
  Run.outcome (process_visitor w settings now visitor client_ip d) = Raised exn ->
  process_visitor w settings now visitor client_ip d
  = mk_run (Raised exn) (visit_stored visitor (effective_ip visitor client_ip) d)
      (VisitorCommitted (visit_row visitor (effective_ip visitor client_ip) d)
         :: tracking_lookups w settings visitor client_ip).
Proof.
  intros Hd.
  destruct (is_local_ip (effective_ip visitor client_ip)) eqn:Hlocal;
    [rewrite (process_visitor_local w settings now visitor client_ip d Hd Hlocal);
     discriminate|].
  destruct (process_visitor_cases w settings now visitor client_ip d Hd Hlocal)
    as [(e & _ & ->)|(scoring & _ & ->)].
  - intros [= ->]. reflexivity.
  - match goal with
    | |- context [finished ?l ?c ?cs ?mk ?al ?res ?tr ?db] =>
        destruct (finished_cases l c cs mk al res tr db)
          as [(row & _ & _ & _ & ->)|(e & -> & _)]
    end; [discriminate|].
    intros [= ->]. reflexivity.
Qed.

(** X6.  A save is all or nothing.  A save that raises (the lead id is
    already in the table, or a value does not bind) leaves the database
    exactly as before: neither the company upsert nor the contact
    inserts of the same call are kept.  A save for a lead id that is
    already in the table always raises, with IntegrityError when its
    values bind.  So does a run whose lead id is taken, once past its
    guard.  A webhook run that raises leaves the database as it was, a
    tracking run that raises after its first write leaves only its
    visitor row behind; both have made their lookups by then. *)
Theorem failed_save_writes_nothing (w : World.t) (settings : Settings.t) (now : Z) (d : DB.t) :
  (forall s exn,
     Run.outcome (run_save s d) = Raised exn -> run_save s d = mk_run (Raised exn) d [])
  /\ (forall s,
        lead_id_taken (save_lead_id s) d = true ->
        exists exn, run_save s d = mk_run (Raised exn) d [])
  /\ (forall s row,
        lead_id_taken (save_lead_id s) d = true ->
        company_binds (save_company s) (save_contacts s) = true ->
        save_row s = Done row ->
        run_save s d
        = mk_run (Raised "IntegrityError: UNIQUE constraint failed: leads.lead_id") d [])
  /\ (forall visitor client_ip exn,
        int64 (Visitor.visit_duration visitor) = true ->
        Run.outcome (process_visitor w settings now visitor client_ip d) = Raised exn ->
        process_visitor w settings now visitor client_ip d
        = mk_run (Raised exn) (visit_stored visitor (effective_ip visitor client_ip) d)
            (VisitorCommitted (visit_row visitor (effective_ip visitor client_ip) d)
             :: tracking_lookups w settings visitor client_ip))
  /\ (forall visitor client_ip,
        int64 (Visitor.visit_duration visitor) = true ->
        is_local_ip (effective_ip visitor client_ip) = false ->
        lead_id_taken (tracking_lead_id now visitor) d = true ->
        exists exn,
          Run.outcome (process_visitor w settings now visitor client_ip d) = Raised exn)
  /\ (forall rb2b_data exn,
        Run.outcome (process_rb2b_lead w settings now rb2b_data d) = Raised exn ->
        process_rb2b_lead w settings now rb2b_data d
        = mk_run (Raised exn) d (rb2b_lookups w settings rb2b_data))
  /\ (forall rb2b_data,
        PyStr.truthy (rb2b_email rb2b_data) = true ->
        lead_id_taken (rb2b_lead_id now (rb2b_email rb2b_data)) d = true ->
        exists exn,
          Run.outcome (process_rb2b_lead w settings now rb2b_data d) = Raised exn).
Proof.
  split; [|split; [|split; [|split; [|split; [|split]]]]].
  - intros s exn. rewrite run_save_saved. unfold saved.
    destruct (finished_cases (save_lead_id s) (save_company s) (save_contacts s) (save_row s)
                [] tt [] d) as [(row & _ & _ & _ & ->)|(e & -> & _)]; [discriminate|].
    intros [= ->]. reflexivity.
  - intros s Htaken. rewrite run_save_saved. unfold saved.
    destruct (finished_cases (save_lead_id s) (save_company s) (save_contacts s) (save_row s)
                [] tt [] d) as [(row & _ & _ & Hfree & _)|(e & -> & _)]; [congruence|].
    eauto.
  - intros s row Htaken Hbinds Hrow. rewrite run_save_saved. unfold saved, finished.
    rewrite Hbinds, Hrow, Htaken. reflexivity.
  - intros visitor client_ip exn Hd. apply process_visitor_raised. exact Hd.
  - intros visitor client_ip Hd Hlocal Htaken.
    destruct (process_visitor_cases w settings now visitor client_ip d Hd Hlocal)
      as [(e & _ & ->)|(scoring & _ & ->)]; [eauto|].
    match goal with
    | |- context [finished ?l ?c ?cs ?mk ?al ?res ?tr ?db] =>
        destruct (finished_cases l c cs mk al res tr db)
          as [(row & _ & _ & Hfree & _)|(e & -> & _)]
    end; [rewrite lead_id_taken_visit in Hfree; congruence|eauto].
  - intros rb2b_data exn. apply process_rb2b_lead_raised.
  - intros rb2b_data Hemail Htaken.
    destruct (process_rb2b_lead_cases w settings now rb2b_data d Hemail)
      as [(e & _ & ->)|(scoring & _ & ->)]; [eauto|].
    match goal with
    | |- context [finished ?l ?c ?cs ?mk ?al ?res ?tr ?db] =>
        destruct (finished_cases l c cs mk al res tr db)
          as [(row & _ & _ & Hfree & _)|(e & -> & _)]
    end; [congruence|eauto].
Qed.

(** ** Lead identifiers *)

Lemma uint_chars (u : Decimal.uint) :
  PyStr.all_chars not_underscore (NilEmpty.string_of_uint u) = true.
Proof. induction u; cbn [NilEmpty.string_of_uint PyStr.all_chars]; rewrite ?IHu; reflexivity. Qed.

Lemma of_Z_chars (n : Z) : PyStr.all_chars not_underscore (PyStr.of_Z n) = true.
Proof.
  unfold PyStr.of_Z, NilZero.string_of_int, NilZero.string_of_uint.
  destruct (Z.to_int n) as [u|u]; destruct u;
    cbn [PyStr.all_chars NilEmpty.string_of_uint]; rewrite ?uint_chars; reflexivity.
Qed.

Lemma of_Z_inj (a b : Z) : PyStr.of_Z a = PyStr.of_Z b -> a = b.
Proof.
  unfold PyStr.of_Z. intros Heq.
  assert (Hnonnil : forall z, Z.to_int z <> Decimal.Pos Decimal.Nil
                              /\ Z.to_int z <> Decimal.Neg Decimal.Nil).
  { intros [|p|p]; cbn [Z.to_int]; split; try discriminate;
      intros [= H]; exact (DecimalPos.Unsigned.to_uint_nonnil p H). }
  assert (Hint : Some (Z.to_int a) = Some (Z.to_int b)).
  { rewrite <- (NilZero.isi (Z.to_int a)), <- (NilZero.isi (Z.to_int b)), Heq;
      try apply Hnonnil. reflexivity. }
  injection Hint as Hint.
  rewrite <- (DecimalZ.of_to a), <- (DecimalZ.of_to b), Hint. reflexivity.
Qed.

(** A text without underscore, an underscore, and a rest: the three
    parts are read back in one way only. *)
Lemma split_at_underscore (a b s t : string) :
  PyStr.all_chars not_underscore a = true -> PyStr.all_chars not_underscore b = true ->
  a +:+ "_" +:+ s = b +:+ "_" +:+ t -> a = b /\ s = t.
Proof.
  revert b. induction a as [|c a IH]; intros [|c' b] Ha Hb Heq;
    cbn [String.append PyStr.all_chars] in Heq, Ha, Hb.
  - injection Heq as Heq. split; [reflexivity|exact Heq].
  - injection Heq as Hc _. subst c'. discriminate.
  - injection Heq as Hc _. subst c. discriminate.
  - apply andb_prop in Ha, Hb. destruct Ha as [_ Ha], Hb as [_ Hb].
    injection Heq as Hc Heq. subst c'.
    destruct (IH b Ha Hb Heq) as [Hab Hst]. subst b. split; [reflexivity|exact Hst].
Qed.

(** X7.  Lead identifiers are best effort: two tracking events get the
    same lead id exactly when they fall in the same second and their
    session ids agree on the first 8 characters, two webhook events
    exactly when they fall in the same second and the local parts of
    their emails agree on the first 8 characters; a tracking lead id is
    never a webhook lead id. *)
Theorem lead_id_collisions :
  (forall now now' visitor visitor',
     tracking_lead_id now visitor = tracking_lead_id now' visitor'
     <-> now = now'
         /\ PyStr.take 8 (Visitor.session_id visitor)
            = PyStr.take 8 (Visitor.session_id visitor'))
  /\ (forall now now' email email',
        rb2b_lead_id now email = rb2b_lead_id now' email'
        <-> now = now'
            /\ PyStr.take 8 (PyStr.before_first "@" email)
               = PyStr.take 8 (PyStr.before_first "@" email'))
  /\ (forall now visitor now' email,
        tracking_lead_id now visitor <> rb2b_lead_id now' email).
Proof.
  split; [|split].
  - intros now now' visitor visitor'. unfold tracking_lead_id. split.
    + intros Heq. injection Heq as Heq.
      apply split_at_underscore in Heq; try apply of_Z_chars.
      destruct Heq as [Hn Hs]. split; [apply of_Z_inj; exact Hn|exact Hs].
    + intros [-> ->]. reflexivity.
  - intros now now' email email'. unfold rb2b_lead_id. split.
    + intros Heq. injection Heq as Heq.
      apply split_at_underscore in Heq; try apply of_Z_chars.
      destruct Heq as [Hn Hs]. split; [apply of_Z_inj; exact Hn|exact Hs].
    + intros [-> ->]. reflexivity.
  - intros now visitor now' email. unfold tracking_lead_id, rb2b_lead_id. discriminate.
Qed.

(** ** The constraints of the schema are kept *)

Lemma distinct_spec {A : Type} (eq : A -> A -> bool) (l : list A) :
  (forall a b, eq a b = true <-> a = b) -> distinct eq l = true <-> List.NoDup l.
Proof.
  intros Heq. induction l as [|x l IH]; cbn [distinct].
  - split; [constructor|reflexivity].
  - rewrite andb_true_iff, negb_true_iff, IH, List.NoDup_cons_iff.
    assert (Hx : List.existsb (eq x) l = false <-> ~ In x l).
    { rewrite <- not_true_iff_false, List.existsb_exists. split.
      - intros Hno Hin. apply Hno. exists x. split; [exact Hin|apply Heq; reflexivity].
      - intros Hno (y & Hin & Hy). apply Heq in Hy. subst y. exact (Hno Hin). }
    tauto.
Qed.

Section Autoincrement.
Context {R : Type} `{HasId R}.

Lemma autoincrement_spec (tb : Table.t R) :
  autoincrement tb = true
  <-> 0 <= Table.seq tb
      /\ List.NoDup (List.map row_id (Table.rows tb))
      /\ List.Forall (fun r => 0 < row_id r <= Table.seq tb) (Table.rows tb).
Proof.
  unfold autoincrement.
  rewrite !andb_true_iff, (distinct_spec Z.eqb) by apply Z.eqb_eq.
  rewrite List.forallb_forall, List.Forall_forall, Z.leb_le.
  split; intros [[Hseq Hnd] Hall] || intros (Hseq & Hnd & Hall).
  - split; [exact Hseq|]. split; [exact Hnd|]. intros r Hr. specialize (Hall r Hr).
    rewrite andb_true_iff, Z.ltb_lt, Z.leb_le in Hall. exact Hall.
  - split; [split; [exact Hseq|exact Hnd]|]. intros r Hr. specialize (Hall r Hr).
    rewrite andb_true_iff, Z.ltb_lt, Z.leb_le. exact Hall.
Qed.

Lemma max_id_le (rs : list R) (n : Z) :
  0 <= n -> List.Forall (fun r => 0 < row_id r <= n) rs -> Table.max_id rs <= n.
Proof.
  intros Hn Hall. induction Hall as [|r rs Hr _ IH]; cbn [Table.max_id List.fold_right].
  - exact Hn.
  - fold (Table.max_id rs). lia.
Qed.

(** AUTOINCREMENT hands out the sequence plus one. *)
Lemma autoincrement_next_id (tb : Table.t R) :
  autoincrement tb = true -> Table.next_id tb = Table.seq tb + 1.
Proof.
  intros Htb. apply autoincrement_spec in Htb. destruct Htb as (Hseq & _ & Hall).
  unfold Table.next_id. pose proof (max_id_le _ _ Hseq Hall). lia.
Qed.

Lemma autoincrement_append (mk : Z -> R) (tb : Table.t R) :
  (forall i, row_id (mk i) = i) ->
  autoincrement tb = true -> autoincrement (Table.append mk tb) = true.
Proof.
  intros Hmk Htb. pose proof (autoincrement_next_id tb Htb) as Hnext.
  apply autoincrement_spec in Htb. destruct Htb as (Hseq & Hnd & Hall).
  apply autoincrement_spec. unfold Table.append. cbn [Table.rows Table.seq].
  split; [lia|]. split.
  - rewrite List.map_app. apply List.NoDup_app; [exact Hnd|repeat constructor; intros []|].
    intros i Hin [<-|[]]. rewrite Hmk in Hin.
    apply List.in_map_iff in Hin. destruct Hin as (r & Hr & Hin).
    rewrite List.Forall_forall in Hall. specialize (Hall r Hin). lia.
  - apply List.Forall_app. split.
    + eapply List.Forall_impl; [|exact Hall]. cbn beta. intros r Hr. lia.
    + constructor; [|constructor]. rewrite Hmk. lia.
Qed.

Lemma autoincrement_filter (p : R -> bool) (tb : Table.t R) :
  autoincrement tb = true -> autoincrement (Table.delete p tb) = true.
Proof.
  intros Htb. apply autoincrement_spec in Htb. destruct Htb as (Hseq & Hnd & Hall).
  apply autoincrement_spec. unfold Table.delete. cbn [Table.rows Table.seq].
  split; [exact Hseq|]. split; [apply filter_keeps_key; exact Hnd|].
  rewrite List.Forall_forall in *. intros r Hr. apply List.filter_In in Hr.
  apply Hall. tauto.
Qed.

(** What was ever handed out is not handed out again. *)
Lemma delete_keeps_next_id (p : R -> bool) (tb : Table.t R) :
  autoincrement tb = true -> Table.next_id (Table.delete p tb) = Table.next_id tb.
Proof.
  intros Htb. rewrite (autoincrement_next_id tb Htb).
  rewrite (autoincrement_next_id _ (autoincrement_filter p tb Htb)). reflexivity.
Qed.
End Autoincrement.

Lemma autoincrement_upsert (company : Company.t) (tb : Table.t CompanyRow.t) :
  autoincrement tb = true -> autoincrement (companies_after company tb) = true.
Proof.
  intros Htb. pose proof (autoincrement_next_id tb Htb) as Hnext.
  apply autoincrement_spec in Htb. destruct Htb as (Hseq & Hnd & Hall).
  apply autoincrement_spec.
  split; [|split].
  - unfold companies_after. cbn [Table.seq]. lia.
  - apply (upsert_keeps_primary_key company tb). exact Hnd.
  - unfold companies_after. cbn [Table.rows Table.seq].
    apply List.Forall_app. split.
    + rewrite List.Forall_forall in *. intros r Hr. apply List.filter_In in Hr.
      destruct Hr as [Hr _]. specialize (Hall r Hr). cbn beta in Hall. lia.
    + constructor; [|constructor].
      change (row_id (company_row company (Table.next_id tb))) with (Table.next_id tb). lia.
Qed.

Lemma autoincrement_contacts (cid : option Z) (cs : list Contact.t)
    (tb : Table.t ContactRow.t) :
  autoincrement tb = true -> autoincrement (contacts_after cid cs tb) = true.
Proof.
  revert tb. induction cs as [|c cs IH]; intros tb Htb; cbn [contacts_after]; [exact Htb|].
  apply IH. apply autoincrement_append; [intros i; reflexivity|exact Htb].
Qed.

Lemma in_domains (dom : string) (rows : list CompanyRow.t) :
  In dom (domains rows) <-> exists r, In r rows /\ CompanyRow.domain r = Some dom.
Proof.
  unfold domains. rewrite List.in_flat_map. split.
  - intros (r & Hr & Hin). exists r. split; [exact Hr|].
    destruct (CompanyRow.domain r) as [x|]; [|destruct Hin].
    destruct Hin as [->|[]]. reflexivity.
  - intros (r & Hr & Hdom). exists r. split; [exact Hr|]. rewrite Hdom. left. reflexivity.
Qed.

Lemma domains_filter (p : CompanyRow.t -> bool) (rows : list CompanyRow.t) :
  List.NoDup (domains rows) -> List.NoDup (domains (List.filter p rows)).
Proof.
  induction rows as [|r rows IH]; [intros _; constructor|].
  change (domains (r :: rows))
    with ((match CompanyRow.domain r with Some x => [x] | None => [] end) ++ domains rows)%list.
  cbn [List.filter]. intros Hnd.
  assert (Hrest : List.NoDup (domains rows)).
  { destruct (CompanyRow.domain r); [|exact Hnd].
    apply List.NoDup_cons_iff in Hnd. tauto. }
  destruct (p r); [|apply IH; exact Hrest].
  change (domains (r :: List.filter p rows))
    with ((match CompanyRow.domain r with Some x => [x] | None => [] end)
            ++ domains (List.filter p rows))%list.
  destruct (CompanyRow.domain r) as [x|]; [|apply IH; exact Hrest].
  cbn [app] in *. apply List.NoDup_cons_iff in Hnd. destruct Hnd as [Hnot _].
  constructor; [|apply IH; exact Hrest].
  intros Hin. apply Hnot. apply in_domains in Hin. destruct Hin as (y & Hy & Hdom).
  apply in_domains. exists y. apply List.filter_In in Hy. tauto.
Qed.

(** UNIQUE(domain) survives the upsert: the rows in conflict are gone
    before the new one comes in. *)
Lemma domains_upsert (company : Company.t) (tb : Table.t CompanyRow.t) :
  distinct String.eqb (domains (Table.rows tb)) = true ->
  distinct String.eqb (domains (Table.rows (companies_after company tb))) = true.
Proof.
  rewrite !(distinct_spec String.eqb) by apply String.eqb_eq.
  intros Hnd. unfold companies_after. cbn [Table.rows].
  unfold domains at 1. rewrite List.flat_map_app. fold (domains (List.filter
    (fun r => negb (company_conflict (company_row company (Table.next_id tb)) r))
    (Table.rows tb))).
  apply List.NoDup_app.
  - apply domains_filter. exact Hnd.
  - cbn [List.flat_map company_row CompanyRow.domain].
    destruct (field_get (Company.domain company)); repeat constructor; intros [].
  - intros dom Hin Hnew. apply in_domains in Hin. destruct Hin as (r & Hr & Hdom).
    apply List.filter_In in Hr. destruct Hr as [_ Hkeep].
    cbn [List.flat_map company_row CompanyRow.domain] in Hnew.
    destruct (field_get (Company.domain company)) as [x|] eqn:Hx; [|destruct Hnew].
    rewrite app_nil_r in Hnew. destruct Hnew as [->|[]].
    unfold company_conflict in Hkeep. cbn [company_row CompanyRow.domain] in Hkeep.
    rewrite Hx, Hdom, String.eqb_refl, orb_true_r in Hkeep. discriminate.
Qed.

Lemma issued_later (tb tb' : Table.t CompanyRow.t) (cid : option Z) :
  Table.seq tb <= Table.seq tb' -> issued tb cid = true -> issued tb' cid = true.
Proof.
  intros Hle. destruct cid as [i|]; [|reflexivity]. cbn [issued].
  rewrite !andb_true_iff, !Z.ltb_lt, !Z.leb_le. lia.
Qed.

Lemma constraints_hold_spec (d : DB.t) :
  constraints_hold d = true
  <-> autoincrement (DB.visitors d) = true /\ autoincrement (DB.companies d) = true
      /\ autoincrement (DB.contacts d) = true /\ autoincrement (DB.leads d) = true
      /\ distinct String.eqb (domains (Table.rows (DB.companies d))) = true
      /\ distinct String.eqb (List.map LeadRow.lead_id (Table.rows (DB.leads d))) = true.
Proof. unfold constraints_hold. rewrite !andb_true_iff. tauto. Qed.

Lemma references_issued_spec (d : DB.t) :
  references_issued d = true
  <-> List.Forall (fun c => issued (DB.companies d) (ContactRow.company_id c) = true)
        (Table.rows (DB.contacts d))
      /\ List.Forall (fun l => issued (DB.companies d) (LeadRow.company_id l) = true)
           (Table.rows (DB.leads d)).
Proof.
  unfold references_issued.
  rewrite andb_true_iff, !List.forallb_forall, !List.Forall_forall. tauto.
Qed.

(** The company and contact writes of a save. *)
Lemma company_saved_keeps (company : Company.t) (contacts : list Contact.t) (d : DB.t) :
  constraints_hold d = true -> references_issued d = true ->
  constraints_hold (fst (company_saved company contacts d)) = true
  /\ references_issued (fst (company_saved company contacts d)) = true
  /\ issued (DB.companies (fst (company_saved company contacts d)))
       (snd (company_saved company contacts d)) = true.
Proof.
  intros Hc Hr. unfold company_saved.
  destruct (opt_truthy (field_get (Company.domain company))); cbn [fst snd];
    [|split; [exact Hc|split; [exact Hr|reflexivity]]].
  apply constraints_hold_spec in Hc.
  destruct Hc as (Hvisitors & Hcompanies & Hcontacts & Hleads & Hdomains & Hids).
  apply references_issued_spec in Hr. destruct Hr as [Hrc Hrl].
  pose proof (next_id_positive (DB.companies d)) as Hpos.
  assert (Hseq : Table.seq (DB.companies d)
                 <= Table.seq (companies_after company (DB.companies d))).
  { rewrite (autoincrement_next_id _ Hcompanies) in *.
    unfold companies_after. cbn [Table.seq].
    rewrite (autoincrement_next_id _ Hcompanies). lia. }
  assert (Hnew : issued (companies_after company (DB.companies d))
                   (Some (Table.next_id (DB.companies d))) = true).
  { unfold companies_after. cbn [issued Table.seq].
    rewrite andb_true_iff, Z.ltb_lt, Z.leb_le. lia. }
  split; [|split; [|exact Hnew]].
  - apply constraints_hold_spec.
    cbn [DB.visitors DB.companies DB.contacts DB.leads DB.with_contacts DB.with_companies].
    split; [exact Hvisitors|]. split; [apply autoincrement_upsert; exact Hcompanies|].
    split; [apply autoincrement_contacts; exact Hcontacts|]. split; [exact Hleads|].
    split; [apply domains_upsert; exact Hdomains|exact Hids].
  - apply references_issued_spec.
    cbn [DB.visitors DB.companies DB.contacts DB.leads DB.with_contacts DB.with_companies].
    split.
    + destruct (contacts_after_rows (Some (Table.next_id (DB.companies d))) contacts
                  (DB.contacts d)) as (added & -> & _ & Hadded & _).
      apply List.Forall_app. split.
      * eapply List.Forall_impl; [|exact Hrc]. cbn beta. intros c.
        apply issued_later. exact Hseq.
      * eapply List.Forall_impl; [|exact Hadded]. cbn beta. intros c ->. exact Hnew.
    + eapply List.Forall_impl; [|exact Hrl]. cbn beta. intros l.
      apply issued_later. exact Hseq.
Qed.

Lemma lead_id_free (lead_id : string) (d : DB.t) :
  lead_id_taken lead_id d = false ->
  ~ In lead_id (List.map LeadRow.lead_id (Table.rows (DB.leads d))).
Proof.
  unfold lead_id_taken. intros Hfree Hin.
  apply List.in_map_iff in Hin. destruct Hin as (r & Hr & Hin).
  apply not_true_iff_false in Hfree. apply Hfree.
  apply List.existsb_exists. exists r. split; [exact Hin|].
  rewrite Hr. apply String.eqb_refl.
Qed.

Section FinishedKeeps.
Context {A : Type}.
Variables (lead_id : string) (company : Company.t) (contacts : list Contact.t).
Variables (mk : Checked (option Z -> Z -> LeadRow.t)) (alerts : list Event).
Variables (result : A) (tr : list Event) (d : DB.t).
Hypothesis row_ids :
  forall row, mk = Done row ->
  forall cid i,
    LeadRow.id (row cid i) = i /\ LeadRow.lead_id (row cid i) = lead_id
    /\ LeadRow.company_id (row cid i) = cid.

Lemma finished_keeps :
  constraints_hold d = true -> references_issued d = true ->
  constraints_hold (Run.db (finished lead_id company contacts mk alerts result tr d)) = true
  /\ references_issued (Run.db (finished lead_id company contacts mk alerts result tr d))
     = true.
Proof.
  intros Hc Hr.
  destruct (finished_cases lead_id company contacts mk alerts result tr d)
    as [(row & Hmk & _ & Htaken & ->)|(exn & -> & _)]; cbn [mk_run Run.db];
    [|split; assumption].
  pose proof (row_ids row Hmk) as Hrow.
  destruct (company_saved_keeps company contacts d Hc Hr) as (Hc1 & Hr1 & Hcid).
  pose proof (company_saved_leads company contacts d) as Hleads.
  set (d1 := fst (company_saved company contacts d)) in *.
  set (cid := snd (company_saved company contacts d)) in *.
  apply constraints_hold_spec in Hc1.
  destruct Hc1 as (Hvisitors & Hcompanies & Hcontacts & Hl & Hdomains & Hids).
  apply references_issued_spec in Hr1. destruct Hr1 as [Hrc Hrl].
  split.
  - apply constraints_hold_spec. cbn [DB.visitors DB.companies DB.contacts DB.leads DB.with_leads].
    split; [exact Hvisitors|]. split; [exact Hcompanies|]. split; [exact Hcontacts|].
    split; [apply autoincrement_append; [intros i; apply Hrow|exact Hl]|].
    split; [exact Hdomains|].
    apply (distinct_spec String.eqb); [apply String.eqb_eq|].
    apply (distinct_spec String.eqb) in Hids; [|apply String.eqb_eq].
    unfold Table.append. cbn [Table.rows]. rewrite List.map_app.
    apply List.NoDup_app; [exact Hids|repeat constructor; intros []|].
    intros x Hin [<-|[]]. rewrite (proj1 (proj2 (Hrow _ _))) in Hin. rewrite Hleads in Hin.
    exact (lead_id_free lead_id d Htaken Hin).
  - apply references_issued_spec.
    cbn [DB.visitors DB.companies DB.contacts DB.leads DB.with_leads].
    split; [exact Hrc|]. unfold Table.append. cbn [Table.rows].
    apply List.Forall_app. split; [exact Hrl|].
    constructor; [|constructor]. rewrite (proj2 (proj2 (Hrow _ _))). exact Hcid.
Qed.
End FinishedKeeps.

Lemma visit_stored_keeps (visitor : Visitor.t) (ip : string) (d : DB.t) :
  constraints_hold d = true -> references_issued d = true ->
  constraints_hold (visit_stored visitor ip d) = true
  /\ references_issued (visit_stored visitor ip d) = true.
Proof.
  intros Hc Hr. split; [|exact Hr].
  apply constraints_hold_spec in Hc.
  destruct Hc as (Hvisitors & Hcompanies & Hcontacts & Hleads & Hdomains & Hids).
  apply constraints_hold_spec. unfold visit_stored.
  cbn [DB.visitors DB.companies DB.contacts DB.leads DB.with_visitors].
  split; [apply autoincrement_append; [intros i; reflexivity|exact Hvisitors]|].
  repeat (split; [assumption|]). assumption.
Qed.

Lemma delete_lead_run (lead_id : string) (d : DB.t) :
  delete_lead lead_id d
  = mk_run (Returned "deleted")
      (DB.with_leads
         (Table.delete (fun l => String.eqb (LeadRow.lead_id l) lead_id) (DB.leads d)) d) [].
Proof. reflexivity. Qed.

Lemma delete_keeps (p : LeadRow.t -> bool) (d : DB.t) :
  constraints_hold d = true -> references_issued d = true ->
  constraints_hold (DB.with_leads (Table.delete p (DB.leads d)) d) = true
  /\ references_issued (DB.with_leads (Table.delete p (DB.leads d)) d) = true.
Proof.
  intros Hc Hr.
  apply constraints_hold_spec in Hc.
  destruct Hc as (Hvisitors & Hcompanies & Hcontacts & Hleads & Hdomains & Hids).
  apply references_issued_spec in Hr. destruct Hr as [Hrc Hrl].
  split.
  - apply constraints_hold_spec.
    cbn [DB.visitors DB.companies DB.contacts DB.leads DB.with_leads].
    split; [exact Hvisitors|]. split; [exact Hcompanies|]. split; [exact Hcontacts|].
    split; [apply autoincrement_filter; exact Hleads|]. split; [exact Hdomains|].
    apply (distinct_spec String.eqb); [apply String.eqb_eq|].
    apply (distinct_spec String.eqb) in Hids; [|apply String.eqb_eq].
    unfold Table.delete. cbn [Table.rows].
    clear -Hids. induction (Table.rows (DB.leads d)) as [|l ls IH]; [constructor|].
    cbn [List.map List.filter] in *. apply List.NoDup_cons_iff in Hids.
    destruct Hids as [Hnot Hids]. destruct (negb (p l)); [|apply IH; exact Hids].
    cbn [List.map]. constructor; [|apply IH; exact Hids].
    intros Hin. apply Hnot. apply List.in_map_iff in Hin. destruct Hin as (y & Hy & Hin).
    apply List.filter_In in Hin. rewrite <- Hy. apply List.in_map. tauto.
  - apply references_issued_spec.
    cbn [DB.visitors DB.companies DB.contacts DB.leads DB.with_leads].
    split; [exact Hrc|]. unfold Table.delete. cbn [Table.rows].
    rewrite List.Forall_forall in *. intros l Hl. apply List.filter_In in Hl.
    apply Hrl. tauto.
Qed.

(** X8.  Every run keeps the constraints of the schema, whether its save
    goes through or raises: in each table the ids stay positive,
    pairwise distinct and within the sequence, no two companies share a
    domain, no two leads share a lead id; and every company id held by
    a contact or a lead is one the companies table has handed out.  So
    does a deletion. *)
Theorem runs_keep_constraints (w : World.t) (settings : Settings.t) (now : Z) (d : DB.t) :
  constraints_hold d = true -> references_issued d = true ->
  (forall visitor client_ip,
     constraints_hold (Run.db (process_visitor w settings now visitor client_ip d)) = true
     /\ references_issued (Run.db (process_visitor w settings now visitor client_ip d)) = true)
  /\ (forall rb2b_data,
        constraints_hold (Run.db (process_rb2b_lead w settings now rb2b_data d)) = true
        /\ references_issued (Run.db (process_rb2b_lead w settings now rb2b_data d)) = true)
  /\ (forall lead_id,
        constraints_hold (Run.db (delete_lead lead_id d)) = true
        /\ references_issued (Run.db (delete_lead lead_id d)) = true).
Proof.
  intros Hc Hr. split; [|split].
  - intros visitor client_ip.
    destruct (int64 (Visitor.visit_duration visitor)) eqn:Hd;
      [|rewrite (process_visitor_overflow w settings now visitor client_ip d Hd);
        split; assumption].
    destruct (visit_stored_keeps visitor (effective_ip visitor client_ip) d Hc Hr)
      as [Hc1 Hr1].
    destruct (is_local_ip (effective_ip visitor client_ip)) eqn:Hlocal.
    + rewrite (process_visitor_local w settings now visitor client_ip d Hd Hlocal).
      split; assumption.
    + destruct (process_visitor_cases w settings now visitor client_ip d Hd Hlocal)
        as [(exn & _ & ->)|(scoring & _ & ->)]; [split; assumption|].
      unfold after. cbn [mk_run Run.db].
      apply finished_keeps; try assumption. intros row. apply tracking_row_ids.
  - intros rb2b_data.
    destruct (PyStr.truthy (rb2b_email rb2b_data)) eqn:Hemail.
    + destruct (process_rb2b_lead_cases w settings now rb2b_data d Hemail)
        as [(exn & _ & ->)|(scoring & _ & ->)]; [split; assumption|].
      apply finished_keeps; try assumption. intros row. apply rb2b_row_ids.
    + rewrite (process_rb2b_lead_no_email w settings now rb2b_data d Hemail).
      split; assumption.
  - intros lead_id. rewrite delete_lead_run. cbn [mk_run Run.db].
    apply delete_keeps; assumption.
Qed.

(** ** Reading a lead back: [get_lead] *)

Lemma find_last {A : Type} (p : A -> bool) (l : list A) (x : A) :
  List.existsb p l = false -> p x = true -> List.find p (l ++ [x]) = Some x.
Proof.
  induction l as [|y l IH]; cbn [List.existsb List.find app]; intros Hl Hx.
  - rewrite Hx. reflexivity.
  - apply orb_false_iff in Hl. destruct Hl as [-> Hl]. apply IH; assumption.
Qed.

Lemma find_first {A : Type} (p : A -> bool) (l l' : list A) (x : A) :
  List.find p l = Some x -> List.find p (l ++ l') = Some x.
Proof.
  induction l as [|y l IH]; cbn [List.find app]; [discriminate|].
  destruct (p y); [trivial|exact IH].
Qed.

Lemma find_absent {A : Type} (p : A -> bool) (l : list A) :
  List.existsb p l = false -> List.find p l = None.
Proof.
  induction l as [|y l IH]; cbn [List.existsb List.find]; [reflexivity|].
  intros Hl. apply orb_false_iff in Hl. destruct Hl as [-> Hl]. apply IH. exact Hl.
Qed.

Lemma filter_none {A : Type} (p : A -> bool) (l : list A) :
  List.Forall (fun x => p x = false) l -> List.filter p l = [].
Proof.
  induction 1 as [|x l Hx _ IH]; cbn [List.filter]; [reflexivity|]. rewrite Hx. exact IH.
Qed.

Lemma filter_all {A : Type} (p : A -> bool) (l : list A) :
  List.Forall (fun x => p x = true) l -> List.filter p l = l.
Proof.
  induction 1 as [|x l Hx _ IH]; cbn [List.filter]; [reflexivity|]. rewrite Hx, IH.
  reflexivity.
Qed.

Lemma get_lead_run (lead_id : string) (d : DB.t) :
  get_lead lead_id d
  = match List.find (fun l => String.eqb (LeadRow.lead_id l) lead_id)
            (Table.rows (DB.leads d)) with
    | Some l =>
        mk_run (Returned {| LeadDetail.lead := l;
                            LeadDetail.company := joined_company l d;
                            LeadDetail.contacts :=
                              contacts_of_company (LeadRow.company_id l) d |}) d []
    | None => mk_run (Raised "404: Lead not found") d []
    end.
Proof. unfold get_lead. cbv [bind get_db]. cbn. destruct (List.find _ _); reflexivity. Qed.

Lemma lead_id_absent (lead_id : string) (d : DB.t) :
  lead_id_taken lead_id d = false ->
  List.existsb (fun l => String.eqb (LeadRow.lead_id l) lead_id) (Table.rows (DB.leads d))
  = false.
Proof.
  unfold lead_id_taken. induction (Table.rows (DB.leads d)) as [|l ls IH];
    cbn [List.existsb]; [reflexivity|].
  intros Hfree. apply orb_false_iff in Hfree. destruct Hfree as [Hl Hls].
  rewrite String.eqb_sym, Hl. apply IH. exact Hls.
Qed.

Section Readable.
Context {A : Type}.
Variables (lead_id : string) (company : Company.t) (contacts : list Contact.t).
Variables (mk : Checked (option Z -> Z -> LeadRow.t)) (alerts : list Event).
Variables (result : A) (tr : list Event) (d : DB.t).
Hypothesis lookups_commit_nothing : committed_lead tr = None.
Hypothesis row_ids :
  forall row, mk = Done row ->
  forall cid i,
    LeadRow.id (row cid i) = i /\ LeadRow.lead_id (row cid i) = lead_id
    /\ LeadRow.company_id (row cid i) = cid.
Hypothesis references : references_issued d = true.

Lemma finished_readable (row : LeadRow.t) :
  committed_lead
    (Run.trace (finished lead_id company contacts mk alerts result tr d)) = Some row ->
  exists detail,
    get_lead (LeadRow.lead_id row)
      (Run.db (finished lead_id company contacts mk alerts result tr d))
    = mk_run (Returned detail)
        (Run.db (finished lead_id company contacts mk alerts result tr d)) []
    /\ LeadDetail.lead detail = row
    /\ LeadDetail.company detail
       = match LeadRow.company_id row with
         | Some cid => CompanyView.of_row (company_row company cid)
         | None => CompanyView.null
         end
    /\ Table.rows (DB.contacts
                     (Run.db (finished lead_id company contacts mk alerts result tr d)))
       = (Table.rows (DB.contacts d) ++ LeadDetail.contacts detail)%list
    /\ List.map ContactRow.email (LeadDetail.contacts detail)
       = match LeadRow.company_id row with
         | Some _ => List.map Contact.email contacts
         | None => []
         end.
Proof.
  destruct (finished_cases lead_id company contacts mk alerts result tr d)
    as [(rowf & Hmk & _ & Htaken & ->)|(exn & -> & _)].
  2:{ cbn [mk_run Run.trace]. rewrite lookups_commit_nothing. discriminate. }
  pose proof (row_ids rowf Hmk) as Hrow.
  assert (row_lead_id : forall cid i, LeadRow.lead_id (rowf cid i) = lead_id)
    by (intros cid i; apply Hrow).
  assert (row_company_id : forall cid i, LeadRow.company_id (rowf cid i) = cid)
    by (intros cid i; apply Hrow).
  cbn [mk_run Run.trace Run.db].
  rewrite committed_lead_app, lookups_commit_nothing. cbn [committed_lead].
  intros [= <-]. rewrite row_lead_id, row_company_id, get_lead_run.
  cbn [DB.leads DB.with_leads Table.append Table.rows].
  rewrite company_saved_leads.
  rewrite (find_last _ _ _ (lead_id_absent _ _ Htaken))
    by (rewrite row_lead_id; apply String.eqb_refl).
  eexists. split; [reflexivity|]. cbn [LeadDetail.lead LeadDetail.company LeadDetail.contacts].
  split; [reflexivity|].
  unfold joined_company, contacts_of_company. rewrite row_company_id.
  cbn [DB.companies DB.contacts DB.with_leads].
  unfold company_saved. destruct (opt_truthy (field_get (Company.domain company)));
    cbn [fst snd].
  + cbn [DB.companies DB.contacts DB.with_contacts DB.with_companies companies_after
         Table.rows].
    split; [|split].
    * rewrite find_last; [reflexivity| |apply Z.eqb_refl].
      apply existsb_false. intros r Hr. apply List.filter_In in Hr. destruct Hr as [Hr _].
      apply (next_id_fresh (DB.companies d)) in Hr.
      change (row_id r) with (CompanyRow.id r) in Hr. apply Z.eqb_neq. lia.
    * destruct (contacts_after_rows (Some (Table.next_id (DB.companies d))) contacts
                  (DB.contacts d)) as (added & -> & _ & Hadded & _).
      rewrite List.filter_app. f_equal. rewrite filter_none, filter_all; [reflexivity| |].
      -- eapply List.Forall_impl; [|exact Hadded]. cbn beta. intros c ->. apply Z.eqb_refl.
      -- apply references_issued_spec in references. destruct references as [Hrc _].
         eapply List.Forall_impl; [|exact Hrc]. cbn beta. intros c.
         destruct (ContactRow.company_id c) as [i|]; [|reflexivity].
         cbn [issued]. rewrite andb_true_iff, Z.ltb_lt, Z.leb_le.
         intros [_ Hi]. apply Z.eqb_neq. unfold Table.next_id. lia.
    * destruct (contacts_after_rows (Some (Table.next_id (DB.companies d))) contacts
                  (DB.contacts d)) as (added & -> & _ & Hadded & Hemails).
      rewrite List.filter_app, filter_none, filter_all; [exact Hemails| |].
      -- eapply List.Forall_impl; [|exact Hadded]. cbn beta. intros c ->. apply Z.eqb_refl.
      -- apply references_issued_spec in references. destruct references as [Hrc _].
         eapply List.Forall_impl; [|exact Hrc]. cbn beta. intros c.
         destruct (ContactRow.company_id c) as [i|]; [|reflexivity].
         cbn [issued]. rewrite andb_true_iff, Z.ltb_lt, Z.leb_le.
         intros [_ Hi]. apply Z.eqb_neq. unfold Table.next_id. lia.
  + split; [reflexivity|]. rewrite app_nil_r. split; reflexivity.
Qed.
End Readable.

(** X9.  A stored lead reads back.  After a run that committed a lead,
    [get_lead] on its lead id returns that row; the joined company
    columns are those of the company the run resolved (all NULL when
    the company had no domain); and the contacts listed are exactly the
    rows this run added, one per contact found and in the same order. *)
Theorem stored_lead_readable (w : World.t) (settings : Settings.t) (now : Z) (d : DB.t) :
  references_issued d = true ->
  (forall visitor client_ip row,
     committed_lead (Run.trace (process_visitor w settings now visitor client_ip d)) = Some row ->
     exists detail,
       get_lead (LeadRow.lead_id row)
         (Run.db (process_visitor w settings now visitor client_ip d))
       = mk_run (Returned detail)
           (Run.db (process_visitor w settings now visitor client_ip d)) []
       /\ LeadDetail.lead detail = row
       /\ LeadDetail.company detail
          = match LeadRow.company_id row with
            | Some cid =>
                CompanyView.of_row (company_row (tracking_company w settings visitor client_ip) cid)
            | None => CompanyView.null
            end
       /\ Table.rows (DB.contacts (Run.db (process_visitor w settings now visitor client_ip d)))
          = (Table.rows (DB.contacts d) ++ LeadDetail.contacts detail)%list
       /\ List.map ContactRow.email (LeadDetail.contacts detail)
          = match LeadRow.company_id row with
            | Some _ => List.map Contact.email
                          (tracking_contacts w settings visitor client_ip)
            | None => []
            end)
  /\ (forall rb2b_data row,
        committed_lead (Run.trace (process_rb2b_lead w settings now rb2b_data d)) = Some row ->
        exists detail,
          get_lead (LeadRow.lead_id row) (Run.db (process_rb2b_lead w settings now rb2b_data d))
          = mk_run (Returned detail) (Run.db (process_rb2b_lead w settings now rb2b_data d)) []
          /\ LeadDetail.lead detail = row
          /\ LeadDetail.company detail
             = match LeadRow.company_id row with
               | Some cid =>
                   CompanyView.of_row (company_row (rb2b_company w settings rb2b_data) cid)
               | None => CompanyView.null
               end
          /\ Table.rows (DB.contacts (Run.db (process_rb2b_lead w settings now rb2b_data d)))
             = (Table.rows (DB.contacts d) ++ LeadDetail.contacts detail)%list
          /\ List.map ContactRow.email (LeadDetail.contacts detail)
             = match LeadRow.company_id row with
               | Some _ => List.map Contact.email
                             (rb2b_contacts w settings rb2b_data)
               | None => []
               end).
Proof.
  intros Hr. split.
  - intros visitor client_ip row.
    destruct (int64 (Visitor.visit_duration visitor)) eqn:Hd;
      [|rewrite (process_visitor_overflow w settings now visitor client_ip d Hd);
        discriminate].
    destruct (is_local_ip (effective_ip visitor client_ip)) eqn:Hlocal.
    + rewrite (process_visitor_local w settings now visitor client_ip d Hd Hlocal).
      discriminate.
    + pose proof (lookups_commit_nothing_tracking w settings visitor client_ip) as Hnc.
      destruct (process_visitor_cases w settings now visitor client_ip d Hd Hlocal)
        as [(exn & _ & ->)|(scoring & _ & ->)].
      { cbn [Run.trace mk_run committed_lead]. rewrite Hnc. discriminate. }
      cbn [after mk_run Run.trace Run.db app committed_lead].
      intros Hrow.
      eapply finished_readable in Hrow;
        [exact Hrow|exact Hnc|intros rowf; apply tracking_row_ids|exact Hr].
  - intros rb2b_data row.
    destruct (PyStr.truthy (rb2b_email rb2b_data)) eqn:Hemail.
    + pose proof (lookups_commit_nothing_rb2b w settings rb2b_data) as Hnc.
      destruct (process_rb2b_lead_cases w settings now rb2b_data d Hemail)
        as [(exn & _ & ->)|(scoring & _ & ->)].
      { cbn [Run.trace mk_run]. rewrite Hnc. discriminate. }
      intros Hrow.
      eapply finished_readable in Hrow;
        [exact Hrow|exact Hnc|intros rowf; apply rb2b_row_ids|exact Hr].
    + rewrite (process_rb2b_lead_no_email w settings now rb2b_data d Hemail). discriminate.
Qed.

(** ** Deleting a lead: [delete_lead] *)

Lemma find_filter {A : Type} (p q : A -> bool) (l : list A) :
  (forall x, p x = true -> q x = true) -> List.find p (List.filter q l) = List.find p l.
Proof.
  intros Hpq. induction l as [|x l IH]; [reflexivity|]. cbn [List.filter List.find].
  destruct (p x) eqn:Hp.
  - rewrite (Hpq x Hp). cbn [List.find]. rewrite Hp. reflexivity.
  - destruct (q x); [cbn [List.find]; rewrite Hp|]; exact IH.
Qed.

Lemma with_leads_same (d : DB.t) : DB.with_leads (DB.leads d) d = d.
Proof. destruct d. reflexivity. Qed.

Lemma delete_nothing {R : Type} (p : R -> bool) (tb : Table.t R) :
  List.existsb p (Table.rows tb) = false -> Table.delete p tb = tb.
Proof.
  intros Hno. destruct tb as [rows seq]. unfold Table.delete. cbn [Table.rows Table.seq] in *.
  f_equal. apply filter_all. apply List.Forall_forall. intros x Hx.
  destruct (p x) eqn:Hp; [|reflexivity].
  apply not_true_iff_false in Hno. exfalso. apply Hno.
  apply List.existsb_exists. exists x. split; assumption.
Qed.

(** X10.  [delete_lead] answers "deleted" whether or not the lead
    exists.  It removes the lead with that lead id and nothing else:
    no visitor, company or contact row goes with it, and every other
    lead reads back as before.  Afterwards the lead id is free again
    and [get_lead] on it raises 404; when the lead id was not stored
    the database is unchanged; and the row id of the deleted lead is
    not handed out again. *)
Theorem delete_lead_effect (lead_id : string) (d : DB.t) :
  Run.outcome (delete_lead lead_id d) = Returned "deleted"
  /\ Run.trace (delete_lead lead_id d) = []
  /\ DB.visitors (Run.db (delete_lead lead_id d)) = DB.visitors d
  /\ DB.companies (Run.db (delete_lead lead_id d)) = DB.companies d
  /\ DB.contacts (Run.db (delete_lead lead_id d)) = DB.contacts d
  /\ lead_id_taken lead_id (Run.db (delete_lead lead_id d)) = false
  /\ Run.outcome (get_lead lead_id (Run.db (delete_lead lead_id d)))
     = Raised "404: Lead not found"
  /\ (forall other,
        other <> lead_id ->
        Run.outcome (get_lead other (Run.db (delete_lead lead_id d)))
        = Run.outcome (get_lead other d))
  /\ (lead_id_taken lead_id d = false -> Run.db (delete_lead lead_id d) = d)
  /\ (constraints_hold d = true ->
      Table.next_id (DB.leads (Run.db (delete_lead lead_id d))) = Table.next_id (DB.leads d)).
Proof.
  rewrite delete_lead_run. cbn [mk_run Run.outcome Run.trace Run.db].
  do 5 (split; [reflexivity|]).
  assert (Hgone : List.existsb (fun l => String.eqb (LeadRow.lead_id l) lead_id)
                    (List.filter
                       (fun l => negb (String.eqb (LeadRow.lead_id l) lead_id))
                       (Table.rows (DB.leads d))) = false).
  { apply existsb_false. intros l Hl. apply List.filter_In in Hl.
    destruct Hl as [_ Hl]. apply negb_true_iff in Hl. exact Hl. }
  split; [|split; [|split; [|split]]].
  - unfold lead_id_taken. cbn [DB.leads DB.with_leads Table.delete Table.rows].
    apply existsb_false. intros l Hl. apply List.filter_In in Hl.
    destruct Hl as [_ Hl]. apply negb_true_iff in Hl. rewrite String.eqb_sym. exact Hl.
  - rewrite get_lead_run. cbn [DB.leads DB.with_leads Table.delete Table.rows].
    rewrite (find_absent _ _ Hgone). reflexivity.
  - intros other Hother. rewrite !get_lead_run.
    cbn [DB.leads DB.with_leads Table.delete Table.rows].
    rewrite find_filter.
    + destruct (List.find _ _); reflexivity.
    + intros l Hl. apply String.eqb_eq in Hl. apply negb_true_iff. apply String.eqb_neq.
      rewrite Hl. exact Hother.
  - intros Hfree. rewrite delete_nothing; [apply with_leads_same|].
    apply lead_id_absent. exact Hfree.
  - intros Hc. apply constraints_hold_spec in Hc. destruct Hc as (_ & _ & _ & Hleads & _).
    cbn [DB.leads DB.with_leads]. apply delete_keeps_next_id. exact Hleads.
Qed.


(** ** Two events in one second *)

Lemma last_row_takes (lead_id : string) (db : DB.t) (rows : list LeadRow.t) (r : LeadRow.t) :
  Table.rows (DB.leads db) = (rows ++ [r])%list -> LeadRow.lead_id r = lead_id ->
  lead_id_taken lead_id db = true.
Proof.
  intros Hrows Hid. unfold lead_id_taken. rewrite Hrows, List.existsb_app.
  cbn [List.existsb]. rewrite Hid, String.eqb_refl, orb_true_l. apply orb_true_r.
Qed.

(** A run that committed a lead has passed its guard and leaves its
    lead id taken. *)
Lemma process_visitor_takes w settings now visitor client_ip d row :
  committed_lead (Run.trace (process_visitor w settings now visitor client_ip d)) = Some row ->
  lead_id_taken (tracking_lead_id now visitor)
    (Run.db (process_visitor w settings now visitor client_ip d)) = true.
Proof.
  destruct (int64 (Visitor.visit_duration visitor)) eqn:Hd;
    [|rewrite (process_visitor_overflow w settings now visitor client_ip d Hd);
      discriminate].
  destruct (is_local_ip (effective_ip visitor client_ip)) eqn:Hlocal;
    [rewrite (process_visitor_local w settings now visitor client_ip d Hd Hlocal);
     discriminate|].
  pose proof (lookups_commit_nothing_tracking w settings visitor client_ip) as Hnc.
  destruct (process_visitor_cases w settings now visitor client_ip d Hd Hlocal)
    as [(exn & _ & ->)|(scoring & _ & ->)].
  { cbn [Run.trace mk_run committed_lead]. rewrite Hnc. discriminate. }
  cbn [after Run.trace Run.db mk_run app committed_lead].
  match goal with
  | |- context [finished ?l ?c ?cs ?mk ?al ?res ?tr ?db] =>
      pose proof (finished_committed l c cs mk al res tr db Hnc) as Hcommitted
  end.
  intros Hrow. rewrite Hrow in Hcommitted.
  destruct Hcommitted as (rowf & Hmk & _ & _ & -> & _ & Hrows & _).
  eapply last_row_takes; [exact Hrows|].
  apply (tracking_row_ids _ _ _ _ _ _ _ _ Hmk).
Qed.

Lemma process_rb2b_lead_takes w settings now rb2b_data d row :
  committed_lead (Run.trace (process_rb2b_lead w settings now rb2b_data d)) = Some row ->
  PyStr.truthy (rb2b_email rb2b_data) = true
  /\ lead_id_taken (rb2b_lead_id now (rb2b_email rb2b_data))
       (Run.db (process_rb2b_lead w settings now rb2b_data d)) = true.
Proof.
  destruct (PyStr.truthy (rb2b_email rb2b_data)) eqn:Hemail;
    [|rewrite (process_rb2b_lead_no_email w settings now rb2b_data d Hemail);
      discriminate].
  pose proof (lookups_commit_nothing_rb2b w settings rb2b_data) as Hnc.
  destruct (process_rb2b_lead_cases w settings now rb2b_data d Hemail)
    as [(exn & _ & ->)|(scoring & _ & ->)].
  { cbn [Run.trace mk_run]. rewrite Hnc. discriminate. }
  match goal with
  | |- context [finished ?l ?c ?cs ?mk ?al ?res ?tr ?db] =>
      pose proof (finished_committed l c cs mk al res tr db Hnc) as Hcommitted
  end.
  intros Hrow. rewrite Hrow in Hcommitted.
  destruct Hcommitted as (rowf & Hmk & _ & _ & -> & _ & Hrows & _).
  split; [reflexivity|].
  eapply last_row_takes; [exact Hrows|].
  apply (rb2b_row_ids _ _ _ _ _ Hmk).
Qed.

(** A run whose lead id is taken, past its guard. *)
Lemma process_visitor_taken w settings now visitor client_ip d :
  int64 (Visitor.visit_duration visitor) = true ->
  is_local_ip (effective_ip visitor client_ip) = false ->
  lead_id_taken (tracking_lead_id now visitor) d = true ->
  exists exn,
    process_visitor w settings now visitor client_ip d
    = mk_run (Raised exn) (visit_stored visitor (effective_ip visitor client_ip) d)
        (VisitorCommitted (visit_row visitor (effective_ip visitor client_ip) d)
         :: tracking_lookups w settings visitor client_ip)
    /\ (forall scoring row,
          tracking_scored w settings visitor client_ip = Returned scoring ->
          company_binds (tracking_company w settings visitor client_ip)
            (tracking_contacts w settings visitor client_ip) = true ->
          tracking_row (tracking_lead_id now visitor) visitor scoring
            (effective_ip visitor client_ip)
            (tracking_identified w settings visitor client_ip) "tracking" Person.empty
          = Done row ->
          exn = integrity_error).
Proof.
  intros Hd Hlocal Htaken.
  destruct (process_visitor_cases w settings now visitor client_ip d Hd Hlocal)
    as [(exn & Hscored & ->)|(scoring & Hscored & ->)].
  - exists exn. split; [reflexivity|]. intros scoring row Hs. congruence.
  - match goal with
    | |- context [finished ?l ?c ?cs ?mk ?al ?res ?tr ?db] =>
        destruct (finished_cases l c cs mk al res tr db)
          as [(row & _ & _ & Hfree & _)|(exn & -> & Hwhy)]
    end; [rewrite lead_id_taken_visit in Hfree; congruence|].
    exists exn. split; [reflexivity|]. intros scoring' row Hs Hbinds Hrow.
    assert (scoring' = scoring) as -> by congruence.
    destruct Hwhy as [[Hb _]|[[_ Hmk]|(_ & _ & _ & ->)]]; [congruence|congruence|reflexivity].
Qed.

Lemma process_rb2b_lead_taken w settings now rb2b_data d :
  PyStr.truthy (rb2b_email rb2b_data) = true ->
  lead_id_taken (rb2b_lead_id now (rb2b_email rb2b_data)) d = true ->
  exists exn,
    process_rb2b_lead w settings now rb2b_data d
    = mk_run (Raised exn) d (rb2b_lookups w settings rb2b_data)
    /\ (forall scoring row,
          rb2b_scored w settings rb2b_data = Returned scoring ->
          company_binds (rb2b_company w settings rb2b_data)
            (rb2b_contacts w settings rb2b_data) = true ->
          rb2b_row (rb2b_lead_id now (rb2b_email rb2b_data))
            (rb2b_company w settings rb2b_data) scoring (rb2b_person rb2b_data)
          = Done row ->
          exn = integrity_error).
Proof.
  intros Hemail Htaken.
  destruct (process_rb2b_lead_cases w settings now rb2b_data d Hemail)
    as [(exn & Hscored & ->)|(scoring & Hscored & ->)].
  - exists exn. split; [reflexivity|]. intros scoring row Hs. congruence.
  - match goal with
    | |- context [finished ?l ?c ?cs ?mk ?al ?res ?tr ?db] =>
        destruct (finished_cases l c cs mk al res tr db)
          as [(row & _ & _ & Hfree & _)|(exn & -> & Hwhy)]
    end; [congruence|].
    exists exn. split; [reflexivity|]. intros scoring' row Hs Hbinds Hrow.
    assert (scoring' = scoring) as -> by congruence.
    destruct Hwhy as [[Hb _]|[[_ Hmk]|(_ & _ & _ & ->)]]; [congruence|congruence|reflexivity].
Qed.

(** X11.  Two events in one second.  After a tracking run that stored
    its lead, a tracking event of the same second whose session id has
    the same first 8 characters is not stored as a lead: its run, past
    its guard, makes its lookups, raises and leaves only its visitor
    row.  After a webhook run that stored its lead, a webhook event of
    the same second whose email has the same first 8 characters before
    the "@" raises and leaves the database as the first run left it.
    The exception is the IntegrityError of the lead INSERT when the
    second run gets that far: its scoring block returned and its
    statements bind. *)
Theorem same_second_event_lost (w w' : World.t) (settings settings' : Settings.t) (now : Z)
    (d : DB.t) :
  (forall visitor visitor' client_ip client_ip' row,
     committed_lead (Run.trace (process_visitor w settings now visitor client_ip d))
     = Some row ->
     int64 (Visitor.visit_duration visitor') = true ->
     is_local_ip (effective_ip visitor' client_ip') = false ->
     PyStr.take 8 (Visitor.session_id visitor') = PyStr.take 8 (Visitor.session_id visitor) ->
     (exists exn,
         Run.outcome
           (process_visitor w' settings' now visitor' client_ip'
              (Run.db (process_visitor w settings now visitor client_ip d)))
         = Raised exn
         /\ (forall scoring rowf,
               tracking_scored w' settings' visitor' client_ip' = Returned scoring ->
               company_binds (tracking_company w' settings' visitor' client_ip')
                 (tracking_contacts w' settings' visitor' client_ip') = true ->
               tracking_row (tracking_lead_id now visitor') visitor' scoring
                 (effective_ip visitor' client_ip')
                 (tracking_identified w' settings' visitor' client_ip') "tracking"
                 Person.empty
               = Done rowf ->
               exn = "IntegrityError: UNIQUE constraint failed: leads.lead_id"))
     /\ Run.db
          (process_visitor w' settings' now visitor' client_ip'
             (Run.db (process_visitor w settings now visitor client_ip d)))
        = visit_stored visitor' (effective_ip visitor' client_ip')
            (Run.db (process_visitor w settings now visitor client_ip d))
     /\ committed_lead
          (Run.trace
             (process_visitor w' settings' now visitor' client_ip'
                (Run.db (process_visitor w settings now visitor client_ip d))))
        = None)
  /\ (forall rb2b_data rb2b_data' row,
        committed_lead (Run.trace (process_rb2b_lead w settings now rb2b_data d)) = Some row ->
        PyStr.truthy (rb2b_email rb2b_data') = true ->
        PyStr.take 8 (PyStr.before_first "@" (rb2b_email rb2b_data'))
        = PyStr.take 8 (PyStr.before_first "@" (rb2b_email rb2b_data)) ->
        (exists exn,
            Run.outcome
              (process_rb2b_lead w' settings' now rb2b_data'
                 (Run.db (process_rb2b_lead w settings now rb2b_data d)))
            = Raised exn
            /\ (forall scoring rowf,
                  rb2b_scored w' settings' rb2b_data' = Returned scoring ->
                  company_binds (rb2b_company w' settings' rb2b_data')
                    (rb2b_contacts w' settings' rb2b_data') = true ->
                  rb2b_row (rb2b_lead_id now (rb2b_email rb2b_data'))
                    (rb2b_company w' settings' rb2b_data') scoring (rb2b_person rb2b_data')
                  = Done rowf ->
                  exn = "IntegrityError: UNIQUE constraint failed: leads.lead_id"))
        /\ Run.db
             (process_rb2b_lead w' settings' now rb2b_data'
                (Run.db (process_rb2b_lead w settings now rb2b_data d)))
           = Run.db (process_rb2b_lead w settings now rb2b_data d)
        /\ committed_lead
             (Run.trace
                (process_rb2b_lead w' settings' now rb2b_data'
                   (Run.db (process_rb2b_lead w settings now rb2b_data d))))
           = None).
Proof.
  split.
  - intros visitor visitor' client_ip client_ip' row Hrow Hd' Hlocal' Hsession.
    pose proof (process_visitor_takes w settings now visitor client_ip d row Hrow) as Htaken.
    assert (Hid : tracking_lead_id now visitor' = tracking_lead_id now visitor)
      by (unfold tracking_lead_id; rewrite Hsession; reflexivity).
    rewrite <- Hid in Htaken.
    destruct (process_visitor_taken w' settings' now visitor' client_ip' _ Hd' Hlocal' Htaken)
      as (exn & -> & Hexn).
    cbn [Run.outcome Run.db Run.trace mk_run committed_lead].
    split; [exists exn; split; [reflexivity|exact Hexn]|]. split; [reflexivity|].
    apply lookups_commit_nothing_tracking.
  - intros rb2b_data rb2b_data' row Hrow Hemail' Hlocal.
    destruct (process_rb2b_lead_takes w settings now rb2b_data d row Hrow) as [_ Htaken].
    assert (Hid : rb2b_lead_id now (rb2b_email rb2b_data')
                  = rb2b_lead_id now (rb2b_email rb2b_data))
      by (unfold rb2b_lead_id; rewrite Hlocal; reflexivity).
    rewrite <- Hid in Htaken.
    destruct (process_rb2b_lead_taken w' settings' now rb2b_data' _ Hemail' Htaken)
      as (exn & -> & Hexn).
    cbn [Run.outcome Run.db Run.trace mk_run].
    split; [exists exn; split; [reflexivity|exact Hexn]|]. split; [reflexivity|].
    apply lookups_commit_nothing_rb2b.
Qed.

(** ** The counts of [get_stats] *)

Lemma get_stats_run (d : DB.t) :
  get_stats d
  = mk_run (Returned {|
      Stats.total_leads := count_where (fun _ => true) (DB.leads d);
      Stats.hot_leads := count_where (fun l => cell_is "hot" (LeadRow.tier l)) (DB.leads d);
      Stats.warm_leads := count_where (fun l => cell_is "warm" (LeadRow.tier l)) (DB.leads d);
      Stats.cold_leads := count_where (fun l => cell_is "cold" (LeadRow.tier l)) (DB.leads d);
      Stats.total_visits := count_where (fun _ => true) (DB.visitors d);
      Stats.rb2b_leads := count_where (fun l => String.eqb (LeadRow.source l) "rb2b") (DB.leads d)
    |}) d [].
Proof. reflexivity. Qed.

Lemma count_where_le {R : Type} (p : R -> bool) (tb : Table.t R) :
  (count_where p tb <= count_where (fun _ => true) tb)%nat.
Proof.
  unfold count_where. induction (Table.rows tb) as [|r rs IH]; cbn [List.filter List.length].
  - lia.
  - destruct (p r); cbn [List.length]; lia.
Qed.

Lemma count_tiers (tb : Table.t LeadRow.t) :
  (count_where (fun l => cell_is "hot" (LeadRow.tier l)) tb
   + count_where (fun l => cell_is "warm" (LeadRow.tier l)) tb
   + count_where (fun l => cell_is "cold" (LeadRow.tier l)) tb
   <= count_where (fun _ => true) tb)%nat.
Proof.
  unfold count_where. induction (Table.rows tb) as [|r rs IH]; cbn [List.filter List.length].
  - lia.
  - destruct (LeadRow.tier r) as [|n|s]; cbn [cell_is List.length]; try lia.
    destruct (String.eqb_spec s "hot") as [->|_];
      [cbn [String.eqb Ascii.eqb Bool.eqb List.length]; lia|].
    destruct (String.eqb_spec s "warm") as [->|_];
      [cbn [String.eqb Ascii.eqb Bool.eqb List.length]; lia|].
    destruct (String.eqb s "cold"); cbn [List.length]; lia.
Qed.

Lemma count_where_append {R : Type} `{HasId R} (p : R -> bool) (mk : Z -> R) (tb : Table.t R) :
  count_where p (Table.append mk tb)
  = (count_where p tb + (if p (mk (Table.next_id tb)) then 1 else 0))%nat.
Proof.
  unfold count_where, Table.append. cbn [Table.rows].
  rewrite List.filter_app, List.length_app. cbn [List.filter].
  destruct (p (mk (Table.next_id tb))); reflexivity.
Qed.


(** What a lead adds to a count. *)
Section Counted.
Context {A : Type}.
Variables (lead_id : string) (company : Company.t) (contacts : list Contact.t).
Variables (mk : Checked (option Z -> Z -> LeadRow.t)) (alerts : list Event).
Variables (result : A) (tr : list Event) (d : DB.t).
Hypothesis lookups_commit_nothing : committed_lead tr = None.

Lemma finished_counted (p : LeadRow.t -> bool) :
  count_where p (DB.leads (Run.db (finished lead_id company contacts mk alerts result tr d)))
  = (count_where p (DB.leads d)
     + match committed_lead
               (Run.trace (finished lead_id company contacts mk alerts result tr d)) with
       | Some row => if p row then 1 else 0
       | None => 0
       end)%nat.
Proof.
  destruct (finished_cases lead_id company contacts mk alerts result tr d)
    as [(row & _ & _ & _ & ->)|(exn & -> & _)]; cbn [mk_run Run.db Run.trace].
  - rewrite committed_lead_app, lookups_commit_nothing. cbn [committed_lead DB.leads DB.with_leads].
    rewrite count_where_append, company_saved_leads. reflexivity.
  - rewrite lookups_commit_nothing. lia.
Qed.

Lemma finished_source (source : string) :
  (forall row cid i, mk = Done row -> LeadRow.source (row cid i) = source) ->
  match committed_lead
          (Run.trace (finished lead_id company contacts mk alerts result tr d)) with
  | Some row => LeadRow.source row = source
  | None => True
  end.
Proof.
  intros Hsource.
  pose proof (finished_committed lead_id company contacts mk alerts result tr d
                lookups_commit_nothing) as Hcommitted.
  destruct (committed_lead (Run.trace (finished _ _ _ _ _ _ _ _))) as [r|]; [|exact I].
  destruct Hcommitted as (row & Hmk & _ & _ & -> & _). apply Hsource. exact Hmk.
Qed.
End Counted.

Lemma tracking_row_source lead_id visitor scoring ip identified source person row cid i :
  tracking_row lead_id visitor scoring ip identified source person = Done row ->
  LeadRow.source (row cid i) = source.
Proof.
  intros Hmk. apply tracking_row_done in Hmk. destruct Hmk as (cells & _ & ->). reflexivity.
Qed.

Lemma rb2b_row_source lead_id company scoring person row cid i :
  rb2b_row lead_id company scoring person = Done row -> LeadRow.source (row cid i) = "rb2b".
Proof.
  intros Hmk. apply rb2b_row_done in Hmk. destruct Hmk as (cells & _ & ->). reflexivity.
Qed.

(** X12.  The counts of [get_stats].  The hot, warm and cold counts
    together never exceed the total (a lead whose tier is none of the
    three is in the total only), nor does the webhook count.  A tracking
    run adds one to the visits when the duration of the visit is a
    64-bit integer, also when it stores no lead, and nothing otherwise;
    it never adds to the webhook count; a webhook run leaves the visits
    as they are.  Each run adds one to the total exactly when it
    commits a lead, and then one to the hot count exactly when the
    stored tier is "hot". *)
Theorem stats_follow_runs (w : World.t) (settings : Settings.t) (now : Z) (d : DB.t) :
  exists s,
    get_stats d = mk_run (Returned s) d []
    /\ (Stats.hot_leads s + Stats.warm_leads s + Stats.cold_leads s <= Stats.total_leads s)%nat
    /\ (Stats.rb2b_leads s <= Stats.total_leads s)%nat
    /\ (forall visitor client_ip,
          exists s',
            get_stats (Run.db (process_visitor w settings now visitor client_ip d))
            = mk_run (Returned s')
                (Run.db (process_visitor w settings now visitor client_ip d)) []
            /\ Stats.total_visits s'
               = (Stats.total_visits s
                  + (if int64 (Visitor.visit_duration visitor) then 1 else 0))%nat
            /\ Stats.rb2b_leads s' = Stats.rb2b_leads s
            /\ Stats.total_leads s'
               = (Stats.total_leads s
                  + match committed_lead
                            (Run.trace (process_visitor w settings now visitor client_ip d)) with
                    | Some _ => 1
                    | None => 0
                    end)%nat
            /\ Stats.hot_leads s'
               = (Stats.hot_leads s
                  + match committed_lead
                            (Run.trace (process_visitor w settings now visitor client_ip d)) with
                    | Some row => if cell_is "hot" (LeadRow.tier row) then 1 else 0
                    | None => 0
                    end)%nat)
    /\ (forall rb2b_data,
          exists s',
            get_stats (Run.db (process_rb2b_lead w settings now rb2b_data d))
            = mk_run (Returned s') (Run.db (process_rb2b_lead w settings now rb2b_data d)) []
            /\ Stats.total_visits s' = Stats.total_visits s
            /\ Stats.total_leads s'
               = (Stats.total_leads s
                  + match committed_lead
                            (Run.trace (process_rb2b_lead w settings now rb2b_data d)) with
                    | Some _ => 1
                    | None => 0
                    end)%nat
            /\ Stats.rb2b_leads s'
               = (Stats.rb2b_leads s
                  + match committed_lead
                            (Run.trace (process_rb2b_lead w settings now rb2b_data d)) with
                    | Some _ => 1
                    | None => 0
                    end)%nat
            /\ Stats.hot_leads s'
               = (Stats.hot_leads s
                  + match committed_lead
                            (Run.trace (process_rb2b_lead w settings now rb2b_data d)) with
                    | Some row => if cell_is "hot" (LeadRow.tier row) then 1 else 0
                    | None => 0
                    end)%nat).
Proof.
  eexists. split; [apply get_stats_run|].
  cbn [Stats.total_leads Stats.hot_leads Stats.warm_leads Stats.cold_leads
       Stats.total_visits Stats.rb2b_leads].
  split; [apply count_tiers|]. split; [apply count_where_le|]. split.
  - intros visitor client_ip. eexists. split; [apply get_stats_run|].
    cbn [Stats.total_leads Stats.hot_leads Stats.warm_leads Stats.cold_leads
         Stats.total_visits Stats.rb2b_leads].
    destruct (int64 (Visitor.visit_duration visitor)) eqn:Hd.
    2:{ rewrite (process_visitor_overflow w settings now visitor client_ip d Hd).
        cbn [mk_run Run.db Run.trace committed_lead]. rewrite !Nat.add_0_r.
        repeat split; reflexivity. }
    destruct (is_local_ip (effective_ip visitor client_ip)) eqn:Hlocal.
    + rewrite (process_visitor_local w settings now visitor client_ip d Hd Hlocal).
      cbn [mk_run Run.db Run.trace committed_lead].
      unfold visit_stored. cbn [DB.visitors DB.leads DB.with_visitors].
      rewrite count_where_append, !Nat.add_0_r. repeat split; reflexivity.
    + pose proof (lookups_commit_nothing_tracking w settings visitor client_ip) as Hnc.
      destruct (process_visitor_cases w settings now visitor client_ip d Hd Hlocal)
        as [(exn & _ & ->)|(scoring & _ & ->)].
      { cbn [mk_run Run.db Run.trace committed_lead]. rewrite Hnc.
        unfold visit_stored. cbn [DB.visitors DB.leads DB.with_visitors].
        rewrite count_where_append, !Nat.add_0_r. repeat split; reflexivity. }
      cbn [after mk_run Run.db Run.trace app committed_lead].
      rewrite finished_visitors.
      rewrite !finished_counted by exact Hnc.
      unfold visit_stored at 1. cbn [DB.visitors DB.leads DB.with_visitors].
      rewrite count_where_append. split; [reflexivity|].
      change (DB.leads (visit_stored visitor (effective_ip visitor client_ip) d))
        with (DB.leads d).
      match goal with
      | |- context [finished ?l ?c ?cs ?mk ?al ?res ?tr ?db] =>
          pose proof (finished_source l c cs mk al res tr db Hnc "tracking") as Hsource
      end.
      split; [|split].
      * destruct (committed_lead (Run.trace (finished _ _ _ _ _ _ _ _))) as [row|]; [|lia].
        rewrite Hsource by (intros rowf cid i; apply tracking_row_source). cbn. lia.
      * destruct (committed_lead (Run.trace (finished _ _ _ _ _ _ _ _))); reflexivity.
      * reflexivity.
  - intros rb2b_data. eexists. split; [apply get_stats_run|].
    cbn [Stats.total_leads Stats.hot_leads Stats.warm_leads Stats.cold_leads
         Stats.total_visits Stats.rb2b_leads].
    destruct (PyStr.truthy (rb2b_email rb2b_data)) eqn:Hemail.
    + pose proof (lookups_commit_nothing_rb2b w settings rb2b_data) as Hnc.
      destruct (process_rb2b_lead_cases w settings now rb2b_data d Hemail)
        as [(exn & _ & ->)|(scoring & _ & ->)].
      { cbn [mk_run Run.db Run.trace]. rewrite Hnc, !Nat.add_0_r.
        repeat split; reflexivity. }
      rewrite finished_visitors.
      rewrite !finished_counted by exact Hnc.
      match goal with
      | |- context [finished ?l ?c ?cs ?mk ?al ?res ?tr ?db] =>
          pose proof (finished_source l c cs mk al res tr db Hnc "rb2b") as Hsource
      end.
      split; [reflexivity|]. split; [|split].
      * destruct (committed_lead (Run.trace (finished _ _ _ _ _ _ _ _))); reflexivity.
      * destruct (committed_lead (Run.trace (finished _ _ _ _ _ _ _ _))) as [row|]; [|reflexivity].
        rewrite Hsource by (intros rowf cid i; apply rb2b_row_source). reflexivity.
      * reflexivity.
    + rewrite (process_rb2b_lead_no_email w settings now rb2b_data d Hemail).
      cbn [mk_run Run.db Run.trace committed_lead]. rewrite !Nat.add_0_r.
      repeat split; reflexivity.
Qed.

(** ** The IP of a tracking request *)

Lemma lstrip_head (s : string) :
  match PyStr.lstrip s with
  | EmptyString => True
  | String c _ => PyStr.is_space c = false
  end.
Proof.
  induction s as [|c s IH]; cbn [PyStr.lstrip]; [exact I|].
  destruct (PyStr.is_space c) eqn:Hc; [exact IH|exact Hc].
Qed.

Lemma rstrip_rstrip (s : string) : PyStr.rstrip (PyStr.rstrip s) = PyStr.rstrip s.
Proof.
  induction s as [|c s IH]; [reflexivity|]. cbn [PyStr.rstrip].
  destruct (PyStr.rstrip s) as [|c' r] eqn:Hr.
  - destruct (PyStr.is_space c) eqn:Hc; [reflexivity|]. cbn [PyStr.rstrip]. rewrite Hc.
    reflexivity.
  - remember (String c' r) as t eqn:Ht. cbn [PyStr.rstrip]. rewrite IH, Ht. reflexivity.
Qed.

Lemma rstrip_head (c : ascii) (s : string) :
  PyStr.is_space c = false -> exists r, PyStr.rstrip (String c s) = String c r.
Proof.
  intros Hc. cbn [PyStr.rstrip]. rewrite Hc. destruct (PyStr.rstrip s); eauto.
Qed.

(** Stripping twice is stripping once. *)
Lemma strip_strip (s : string) : PyStr.strip (PyStr.strip s) = PyStr.strip s.
Proof.
  unfold PyStr.strip. pose proof (lstrip_head s) as Hhead.
  destruct (PyStr.lstrip s) as [|c t]; [reflexivity|].
  destruct (rstrip_head c t Hhead) as (r & Hr). rewrite Hr.
  cbn [PyStr.lstrip]. rewrite Hhead, <- Hr. apply rstrip_rstrip.
Qed.

Lemma all_chars_lstrip (p : ascii -> bool) (s : string) :
  PyStr.all_chars p s = true -> PyStr.all_chars p (PyStr.lstrip s) = true.
Proof.
  induction s as [|c s IH]; [trivial|]. cbn [PyStr.lstrip]. intros Hs.
  destruct (PyStr.is_space c); [|exact Hs].
  cbn [PyStr.all_chars] in Hs. apply andb_prop in Hs. apply IH. tauto.
Qed.

Lemma all_chars_rstrip (p : ascii -> bool) (s : string) :
  PyStr.all_chars p s = true -> PyStr.all_chars p (PyStr.rstrip s) = true.
Proof.
  induction s as [|c s IH]; [trivial|]. cbn [PyStr.rstrip PyStr.all_chars]. intros Hs.
  apply andb_prop in Hs. destruct Hs as [Hc Hs]. specialize (IH Hs).
  destruct (PyStr.rstrip s) as [|c' r].
  - destruct (PyStr.is_space c); [reflexivity|]. cbn [PyStr.all_chars]. rewrite Hc. reflexivity.
  - cbn [PyStr.all_chars] in *. rewrite Hc, IH. reflexivity.
Qed.

Lemma before_first_chars (c : ascii) (s : string) :
  PyStr.all_chars (fun x => negb (Ascii.eqb c x)) (PyStr.before_first c s) = true.
Proof.
  induction s as [|x s IH]; [reflexivity|]. cbn [PyStr.before_first].
  destruct (Ascii.eqb c x) eqn:Hx; [reflexivity|]. cbn [PyStr.all_chars]. rewrite Hx, IH.
  reflexivity.
Qed.

Lemma forwarded_for_chars (headers : gmap string string) :
  PyStr.all_chars not_comma (forwarded_for headers) = true.
Proof.
  unfold forwarded_for, PyStr.strip. apply all_chars_rstrip, all_chars_lstrip.
  pose proof (before_first_chars "," (get_or (headers !! "x-forwarded-for") "")) as Hchars.
  induction (PyStr.before_first "," _) as [|x s IH]; [reflexivity|].
  cbn [PyStr.all_chars] in *. apply andb_prop in Hchars. destruct Hchars as [Hx Hs].
  unfold not_comma at 1. rewrite Ascii.eqb_sym, Hx. apply IH. exact Hs.
Qed.

(** X13.  Which IP a tracking request is processed under.  The request
    IP is the first non-empty of: the first hop of [X-Forwarded-For]
    with the surrounding whitespace removed, [X-Real-IP] as sent, and
    the peer address.  The pipeline then prefers the [ip_address] of
    the body, when non-empty, to all three, while the acknowledgement
    still reports the request IP.  A forwarded hop that is used holds
    no comma and no surrounding whitespace. *)
Theorem request_ip_precedence (w : World.t) (settings : Settings.t) (now : Z)
    (headers : gmap string string) (client_host : option string) (visitor : Visitor.t) :
  request_client_ip headers client_host
  = first_truthy [forwarded_for headers; get_or (headers !! "x-real-ip") "";
                  get_or client_host ""]
  /\ effective_ip visitor (request_client_ip headers client_host)
     = first_truthy [get_or (Visitor.ip_address visitor) ""; forwarded_for headers;
                     get_or (headers !! "x-real-ip") ""; get_or client_host ""]
  /\ Ack.ip (fst (receive_visitor w settings now headers client_host visitor))
     = Some (request_client_ip headers client_host)
  /\ snd (receive_visitor w settings now headers client_host visitor)
     = process_visitor w settings now visitor (request_client_ip headers client_host)
  /\ (PyStr.truthy (forwarded_for headers) = true ->
      request_client_ip headers client_host = forwarded_for headers
      /\ PyStr.all_chars not_comma (request_client_ip headers client_host) = true
      /\ PyStr.strip (request_client_ip headers client_host)
         = request_client_ip headers client_host).
Proof.
  assert (Hreq : request_client_ip headers client_host
                 = first_truthy [forwarded_for headers; get_or (headers !! "x-real-ip") "";
                                 get_or client_host ""]).
  { unfold request_client_ip. fold (forwarded_for headers). cbn [first_truthy].
    destruct (PyStr.truthy (forwarded_for headers)) eqn:Hf; [rewrite Hf; reflexivity|].
    destruct (PyStr.truthy (get_or (headers !! "x-real-ip") "")) eqn:Hreal; [reflexivity|].
    destruct (get_or client_host ""); reflexivity. }
  split; [exact Hreq|]. split; [|split; [reflexivity|split; [reflexivity|]]].
  - unfold effective_ip. rewrite Hreq. cbn [first_truthy]. unfold PyStr.or_else.
    destruct (Visitor.ip_address visitor) as [a|]; cbn [get_or].
    + destruct (PyStr.truthy a); [reflexivity|].
      destruct (PyStr.truthy (forwarded_for headers)) eqn:Hf; [rewrite Hf; reflexivity|].
      destruct (PyStr.truthy (get_or (headers !! "x-real-ip") "")) eqn:Hreal;
        [rewrite Hreal; reflexivity|].
      destruct (get_or client_host ""); reflexivity.
    + cbn [PyStr.truthy].
      destruct (PyStr.truthy (forwarded_for headers)) eqn:Hf; [rewrite Hf; reflexivity|].
      destruct (PyStr.truthy (get_or (headers !! "x-real-ip") "")) eqn:Hreal;
        [rewrite Hreal; reflexivity|].
      destruct (get_or client_host ""); reflexivity.
  - intros Hf. rewrite Hreq. cbn [first_truthy]. rewrite Hf.
    split; [reflexivity|]. split; [apply forwarded_for_chars|].
    unfold forwarded_for. apply strip_strip.
Qed.


(** ** [test_visitor] *)

Lemma test_visitor_explicit w settings now domain d :
  test_visitor w settings now domain d
  = mk_run
      (match engine_outcome w (Settings.openai_api_key settings)
               (test_prompt w settings domain) with
       | Returned _ =>
           Returned {| TestResult.lead_id := "test_" +:+ PyStr.of_Z now;
                       TestResult.company := test_company w settings domain;
                       TestResult.contacts := test_contacts w settings domain;
                       TestResult.scoring := test_scoring w settings domain |}
       | Raised exn => Raised exn
       end)
      d (test_lookups w settings domain).
Proof.
  unfold test_visitor. cbv zeta.
  change (bind ?m ?k d)
    with (bind (if PyStr.truthy (Settings.apollo_api_key settings)
                then
                  result <- enrich_company_apollo w domain (Settings.apollo_api_key settings) ;;
                  match result with
                  | Success data => ret data
                  | Fail _ => ret (test_shell domain)
                  end
                else ret (test_shell domain)) k d).
  assert (Hcompany : forall d0,
            (if PyStr.truthy (Settings.apollo_api_key settings)
             then
               result <- enrich_company_apollo w domain (Settings.apollo_api_key settings) ;;
               match result with
               | Success data => ret data
               | Fail _ => ret (test_shell domain)
               end
             else ret (test_shell domain)) d0
            = mk_run (Returned (test_company w settings domain)) d0
                (apollo_calls w domain (Settings.apollo_api_key settings))).
  { intros d0. unfold test_company, apollo_calls.
    destruct (PyStr.truthy (Settings.apollo_api_key settings)) eqn:Hkey.
    - erewrite bind_run by apply enrich_company_apollo_explicit.
      unfold apollo_calls. rewrite Hkey.
      destruct (value _ _); rewrite ret_run, after_mk, app_nil_r; reflexivity.
    - rewrite enrich_company_apollo_value, Hkey. reflexivity. }
  erewrite bind_run by apply Hcompany. clear Hcompany.
  assert (Hcontacts : forall d0,
            (if PyStr.truthy (Settings.hunter_api_key settings)
             then
               result <- find_contacts_hunter w domain (Settings.hunter_api_key settings) ;;
               match result with
               | Success cs => ret cs
               | Fail _ => ret []
               end
             else ret []) d0
            = mk_run (Returned (test_contacts w settings domain)) d0
                (hunter_calls w domain (Settings.hunter_api_key settings))).
  { intros d0. unfold test_contacts, hunter_calls.
    destruct (PyStr.truthy (Settings.hunter_api_key settings)) eqn:Hkey.
    - erewrite bind_run by apply find_contacts_hunter_explicit.
      unfold hunter_calls. rewrite Hkey.
      destruct (value _ _); rewrite ret_run, after_mk, app_nil_r; reflexivity.
    - rewrite find_contacts_hunter_value, Hkey. reflexivity. }
  erewrite bind_run by apply Hcontacts. clear Hcontacts.
  assert (Hscoring : forall d0,
            (if PyStr.truthy (Settings.openai_api_key settings)
             then
               result <- score_lead_openai w (test_company w settings domain)
                           (test_contacts w settings domain) test_visit_data Person.empty
                           (Settings.openai_api_key settings) icp_config ;;
               match result with
               | Success data => ret data
               | Fail _ => ret test_default_scoring
               end
             else ret test_default_scoring) d0
            = mk_run
                (match engine_outcome w (Settings.openai_api_key settings)
                         (test_prompt w settings domain) with
                 | Returned _ => Returned (test_scoring w settings domain)
                 | Raised exn => Raised exn
                 end) d0
                (openai_calls w (Settings.openai_api_key settings)
                   (test_prompt w settings domain))).
  { intros d0. unfold test_scoring, test_prompt.
    set (company := test_company w settings domain).
    set (contacts := test_contacts w settings domain).
    set (prompt := build_prompt company contacts test_visit_data Person.empty icp_config).
    destruct (PyStr.truthy (Settings.openai_api_key settings)) eqn:Hkey.
    - pose proof (score_lead_openai_stateless w company contacts test_visit_data Person.empty
                    (Settings.openai_api_key settings) icp_config d0) as Hm.
      rewrite score_lead_openai_outcome, score_lead_openai_calls in Hm. fold prompt in Hm.
      unfold engine_outcome, openai_calls, usable in *. rewrite Hkey in *. cbn [negb] in *.
      destruct prompt as [p|exn].
      + erewrite bind_run by exact Hm.
        destruct (World.openai w _ p) as [code text [data|]|e];
          try destruct (Z.eqb code 200);
          rewrite ret_run, after_mk, app_nil_r; reflexivity.
      + erewrite bind_raise by exact Hm. reflexivity.
    - unfold engine_outcome, openai_calls. rewrite Hkey. reflexivity. }
  unfold test_lookups.
  destruct (engine_outcome w (Settings.openai_api_key settings) (test_prompt w settings domain))
    as [answer|exn].
  - erewrite bind_run by apply Hscoring.
    rewrite ret_run, !after_mk, app_nil_r. reflexivity.
  - erewrite bind_raise by apply Hscoring.
    rewrite !after_mk. reflexivity.
Qed.

Lemma test_contacts_bounded w settings domain :
  (List.length (test_contacts w settings domain) <= 5)%nat.
Proof.
  unfold test_contacts. rewrite find_contacts_hunter_value.
  destruct (negb _ || negb _); [simpl; lia|].
  destruct (World.hunter w _ _) as [code text [emails|]|exn];
    try destruct (Z.eqb code 200); try (simpl; lia).
  rewrite List.length_map, List.length_firstn. lia.
Qed.

Lemma engine_answer_test_lookups w settings domain :
  engine_answer (test_lookups w settings domain)
  = match engine_outcome w (Settings.openai_api_key settings)
            (test_prompt w settings domain) with
    | Returned answer => answer
    | Raised _ => None
    end.
Proof.
  unfold test_lookups. rewrite !engine_answer_app, engine_answer_openai.
  unfold apollo_calls, hunter_calls. split_ifs; reflexivity.
Qed.

(** X14.  [test_visitor] only looks.  Whatever it does, it leaves the
    database as it is and calls Apollo, Hunter and the scoring engine
    at most once each, in this order, and nothing else: no visit or
    lead is written and no alert is sent, whatever tier comes back.
    The engine is asked about the fixed visit (the pages "/" and
    "/pricing", 120 seconds) with no person.  It returns unless the
    engine key is set and Apollo sent a null description: then the
    prompt cannot be built, the call raises TypeError and the engine is
    not asked.  When it returns, its lead id is "test_" followed by the
    time, which no stored lead can have; it returns at most 5 contacts;
    and its scoring is what the engine answered with, or the default
    dict when the engine gave no usable answer. *)
Theorem test_visitor_only_looks (w : World.t) (settings : Settings.t) (now : Z)
    (domain : string) (d : DB.t) :
  Run.db (test_visitor w settings now domain d) = d
  /\ Run.trace (test_visitor w settings now domain d)
     = (apollo_calls w domain (Settings.apollo_api_key settings)
        ++ hunter_calls w domain (Settings.hunter_api_key settings)
        ++ openai_calls w (Settings.openai_api_key settings)
             (build_prompt (test_company w settings domain) (test_contacts w settings domain)
                test_visit_data Person.empty icp_config))%list
  /\ subsequence (List.map service (Run.trace (test_visitor w settings now domain d)))
       [Apollo; Hunter; OpenAI] = true
  /\ Forall (fun p =>
               Prompt.pages p = [JStr "/"; JStr "/pricing"]
               /\ Prompt.duration p = 120
               /\ Prompt.person_name p = "Unknown"
               /\ Prompt.person_email p = "Unknown"
               /\ Prompt.icp p = icp_config)
            (prompts (Run.trace (test_visitor w settings now domain d)))
  /\ (PyStr.truthy (Settings.openai_api_key settings) = false
      \/ prompt_builds (test_company w settings domain) = true ->
      exists res,
        Run.outcome (test_visitor w settings now domain d) = Returned res
        /\ TestResult.lead_id res = "test_" +:+ PyStr.of_Z now
        /\ (forall now' visitor, TestResult.lead_id res <> tracking_lead_id now' visitor)
        /\ (forall now' email, TestResult.lead_id res <> rb2b_lead_id now' email)
        /\ TestResult.company res = test_company w settings domain
        /\ TestResult.contacts res = test_contacts w settings domain
        /\ (List.length (TestResult.contacts res) <= 5)%nat
        /\ TestResult.scoring res
           = get_or (engine_answer (Run.trace (test_visitor w settings now domain d)))
               test_default_scoring)
  /\ (PyStr.truthy (Settings.openai_api_key settings) = true ->
      prompt_builds (test_company w settings domain) = false ->
      Run.outcome (test_visitor w settings now domain d)
      = Raised "TypeError: 'NoneType' object is not subscriptable"
      /\ calls_to OpenAI (Run.trace (test_visitor w settings now domain d)) = 0%nat).
Proof.
  rewrite test_visitor_explicit. cbn [mk_run Run.db Run.trace Run.outcome].
  split; [reflexivity|]. split; [reflexivity|]. split; [|split; [|split]].
  - unfold test_lookups, apollo_calls, hunter_calls, openai_calls. split_ifs; reflexivity.
  - unfold test_lookups. rewrite !prompts_app, prompts_apollo, prompts_hunter, prompts_openai.
    cbn [app]. destruct (test_prompt w settings domain) as [p|exn] eqn:Hp; [|constructor].
    destruct (PyStr.truthy (Settings.openai_api_key settings)); constructor; [|constructor].
    apply build_prompt_fields in Hp.
    destruct Hp as (Hname & _ & Hemail & Hpages & Hduration & _ & Hicp & _).
    rewrite Hname, Hemail, Hpages, Hduration, Hicp. repeat split.
  - intros Hok. rewrite engine_answer_test_lookups.
    assert (Hanswer : exists answer,
               engine_outcome w (Settings.openai_api_key settings)
                 (test_prompt w settings domain) = Returned answer).
    { unfold engine_outcome. destruct Hok as [Hkey|Hbuilds].
      - rewrite Hkey. eauto.
      - destruct (negb _); [eauto|].
        destruct (build_prompt_done _ (test_contacts w settings domain) test_visit_data
                    Person.empty icp_config Hbuilds) as [p Hp].
        unfold test_prompt. rewrite Hp. eauto. }
    destruct Hanswer as [answer Hanswer]. unfold test_scoring. rewrite Hanswer.
    eexists. split; [reflexivity|].
    cbn [TestResult.lead_id TestResult.company TestResult.contacts TestResult.scoring].
    split; [reflexivity|]. split; [intros now' visitor; discriminate|].
    split; [intros now' email; discriminate|]. split; [reflexivity|].
    split; [reflexivity|]. split; [apply test_contacts_bounded|].
    destruct answer; reflexivity.
  - intros Hkey Hbuilds.
    pose proof (build_prompt_fails _ (test_contacts w settings domain) test_visit_data
                  Person.empty icp_config Hbuilds) as Hp.
    unfold engine_outcome, test_lookups, test_prompt, openai_calls, apollo_calls, hunter_calls.
    rewrite Hp, Hkey. cbn [negb]. split; [reflexivity|].
    split_ifs; reflexivity.
Qed.

(** ** Runs without a company *)

Lemma not_truthy (s : string) : PyStr.truthy s = false -> s = "".
Proof. destruct s; [reflexivity|discriminate]. Qed.

Section Unidentified.
Variables (w : World.t) (settings : Settings.t) (visitor : Visitor.t) (client_ip : string).
Hypothesis unidentified :
  PyStr.truthy (tracking_identified w settings visitor client_ip) = false.

Lemma unidentified_domain : tracking_domain w settings visitor client_ip = "".
Proof.
  revert unidentified. unfold tracking_identified, tracking_domain, tracking_ip_result.
  rewrite lookup_company_from_ip_value.
  destruct (ip_skipped _); [reflexivity|].
  destruct (World.ipinfo w _) as [code text [body|]|exn];
    try destruct (Z.eqb code 200); try reflexivity.
  cbn [IpData.company_name IpData.domain]. intros Hname.
  unfold guess_domain. rewrite Hname. reflexivity.
Qed.

Lemma unidentified_company :
  tracking_company w settings visitor client_ip
  = Company.shell "Unknown" "" (tracking_country w settings visitor client_ip).
Proof.
  unfold tracking_company, tracking_shell.
  rewrite company_stage_value, enrich_company_apollo_value, unidentified_domain.
  rewrite (not_truthy _ unidentified). cbn [PyStr.truthy negb]. rewrite orb_true_r.
  reflexivity.
Qed.

Lemma unidentified_contacts : tracking_contacts w settings visitor client_ip = [].
Proof.
  unfold tracking_contacts.
  rewrite contacts_stage_value, find_contacts_hunter_value, unidentified_domain.
  cbn [PyStr.truthy negb]. rewrite orb_true_r. reflexivity.
Qed.

Lemma unidentified_scored :
  tracking_scored w settings visitor client_ip
  = Returned (tracking_default_scoring "" (effective_ip visitor client_ip)).
Proof.
  rewrite tracking_scored_value, unidentified. unfold tracking_default.
  rewrite (not_truthy _ unidentified). reflexivity.
Qed.

Lemma unidentified_lookups :
  tracking_lookups w settings visitor client_ip
  = ipinfo_calls w (effective_ip visitor client_ip) (Settings.ipinfo_token settings).
Proof.
  unfold tracking_lookups. rewrite unidentified, unidentified_domain.
  unfold apollo_calls, hunter_calls. cbn [PyStr.truthy negb]. rewrite !orb_true_r.
  rewrite !app_nil_r. reflexivity.
Qed.
End Unidentified.

(** X15.  A visit whose IP gives no organisation still becomes a lead.
    When the IP lookup fails or names no organisation, and the visit
    duration fits 64 bits (otherwise the run stops at the visitor
    statement, C3), the run makes no further call, whatever keys are
    configured.  After the visitor row and the one ipinfo request it
    stores the lead with the default scoring (30, "cold", "skip", "low",
    "Visitor from <ip>"), an empty [identified_company] and a NULL
    company id, writes no company or contact row, and sends no alert.
    When the lead id is taken it raises IntegrityError after the visitor
    row and the ipinfo request, and stores no lead. *)
Theorem unidentified_visit_stored (w : World.t) (settings : Settings.t) (now : Z)
    (visitor : Visitor.t) (client_ip : string) (d : DB.t) :
  int64 (Visitor.visit_duration visitor) = true ->
  is_local_ip (effective_ip visitor client_ip) = false ->
  PyStr.truthy (tracking_identified w settings visitor client_ip) = false ->
  (lead_id_taken (tracking_lead_id now visitor) d = false ->
   process_visitor w settings now visitor client_ip d
   = mk_run (Returned tt)
       (DB.with_leads
          (Table.append
             (tracking_lead_row (tracking_lead_id now visitor) None visitor
                (tracking_default_scoring "" (effective_ip visitor client_ip))
                {| LeadCells.icp_score := CInt 30;
                   LeadCells.tier := CText "cold";
                   LeadCells.research_summary :=
                     CText ("Visitor from " +:+ effective_ip visitor client_ip);
                   LeadCells.recommended_action := CText "skip";
                   LeadCells.urgency := CText "low" |}
                (effective_ip visitor client_ip) "" "tracking" Person.empty)
             (DB.leads d))
          (visit_stored visitor (effective_ip visitor client_ip) d))
       (VisitorCommitted (visit_row visitor (effective_ip visitor client_ip) d)
        :: ipinfo_calls w (effective_ip visitor client_ip) (Settings.ipinfo_token settings)
        ++ [LeadCommitted
              (tracking_lead_row (tracking_lead_id now visitor) None visitor
                 (tracking_default_scoring "" (effective_ip visitor client_ip))
                 {| LeadCells.icp_score := CInt 30;
                    LeadCells.tier := CText "cold";
                    LeadCells.research_summary :=
                      CText ("Visitor from " +:+ effective_ip visitor client_ip);
                    LeadCells.recommended_action := CText "skip";
                    LeadCells.urgency := CText "low" |}
                 (effective_ip visitor client_ip) "" "tracking" Person.empty
                 (Table.next_id (DB.leads d)))]))
  /\ (lead_id_taken (tracking_lead_id now visitor) d = true ->
      process_visitor w settings now visitor client_ip d
      = mk_run (Raised "IntegrityError: UNIQUE constraint failed: leads.lead_id")
          (visit_stored visitor (effective_ip visitor client_ip) d)
          (VisitorCommitted (visit_row visitor (effective_ip visitor client_ip) d)
           :: ipinfo_calls w (effective_ip visitor client_ip)
                (Settings.ipinfo_token settings))).
Proof.
  intros Hduration Hlocal Hnone.
  rewrite (process_visitor_explicit w settings now visitor client_ip d Hduration Hlocal).
  rewrite unidentified_company, unidentified_contacts, unidentified_scored,
    unidentified_lookups by exact Hnone.
  rewrite (not_truthy _ Hnone). cbn [concluded].
  destruct (tracking_default_binds visitor "" (effective_ip visitor client_ip) Hduration)
    as [cells Hcells].
  pose proof (tracking_default_cells _ _ _ _ Hcells) as ->.
  unfold finished, tracking_row. rewrite Hcells. cbn [checked_map].
  change (company_binds (Company.shell "Unknown" "" ?c) []) with true. cbv iota.
  change (company_saved (Company.shell "Unknown" "" ?c) [] ?x) with (x, @None Z).
  cbn [fst snd].
  change (lead_id_taken ?l (visit_stored _ _ d)) with (lead_id_taken l d).
  split; intros ->.
  - unfold alert_trace, tier_is_hot.
    cbn [tracking_default_scoring Scoring.tier is_str String.eqb Ascii.eqb Bool.eqb].
    rewrite andb_false_r. reflexivity.
  - reflexivity.
Qed.

Lemma or_else_empty (s : string) : PyStr.or_else s "" = s.
Proof. destruct s; reflexivity. Qed.

Lemma before_first_absent (c : ascii) (s : string) :
  PyStr.has_char c s = false -> PyStr.before_first c s = s.
Proof.
  induction s as [|x s IH]; [reflexivity|]. cbn [PyStr.has_char PyStr.before_first].
  destruct (Ascii.eqb c x); [discriminate|]. intros Hs. rewrite (IH Hs). reflexivity.
Qed.

Lemma calls_to_app (sv : Service) (tr tr' : list Event) :
  calls_to sv (tr ++ tr') = (calls_to sv tr + calls_to sv tr')%nat.
Proof. unfold calls_to. rewrite List.filter_app, List.length_app. reflexivity. Qed.

Section NoDomain.
Variables (w : World.t) (settings : Settings.t) (rb2b_data : gmap string string).
Hypothesis no_at_domain : rb2b_domain rb2b_data = "".

Lemma no_at_company :
  rb2b_company w settings rb2b_data
  = Company.shell (field rb2b_data "Company" "company") "" (Some "").
Proof.
  unfold rb2b_company, rb2b_shell.
  rewrite company_stage_value, enrich_company_apollo_value, no_at_domain.
  cbn [PyStr.truthy negb]. rewrite orb_true_r, or_else_empty. reflexivity.
Qed.

Lemma no_at_contacts : rb2b_contacts w settings rb2b_data = [].
Proof.
  unfold rb2b_contacts.
  rewrite contacts_stage_value, find_contacts_hunter_value, no_at_domain.
  cbn [PyStr.truthy negb]. rewrite orb_true_r. reflexivity.
Qed.

Lemma no_at_lookups :
  rb2b_lookups w settings rb2b_data
  = openai_calls w (Settings.openai_api_key settings) (rb2b_prompt w settings rb2b_data).
Proof.
  unfold rb2b_lookups. rewrite no_at_domain. unfold apollo_calls, hunter_calls.
  cbn [PyStr.truthy negb]. rewrite !orb_true_r. reflexivity.
Qed.

(** The shell has no description key: its prompt builds. *)
Lemma no_at_prompt :
  exists prompt,
    rb2b_prompt w settings rb2b_data = Done prompt
    /\ Prompt.company_name prompt = Some (field rb2b_data "Company" "company")
    /\ Prompt.company_description prompt = "".
Proof.
  unfold rb2b_prompt. rewrite no_at_company, no_at_contacts.
  eexists. split; [reflexivity|]. split; reflexivity.
Qed.

Lemma no_at_run (now : Z) (d : DB.t) :
  PyStr.truthy (rb2b_email rb2b_data) = true ->
  (exists exn,
      process_rb2b_lead w settings now rb2b_data d
      = mk_run (Raised exn) d
          (openai_calls w (Settings.openai_api_key settings)
             (rb2b_prompt w settings rb2b_data))
      /\ (rb2b_scored w settings rb2b_data = Raised exn
          \/ (exists scoring,
                rb2b_scored w settings rb2b_data = Returned scoring
                /\ rb2b_lead_cells scoring = Throws exn)
          \/ (exists scoring cells,
                rb2b_scored w settings rb2b_data = Returned scoring
                /\ rb2b_lead_cells scoring = Done cells
                /\ lead_id_taken (rb2b_lead_id now (rb2b_email rb2b_data)) d = true
                /\ exn = integrity_error)))
  \/ (exists scoring cells,
        rb2b_scored w settings rb2b_data = Returned scoring
        /\ rb2b_lead_cells scoring = Done cells
        /\ lead_id_taken (rb2b_lead_id now (rb2b_email rb2b_data)) d = false
        /\ process_rb2b_lead w settings now rb2b_data d
           = mk_run
               (Returned (Some {|
                  Rb2bResult.lead_id := rb2b_lead_id now (rb2b_email rb2b_data);
                  Rb2bResult.person := rb2b_person rb2b_data;
                  Rb2bResult.company :=
                    Company.shell (field rb2b_data "Company" "company") "" (Some "");
                  Rb2bResult.scoring := scoring |}))
               (DB.with_leads
                  (Table.append
                     (rb2b_lead_row (rb2b_lead_id now (rb2b_email rb2b_data)) None
                        (Company.shell (field rb2b_data "Company" "company") "" (Some ""))
                        scoring cells (rb2b_person rb2b_data))
                     (DB.leads d)) d)
               (openai_calls w (Settings.openai_api_key settings)
                  (rb2b_prompt w settings rb2b_data)
                ++ LeadCommitted
                     (rb2b_lead_row (rb2b_lead_id now (rb2b_email rb2b_data)) None
                        (Company.shell (field rb2b_data "Company" "company") "" (Some ""))
                        scoring cells (rb2b_person rb2b_data)
                        (Table.next_id (DB.leads d)))
                :: alert_trace w settings
                     (Company.shell (field rb2b_data "Company" "company") "" (Some ""))
                     scoring (rb2b_person rb2b_data))).
Proof.
  intros Hemail.
  destruct (process_rb2b_lead_cases w settings now rb2b_data d Hemail)
    as [(exn & Hscored & ->)|(scoring & Hscored & ->)]; rewrite no_at_lookups.
  { left. exists exn. split; [reflexivity|]. left. exact Hscored. }
  rewrite no_at_contacts, !no_at_company.
  unfold finished, rb2b_row.
  change (company_binds (Company.shell ?n "" ?c) []) with true. cbv iota.
  change (company_saved (Company.shell ?n "" ?c) [] ?x) with (x, @None Z).
  cbn [fst snd].
  destruct (rb2b_lead_cells scoring) as [cells|exn] eqn:Hcells; cbn [checked_map].
  - destruct (lead_id_taken _ d) eqn:Hfree.
    + left. exists integrity_error. split; [reflexivity|]. right. right.
      exists scoring, cells. auto.
    + right. exists scoring, cells. auto.
  - left. exists exn. split; [reflexivity|]. right. left. exists scoring. auto.
Qed.
End NoDomain.

(** X16.  A webhook email without a domain (no "@", or nothing after
    the last one) gives a lead without a company.  Neither Apollo nor
    Hunter is called, whatever keys are configured; the company is the
    shell named after the "Company" field, whose prompt always builds;
    no company or contact row is written, and a lead the run commits
    has a NULL company id.  The engine is still asked when its key is
    set.  When the scoring block returns a scoring dict whose members
    bind and the lead id is free, the run stores that lead and alerts
    as for any other; when the block raises, or a member does not bind,
    or the id is taken, the run raises after the engine call and stores
    nothing.  Without "@" the lead id is built from the first 8
    characters of the whole email. *)
Theorem email_without_domain (w : World.t) (settings : Settings.t) (now : Z)
    (rb2b_data : gmap string string) (d : DB.t) :
  PyStr.truthy (rb2b_email rb2b_data) = true ->
  email_domain (rb2b_email rb2b_data) = "" ->
  (PyStr.has_char "@" (rb2b_email rb2b_data) = false ->
   rb2b_lead_id now (rb2b_email rb2b_data)
   = "rb2b_" +:+ PyStr.of_Z now +:+ "_" +:+ PyStr.take 8 (rb2b_email rb2b_data))
  /\ rb2b_company w settings rb2b_data
     = Company.shell (field rb2b_data "Company" "company") "" (Some "")
  /\ rb2b_contacts w settings rb2b_data = []
  /\ (exists prompt,
        build_prompt (Company.shell (field rb2b_data "Company" "company") "" (Some "")) []
          rb2b_visit_data (rb2b_person rb2b_data) icp_config = Done prompt
        /\ prompts (Run.trace (process_rb2b_lead w settings now rb2b_data d))
           = if PyStr.truthy (Settings.openai_api_key settings) then [prompt] else [])
  /\ calls_to Apollo (Run.trace (process_rb2b_lead w settings now rb2b_data d)) = 0%nat
  /\ calls_to Hunter (Run.trace (process_rb2b_lead w settings now rb2b_data d)) = 0%nat
  /\ DB.companies (Run.db (process_rb2b_lead w settings now rb2b_data d)) = DB.companies d
  /\ DB.contacts (Run.db (process_rb2b_lead w settings now rb2b_data d)) = DB.contacts d
  /\ (forall row,
        committed_lead (Run.trace (process_rb2b_lead w settings now rb2b_data d)) = Some row ->
        LeadRow.company_id row = None
        /\ LeadRow.identified_company row = Some (field rb2b_data "Company" "company")
        /\ Table.rows (DB.leads (Run.db (process_rb2b_lead w settings now rb2b_data d)))
           = (Table.rows (DB.leads d) ++ [row])%list)
  /\ (forall scoring cells,
        rb2b_scored w settings rb2b_data = Returned scoring ->
        rb2b_lead_cells scoring = Done cells ->
        lead_id_taken (rb2b_lead_id now (rb2b_email rb2b_data)) d = false ->
        process_rb2b_lead w settings now rb2b_data d
        = mk_run
            (Returned (Some {|
               Rb2bResult.lead_id := rb2b_lead_id now (rb2b_email rb2b_data);
               Rb2bResult.person := rb2b_person rb2b_data;
               Rb2bResult.company :=
                 Company.shell (field rb2b_data "Company" "company") "" (Some "");
               Rb2bResult.scoring := scoring |}))
            (DB.with_leads
               (Table.append
                  (rb2b_lead_row (rb2b_lead_id now (rb2b_email rb2b_data)) None
                     (Company.shell (field rb2b_data "Company" "company") "" (Some ""))
                     scoring cells (rb2b_person rb2b_data))
                  (DB.leads d)) d)
            (openai_calls w (Settings.openai_api_key settings)
               (rb2b_prompt w settings rb2b_data)
             ++ LeadCommitted
                  (rb2b_lead_row (rb2b_lead_id now (rb2b_email rb2b_data)) None
                     (Company.shell (field rb2b_data "Company" "company") "" (Some ""))
                     scoring cells (rb2b_person rb2b_data)
                     (Table.next_id (DB.leads d)))
             :: alert_trace w settings
                  (Company.shell (field rb2b_data "Company" "company") "" (Some ""))
                  scoring (rb2b_person rb2b_data)))
  /\ (committed_lead (Run.trace (process_rb2b_lead w settings now rb2b_data d)) = None ->
      exists exn,
        process_rb2b_lead w settings now rb2b_data d
        = mk_run (Raised exn) d
            (openai_calls w (Settings.openai_api_key settings)
               (rb2b_prompt w settings rb2b_data)))
  /\ (PyStr.truthy (Settings.openai_api_key settings) = false ->
      lead_id_taken (rb2b_lead_id now (rb2b_email rb2b_data)) d = false ->
      exists row,
        committed_lead (Run.trace (process_rb2b_lead w settings now rb2b_data d)) = Some row
        /\ LeadRow.icp_score row = CInt 60
        /\ LeadRow.tier row = CText "warm").
Proof.
  intros Hemail Hno.
  pose proof (no_at_company w settings rb2b_data Hno) as Hcompany.
  pose proof (no_at_contacts w settings rb2b_data Hno) as Hcontacts.
  destruct (no_at_prompt w settings rb2b_data Hno) as (prompt & Hprompt & _).
  pose proof (no_at_run w settings rb2b_data Hno now d Hemail) as Hrun.
  assert (Hcommitted : forall tr,
             committed_lead
               (openai_calls w (Settings.openai_api_key settings)
                  (rb2b_prompt w settings rb2b_data) ++ tr)
             = committed_lead tr).
  { intros tr. rewrite committed_lead_app. unfold openai_calls. split_ifs; reflexivity. }
  split.
  { intros Hat. unfold rb2b_lead_id. rewrite (before_first_absent _ _ Hat). reflexivity. }
  split; [exact Hcompany|]. split; [exact Hcontacts|].
  split.
  { exists prompt. split.
    - rewrite <- Hprompt. unfold rb2b_prompt. rewrite Hcompany, Hcontacts. reflexivity.
    - destruct Hrun as [(exn & -> & _)|(scoring & cells & _ & _ & _ & ->)];
        cbn [mk_run Run.trace]; rewrite ?prompts_app, prompts_openai, Hprompt;
        cbn [prompts]; rewrite ?prompts_alert, ?app_nil_r; reflexivity. }
  split.
  { destruct Hrun as [(exn & -> & _)|(scoring & cells & _ & _ & _ & ->)];
      cbn [mk_run Run.trace]; unfold openai_calls, alert_trace; split_ifs; reflexivity. }
  split.
  { destruct Hrun as [(exn & -> & _)|(scoring & cells & _ & _ & _ & ->)];
      cbn [mk_run Run.trace]; unfold openai_calls, alert_trace; split_ifs; reflexivity. }
  split.
  { destruct Hrun as [(exn & -> & _)|(scoring & cells & _ & _ & _ & ->)]; reflexivity. }
  split.
  { destruct Hrun as [(exn & -> & _)|(scoring & cells & _ & _ & _ & ->)]; reflexivity. }
  split.
  { intros row.
    destruct Hrun as [(exn & -> & _)|(scoring & cells & _ & _ & _ & ->)];
      cbn [mk_run Run.trace Run.db].
    - rewrite <- (app_nil_r (openai_calls _ _ _)), Hcommitted. discriminate.
    - rewrite Hcommitted. cbn [committed_lead]. intros [= <-].
      split; [reflexivity|]. split; reflexivity. }
  split.
  { intros scoring cells Hscored Hcells Hfree.
    destruct Hrun as [(exn & _ & [Hs|[(s & Hs & Hc)|(s & c & Hs & Hc & Ht & _)]])
                     |(s & c & Hs & Hc & _ & ->)].
    - congruence.
    - rewrite Hscored in Hs. injection Hs as <-. congruence.
    - congruence.
    - rewrite Hscored in Hs. injection Hs as <-. rewrite Hcells in Hc. injection Hc as <-.
      reflexivity. }
  split.
  { destruct Hrun as [(exn & -> & _)|(scoring & cells & _ & _ & _ & ->)];
      cbn [mk_run Run.trace].
    - intros _. exists exn. reflexivity.
    - rewrite Hcommitted. discriminate. }
  intros Hkey Hfree.
  assert (Hscored : rb2b_scored w settings rb2b_data
                    = Returned (rb2b_default rb2b_data (rb2b_company w settings rb2b_data))).
  { rewrite rb2b_scored_value. unfold engine_outcome. rewrite Hkey. reflexivity. }
  destruct Hrun as [(exn & _ & [Hs|[(s & Hs & Hc)|(s & c & Hs & Hc & Ht & _)]])
                   |(s & c & Hs & Hc & _ & ->)].
  - congruence.
  - rewrite Hscored in Hs. injection Hs as <-. unfold rb2b_default in Hc.
    rewrite rb2b_default_cells in Hc. discriminate.
  - congruence.
  - rewrite Hscored in Hs. injection Hs as <-. unfold rb2b_default in Hc.
    rewrite rb2b_default_cells in Hc. injection Hc as <-.
    cbn [mk_run Run.trace]. rewrite Hcommitted. cbn [committed_lead].
    eexists. split; [reflexivity|]. split; reflexivity.
Qed.

(** ** What an alert shows *)

Section AlertContent.
Context {A : Type}.
Variables (w : World.t) (settings : Settings.t).
Variables (lead_id : string) (company : Company.t) (contacts : list Contact.t).
Variables (mk : Checked (option Z -> Z -> LeadRow.t)) (scoring : Scoring.t) (person : Person.t).
Variables (result : A) (tr : list Event) (d : DB.t).
Hypothesis lookups_quiet : alert_calls tr = 0%nat.
Hypothesis lookups_commit_nothing : committed_lead tr = None.

Lemma finished_alert_content url msg reply :
  In (SlackCall url msg reply)
     (Run.trace (finished lead_id company contacts mk
                   (alert_trace w settings company scoring person) result tr d)) ->
  exists row,
    mk = Done row
    /\ committed_lead
         (Run.trace (finished lead_id company contacts mk
                       (alert_trace w settings company scoring person) result tr d))
       = Some (row (snd (company_saved company contacts d)) (Table.next_id (DB.leads d)))
    /\ tier_is_hot scoring = true
    /\ msg = slack_message company scoring person
    /\ reply = World.slack w url msg.
Proof.
  destruct (finished_cases lead_id company contacts mk
              (alert_trace w settings company scoring person) result tr d)
    as [(row & Hmk & _ & _ & ->)|(exn & -> & _)]; cbn [mk_run Run.trace].
  - rewrite committed_lead_app, lookups_commit_nothing. cbn [committed_lead].
    intros Hin. apply in_app_or in Hin. destruct Hin as [Hin|[Hin|Hin]].
    + exfalso. revert Hin. apply no_alert_call. exact lookups_quiet.
    + discriminate.
    + unfold alert_trace in Hin.
      destruct (PyStr.truthy (Settings.slack_webhook_url settings)); [|destruct Hin].
      destruct (tier_is_hot scoring); [|destruct Hin]. cbn [andb] in Hin.
      destruct Hin as [[= <- <- <-]|[]]. exists row. repeat split. exact Hmk.
  - intros Hin. exfalso. revert Hin. apply no_alert_call. exact lookups_quiet.
Qed.
End AlertContent.

Lemma cell_is_text (s : string) (c : Cell) : cell_is s c = true -> c = CText s.
Proof.
  destruct c as [|n|x]; try discriminate. cbn [cell_is]. intros Hx.
  apply String.eqb_eq in Hx. subst x. reflexivity.
Qed.

(** X17.  An alert shows the lead that was stored.  A run that sends
    an alert has committed its lead; that lead has tier "hot", and the
    score and the summary of the message are those the stored row was
    bound from.  On the tracking pathway the message never names a
    person; on the webhook pathway it names the person of the stored row
    (name, title, email) exactly when the name is not empty. *)
Theorem alert_shows_stored_lead (w : World.t) (settings : Settings.t) (now : Z) (d : DB.t) :
  (forall visitor client_ip url msg reply,
     In (SlackCall url msg reply)
        (Run.trace (process_visitor w settings now visitor client_ip d)) ->
     exists row,
       committed_lead (Run.trace (process_visitor w settings now visitor client_ip d))
       = Some row
       /\ LeadRow.tier row = CText "hot"
       /\ as_cell (SlackMessage.score msg) = Some (LeadRow.icp_score row)
       /\ as_cell (SlackMessage.summary msg) = Some (LeadRow.research_summary row)
       /\ SlackMessage.person_info msg = None)
  /\ (forall rb2b_data url msg reply,
        In (SlackCall url msg reply) (Run.trace (process_rb2b_lead w settings now rb2b_data d)) ->
        exists row,
          committed_lead (Run.trace (process_rb2b_lead w settings now rb2b_data d)) = Some row
          /\ LeadRow.tier row = CText "hot"
          /\ as_cell (SlackMessage.score msg) = Some (LeadRow.icp_score row)
          /\ as_cell (SlackMessage.summary msg) = Some (LeadRow.research_summary row)
          /\ SlackMessage.person_info msg
             = (if PyStr.truthy (LeadRow.person_name row)
                then Some (LeadRow.person_name row, LeadRow.person_title row,
                           LeadRow.person_email row)
                else None)).
Proof.
  split.
  - intros visitor client_ip url msg reply.
    destruct (int64 (Visitor.visit_duration visitor)) eqn:Hduration.
    2:{ rewrite (process_visitor_overflow w settings now visitor client_ip d Hduration).
        intros []. }
    destruct (is_local_ip (effective_ip visitor client_ip)) eqn:Hlocal.
    { rewrite (process_visitor_local w settings now visitor client_ip d Hduration Hlocal).
      intros [Hin|[]]. discriminate. }
    pose proof (lookups_quiet_tracking w settings visitor client_ip) as Hquiet.
    pose proof (lookups_commit_nothing_tracking w settings visitor client_ip) as Hnc.
    destruct (process_visitor_cases w settings now visitor client_ip d Hduration Hlocal)
      as [(exn & _ & ->)|(scoring & _ & ->)].
    + cbn [mk_run Run.trace]. intros [Hin|Hin]; [discriminate|].
      exfalso. revert Hin. apply no_alert_call. exact Hquiet.
    + cbn [after mk_run Run.trace Run.db app committed_lead].
      intros [Hin|Hin]; [discriminate|].
      apply finished_alert_content in Hin; [|exact Hquiet|exact Hnc].
      destruct Hin as (rowf & Hmk & Hrow & Hhot & -> & _).
      eexists. split; [exact Hrow|].
      split.
      { apply cell_is_text. rewrite (tracking_row_tier _ _ _ _ _ _ _ _ _ _ Hmk). exact Hhot. }
      apply tracking_row_done in Hmk. destruct Hmk as (cells & Hcells & ->).
      apply lead_cells_done in Hcells.
      destruct Hcells as (_ & Hscore & _ & Hsummary & _).
      apply bind_json_cell in Hscore. apply bind_json_cell in Hsummary.
      cbn [tracking_lead_row LeadRow.icp_score LeadRow.research_summary
           slack_message SlackMessage.score SlackMessage.summary SlackMessage.person_info
           Person.empty Person.name opt_truthy].
      split; [apply Hscore|]. split; [apply Hsummary|]. reflexivity.
  - intros rb2b_data url msg reply.
    destruct (PyStr.truthy (rb2b_email rb2b_data)) eqn:Hemail.
    2:{ rewrite (process_rb2b_lead_no_email w settings now rb2b_data d Hemail). intros []. }
    pose proof (lookups_quiet_rb2b w settings rb2b_data) as Hquiet.
    pose proof (lookups_commit_nothing_rb2b w settings rb2b_data) as Hnc.
    destruct (process_rb2b_lead_cases w settings now rb2b_data d Hemail)
      as [(exn & _ & ->)|(scoring & _ & ->)].
    + cbn [mk_run Run.trace]. intros Hin.
      exfalso. revert Hin. apply no_alert_call. exact Hquiet.
    + intros Hin.
      apply finished_alert_content in Hin; [|exact Hquiet|exact Hnc].
      destruct Hin as (rowf & Hmk & Hrow & Hhot & -> & _).
      eexists. split; [exact Hrow|].
      split.
      { apply cell_is_text. rewrite (rb2b_row_tier _ _ _ _ _ _ _ Hmk). exact Hhot. }
      apply rb2b_row_done in Hmk. destruct Hmk as (cells & Hcells & ->).
      apply lead_cells_done in Hcells.
      destruct Hcells as (_ & Hscore & _ & Hsummary & _).
      apply bind_json_cell in Hscore. apply bind_json_cell in Hsummary.
      cbn [rb2b_lead_row LeadRow.icp_score LeadRow.research_summary
           LeadRow.person_name LeadRow.person_title LeadRow.person_email
           slack_message SlackMessage.score SlackMessage.summary SlackMessage.person_info
           rb2b_person Person.name Person.title Person.email opt_truthy get_or].
      split; [apply Hscore|]. split; [apply Hsummary|]. reflexivity.
Qed.

(** ** An earlier lead, read after its company was saved again *)

(** X18.  What C10 means for [get_lead].  When a save replaces the
    company row a stored lead points to, [get_lead] still finds the
    lead and still lists the contacts it listed before, but every
    company column of the answer is NULL: the join finds no row for the
    company id the lead keeps. *)
Theorem lead_detail_loses_company (s : SaveCall) (dom : string) (old : CompanyRow.t)
    (lead_id : string) (detail : LeadDetail.t) (d : DB.t) :
  primary_key (DB.companies d) ->
  In old (Table.rows (DB.companies d)) ->
  CompanyRow.domain old = Some dom ->
  field_get (Company.domain (save_company s)) = Some dom ->
  PyStr.truthy dom = true ->
  Run.outcome (run_save s d) = Returned tt ->
  Run.outcome (get_lead lead_id d) = Returned detail ->
  LeadRow.company_id (LeadDetail.lead detail) = Some (CompanyRow.id old) ->
  Run.outcome (get_lead lead_id (Run.db (run_save s d)))
  = Returned {| LeadDetail.lead := LeadDetail.lead detail;
                LeadDetail.company := CompanyView.null;
                LeadDetail.contacts := LeadDetail.contacts detail |}.
Proof.
  intros Hpk Hold Holddom Hdom Htruthy Hret Hget Hlink.
  rewrite get_lead_run in Hget. rewrite get_lead_run.
  destruct (List.find _ (Table.rows (DB.leads d))) as [l|] eqn:Hfind; [|discriminate].
  cbn [mk_run Run.outcome] in Hget. injection Hget as <-.
  cbn [LeadDetail.lead LeadDetail.contacts] in *.
  destruct (run_save_returned s d Hret) as (row & _ & _ & _ & ->).
  cbn [DB.leads DB.with_leads Table.append Table.rows].
  rewrite company_saved_leads, (find_first _ _ _ _ Hfind).
  cbn [mk_run Run.outcome]. f_equal. f_equal.
  - unfold joined_company. rewrite Hlink. cbn [DB.companies DB.with_leads].
    destruct (company_saved_companies (save_company s) (save_contacts s) dom d Hdom Htruthy)
      as [-> _].
    rewrite find_absent; [reflexivity|]. apply existsb_false. intros r Hr.
    apply Z.eqb_neq. apply (upsert_drops_old_id _ dom _ old r Hpk Hold Holddom Hdom Hr).
  - unfold contacts_of_company. rewrite Hlink. cbn [DB.contacts DB.with_leads].
    destruct (company_saved_links (save_company s) (save_contacts s) d)
      as [_ (added & -> & _ & Hadded)].
    rewrite List.filter_app, (filter_none _ added), app_nil_r; [reflexivity|].
    destruct (company_saved_companies (save_company s) (save_contacts s) dom d Hdom Htruthy)
      as [_ Hcid].
    rewrite Hcid in Hadded. eapply List.Forall_impl; [|exact Hadded].
    cbn beta. intros c ->. apply Z.eqb_neq.
    apply (next_id_fresh (DB.companies d)) in Hold.
    change (row_id old) with (CompanyRow.id old) in Hold. lia.
Qed.

(** ** The lead a run committed *)

Lemma process_rb2b_lead_committed w settings now rb2b_data d row :
  committed_lead (Run.trace (process_rb2b_lead w settings now rb2b_data d)) = Some row ->
  exists scoring cells,
    PyStr.truthy (rb2b_email rb2b_data) = true
    /\ rb2b_scored w settings rb2b_data = Returned scoring
    /\ rb2b_lead_cells scoring = Done cells
    /\ lead_id_taken (rb2b_lead_id now (rb2b_email rb2b_data)) d = false
    /\ row = rb2b_lead_row (rb2b_lead_id now (rb2b_email rb2b_data))
               (snd (company_saved (rb2b_company w settings rb2b_data)
                       (rb2b_contacts w settings rb2b_data) d))
               (rb2b_company w settings rb2b_data) scoring cells (rb2b_person rb2b_data)
               (Table.next_id (DB.leads d))
    /\ Run.outcome (process_rb2b_lead w settings now rb2b_data d)
       = Returned (Some {| Rb2bResult.lead_id := rb2b_lead_id now (rb2b_email rb2b_data);
                           Rb2bResult.person := rb2b_person rb2b_data;
                           Rb2bResult.company := rb2b_company w settings rb2b_data;
                           Rb2bResult.scoring := scoring |})
    /\ Table.rows (DB.leads (Run.db (process_rb2b_lead w settings now rb2b_data d)))
       = (Table.rows (DB.leads d) ++ [row])%list.
Proof.
  destruct (PyStr.truthy (rb2b_email rb2b_data)) eqn:Hemail.
  2:{ rewrite (process_rb2b_lead_no_email w settings now rb2b_data d Hemail). discriminate. }
  pose proof (lookups_commit_nothing_rb2b w settings rb2b_data) as Hnc.
  destruct (process_rb2b_lead_cases w settings now rb2b_data d Hemail)
    as [(exn & _ & ->)|(scoring & Hscored & ->)].
  - cbn [mk_run Run.trace]. rewrite Hnc. discriminate.
  - intros Hrow.
    match goal with
    | H : committed_lead (Run.trace (finished ?l ?c ?cs ?mk ?al ?res ?tr ?db)) = _ |- _ =>
        pose proof (finished_committed l c cs mk al res tr db Hnc) as Hcommitted
    end.
    rewrite Hrow in Hcommitted.
    destruct Hcommitted as (rowf & Hmk & _ & Hfree & -> & Hout & Hrows & _).
    apply rb2b_row_done in Hmk. destruct Hmk as (cells & Hcells & ->).
    exists scoring, cells. repeat split; assumption.
Qed.

Lemma process_visitor_committed w settings now visitor client_ip d row :
  committed_lead (Run.trace (process_visitor w settings now visitor client_ip d)) = Some row ->
  exists scoring cells,
    int64 (Visitor.visit_duration visitor) = true
    /\ is_local_ip (effective_ip visitor client_ip) = false
    /\ tracking_scored w settings visitor client_ip = Returned scoring
    /\ tracking_lead_cells visitor scoring = Done cells
    /\ lead_id_taken (tracking_lead_id now visitor) d = false
    /\ row = tracking_lead_row (tracking_lead_id now visitor)
               (snd (company_saved (tracking_company w settings visitor client_ip)
                       (tracking_contacts w settings visitor client_ip)
                       (visit_stored visitor (effective_ip visitor client_ip) d)))
               visitor scoring cells (effective_ip visitor client_ip)
               (tracking_identified w settings visitor client_ip) "tracking" Person.empty
               (Table.next_id (DB.leads d))
    /\ Run.outcome (process_visitor w settings now visitor client_ip d) = Returned tt
    /\ Table.rows (DB.leads (Run.db (process_visitor w settings now visitor client_ip d)))
       = (Table.rows (DB.leads d) ++ [row])%list.
Proof.
  destruct (int64 (Visitor.visit_duration visitor)) eqn:Hduration.
  2:{ rewrite (process_visitor_overflow w settings now visitor client_ip d Hduration).
      discriminate. }
  destruct (is_local_ip (effective_ip visitor client_ip)) eqn:Hlocal.
  { rewrite (process_visitor_local w settings now visitor client_ip d Hduration Hlocal).
    discriminate. }
  pose proof (lookups_commit_nothing_tracking w settings visitor client_ip) as Hnc.
  destruct (process_visitor_cases w settings now visitor client_ip d Hduration Hlocal)
    as [(exn & _ & ->)|(scoring & Hscored & ->)].
  - cbn [mk_run Run.trace committed_lead]. rewrite Hnc. discriminate.
  - cbn [after mk_run Run.trace Run.db Run.outcome app committed_lead]. intros Hrow.
    match goal with
    | H : committed_lead (Run.trace (finished ?l ?c ?cs ?mk ?al ?res ?tr ?db)) = _ |- _ =>
        pose proof (finished_committed l c cs mk al res tr db Hnc) as Hcommitted
    end.
    rewrite Hrow in Hcommitted.
    destruct Hcommitted as (rowf & Hmk & _ & Hfree & -> & Hout & Hrows & _).
    apply tracking_row_done in Hmk. destruct Hmk as (cells & Hcells & ->).
    exists scoring, cells. repeat split; assumption.
Qed.

(** ** [test_rb2b] *)

Lemma sample_email : rb2b_email sample_data = "john.smith@shopify.com".
Proof. vm_compute. reflexivity. Qed.

Lemma sample_person :
  rb2b_person sample_data
  = {| Person.name := Some "John Smith";
       Person.email := Some "john.smith@shopify.com";
       Person.title := Some "VP of Marketing";
       Person.linkedin := Some "https://www.linkedin.com/in/johnsmith/" |}.
Proof. vm_compute. reflexivity. Qed.

Lemma test_rb2b_run (w : World.t) (settings : Settings.t) (now : Z) (d : DB.t) :
  test_rb2b w settings now d
  = mk_run
      (match Run.outcome (process_rb2b_lead w settings now sample_data d) with
       | Returned result => Returned ("success", result)
       | Raised exn => Raised exn
       end)
      (Run.db (process_rb2b_lead w settings now sample_data d))
      (Run.trace (process_rb2b_lead w settings now sample_data d)).
Proof.
  unfold test_rb2b, bind.
  destruct (process_rb2b_lead w settings now sample_data d) as [[result|exn] d1 tr];
    cbn [Run.outcome Run.db Run.trace ret mk_run]; rewrite ?app_nil_r; reflexivity.
Qed.

(** X19.  [test_rb2b] is not a dry run.  It runs the webhook pipeline
    on its sample event against the real database, and answers
    "success" with the result when the pipeline returns.  A lead it
    commits is appended to the leads table: it has the lead id
    "rb2b_<time>_john.smi", source "rb2b", and the person John Smith,
    john.smith@shopify.com, VP of Marketing; the id is then taken, so
    that a second call within the same second raises and writes
    nothing.  When it commits no lead it raised, and the database is as
    it was.  Without an engine key it does commit the default lead (60,
    "warm") whenever the lead id is free and the company and contact
    statements bind.  Its enrichment calls are about "shopify.com". *)
Theorem test_rb2b_stores_a_lead (w : World.t) (settings : Settings.t) (now : Z) (d : DB.t) :
  (forall row,
     committed_lead (Run.trace (test_rb2b w settings now d)) = Some row ->
     exists res,
       Run.outcome (test_rb2b w settings now d) = Returned ("success", Some res)
       /\ Rb2bResult.lead_id res = "rb2b_" +:+ PyStr.of_Z now +:+ "_john.smi"
       /\ Table.rows (DB.leads (Run.db (test_rb2b w settings now d)))
          = (Table.rows (DB.leads d) ++ [row])%list
       /\ LeadRow.lead_id row = "rb2b_" +:+ PyStr.of_Z now +:+ "_john.smi"
       /\ LeadRow.source row = "rb2b"
       /\ LeadRow.person_name row = "John Smith"
       /\ LeadRow.person_email row = "john.smith@shopify.com"
       /\ LeadRow.person_title row = "VP of Marketing"
       /\ lead_id_taken ("rb2b_" +:+ PyStr.of_Z now +:+ "_john.smi")
            (Run.db (test_rb2b w settings now d)) = true
       /\ exists exn,
            Run.outcome (test_rb2b w settings now (Run.db (test_rb2b w settings now d)))
            = Raised exn
            /\ Run.db (test_rb2b w settings now (Run.db (test_rb2b w settings now d)))
               = Run.db (test_rb2b w settings now d))
  /\ (committed_lead (Run.trace (test_rb2b w settings now d)) = None ->
      exists exn,
        Run.outcome (test_rb2b w settings now d) = Raised exn
        /\ Run.db (test_rb2b w settings now d) = d)
  /\ (lead_id_taken ("rb2b_" +:+ PyStr.of_Z now +:+ "_john.smi") d = true ->
      exists exn,
        Run.outcome (test_rb2b w settings now d) = Raised exn
        /\ Run.db (test_rb2b w settings now d) = d)
  /\ (PyStr.truthy (Settings.openai_api_key settings) = false ->
      company_binds (rb2b_company w settings sample_data) (rb2b_contacts w settings sample_data)
      = true ->
      lead_id_taken ("rb2b_" +:+ PyStr.of_Z now +:+ "_john.smi") d = false ->
      exists row,
        committed_lead (Run.trace (test_rb2b w settings now d)) = Some row
        /\ LeadRow.icp_score row = CInt 60
        /\ LeadRow.tier row = CText "warm")
  /\ Forall (fun e => addressed settings "" "shopify.com" e = true)
       (Run.trace (test_rb2b w settings now d)).
Proof.
  assert (Hemail : PyStr.truthy (rb2b_email sample_data) = true)
    by (rewrite sample_email; reflexivity).
  assert (Hid : rb2b_lead_id now (rb2b_email sample_data)
                = "rb2b_" +:+ PyStr.of_Z now +:+ "_john.smi")
    by (rewrite sample_email; reflexivity).
  assert (Htaken : forall d0,
             lead_id_taken ("rb2b_" +:+ PyStr.of_Z now +:+ "_john.smi") d0 = true ->
             exists exn,
               Run.outcome (test_rb2b w settings now d0) = Raised exn
               /\ Run.db (test_rb2b w settings now d0) = d0).
  { intros d0 Ht. rewrite <- Hid in Ht. rewrite test_rb2b_run.
    cbn [mk_run Run.outcome Run.db].
    destruct (process_rb2b_lead_taken w settings now sample_data d0 Hemail Ht)
      as (exn & -> & _).
    exists exn. split; reflexivity. }
  split; [|split; [|split; [|split]]].
  - intros row Hrow.
    assert (Hrow' := Hrow). rewrite test_rb2b_run in Hrow'. cbn [mk_run Run.trace] in Hrow'.
    destruct (process_rb2b_lead_takes w settings now sample_data d row Hrow') as [_ Htakes].
    destruct (process_rb2b_lead_committed w settings now sample_data d row Hrow')
      as (scoring & cells & _ & _ & _ & _ & Hr & Hout & Hrows).
    rewrite Hid in Htakes.
    assert (Hdb : Run.db (test_rb2b w settings now d)
                  = Run.db (process_rb2b_lead w settings now sample_data d))
      by (rewrite test_rb2b_run; reflexivity).
    rewrite Hdb.
    assert (Hout' : Run.outcome (test_rb2b w settings now d)
                    = Returned ("success",
                                Some {| Rb2bResult.lead_id :=
                                          rb2b_lead_id now (rb2b_email sample_data);
                                        Rb2bResult.person := rb2b_person sample_data;
                                        Rb2bResult.company := rb2b_company w settings sample_data;
                                        Rb2bResult.scoring := scoring |}))
      by (rewrite test_rb2b_run; cbn [mk_run Run.outcome]; rewrite Hout; reflexivity).
    eexists. split; [exact Hout'|]. cbn [Rb2bResult.lead_id].
    split; [exact Hid|]. split; [exact Hrows|].
    rewrite Hr.
    cbn [rb2b_lead_row LeadRow.lead_id LeadRow.source LeadRow.person_name LeadRow.person_email
         LeadRow.person_title].
    rewrite sample_person. cbn [Person.name Person.email Person.title get_or].
    split; [exact Hid|]. do 4 (split; [reflexivity|]). split; [exact Htakes|].
    apply Htaken. exact Htakes.
  - rewrite test_rb2b_run. cbn [mk_run Run.outcome Run.db Run.trace]. intros Hnone.
    pose proof (lookups_commit_nothing_rb2b w settings sample_data) as Hnc.
    destruct (process_rb2b_lead_cases w settings now sample_data d Hemail)
      as [(exn & _ & Hrun)|(scoring & _ & Hrun)]; rewrite Hrun in *.
    + exists exn. split; reflexivity.
    + match type of Hnone with
      | committed_lead (Run.trace (finished ?l ?c ?cs ?mk ?al ?res ?tr ?db)) = _ =>
          pose proof (finished_committed l c cs mk al res tr db Hnc) as Hcommitted
      end.
      rewrite Hnone in Hcommitted. destruct Hcommitted as (exn & -> & _).
      exists exn. split; reflexivity.
  - apply Htaken.
  - intros Hkey Hbinds Hfree. rewrite <- Hid in Hfree.
    rewrite test_rb2b_run. cbn [mk_run Run.trace].
    pose proof (lookups_commit_nothing_rb2b w settings sample_data) as Hnc.
    destruct (process_rb2b_lead_cases w settings now sample_data d Hemail)
      as [(exn & Hscored & _)|(scoring & Hscored & ->)];
      rewrite rb2b_scored_value in Hscored; unfold engine_outcome in Hscored;
      rewrite Hkey in Hscored; cbn [negb scored_by] in Hscored; [discriminate|].
    injection Hscored as <-.
    unfold finished, rb2b_row, rb2b_default. rewrite rb2b_default_cells, Hbinds, Hfree.
    cbn [checked_map mk_run Run.trace].
    rewrite committed_lead_app, Hnc. cbn [committed_lead].
    eexists. split; [reflexivity|]. split; reflexivity.
  - rewrite test_rb2b_run. cbn [mk_run Run.trace].
    destruct (rb2b_trace w settings now sample_data d Hemail) as (tail & -> & Htail).
    assert (Hdomain : rb2b_domain sample_data = "shopify.com") by (vm_compute; reflexivity).
    unfold rb2b_lookups. rewrite Hdomain. repeat (apply Forall_app; split).
    + apply apollo_calls_addressed.
    + apply hunter_calls_addressed.
    + apply openai_calls_addressed.
    + destruct Htail as [->|(row & scoring & ->)]; constructor; [reflexivity|].
      apply alert_trace_addressed.
Qed.

(** ** What a stored lead says about its event *)

(** X20.  The lead row of a run, column by column.  A tracking lead has
    source "tracking" and status "new", the session id, pages, duration
    and referrer of the event, the effective IP, the organisation name
    the IP lookup gave, and no person.  A webhook lead has source "rb2b"
    and status "new", the person of the event (stripped full name,
    email, title, LinkedIn URL), the name of the resolved company, and
    no visit: empty session id and IP, no page, duration 0.  Both carry
    the lead id of the run and a row id above every row id the table
    held. *)
Theorem stored_lead_columns (w : World.t) (settings : Settings.t) (now : Z) (d : DB.t) :
  (forall visitor client_ip row,
     committed_lead (Run.trace (process_visitor w settings now visitor client_ip d)) = Some row ->
     LeadRow.lead_id row = tracking_lead_id now visitor
     /\ LeadRow.source row = "tracking"
     /\ LeadRow.status row = "new"
     /\ LeadRow.session_id row = Visitor.session_id visitor
     /\ LeadRow.ip_address row = effective_ip visitor client_ip
     /\ LeadRow.identified_company row = Some (tracking_identified w settings visitor client_ip)
     /\ LeadRow.pages_viewed row = Visitor.pages_viewed visitor
     /\ LeadRow.visit_duration row = Visitor.visit_duration visitor
     /\ LeadRow.referrer row = Visitor.referrer visitor
     /\ LeadRow.person_name row = ""
     /\ LeadRow.person_email row = ""
     /\ (forall l, In l (Table.rows (DB.leads d)) -> LeadRow.id l < LeadRow.id row))
  /\ (forall rb2b_data row,
        committed_lead (Run.trace (process_rb2b_lead w settings now rb2b_data d)) = Some row ->
        LeadRow.lead_id row = rb2b_lead_id now (rb2b_email rb2b_data)
        /\ LeadRow.source row = "rb2b"
        /\ LeadRow.status row = "new"
        /\ LeadRow.person_email row = rb2b_email rb2b_data
        /\ LeadRow.person_name row
           = PyStr.strip (field rb2b_data "First Name" "first_name" +:+ " "
                            +:+ field rb2b_data "Last Name" "last_name")
        /\ LeadRow.person_title row = field rb2b_data "Title" "title"
        /\ LeadRow.person_linkedin row = field rb2b_data "LinkedIn URL" "linkedin_url"
        /\ LeadRow.identified_company row
           = field_get_or (Company.name (rb2b_company w settings rb2b_data)) ""
        /\ LeadRow.session_id row = ""
        /\ LeadRow.ip_address row = ""
        /\ LeadRow.pages_viewed row = []
        /\ LeadRow.visit_duration row = 0
        /\ (forall l, In l (Table.rows (DB.leads d)) -> LeadRow.id l < LeadRow.id row)).
Proof.
  split.
  - intros visitor client_ip row Hrow.
    destruct (process_visitor_committed w settings now visitor client_ip d row Hrow)
      as (scoring & cells & _ & _ & _ & _ & _ & -> & _).
    do 11 (split; [reflexivity|]).
    intros l Hl. cbn [tracking_lead_row LeadRow.id].
    apply (next_id_fresh (DB.leads d) l Hl).
  - intros rb2b_data row Hrow.
    destruct (process_rb2b_lead_committed w settings now rb2b_data d row Hrow)
      as (scoring & cells & _ & _ & _ & _ & -> & _).
    do 12 (split; [reflexivity|]).
    intros l Hl. cbn [rb2b_lead_row LeadRow.id].
    apply (next_id_fresh (DB.leads d) l Hl).
Qed.

(** ** Instances of the further properties *)

Lemma stored_lead_linked_witness :
  exists c,
    In c (Table.rows (DB.companies
            (Run.db (process_rb2b_lead (sample_world 0 60 "warm") all_keys 1700000000
                       sample_data DB.empty))))
    /\ CompanyRow.id c = 1.
Proof.
  edestruct (proj2 (stored_lead_linked (sample_world 0 60 "warm") all_keys 1700000000 DB.empty)
               sample_data) as [Hcompany _]; [vm_compute; reflexivity|].
  cbn in Hcompany. destruct Hcompany as (c & Hin & Hid & _).
  exists c. split; [exact Hin|exact Hid].
Defined.

Lemma failed_save_writes_nothing_witness :
  run_save (shopify_save "rb2b_1700000000_john.smi" 200 []) first_saved
  = mk_run (Raised "IntegrityError: UNIQUE constraint failed: leads.lead_id") first_saved []
  /\ Run.db (process_rb2b_lead offline_world all_keys 1700000000 sample_data first_saved)
     = first_saved.
Proof.
  destruct (failed_save_writes_nothing offline_world all_keys 1700000000 first_saved)
    as (_ & _ & Hsave & _ & _ & Hrun & _).
  split.
  - eapply Hsave; vm_compute; reflexivity.
  - erewrite Hrun; [reflexivity|]. vm_compute. reflexivity.
Defined.

Lemma lead_id_collisions_witness :
  tracking_lead_id 1700000000 (sample_visitor "203.0.113.7")
  = tracking_lead_id 1700000000 (sample_visitor "198.51.100.9")
  /\ tracking_lead_id 1700000000 (sample_visitor "203.0.113.7")
     <> tracking_lead_id 1700000001 (sample_visitor "203.0.113.7").
Proof.
  split.
  - apply (proj1 lead_id_collisions). split; reflexivity.
  - intros Heq. apply (proj1 lead_id_collisions) in Heq. destruct Heq as [Hnow _].
    discriminate.
Defined.

Lemma runs_keep_constraints_witness :
  constraints_hold
    (Run.db (process_rb2b_lead (sample_world 0 60 "warm") all_keys 1700000100 sample_data
               first_saved)) = true
  /\ references_issued
       (Run.db (process_rb2b_lead (sample_world 0 60 "warm") all_keys 1700000100 sample_data
                  first_saved)) = true.
Proof.
  apply (proj1 (proj2 (runs_keep_constraints (sample_world 0 60 "warm") all_keys 1700000100
                         first_saved ltac:(vm_compute; reflexivity)
                         ltac:(vm_compute; reflexivity)))).
Defined.

Lemma stored_lead_readable_witness :
  exists detail,
    get_lead "rb2b_1700000000_john.smi"
      (Run.db (process_rb2b_lead (sample_world 0 60 "warm") all_keys 1700000000 sample_data
                 DB.empty))
    = mk_run (Returned detail)
        (Run.db (process_rb2b_lead (sample_world 0 60 "warm") all_keys 1700000000 sample_data
                   DB.empty)) []
    /\ CompanyView.domain (LeadDetail.company detail) = Some "shopify.com"
    /\ List.map ContactRow.email (LeadDetail.contacts detail) = [Some "jane.doe@shopify.com"].
Proof.
  edestruct (proj2 (stored_lead_readable (sample_world 0 60 "warm") all_keys 1700000000
                      DB.empty ltac:(reflexivity)) sample_data)
    as (detail & Hget & _ & Hcompany & _ & Hemails); [vm_compute; reflexivity|].
  exists detail. split; [exact Hget|]. rewrite Hcompany, Hemails.
  split; vm_compute; reflexivity.
Defined.

Lemma delete_lead_effect_witness :
  Run.db (delete_lead "rb2b_1700000000_jane.doe" first_saved) = first_saved
  /\ Table.next_id (DB.leads (Run.db (delete_lead "rb2b_1700000000_john.smi" first_saved)))
     = Table.next_id (DB.leads first_saved).
Proof.
  split.
  - apply (delete_lead_effect "rb2b_1700000000_jane.doe" first_saved). vm_compute. reflexivity.
  - apply (delete_lead_effect "rb2b_1700000000_john.smi" first_saved). vm_compute. reflexivity.
Defined.

Lemma same_second_event_lost_witness :
  Run.outcome
    (process_visitor offline_world no_keys 1700000000 (sample_visitor "198.51.100.9") ""
       (Run.db (process_visitor (sample_world 0 90 "hot") all_keys 1700000000
                  (sample_visitor "203.0.113.7") "" DB.empty)))
  = Raised "IntegrityError: UNIQUE constraint failed: leads.lead_id"
  /\ committed_lead
       (Run.trace
          (process_visitor offline_world no_keys 1700000000 (sample_visitor "198.51.100.9") ""
             (Run.db (process_visitor (sample_world 0 90 "hot") all_keys 1700000000
                        (sample_visitor "203.0.113.7") "" DB.empty))))
     = None.
Proof.
  edestruct (proj1 (same_second_event_lost (sample_world 0 90 "hot") offline_world all_keys
                      no_keys 1700000000 DB.empty)
               (sample_visitor "203.0.113.7") (sample_visitor "198.51.100.9") "" "")
    as ((exn & Hexn & Hintegrity) & _ & Hnone); try (vm_compute; reflexivity).
  split; [|exact Hnone].
  rewrite Hexn. f_equal. eapply Hintegrity.
  - vm_compute. reflexivity.
  - vm_compute. reflexivity.
  - vm_compute. reflexivity.
Defined.

Lemma request_ip_precedence_witness :
  request_client_ip sample_headers (Some "192.0.2.1") = "203.0.113.7".
Proof.
  destruct (request_ip_precedence offline_world no_keys 1700000000 sample_headers
              (Some "192.0.2.1") (sample_visitor "")) as (_ & _ & _ & _ & Hforwarded).
  destruct Hforwarded as (-> & _); vm_compute; reflexivity.
Defined.

Lemma unidentified_visit_stored_witness :
  List.map service
    (Run.trace (process_visitor offline_world all_keys 1700000000
                  (sample_visitor "203.0.113.7") "" DB.empty))
  = [Sqlite; Ipinfo; Sqlite]
  /\ Run.outcome (process_visitor offline_world all_keys 1700000000
                    (sample_visitor "203.0.113.7") "" first_saved)
     = Returned tt.
Proof.
  split.
  - rewrite (proj1 (unidentified_visit_stored offline_world all_keys 1700000000
                      (sample_visitor "203.0.113.7") "" DB.empty
                      ltac:(vm_compute; reflexivity) ltac:(vm_compute; reflexivity)
                      ltac:(vm_compute; reflexivity)));
      vm_compute; reflexivity.
  - rewrite (proj1 (unidentified_visit_stored offline_world all_keys 1700000000
                      (sample_visitor "203.0.113.7") "" first_saved
                      ltac:(vm_compute; reflexivity) ltac:(vm_compute; reflexivity)
                      ltac:(vm_compute; reflexivity)));
      vm_compute; reflexivity.
Defined.

Lemma email_without_domain_witness :
  DB.companies (Run.db (process_rb2b_lead (sample_world 0 60 "warm") all_keys 1700000000
                          domainless_data DB.empty))
  = Table.empty
  /\ calls_to Apollo
       (Run.trace (process_rb2b_lead (sample_world 0 60 "warm") all_keys 1700000000
                     domainless_data DB.empty)) = 0%nat
  /\ exists row,
       committed_lead
         (Run.trace (process_rb2b_lead (sample_world 0 60 "warm") all_keys 1700000000
                       domainless_data DB.empty)) = Some row
       /\ LeadRow.company_id row = None.
Proof.
  destruct (email_without_domain (sample_world 0 60 "warm") all_keys 1700000000
              domainless_data DB.empty)
    as (_ & _ & _ & _ & Hapollo & _ & Hcompanies & _ & Hrow & _);
    try (vm_compute; reflexivity).
  split; [exact Hcompanies|]. split; [exact Hapollo|].
  eexists. split; [vm_compute; reflexivity|].
  match goal with
  | |- LeadRow.company_id ?r = None =>
      destruct (Hrow r) as (Hnone & _); [vm_compute; reflexivity|exact Hnone]
  end.
Defined.

Lemma alert_shows_stored_lead_witness :
  exists row,
    committed_lead (Run.trace (process_rb2b_lead (sample_world 0 60 "warm") all_keys 1700000000
                                 sample_data DB.empty)) = Some row
    /\ LeadRow.tier row = CText "hot"
    /\ LeadRow.icp_score row = CInt 75.
Proof.
  edestruct (proj2 (alert_shows_stored_lead (sample_world 0 60 "warm") all_keys 1700000000
                      DB.empty) sample_data) as (row & Hrow & Htier & Hscore & _).
  - vm_compute. do 4 right. left. reflexivity.
  - exists row. split; [exact Hrow|]. split; [exact Htier|].
    assert (Hbound : Some (CInt 75) = Some (LeadRow.icp_score row)) by exact Hscore.
    injection Hbound as Hbound. symmetry. exact Hbound.
Defined.

Lemma lead_detail_loses_company_witness :
  exists detail,
    Run.outcome (get_lead "rb2b_1700000000_john.smi" second_saved) = Returned detail
    /\ LeadRow.company_id (LeadDetail.lead detail) = Some 1
    /\ LeadDetail.company detail = CompanyView.null
    /\ List.map ContactRow.email (LeadDetail.contacts detail) = [Some "jane.doe@shopify.com"].
Proof.
  eexists. split.
  - eapply (lead_detail_loses_company (shopify_save "rb2b_1700000100_john.smi" 200 [])
              "shopify.com"
              (company_row (company_of_org (shopify_org 100) "shopify.com") 1)
              "rb2b_1700000000_john.smi" _ first_saved).
    + vm_compute. repeat constructor. intros [].
    + vm_compute. left. reflexivity.
    + reflexivity.
    + reflexivity.
    + reflexivity.
    + vm_compute. reflexivity.
    + vm_compute. reflexivity.
    + reflexivity.
  - repeat split.
Defined.

Lemma test_rb2b_stores_a_lead_witness :
  exists row,
    Table.rows (DB.leads (Run.db (test_rb2b offline_world no_keys 1700000000 DB.empty)))
    = [row]
    /\ LeadRow.person_email row = "john.smith@shopify.com"
    /\ LeadRow.icp_score row = CInt 60.
Proof.
  destruct (test_rb2b_stores_a_lead offline_world no_keys 1700000000 DB.empty)
    as (Hcommitted & _ & _ & Hdefault & _).
  destruct Hdefault as (row & Hrow & Hscore & _); try (vm_compute; reflexivity).
  destruct (Hcommitted row Hrow) as (res & _ & _ & Hrows & _ & _ & _ & Hemail & _).
  exists row. split; [exact Hrows|]. split; [exact Hemail|exact Hscore].
Defined.

Lemma stored_lead_columns_witness :
  exists row,
    committed_lead (Run.trace (process_visitor offline_world no_keys 1700000000
                                 (sample_visitor "203.0.113.7") "" DB.empty)) = Some row
    /\ LeadRow.lead_id row = "lead_1700000000_sess_4f2"
    /\ LeadRow.ip_address row = "203.0.113.7".
Proof.
  eexists. split; [vm_compute; reflexivity|].
  edestruct (proj1 (stored_lead_columns offline_world no_keys 1700000000 DB.empty)
               (sample_visitor "203.0.113.7") "") as (Hid & _ & _ & _ & Hip & _);
    [vm_compute; reflexivity|].
  split; [exact Hid|exact Hip].
Defined.
